(** * Verification of the syllabus chunking pipeline (Local-RAG-Pipelines)

    A shallow embedding of the notebook's section extraction and chunking
    engine ([clean_chunk_text], [extract_section_from_pdf],
    [extract_metadata_from_header], [process_pdf_content]) and of the two
    ingestion drivers, together with the model of the parts of the Python
    runtime they rely on: [str] as a sequence of code points, and the [re]
    module as a pattern parser plus a backtracking matcher. The parser
    covers the syntax of the patterns of the notebook; on a pattern it
    does not cover (a file name or a marker spliced into a pattern can
    bring any syntax) [re] is an [engine] of which nothing is assumed,
    and every theorem holds for every engine.

    Layout: definitions first (Python strings, regular expressions, the
    functions of the notebook, the drivers), then the lemmas and theorems. *)

From Stdlib Require Import String Ascii.
From Stdlib Require Import List NArith Arith Lia Bool.
Import ListNotations.


(** ** Python strings *)

(** A Python [str] is a sequence of Unicode code points. *)
Definition char := N.
Definition str := list char.

Module PyStr.

(** Reading a literal of this file (UTF-8 bytes) as a sequence of code
    points. *)
Fixpoint utf8_decode (bs : list N) : str :=
  match bs with
  | [] => []
  | b :: tl =>
      if (b <? 128)%N then b :: utf8_decode tl
      else if (b <? 224)%N then
        match tl with
        | b1 :: tl1 => ((b - 192) * 64 + (b1 - 128))%N :: utf8_decode tl1
        | _ => [b]
        end
      else if (b <? 240)%N then
        match tl with
        | b1 :: b2 :: tl2 =>
            ((b - 224) * 4096 + (b1 - 128) * 64 + (b2 - 128))%N :: utf8_decode tl2
        | _ => [b]
        end
      else
        match tl with
        | b1 :: b2 :: b3 :: tl3 =>
            ((b - 240) * 262144 + (b1 - 128) * 4096 + (b2 - 128) * 64 + (b3 - 128))%N
              :: utf8_decode tl3
        | _ => [b]
        end
  end.

Definition u (s : string) : str :=
  utf8_decode (map N_of_ascii (list_ascii_of_string s)).

Definition in_ranges (tbl : list (N * N)) (c : char) : bool :=
  existsb (fun r => (fst r <=? c)%N && (c <=? snd r)%N) tbl.

(** [str.isspace] on one code point, which is also the class [\s] of [re]
    on [str] patterns. *)
Definition space_table : list (N * N) :=
  [
    (9, 13); (28, 32); (133, 133); (160, 160); (5760, 5760);
    (8192, 8202); (8232, 8233); (8239, 8239); (8287, 8287); (12288, 12288)
  ]%N.

Definition isspace (c : char) : bool := in_ranges space_table c.

(** The decimal digits (general category Nd), the class [\d] of [re] on
    [str] patterns. *)
Definition digit_table : list (N * N) :=
  [
    (48, 57); (1632, 1641); (1776, 1785); (1984, 1993); (2406, 2415);
    (2534, 2543); (2662, 2671); (2790, 2799); (2918, 2927); (3046, 3055);
    (3174, 3183); (3302, 3311); (3430, 3439); (3558, 3567); (3664, 3673);
    (3792, 3801); (3872, 3881); (4160, 4169); (4240, 4249); (6112, 6121);
    (6160, 6169); (6470, 6479); (6608, 6617); (6784, 6793); (6800, 6809);
    (6992, 7001); (7088, 7097); (7232, 7241); (7248, 7257); (42528, 42537);
    (43216, 43225); (43264, 43273); (43472, 43481); (43504, 43513); (43600, 43609);
    (44016, 44025); (65296, 65305); (66720, 66729); (68912, 68921); (69734, 69743);
    (69872, 69881); (69942, 69951); (70096, 70105); (70384, 70393); (70736, 70745);
    (70864, 70873); (71248, 71257); (71360, 71369); (71472, 71481); (71904, 71913);
    (72016, 72025); (72784, 72793); (73040, 73049); (73120, 73129); (73552, 73561);
    (92768, 92777); (92864, 92873); (93008, 93017); (120782, 120831); (123200, 123209);
    (123632, 123641); (124144, 124153); (125264, 125273); (130032, 130041)
  ]%N.

Definition isdigit (c : char) : bool := in_ranges digit_table c.

(** Simple lowercase mapping, as runs [(first, last, step, image of first)]:
    every [step]-th code point of the run maps to the image shifted by its
    offset in the run. *)
Definition lower_table : list (N * N * N * N) :=
  [
    (65, 90, 1, 97); (192, 214, 1, 224); (216, 222, 1, 248);
    (256, 302, 2, 257); (304, 304, 1, 105); (306, 310, 2, 307); (313, 327, 2, 314);
    (330, 374, 2, 331); (376, 376, 1, 255); (377, 381, 2, 378);
    (385, 385, 1, 595); (386, 388, 2, 387); (390, 390, 1, 596);
    (391, 391, 1, 392); (393, 394, 1, 598); (395, 395, 1, 396);
    (398, 398, 1, 477); (399, 399, 1, 601); (400, 400, 1, 603);
    (401, 401, 1, 402); (403, 403, 1, 608); (404, 404, 1, 611);
    (406, 406, 1, 617); (407, 407, 1, 616); (408, 408, 1, 409);
    (412, 412, 1, 623); (413, 413, 1, 626); (415, 415, 1, 629);
    (416, 420, 2, 417); (422, 422, 1, 640); (423, 423, 1, 424);
    (425, 425, 1, 643); (428, 428, 1, 429); (430, 430, 1, 648);
    (431, 431, 1, 432); (433, 434, 1, 650); (435, 437, 2, 436);
    (439, 439, 1, 658); (440, 440, 1, 441); (444, 444, 1, 445);
    (452, 452, 1, 454); (453, 453, 1, 454); (455, 455, 1, 457);
    (456, 456, 1, 457); (458, 458, 1, 460); (459, 475, 2, 460);
    (478, 494, 2, 479); (497, 497, 1, 499); (498, 500, 2, 499);
    (502, 502, 1, 405); (503, 503, 1, 447); (504, 542, 2, 505);
    (544, 544, 1, 414); (546, 562, 2, 547); (570, 570, 1, 11365);
    (571, 571, 1, 572); (573, 573, 1, 410); (574, 574, 1, 11366);
    (577, 577, 1, 578); (579, 579, 1, 384); (580, 580, 1, 649);
    (581, 581, 1, 652); (582, 590, 2, 583); (880, 882, 2, 881);
    (886, 886, 1, 887); (895, 895, 1, 1011); (902, 902, 1, 940);
    (904, 906, 1, 941); (908, 908, 1, 972); (910, 911, 1, 973);
    (913, 929, 1, 945); (931, 939, 1, 963); (975, 975, 1, 983);
    (984, 1006, 2, 985); (1012, 1012, 1, 952); (1015, 1015, 1, 1016);
    (1017, 1017, 1, 1010); (1018, 1018, 1, 1019); (1021, 1023, 1, 891);
    (1024, 1039, 1, 1104); (1040, 1071, 1, 1072); (1120, 1152, 2, 1121);
    (1162, 1214, 2, 1163); (1216, 1216, 1, 1231); (1217, 1229, 2, 1218);
    (1232, 1326, 2, 1233); (1329, 1366, 1, 1377); (4256, 4293, 1, 11520);
    (4295, 4295, 1, 11559); (4301, 4301, 1, 11565); (5024, 5103, 1, 43888);
    (5104, 5109, 1, 5112); (7312, 7354, 1, 4304); (7357, 7359, 1, 4349);
    (7680, 7828, 2, 7681); (7838, 7838, 1, 223); (7840, 7934, 2, 7841);
    (7944, 7951, 1, 7936); (7960, 7965, 1, 7952); (7976, 7983, 1, 7968);
    (7992, 7999, 1, 7984); (8008, 8013, 1, 8000); (8025, 8031, 2, 8017);
    (8040, 8047, 1, 8032); (8072, 8079, 1, 8064); (8088, 8095, 1, 8080);
    (8104, 8111, 1, 8096); (8120, 8121, 1, 8112); (8122, 8123, 1, 8048);
    (8124, 8124, 1, 8115); (8136, 8139, 1, 8050); (8140, 8140, 1, 8131);
    (8152, 8153, 1, 8144); (8154, 8155, 1, 8054); (8168, 8169, 1, 8160);
    (8170, 8171, 1, 8058); (8172, 8172, 1, 8165); (8184, 8185, 1, 8056);
    (8186, 8187, 1, 8060); (8188, 8188, 1, 8179); (8486, 8486, 1, 969);
    (8490, 8490, 1, 107); (8491, 8491, 1, 229); (8498, 8498, 1, 8526);
    (8544, 8559, 1, 8560); (8579, 8579, 1, 8580); (9398, 9423, 1, 9424);
    (11264, 11311, 1, 11312); (11360, 11360, 1, 11361); (11362, 11362, 1, 619);
    (11363, 11363, 1, 7549); (11364, 11364, 1, 637); (11367, 11371, 2, 11368);
    (11373, 11373, 1, 593); (11374, 11374, 1, 625); (11375, 11375, 1, 592);
    (11376, 11376, 1, 594); (11378, 11378, 1, 11379); (11381, 11381, 1, 11382);
    (11390, 11391, 1, 575); (11392, 11490, 2, 11393); (11499, 11501, 2, 11500);
    (11506, 11506, 1, 11507); (42560, 42604, 2, 42561); (42624, 42650, 2, 42625);
    (42786, 42798, 2, 42787); (42802, 42862, 2, 42803); (42873, 42875, 2, 42874);
    (42877, 42877, 1, 7545); (42878, 42886, 2, 42879); (42891, 42891, 1, 42892);
    (42893, 42893, 1, 613); (42896, 42898, 2, 42897); (42902, 42920, 2, 42903);
    (42922, 42922, 1, 614); (42923, 42923, 1, 604); (42924, 42924, 1, 609);
    (42925, 42925, 1, 620); (42926, 42926, 1, 618); (42928, 42928, 1, 670);
    (42929, 42929, 1, 647); (42930, 42930, 1, 669); (42931, 42931, 1, 43859);
    (42932, 42946, 2, 42933); (42948, 42948, 1, 42900); (42949, 42949, 1, 642);
    (42950, 42950, 1, 7566); (42951, 42953, 2, 42952); (42960, 42960, 1, 42961);
    (42966, 42968, 2, 42967); (42997, 42997, 1, 42998); (65313, 65338, 1, 65345);
    (66560, 66599, 1, 66600); (66736, 66771, 1, 66776); (66928, 66938, 1, 66967);
    (66940, 66954, 1, 66979); (66956, 66962, 1, 66995); (66964, 66965, 1, 67003);
    (68736, 68786, 1, 68800); (71840, 71871, 1, 71872); (93760, 93791, 1, 93792);
    (125184, 125217, 1, 125218)
  ]%N.

Fixpoint lookup_lower (tbl : list (N * N * N * N)) (c : char) : char :=
  match tbl with
  | [] => c
  | (lo, hi, step, img) :: tl =>
      if (lo <=? c)%N && (c <=? hi)%N && ((c - lo) mod step =? 0)%N
      then (img + (c - lo))%N
      else lookup_lower tl c
  end.

(** The lowercase of one code point as [re] computes it under IGNORECASE:
    U+0130 becomes [i]. *)
Definition tolower (c : char) : char := lookup_lower lower_table c.

(** [str.lower] on one code point. U+0130 is the only code point whose
    lowercase is longer than one code point. A capital sigma is lowered to
    U+03C3 here; Python writes U+03C2 instead at the end of a word. *)
Definition lower_char (c : char) : str :=
  if (c =? 304)%N then [105; 775]%N else [tolower c].

Definition lower (s : str) : str := flat_map lower_char s.

Definition eqb (a b : str) : bool :=
  if list_eq_dec N.eq_dec a b then true else false.

(** [s.strip()] *)
Fixpoint lstrip (s : str) : str :=
  match s with
  | c :: tl => if isspace c then lstrip tl else s
  | [] => []
  end.

Definition rstrip (s : str) : str := rev (lstrip (rev s)).

Definition strip (s : str) : str := rstrip (lstrip s).

(** [s.split(sep)] for a separator of one code point: the pieces between
    the separators, one piece more than there are separators. *)
Fixpoint split_on (sep : char) (s : str) : list str :=
  match s with
  | [] => [[]]
  | c :: tl =>
      if (c =? sep)%N then [] :: split_on sep tl
      else
        match split_on sep tl with
        | piece :: pieces => (c :: piece) :: pieces
        | [] => [[c]]
        end
  end.

(** [sep.join(pieces)] *)
Fixpoint join (sep : str) (pieces : list str) : str :=
  match pieces with
  | [] => []
  | [p] => p
  | p :: ps => p ++ sep ++ join sep ps
  end.

(** [s.split()]: the maximal runs of non-space code points. *)
Fixpoint words_aux (cur : str) (s : str) : list str :=
  match s with
  | [] => match cur with [] => [] | _ => [rev cur] end
  | c :: tl =>
      if isspace c
      then match cur with [] => words_aux [] tl | _ => rev cur :: words_aux [] tl end
      else words_aux (c :: cur) tl
  end.

Definition split_ws (s : str) : list str := words_aux [] s.

(** [s.startswith(p)] *)
Fixpoint startswith (p s : str) : bool :=
  match p, s with
  | [], _ => true
  | a :: p', b :: s' => (a =? b)%N && startswith p' s'
  | _ :: _, [] => false
  end.

(** [p in s] *)
Fixpoint contains (p s : str) : bool :=
  startswith p s ||
  match s with
  | [] => false
  | _ :: tl => contains p tl
  end.

(** [s.endswith(p)] *)
Definition endswith (p s : str) : bool := startswith (rev p) (rev s).

(** [s.rfind(c)] for one code point: the index of its last occurrence. *)
Fixpoint rfind_char (c : char) (s : str) : option nat :=
  match s with
  | [] => None
  | x :: tl =>
      match rfind_char c tl with
      | Some i => Some (S i)
      | None => if (x =? c)%N then Some 0 else None
      end
  end.

(** [str(n)] for a natural number. *)
Fixpoint digits_aux (fuel : nat) (n : nat) (acc : str) : str :=
  match fuel with
  | 0 => acc
  | S fuel' =>
      let acc' := (48 + N.of_nat (n mod 10))%N :: acc in
      if n <? 10 then acc' else digits_aux fuel' (n / 10) acc'
  end.

Definition str_of_nat (n : nat) : str := digits_aux (S n) n [].

End PyStr.

Arguments PyStr.u s%_string.
Abbreviation u := PyStr.u.

(** ** Exceptions *)

(** The exceptions the modelled code can raise, all subclasses of
    [Exception]: [re.error] from compiling a pattern, [AttributeError] from
    calling a method on [None], [IndexError], [KeyError], and an error
    raised by an external collaborator (the embedding model, the vector
    store). *)
Inductive exn : Type :=
| ReError
| AttributeError
| IndexError
| KeyError
| ExternalError (msg : str).

Inductive result (A : Type) : Type :=
| Ok (a : A)
| Raise (e : exn).

Arguments Ok {A} a.
Arguments Raise {A} e.

Definition bind {A B : Type} (x : result A) (f : A -> result B) : result B :=
  match x with
  | Ok a => f a
  | Raise e => Raise e
  end.

Notation "x <- c1 ;; c2" := (bind c1 (fun x => c2))
  (at level 61, c1 at next level, right associativity).

(** ** Regular expressions: the fragment of Python's [re] the code uses *)

Module Re.

Record flags : Type := { dotall : bool; ignorecase : bool }.

Definition NOFLAGS : flags := {| dotall := false; ignorecase := false |}.
Definition DOTALL : flags := {| dotall := true; ignorecase := false |}.
Definition IGNORECASE : flags := {| dotall := false; ignorecase := true |}.

(** The members of a character set. *)
Inductive item : Type :=
| ILit (c : char)
| IRange (lo hi : char)
| IDigit
| INotDigit
| ISpace
| INotSpace.

(** Parsed patterns. Flags are resolved by the parser, as [re]'s compiler
    does: [.] becomes [Any] under DOTALL and [AnyButNewline] otherwise, a
    cased literal becomes [LitI] under IGNORECASE. *)
Inductive regex : Type :=
| Eps
| Lit (c : char)
| LitI (lo : char)
| Any
| AnyButNewline
| InSet (negate : bool) (items : list item)
| Seq (r1 r2 : regex)
| Alt (r1 r2 : regex)
| Rep (greedy : bool) (min : nat) (max : option nat) (r : regex)
| Group (n : nat) (r : regex)
| Look (positive : bool) (r : regex)
| Bol
| Eol.

(** *** Parsing a pattern *)

Definition is_ascii_letter (c : char) : bool :=
  ((65 <=? c) && (c <=? 90) || (97 <=? c) && (c <=? 122))%N.

Definition is_ascii_digit (c : char) : bool := ((48 <=? c) && (c <=? 57))%N.

(** A literal of the pattern. Under IGNORECASE the parser covers ASCII
    literals only. *)
Definition mk_lit (fl : flags) (c : char) : option regex :=
  if ignorecase fl then
    if is_ascii_letter c then Some (LitI (PyStr.tolower c))
    else if (c <? 128)%N then Some (Lit c)
    else None
  else Some (Lit c).

(** The character after a backslash, outside a set: the categories
    [\d \D \s \S], the escapes [\a \f \n \r \t \v], and an escaped
    character that is neither an ASCII letter nor a digit, which stands for
    itself. The other escapes ([\w], [\b], [\A], [\Z], a group reference,
    ...) are outside the fragment: [None]. *)
Definition escape (fl : flags) (c : char) : option regex :=
  if (c =? 100)%N then Some (InSet false [IDigit])
  else if (c =? 68)%N then Some (InSet false [INotDigit])
  else if (c =? 115)%N then Some (InSet false [ISpace])
  else if (c =? 83)%N then Some (InSet false [INotSpace])
  else if (c =? 97)%N then Some (Lit 7%N)
  else if (c =? 102)%N then Some (Lit 12%N)
  else if (c =? 110)%N then Some (Lit 10%N)
  else if (c =? 114)%N then Some (Lit 13%N)
  else if (c =? 116)%N then Some (Lit 9%N)
  else if (c =? 118)%N then Some (Lit 11%N)
  else if is_ascii_letter c || is_ascii_digit c then None
  else mk_lit fl c.

(** The same inside a set, where [\b] is a backspace. *)
Definition class_escape (c : char) : option item :=
  if (c =? 100)%N then Some IDigit
  else if (c =? 68)%N then Some INotDigit
  else if (c =? 115)%N then Some ISpace
  else if (c =? 83)%N then Some INotSpace
  else if (c =? 97)%N then Some (ILit 7%N)
  else if (c =? 98)%N then Some (ILit 8%N)
  else if (c =? 102)%N then Some (ILit 12%N)
  else if (c =? 110)%N then Some (ILit 10%N)
  else if (c =? 114)%N then Some (ILit 13%N)
  else if (c =? 116)%N then Some (ILit 9%N)
  else if (c =? 118)%N then Some (ILit 11%N)
  else if is_ascii_letter c || is_ascii_digit c then None
  else Some (ILit c).

(** One member of a set and the input after it. *)
Definition class_member (inp : str) : option (item * str) :=
  match inp with
  | [] => None
  | c :: tl =>
      if (c =? 92)%N then
        match tl with
        | e :: tl' =>
            match class_escape e with
            | Some it => Some (it, tl')
            | None => None
            end
        | [] => None
        end
      else Some (ILit c, tl)
  end.

Definition head_is (c : char) (inp : str) : bool :=
  match inp with
  | x :: _ => (x =? c)%N
  | [] => false
  end.

Arguments head_is c%_N inp.

(** The members of a set up to its closing bracket, which is a member
    itself when it comes first. A hyphen between two literals makes a
    range; before the closing bracket it is a literal. *)
Fixpoint parse_class (fuel : nat) (inp : str) (acc : list item)
  : option (list item * str) :=
  match fuel with
  | 0 => None
  | S fuel' =>
      if head_is 93 inp && negb (Nat.eqb (length acc) 0)
      then Some (rev acc, tl inp)
      else
        match class_member inp with
        | None => None
        | Some (code1, rest) =>
            if head_is 45 rest then
              if head_is 93 (tl rest)
              then Some (rev (ILit 45%N :: code1 :: acc), tl (tl rest))
              else
                match class_member (tl rest), code1 with
                | Some (ILit hi, rest2), ILit lo =>
                    if (hi <? lo)%N then None
                    else parse_class fuel' rest2 (IRange lo hi :: acc)
                | _, _ => None
                end
            else parse_class fuel' rest (code1 :: acc)
        end
  end.

Definition is_anchor (a : regex) : bool :=
  match a with
  | Bol | Eol => true
  | _ => false
  end.

(** A quantifier after an atom: [*], [+] or [?], lazy when a [?] follows.
    Nothing can repeat [^] or [$]: [re.error]. A brace after an atom and
    the possessive forms are outside the fragment. [None] stands for
    both. *)
Definition quantify (a : regex) (inp : str) : option (regex * str) :=
  let bounds : option (nat * option nat) :=
    if head_is 42 inp then Some (0, None)
    else if head_is 43 inp then Some (1, None)
    else if head_is 63 inp then Some (0, Some 1)
    else None in
  match bounds with
  | Some (min, max) =>
      if is_anchor a then None
      else if head_is 63 (tl inp) then Some (Rep false min max a, tl (tl inp))
      else if head_is 43 (tl inp) then None
      else Some (Rep true min max a, tl inp)
  | None => if head_is 123 inp then None else Some (a, inp)
  end.

(** What follows the body of a group must be its closing parenthesis. *)
Definition closing (wrap : regex -> regex) (res : option (regex * str * nat))
  : option (regex * str * nat) :=
  match res with
  | Some (r, rest, g1) =>
      if head_is 41 rest then Some (wrap r, tl rest, g1) else None
  | None => None
  end.

(** The parser proper: alternatives separated by [|], each a sequence of
    quantified atoms; [g] is the number of the next capturing group. *)
Fixpoint parse_alt (fuel : nat) (fl : flags) (inp : str) (g : nat)
  : option (regex * str * nat) :=
  match fuel with
  | 0 => None
  | S fuel' =>
      match parse_seq fuel' fl inp g with
      | Some (r1, rest, g1) =>
          if head_is 124 rest then
            match parse_alt fuel' fl (tl rest) g1 with
            | Some (r2, rest2, g2) => Some (Alt r1 r2, rest2, g2)
            | None => None
            end
          else Some (r1, rest, g1)
      | None => None
      end
  end
with parse_seq (fuel : nat) (fl : flags) (inp : str) (g : nat)
  : option (regex * str * nat) :=
  match fuel with
  | 0 => None
  | S fuel' =>
      match inp with
      | [] => Some (Eps, [], g)
      | c :: rest0 =>
          if (c =? 124)%N || (c =? 41)%N then Some (Eps, inp, g)
          else
            match parse_atom fuel' fl c rest0 g with
            | None => None
            | Some (a, rest, g1) =>
                match quantify a rest with
                | None => None
                | Some (it, rest1) =>
                    match parse_seq fuel' fl rest1 g1 with
                    | Some (r, rest2, g2) => Some (Seq it r, rest2, g2)
                    | None => None
                    end
                end
            end
      end
  end
with parse_atom (fuel : nat) (fl : flags) (c : char) (rest0 : str) (g : nat)
  : option (regex * str * nat) :=
  match fuel with
  | 0 => None
  | S fuel' =>
      if (c =? 40)%N then
        if head_is 63 rest0 then
          let inner := tl (tl rest0) in
          if head_is 58 (tl rest0) then closing (fun r => r) (parse_alt fuel' fl inner g)
          else if head_is 61 (tl rest0) then closing (Look true) (parse_alt fuel' fl inner g)
          else if head_is 33 (tl rest0) then closing (Look false) (parse_alt fuel' fl inner g)
          else None
        else closing (Group g) (parse_alt fuel' fl rest0 (S g))
      else if (c =? 92)%N then
        match rest0 with
        | e :: rest =>
            match escape fl e with
            | Some r => Some (r, rest, g)
            | None => None
            end
        | [] => None
        end
      else if (c =? 91)%N then
        if ignorecase fl then None
        else
          let negate := head_is 94 rest0 in
          let inp := if negate then tl rest0 else rest0 in
          match parse_class (S (length inp)) inp [] with
          | Some (items, rest) => Some (InSet negate items, rest, g)
          | None => None
          end
      else if (c =? 46)%N then Some (if dotall fl then Any else AnyButNewline, rest0, g)
      else if (c =? 94)%N then Some (Bol, rest0, g)
      else if (c =? 36)%N then Some (Eol, rest0, g)
      else if (c =? 42)%N || (c =? 43)%N || (c =? 63)%N || (c =? 123)%N then None
      else
        match mk_lit fl c with
        | Some r => Some (r, rest0, g)
        | None => None
        end
  end.

(** The parser on a whole pattern, which must be consumed. [Some r]: the
    pattern is of the fragment, [re] accepts it and matches it as [run r]
    below. [None]: [re] rejects the pattern ([re.error]), or the pattern
    is outside the fragment and the parser says nothing of it. *)
Definition compile (fl : flags) (pat : str) : option regex :=
  match parse_alt (3 * length pat + 3) fl pat 1 with
  | Some (r, [], _) => Some r
  | _ => None
  end.

(** *** Matching *)

(** A state of the matcher: the position in the subject, the text from
    there on, and the spans of the groups closed so far (latest first). *)
Record mstate : Type := MState {
  pos : nat;
  rest : str;
  caps : list (nat * (nat * nat))
}.

Definition item_test (c : char) (it : item) : bool :=
  match it with
  | ILit x => (c =? x)%N
  | IRange lo hi => ((lo <=? c) && (c <=? hi))%N
  | IDigit => PyStr.isdigit c
  | INotDigit => negb (PyStr.isdigit c)
  | ISpace => PyStr.isspace c
  | INotSpace => negb (PyStr.isspace c)
  end.

(** The lowercase code points that share an uppercase with an ASCII
    letter: the ASCII entries of [re]'s case-fix table. *)
Definition casefix (lo : char) : list char :=
  if (lo =? 105)%N then [305%N]
  else if (lo =? 115)%N then [383%N]
  else [].

(** Whether one code point of the subject is matched by a one-character
    pattern. *)
Definition char_test (r : regex) (c : char) : bool :=
  match r with
  | Lit x => (c =? x)%N
  | LitI lo => existsb (N.eqb (PyStr.tolower c)) (lo :: casefix lo)
  | Any => true
  | AnyButNewline => negb (c =? 10)%N
  | InSet negate items => xorb negate (existsb (item_test c) items)
  | _ => false
  end.

Definition step_char (r : regex) (st : mstate) : list mstate :=
  match rest st with
  | c :: tl => if char_test r c then [MState (S (pos st)) tl (caps st)] else []
  | [] => []
  end.

Definition opt_nat_eqb (a : option nat) (b : nat) : bool :=
  match a with
  | Some x => Nat.eqb x b
  | None => false
  end.

Definition below (max : option nat) (count : nat) : bool :=
  match max with
  | Some k => count <? k
  | None => true
  end.

(** A repeat, as the matcher runs it: [count] iterations are done, [last]
    is where the latest optional iteration started. Below [min] the body
    must match again. From [min] on, another iteration is tried (before
    the tail when greedy, after it when lazy) unless [max] is reached or
    the position has not moved since the latest iteration started. The
    results are all the ways to leave the repeat, in the order the
    backtracking matcher tries them. *)
Fixpoint rep_loop (body : mstate -> list mstate) (greedy : bool) (min : nat)
    (max : option nat) (fuel : nat) (count : nat) (last : option nat)
    (st : mstate) : list mstate :=
  match fuel with
  | 0 => []
  | S fuel' =>
      let again (last' : option nat) :=
        flat_map (rep_loop body greedy min max fuel' (S count) last') (body st) in
      if count <? min then again last
      else if below max count && negb (opt_nat_eqb last (pos st)) then
        if greedy then again (Some (pos st)) ++ [st]
        else st :: again (Some (pos st))
      else [st]
  end.

(** All the ways pattern [r] matches from state [st], in the order the
    backtracking matcher tries them: the head is the match [re] reports. *)
Fixpoint run (r : regex) (st : mstate) : list mstate :=
  match r with
  | Eps => [st]
  | Lit _ | LitI _ | Any | AnyButNewline | InSet _ _ => step_char r st
  | Seq r1 r2 => flat_map (run r2) (run r1 st)
  | Alt r1 r2 => run r1 st ++ run r2 st
  | Rep greedy min max r1 =>
      rep_loop (run r1) greedy min max (min + length (rest st) + 2) 0 None st
  | Group n r1 =>
      map (fun st' => MState (pos st') (rest st') ((n, (pos st, pos st')) :: caps st'))
          (run r1 st)
  | Look true r1 =>
      match run r1 st with
      | st' :: _ => [MState (pos st) (rest st) (caps st')]
      | [] => []
      end
  | Look false r1 =>
      match run r1 st with
      | _ :: _ => []
      | [] => [st]
      end
  | Bol => if Nat.eqb (pos st) 0 then [st] else []
  | Eol =>
      match rest st with
      | [] => [st]
      | [c] => if (c =? 10)%N then [st] else []
      | _ => []
      end
  end.

(** A match object: the subject, the span of the match and of its
    groups. *)
Record match_obj : Type := Match {
  m_text : str;
  m_start : nat;
  m_end : nat;
  m_caps : list (nat * (nat * nat))
}.

Definition slice (text : str) (b e : nat) : str := firstn (e - b) (skipn b text).

(** [m.group(0)] *)
Definition group0 (m : match_obj) : str := slice (m_text m) (m_start m) (m_end m).

Fixpoint lookup_cap (n : nat) (cs : list (nat * (nat * nat))) : option (nat * nat) :=
  match cs with
  | [] => None
  | (k, span) :: tl => if Nat.eqb k n then Some span else lookup_cap n tl
  end.

(** [m.group(n)] for a group of the pattern: [None] when the group took no
    part in the match. *)
Definition group (n : nat) (m : match_obj) : option str :=
  match lookup_cap n (m_caps m) with
  | Some (b, e) => Some (slice (m_text m) b e)
  | None => None
  end.

(** The scan of [re.search]: the first position from [p] on where the
    pattern matches. When [must_advance] is set (after an empty match of
    the same scan) an empty match at [p] itself is not accepted. *)
Fixpoint search_from (r : regex) (text : str) (must_advance : bool) (p : nat)
    (suffix : str) : option match_obj :=
  let found := run r (MState p suffix []) in
  let accepted :=
    if must_advance then filter (fun st => negb (Nat.eqb (pos st) p)) found
    else found in
  match accepted with
  | st :: _ => Some (Match text p (pos st) (caps st))
  | [] =>
      match suffix with
      | [] => None
      | _ :: tl => search_from r text false (S p) tl
      end
  end.

(** Python's [re] on the patterns the parser does not cover (braces,
    possessive repeats, [\w], [\b], named groups, look-behind, inline
    flags, ...): what [re.search], [re.sub] and [re.findall] answer for
    the flags, the pattern and the subject. Nothing is assumed of these
    answers, and the theorems hold for every [engine]. *)
Class engine : Type := {
  engine_search : flags -> str -> str -> result (option match_obj);
  engine_sub : flags -> str -> str -> str -> result str;
  engine_findall : flags -> str -> str -> result (list str)
}.

(** [pat.count(c)] *)
Definition count_of (c : char) (pat : str) : nat :=
  length (filter (N.eqb c) pat).

(** Every [(?] of the pattern opens [(?:], [(?=] or [(?!]. *)
Fixpoint extensions_known (pat : str) : bool :=
  match pat with
  | [] => true
  | c :: tl =>
      (if (c =? 40)%N && head_is 63 tl
       then head_is 58 (List.tl tl) || head_is 61 (List.tl tl) || head_is 33 (List.tl tl)
       else true)
      && extensions_known tl
  end.

(** Patterns that [re] is known to reject with [re.error]. The pattern
    has no backslash, no bracket and no brace, so that every parenthesis
    in it belongs to the syntax; each of its [(?] opens one of the three
    forms above (another one could open a comment or set a flag); and it
    has not as many [(] as [)]. [re] then meets a parenthesis that is
    never closed, or one that closes nothing, if it has met no other
    error before. *)
Definition malformed (pat : str) : bool :=
  negb (existsb (fun c => (c =? 92)%N || (c =? 91)%N || (c =? 123)%N) pat)
  && extensions_known pat
  && negb (Nat.eqb (count_of 40%N pat) (count_of 41%N pat)).

(** What [re] does with a pattern the parser has not parsed: [re.error]
    when the pattern is known to be malformed, the answer of the engine
    otherwise. *)
Definition unparsed {A : Type} (pat : str) (answer : result A) : result A :=
  if malformed pat then Raise ReError else answer.

(** [re.search(pattern, text, flags)] *)
Definition search {py : engine} (fl : flags) (pat : str) (text : str)
  : result (option match_obj) :=
  match compile fl pat with
  | Some r => Ok (search_from r text false 0 text)
  | None => unparsed pat (engine_search fl pat text)
  end.

(** The successive non-overlapping matches of a scan, leftmost first, as
    [re.sub] and [re.findall] visit them. *)
Fixpoint matches_from (fuel : nat) (r : regex) (text : str) (must_advance : bool)
    (p : nat) (suffix : str) : list match_obj :=
  match fuel with
  | 0 => []
  | S fuel' =>
      match search_from r text must_advance p suffix with
      | None => []
      | Some m =>
          m :: matches_from fuel' r text (Nat.eqb (m_start m) (m_end m)) (m_end m)
                 (skipn (m_end m - p) suffix)
      end
  end.

Definition matches (r : regex) (text : str) : list match_obj :=
  matches_from (2 * length text + 2) r text false 0 text.

(** The subject with every match replaced by [repl], which is taken
    literally (the code passes replacements without a backslash). *)
Fixpoint replace_all (text : str) (repl : str) (p : nat) (ms : list match_obj) : str :=
  match ms with
  | [] => skipn p text
  | m :: tl => slice text p (m_start m) ++ repl ++ replace_all text repl (m_end m) tl
  end.

(** [re.sub(pattern, repl, text, flags=flags)] *)
Definition sub {py : engine} (fl : flags) (pat : str) (repl : str) (text : str)
  : result str :=
  match compile fl pat with
  | Some r => Ok (replace_all text repl 0 (matches r text))
  | None => unparsed pat (engine_sub fl pat repl text)
  end.

(** [re.findall(pattern, text, flags)] for a pattern with one group: the
    text of group 1 of every match, empty when the group took no part. *)
Definition findall {py : engine} (fl : flags) (pat : str) (text : str)
  : result (list str) :=
  match compile fl pat with
  | Some r =>
      Ok (map (fun m => match group 1 m with Some s => s | None => [] end)
              (matches r text))
  | None => unparsed pat (engine_findall fl pat text)
  end.

End Re.

(** ** The notebook: extraction and cleaning (cell 4) *)

(** A Python [dict] with [str] keys: the keys in insertion order. *)
Definition pdict (V : Type) : Type := list (str * V).
Definition dict : Type := pdict str.

Fixpoint dict_get {V : Type} (k : str) (d : pdict V) : option V :=
  match d with
  | [] => None
  | (k', v) :: tl => if PyStr.eqb k' k then Some v else dict_get k tl
  end.

(** [d[k] = v] *)
Fixpoint dict_set {V : Type} (k : str) (v : V) (d : pdict V) : pdict V :=
  match d with
  | [] => [(k, v)]
  | (k', v') :: tl =>
      if PyStr.eqb k' k then (k', v) :: tl else (k', v') :: dict_set k v tl
  end.

(** [d[k]] *)
Definition dict_item (k : str) (d : dict) : result str :=
  match dict_get k d with
  | Some v => Ok v
  | None => Raise KeyError
  end.

(** The truth value of [d.get(k)]: false when the key is missing or its
    value is the empty string. *)
Definition dict_truthy (k : str) (d : dict) : bool :=
  match dict_get k d with
  | Some (_ :: _) => true
  | _ => false
  end.

(** [m.group(1)] where the code goes on to call a [str] method on it. *)
Definition group1 (m : Re.match_obj) : result str :=
  match Re.group 1 m with
  | Some s => Ok s
  | None => Raise AttributeError
  end.

Definition NA : str := u "N/A".

Section Notebook.

(** Python's [re] beyond the fragment. *)
Context {py : Re.engine}.

(** The first pattern of [patterns] that matches [text], as the loop over
    [carga_patterns] finds it. *)
Fixpoint first_match (fl : Re.flags) (patterns : list str) (text : str)
  : result (option Re.match_obj) :=
  match patterns with
  | [] => Ok None
  | pattern :: tl =>
      m <- Re.search fl pattern text ;;
      match m with
      | Some _ => Ok m
      | None => first_match fl tl text
      end
  end.

(** The loop over the three name patterns of the identification branch:
    [disciplina] is the value the variable holds when an iteration
    starts. *)
Fixpoint disciplina_loop (patterns : list str) (text : str) (disciplina : str)
  : result str :=
  match patterns with
  | [] => Ok disciplina
  | pattern :: tl =>
      disciplina_match <- Re.search Re.DOTALL pattern text ;;
      match disciplina_match with
      | Some m =>
          g <- group1 m ;;
          let disciplina := PyStr.strip g in
          disciplina <- Re.sub Re.NOFLAGS (u "\s+") (u " ") disciplina ;;
          disciplina <- Re.sub Re.NOFLAGS (u "^\s*Curricular\s*") (u "") disciplina ;;
          let disciplina := PyStr.strip disciplina in
          if negb (PyStr.eqb disciplina []) && negb (PyStr.eqb disciplina NA)
          then Ok disciplina
          else disciplina_loop tl text disciplina
      | None => disciplina_loop tl text disciplina
      end
  end.

Definition boilerplate : list str :=
  [ u "ordem"; u "ementa"; u "conteúdo"; u "conteudo"; u "resumo da alteração"; u "#";
    u "ministério da educação"; u "universidade tecnológica federal do paraná";
    u "campus medianeira"; u "informações da disciplina"; u "por conteúdo";
    u "modalidade"; u "código"; u "disciplina/unidade"; u "da oferta"; u "ofertado";
    u "curricular"; u "modo de avaliação"; u "disciplina"; u "at"; u "ap"; u "aps";
    u "anp"; u "apcc"; u "chead"; u "che"; u "total" ].

(** The condition of the list comprehension over the lines. *)
Definition keep_line (line : str) : bool :=
  negb (PyStr.eqb (PyStr.strip line) []) &&
  negb (existsb (PyStr.eqb (PyStr.lower (PyStr.strip line))) boilerplate).

Definition identificacao : str := u "identificacao".

Definition clean_chunk_text (text : str) (chunk_type : option str) : result str :=
  if match chunk_type with Some ty => PyStr.eqb ty identificacao | None => false end
  then
    codigo_match <- Re.search Re.NOFLAGS (u "(CC|PP|CH|OP|MEIU)\d+[A-Z0-9]") text ;;
    let codigo := match codigo_match with Some m => Re.group0 m | None => NA end in
    disciplina <-
      match codigo_match with
      | Some _ =>
          disciplina_loop
            [ codigo ++ u "\s+(.*?)(?=Nota/Conceito|Frequência|Presencial|Semestral)";
              u "Disciplina/Unidade[^>]*?([^>]*?)(?=Nota/Conceito|Frequência|Presencial|Semestral)";
              u "Curricular\s*([^>]*?)(?=Nota/Conceito|Frequência|Presencial|Semestral)" ]
            text NA
      | None => Ok NA
      end ;;
    carga_total_match <-
      Re.search Re.NOFLAGS
        (u "Total\s+\d+\s+\d+\s+\d+\s+\d+\s+\d+\s+\d+\s+\d+\s+(\d+)") text ;;
    carga_total_match <-
      match carga_total_match with
      | Some _ => Ok carga_total_match
      | None =>
          first_match Re.NOFLAGS
            [ u "Total\s+(\d+)\s+AT:"; u "Total\s*:\s*(\d+)"; u "Total\s+(\d+)\s*h";
              u "Total\s+(\d+)" ]
            text
      end ;;
    carga_horaria <-
      match carga_total_match with
      | Some m => g <- group1 m ;; Ok (g ++ u " Horas")
      | None => Ok NA
      end ;;
    disciplina <-
      (if PyStr.eqb disciplina NA || PyStr.eqb disciplina [] then
         disciplina_match <- Re.search Re.DOTALL (u "Disciplina:\s*([^>]*?)(?=\.|$)") text ;;
         match disciplina_match with
         | Some m => g <- group1 m ;; Ok (PyStr.strip g)
         | None => Ok disciplina
         end
       else Ok disciplina) ;;
    Ok (u "Informações da disciplina " ++ codigo ++ u " " ++ disciplina
          ++ u ". Carga Horária " ++ carga_horaria)
  else
    let lines := PyStr.split_on 10%N text in
    let lines := filter keep_line lines in
    let text := PyStr.join (u "
") lines in
    text <- Re.sub Re.NOFLAGS (u "^\d+\s+") (u "") text ;;
    text <- Re.sub Re.IGNORECASE (u "(Bibliografia Complementar\s*)+$") (u "") text ;;
    text <- Re.sub Re.NOFLAGS (u "\s+") (u " ") text ;;
    Ok (PyStr.strip text).

Definition extract_section_from_pdf (text : str) (section_start : str)
    (section_end : option str) : result str :=
  let pattern :=
    match section_end with
    | Some (c :: e) => section_start ++ u "(.*?)" ++ (c :: e)
    | _ => section_start ++ u "(.*?)(?=(?:Bibliografia|Resumo da Alteração|$))"
    end in
  m <- Re.search Re.DOTALL pattern text ;;
  match m with
  | Some m => g <- group1 m ;; Ok (PyStr.strip g)
  | None => Ok []
  end.

Definition extract_metadata_from_header (text : str) : result dict :=
  let metadata : dict := [] in
  codigo_match <- Re.search Re.NOFLAGS (u "(CC|PP)\d+[A-Z]") text ;;
  let metadata :=
    match codigo_match with
    | Some m =>
        let metadata := dict_set (u "codigo") (Re.group0 m) metadata in
        let disciplina_text := hd [] (PyStr.split_on 10%N (skipn (Re.m_end m) text)) in
        dict_set (u "disciplina") (PyStr.strip disciplina_text) metadata
    | None => metadata
    end in
  let metadata :=
    dict_set (u "modalidade")
      (if PyStr.contains (u "Presencial") text then u "Presencial" else u "Não Presencial")
      metadata in
  let metadata :=
    dict_set (u "oferta")
      (if PyStr.contains (u "Semestral") text then u "Semestral" else u "Anual")
      metadata in
  Ok metadata.

(** ** The notebook: chunking (cell 5) *)

(** One chunk: the dictionary with the keys ['text'], ['tipo'] and
    ['metadata']. *)
Record chunk : Type := Chunk {
  chunk_text : str;
  chunk_tipo : str;
  chunk_metadata : dict
}.

(** [os.path.splitext(p)[0]] (POSIX paths): the path without its
    extension, which starts at the last dot of the last component unless
    only dots precede it there. *)
Definition splitext_root (p : str) : str :=
  match PyStr.rfind_char 46%N p with
  | None => p
  | Some dotIndex =>
      let filenameIndex :=
        match PyStr.rfind_char 47%N p with
        | Some sepIndex => S sepIndex
        | None => 0
        end in
      if (filenameIndex <=? dotIndex)
         && existsb (fun c => negb (c =? 46)%N) (Re.slice p filenameIndex dotIndex)
      then firstn dotIndex p
      else p
  end.

(** The loop over the topics found in the syllabus content. *)
Fixpoint topicos_loop (topicos : list str) (metadata : dict) (chunks : list chunk)
  : result (list chunk) :=
  match topicos with
  | [] => Ok chunks
  | topico :: tl =>
      text <- clean_chunk_text (PyStr.strip topico) None ;;
      first_word <-
        match PyStr.split_ws topico with
        | w :: _ => Ok w
        | [] => Raise IndexError
        end ;;
      topicos_loop tl metadata
        (chunks ++ [Chunk text (u "conteudo_programatico")
                      (dict_set (u "secao") (u "Tópico " ++ first_word) metadata)])
  end.

Definition process_pdf_content (text : str) (filename : str)
  : result (dict * list chunk) :=
  metadata <- extract_metadata_from_header text ;;
  let metadata :=
    if negb (dict_truthy (u "codigo") metadata)
    then dict_set (u "codigo") (splitext_root filename) metadata
    else metadata in
  metadata <-
    (if negb (dict_truthy (u "disciplina") metadata) then
       codigo <- dict_item (u "codigo") metadata ;;
       disciplina_match <-
         Re.search Re.DOTALL (codigo ++ u "(.*?)(?=Frequência|Presencial|Nota|$)") text ;;
       match disciplina_match with
       | Some m =>
           g <- group1 m ;;
           Ok (dict_set (u "disciplina") (PyStr.strip g) metadata)
       | None =>
           disc_match <-
             Re.search Re.DOTALL
               (u "(?:Disciplina|Unidade Curricular)[:\s]+(.*?)(?=Frequência|Presencial|Nota|$)")
               text ;;
           match disc_match with
           | Some m =>
               g <- group1 m ;;
               Ok (dict_set (u "disciplina") (PyStr.strip g) metadata)
           | None =>
               Ok (dict_set (u "disciplina") (u "Disciplina " ++ codigo) metadata)
           end
       end
     else Ok metadata) ;;
  let chunks : list chunk := [] in
  ident <- clean_chunk_text (firstn 500 text) (Some identificacao) ;;
  let chunks := chunks ++ [Chunk ident (u "identificacao") metadata] in
  objetivo <- extract_section_from_pdf text (u "Objetivo") (Some (u "Ementa")) ;;
  chunks <-
    (if negb (PyStr.eqb objetivo []) then
       cleaned <- clean_chunk_text objetivo None ;;
       Ok (chunks ++ [Chunk cleaned (u "objetivo") metadata])
     else Ok chunks) ;;
  ementa <- extract_section_from_pdf text (u "Ementa") (Some (u "Conteúdo Programático")) ;;
  chunks <-
    (if negb (PyStr.eqb ementa []) then
       cleaned <- clean_chunk_text ementa None ;;
       Ok (chunks ++ [Chunk cleaned (u "ementa") metadata])
     else Ok chunks) ;;
  conteudo <-
    extract_section_from_pdf text (u "Conteúdo Programático") (Some (u "Bibliografia")) ;;
  chunks <-
    (if negb (PyStr.eqb conteudo []) then
       topicos <-
         Re.findall Re.DOTALL (u "(\d+\s*.*?(?=\d+\s*|Bibliografia|$))") conteudo ;;
       topicos_loop topicos metadata chunks
     else Ok chunks) ;;
  bibliografia_basica <-
    extract_section_from_pdf text (u "Bibliografia Básica")
      (Some (u "Bibliografia Complementar")) ;;
  chunks <-
    (if negb (PyStr.eqb bibliografia_basica []) then
       cleaned <- clean_chunk_text bibliografia_basica None ;;
       Ok (chunks ++ [Chunk cleaned (u "bibliografia_basica") metadata])
     else Ok chunks) ;;
  bibliografia_complementar <-
    extract_section_from_pdf text (u "Bibliografia Complementar") (Some (u "Resumo")) ;;
  chunks <-
    (if negb (PyStr.eqb bibliografia_complementar []) then
       cleaned <- clean_chunk_text bibliografia_complementar None ;;
       Ok (chunks ++ [Chunk cleaned (u "bibliografia_complementar") metadata])
     else Ok chunks) ;;
  Ok (metadata, chunks).

(** ** The notebook: ingestion (cell 6) *)

(** The storage identifier
    [f"{codigo}_{chunk['tipo']}_{i}_{model_name}"]. *)
Definition chunk_id (codigo tipo : str) (i : nat) (model_name : str) : str :=
  codigo ++ u "_" ++ tipo ++ u "_" ++ PyStr.str_of_nat i ++ u "_" ++ model_name.

(** [os.path.basename] and [os.path.join] on POSIX paths. *)
Definition basename (p : str) : str :=
  match PyStr.rfind_char 47%N p with
  | Some i => skipn (S i) p
  | None => p
  end.

Definition path_join (a b : str) : str :=
  if PyStr.startswith (u "/") b then b
  else if PyStr.eqb a [] || PyStr.endswith (u "/") a then a ++ b
  else a ++ u "/" ++ b.

Section Ingestion.

(** The external collaborators. [vec] is the type of embedding vectors.
    [fitz_text] is the text PyMuPDF reads from the file at a path, or the
    exception it raises. [os_path_exists] and [os_listdir] are the file
    system: [os.listdir] returns the names in a directory, or raises (the
    path is no directory, or may not be read). [add_error] is the vector
    store's verdict on an insertion, given the records its collection
    holds: an exception, or [None] when the store does not raise. *)
Variable vec : Type.
Variable fitz_text : str -> result str.
Variable os_path_exists : str -> bool.
Variable os_listdir : str -> result (list str).

(** A stored record: what one call of [collection.add] inserts. *)
Record record : Type := Record_ {
  r_id : str;
  r_embedding : vec;
  r_document : str;
  r_metadata : dict
}.

Variable add_error : list record -> record -> option exn.

(** A collection of the store, and the lines printed on the console. *)
Record collection : Type := Collection {
  coll_name : str;
  coll_records : list record
}.

Inductive event : Type :=
| PrintExtractError (e : exn)
| PrintSkipped (pdf_path : str)
| PrintProcessing (source : str) (disciplina : str) (codigo : str)
| PrintInserting (collection_name : str)
| PrintAdded (n : nat)
| PrintError (pdf_file : str) (e : exn)
| PrintDirNotFound (pdf_dir : str)
| PrintNoPdf
| PrintFound (n : nat) (pdf_dir : str)
| PrintDone.

(** The mutable objects the drivers act on: the store and the console,
    and, in the directory driver, the dictionary [chunks_por_disciplina].
    Their changes survive an exception: nothing undoes an insertion, a
    printed line or an assignment. *)
Record world : Type := World {
  store : list collection;
  console : list event
}.

Record run_state : Type := RunState {
  rs_world : world;
  chunks_por_disciplina : pdict (list chunk)
}.

(** Computations that read and change a state and may raise. *)
Definition M (S A : Type) : Type := S -> result A * S.

Definition ret {S A : Type} (a : A) : M S A := fun s => (Ok a, s).

Definition mbind {S A B : Type} (c : M S A) (f : A -> M S B) : M S B :=
  fun s =>
    match c s with
    | (Ok a, s') => f a s'
    | (Raise e, s') => (Raise e, s')
    end.

Definition lift {S A : Type} (r : result A) : M S A := fun s => (r, s).

(** [try: body except Exception as e: handler(e)] *)
Definition try_except {S A : Type} (body : M S A) (handler : exn -> M S A) : M S A :=
  fun s =>
    match body s with
    | (Ok a, s') => (Ok a, s')
    | (Raise e, s') => handler e s'
    end.

(** A computation on the world, run where the dictionary is in scope. *)
Definition in_world {A : Type} (c : M world A) : M run_state A :=
  fun s =>
    match c (rs_world s) with
    | (r, w') => (r, RunState w' (chunks_por_disciplina s))
    end.

Definition print (ev : event) : M world unit :=
  fun w => (Ok tt, World (store w) (console w ++ [ev])).

Notation "x <~ c1 ;; c2" := (mbind c1 (fun x => c2))
  (at level 61, c1 at next level, right associativity).
Notation "c1 ;;; c2" := (mbind c1 (fun _ => c2))
  (at level 61, right associativity).

Fixpoint for_each {S A : Type} (xs : list A) (body : A -> M S unit) : M S unit :=
  match xs with
  | [] => ret tt
  | x :: tl => body x ;;; for_each tl body
  end.

(** [enumerate(xs)] *)
Definition enumerate {A : Type} (xs : list A) : list (nat * A) :=
  combine (seq 0 (length xs)) xs.

(** Whether the records hold the identifier. *)
Definition holds_id (id : str) (records : list record) : bool :=
  existsb (fun r => PyStr.eqb (r_id r) id) records.

(** [collection.add(embeddings=[..], documents=[..], metadatas=[..],
    ids=[..])] on the collection of the given name. When the store does
    not raise, a record whose identifier the collection holds already is
    ignored, and any other record is appended. *)
Fixpoint store_add (name : str) (r : record) (cs : list collection)
  : result (list collection) :=
  match cs with
  | [] => Raise (ExternalError name)
  | c :: tl =>
      if PyStr.eqb (coll_name c) name then
        match add_error (coll_records c) r with
        | Some e => Raise e
        | None =>
            if holds_id (r_id r) (coll_records c) then Ok (c :: tl)
            else Ok (Collection (coll_name c) (coll_records c ++ [r]) :: tl)
        end
      else
        match store_add name r tl with
        | Ok tl' => Ok (c :: tl')
        | Raise e => Raise e
        end
  end.

Definition collection_add (name : str) (r : record) : M world unit :=
  fun w =>
    match store_add name r (store w) with
    | Ok s' => (Ok tt, World s' (console w))
    | Raise e => (Raise e, w)
    end.

Definition extract_text_from_pdf (pdf_path : str) : M world (option str) :=
  try_except
    (text <~ lift (fitz_text pdf_path) ;; ret (Some text))
    (fun e => print (PrintExtractError e) ;;; ret None).

(** The truth value of [text] in [if not text]. *)
Definition text_truthy (text : option str) : bool :=
  match text with
  | Some (_ :: _) => true
  | _ => false
  end.

(** [d.get(k, default)] *)
Definition get_or (k : str) (d : dict) (default : str) : str :=
  match dict_get k d with
  | Some v => v
  | None => default
  end.

(** An embedding model: its name and its [encode]. *)
Definition model : Type := (str * (str -> result vec))%type.

(** The two nested loops, which both drivers spell out in the same
    words: for every model and its collection, for every chunk in order,
    embed and insert. [codigo] is [metadata['codigo']] in the one driver
    and the local [codigo] in the other. *)
Definition insert_chunks (source codigo : str) (chunks : list chunk)
    (models : list model) (collections : list str) : M world unit :=
  for_each (combine models collections) (fun mc =>
    let '((model_name, encode), collection) := mc in
    print (PrintInserting collection) ;;;
    for_each (enumerate chunks) (fun ic =>
      let '(i, chunk) := ic in
      let chunk_text := chunk_text chunk in
      let chunk_metadata :=
        dict_set (u "codigo") codigo
          (dict_set (u "tipo") (chunk_tipo chunk)
             (dict_set (u "source") source (chunk_metadata chunk))) in
      embedding <~ lift (encode chunk_text) ;;
      let chunk_id := chunk_id codigo (chunk_tipo chunk) i model_name in
      collection_add collection (Record_ chunk_id embedding chunk_text chunk_metadata)) ;;;
    print (PrintAdded (length chunks))).

Definition process_pdf_and_add_to_collections (pdf_path : str)
    (models : list model) (collections : list str) : M world unit :=
  try_except
    (let source := basename pdf_path in
     text <~ extract_text_from_pdf pdf_path ;;
     if negb (text_truthy text) then print (PrintSkipped pdf_path)
     else
       let text := match text with Some s => s | None => [] end in
       mc <~ lift (process_pdf_content text source) ;;
       let '(metadata, chunks) := mc in
       let metadata := dict_set (u "source") source metadata in
       let metadata := dict_set (u "codigo") (splitext_root source) metadata in
       codigo <~ lift (dict_item (u "codigo") metadata) ;;
       print (PrintProcessing source (get_or (u "disciplina") metadata NA) codigo) ;;;
       insert_chunks source codigo chunks models collections)
    (fun e => print (PrintError pdf_path e)).

(** The body of the [try] in the loop over the files of the directory. *)
Definition process_one (pdf_file : str) (models : list model) (collections : list str)
  : M run_state unit :=
  let source := basename pdf_file in
  text <~ in_world (extract_text_from_pdf pdf_file) ;;
  if negb (text_truthy text) then ret tt
  else
    let text := match text with Some s => s | None => [] end in
    mc <~ lift (process_pdf_content text source) ;;
    let '(metadata, chunks) := mc in
    codigo <~ lift (dict_item (u "codigo") metadata) ;;
    (fun s => (Ok tt, RunState (rs_world s)
                        (dict_set codigo chunks (chunks_por_disciplina s)))) ;;;
    in_world (print (PrintProcessing source (get_or (u "disciplina") metadata NA) codigo)) ;;;
    in_world (insert_chunks source codigo chunks models collections).

(** The loop over the files: an exception of the body is printed and the
    loop goes on with the next file. *)
Definition process_files (pdf_files : list str) (models : list model)
    (collections : list str) : M run_state unit :=
  for_each pdf_files (fun pdf_file =>
    try_except
      (process_one pdf_file models collections)
      (fun e => in_world (print (PrintError pdf_file e)))).

(** [[os.path.join(pdf_dir, f) for f in os.listdir(pdf_dir)
     if f.lower().endswith('.pdf')]] *)
Definition pdf_files_in (pdf_dir : str) (names : list str) : list str :=
  map (path_join pdf_dir)
      (filter (fun f => PyStr.endswith (u ".pdf") (PyStr.lower f)) names).

Definition process_all_pdfs_in_directory (pdf_dir : str) (models : list model)
    (collections : list str) : M world (pdict (list chunk)) :=
  fun w =>
    if negb (os_path_exists pdf_dir) then
      (print (PrintDirNotFound pdf_dir) ;;; ret []) w
    else
      match os_listdir pdf_dir with
      | Raise e => (Raise e, w)
      | Ok names =>
          let pdf_files := pdf_files_in pdf_dir names in
          match pdf_files with
          | [] => (print PrintNoPdf ;;; ret []) w
          | _ =>
              match
                (in_world (print (PrintFound (length pdf_files) pdf_dir)) ;;;
                 process_files pdf_files models collections ;;;
                 in_world (print PrintDone)) (RunState w [])
              with
              | (Ok _, s) => (Ok (chunks_por_disciplina s), rs_world s)
              | (Raise e, s) => (Raise e, rs_world s)
              end
          end
      end.

(** The store [b] holds the collections of [a], each with the records it
    had in [a], in the same order, and possibly more after them. *)
Definition extends (a b : list collection) : Prop :=
  Forall2 (fun c c' => coll_name c = coll_name c' /\
                       exists added, coll_records c' = coll_records c ++ added) a b.

(** Nothing stored or printed in [w] is lost in [w']. *)
Definition grows (w w' : world) : Prop :=
  extends (store w) (store w') /\ exists evs, console w' = console w ++ evs.

Definition grows_rs (s s' : run_state) : Prop := grows (rs_world s) (rs_world s').

(** The state after the [except] clause of the loop has run. *)
Definition logged (pdf_file : str) (e : exn) (s : run_state) : run_state :=
  RunState (World (store (rs_world s)) (console (rs_world s) ++ [PrintError pdf_file e]))
           (chunks_por_disciplina s).

End Ingestion.

#[global] Arguments Record_ {vec}.
#[global] Arguments r_id {vec}.
#[global] Arguments r_embedding {vec}.
#[global] Arguments r_document {vec}.
#[global] Arguments r_metadata {vec}.
#[global] Arguments Collection {vec}.
#[global] Arguments coll_name {vec}.
#[global] Arguments coll_records {vec}.
#[global] Arguments World {vec}.
#[global] Arguments store {vec}.
#[global] Arguments console {vec}.
#[global] Arguments RunState {vec}.
#[global] Arguments rs_world {vec}.
#[global] Arguments chunks_por_disciplina {vec}.
#[global] Arguments in_world {vec A}.
#[global] Arguments print {vec}.
#[global] Arguments holds_id {vec}.
#[global] Arguments store_add {vec}.
#[global] Arguments collection_add {vec}.
#[global] Arguments extract_text_from_pdf {vec}.
#[global] Arguments insert_chunks {vec}.
#[global] Arguments process_pdf_and_add_to_collections {vec}.
#[global] Arguments process_one {vec}.
#[global] Arguments process_files {vec}.
#[global] Arguments process_all_pdfs_in_directory {vec}.
#[global] Arguments extends {vec}.
#[global] Arguments grows {vec}.
#[global] Arguments grows_rs {vec}.
#[global] Arguments logged {vec}.

End Notebook.

(** ** The notebook: the embedding models and the vector store (cells 2 and 3) *)

(** [setup_embedding_models()]: the six models with their names, loaded
    in this order. [SentenceTransformer] is the constructor of the
    library, applied to the name of the model on the hub: the loaded
    model's [encode], or the exception the loading raises. *)
Definition setup_embedding_models {vec : Type}
    (SentenceTransformer : str -> result (str -> result vec)) : result (list (model vec)) :=
  m1 <- SentenceTransformer (u "sentence-transformers/all-MiniLM-L6-v2") ;;
  m2 <- SentenceTransformer (u "sentence-transformers/all-mpnet-base-v2") ;;
  m3 <- SentenceTransformer (u "sentence-transformers/paraphrase-multilingual-MiniLM-L12-v2") ;;
  m4 <- SentenceTransformer (u "sentence-transformers/distiluse-base-multilingual-cased-v2") ;;
  m5 <- SentenceTransformer (u "sentence-transformers/stsb-xlm-r-multilingual") ;;
  m6 <- SentenceTransformer (u "neuralmind/bert-base-portuguese-cased") ;;
  Ok [ (u "all-MiniLM-L6-v2", m1);
       (u "all-mpnet-base-v2", m2);
       (u "paraphrase-multilingual-MiniLM-L12-v2", m3);
       (u "distiluse-base-multilingual-cased-v2", m4);
       (u "stsb-xlm-r-multilingual", m5);
       (u "neuralmind-bert-base-portuguese-cased", m6) ].

Section Setup.

(** The client of the vector store, opened on the database under
    [base_dir]: the collections it holds and the lines printed.
    [create_error] is the client's verdict on creating a collection of a
    given name, given the collections it holds: an exception, or [None]
    when the collection is created. *)
Variable vec : Type.
Variable create_error : list (collection vec) -> str -> option exn.

Inductive setup_event : Type :=
| PrintDeleting (collection_name : str)
| PrintCreating (collection_name : str).

Record chroma : Type := Chroma {
  cl_collections : list (collection vec);
  cl_console : list setup_event
}.

Definition setup_print (ev : setup_event) : M chroma unit :=
  fun s => (Ok tt, Chroma (cl_collections s) (cl_console s ++ [ev])).

(** [[col.name for col in chroma_client.list_collections()]] *)
Definition list_collection_names : M chroma (list str) :=
  fun s => (Ok (map (@coll_name vec) (cl_collections s)), s).

(** [chroma_client.delete_collection(name=...)]: the collection of that
    name is removed; the client raises when it holds none. *)
Definition delete_collection (name : str) : M chroma unit :=
  fun s =>
    if existsb (fun c => PyStr.eqb (coll_name c) name) (cl_collections s)
    then (Ok tt,
          Chroma (filter (fun c => negb (PyStr.eqb (coll_name c) name)) (cl_collections s))
                 (cl_console s))
    else (Raise (ExternalError name), s).

(** [chroma_client.create_collection(name=..., metadata=...)]: a new,
    empty collection, after the ones the client holds. *)
Definition create_collection (name : str) : M chroma str :=
  fun s =>
    match create_error (cl_collections s) name with
    | Some e => (Raise e, s)
    | None => (Ok name, Chroma (cl_collections s ++ [Collection name []]) (cl_console s))
    end.

(** The loop over the models: [collections] is the list built so far. *)
Fixpoint setup_loop (models : list (model vec)) (existing_collections : list str)
    (collections : list str) : M chroma (list str) :=
  match models with
  | [] => ret collections
  | (model_name, _) :: tl =>
      let collection_name := u "ementas-disciplinas_" ++ model_name in
      mbind
        (if existsb (PyStr.eqb collection_name) existing_collections
         then mbind (setup_print (PrintDeleting collection_name))
                    (fun _ => delete_collection collection_name)
         else ret tt)
        (fun _ =>
           mbind (setup_print (PrintCreating collection_name)) (fun _ =>
           mbind (create_collection collection_name) (fun collection =>
           setup_loop tl existing_collections (collections ++ [collection]))))
  end.

(** [setup_chromadb(base_dir, models)]: the collections it returns, by
    name; the client it returns is the state it ends in. *)
Definition setup_chromadb (base_dir : str) (models : list (model vec))
  : M chroma (list str) :=
  mbind list_collection_names (fun existing_collections =>
  setup_loop models existing_collections []).

End Setup.

Arguments Chroma {vec}.
Arguments cl_collections {vec}.
Arguments cl_console {vec}.
Arguments setup_print {vec}.
Arguments list_collection_names {vec}.
Arguments delete_collection {vec}.
Arguments create_collection {vec}.
Arguments setup_loop {vec}.
Arguments setup_chromadb {vec}.

(** ** The notebook: the overview of the chunks (visualisation cell) *)

Section Display.

(** Python's [re] beyond the fragment. *)
Context {py : Re.engine}.

(** The overview prints on the same console as the rest, with lines of
    its own: they are kept in a list of their own beside the world, so
    that the line the text reader prints on a failure is the one of
    [extract_text_from_pdf] above. The overview lists the directory
    without asking whether it exists: an exception of [os.listdir] is
    its own. *)
Variable vec : Type.
Variable fitz_text : str -> result str.
Variable os_listdir : str -> result (list str).

Inductive display_event : Type :=
| ShowNoPdf
| ShowFound (n : nat) (pdf_dir : str)
| ShowSkipped (pdf_file : str)
| ShowArquivo (source : str)
| ShowDisciplina (disciplina : str)
| ShowCodigo (codigo : str)
| ShowRule
| ShowTipo (tipo : str)
| ShowTexto (text : str)
| ShowDash
| ShowError (pdf_file : str) (e : exn).

Record display_state : Type := DisplayState {
  ds_world : world vec;
  ds_shown : list display_event
}.

Definition show (ev : display_event) : M display_state unit :=
  fun s => (Ok tt, DisplayState (ds_world s) (ds_shown s ++ [ev])).

(** A computation on the world, run where the overview prints. *)
Definition in_display {A : Type} (c : M (world vec) A) : M display_state A :=
  fun s =>
    match c (ds_world s) with
    | (r, w') => (r, DisplayState w' (ds_shown s))
    end.

(** The body of the [try] in the loop over the files. *)
Definition display_one (pdf_file : str) : M display_state unit :=
  let source := basename pdf_file in
  mbind (in_display (extract_text_from_pdf fitz_text pdf_file)) (fun text =>
  if negb (text_truthy text) then show (ShowSkipped pdf_file)
  else
    let text := match text with Some s => s | None => [] end in
    mbind (lift (process_pdf_content text source)) (fun mc =>
    let '(metadata, chunks) := mc in
    mbind (show (ShowArquivo source)) (fun _ =>
    mbind (show (ShowDisciplina (get_or (u "disciplina") metadata NA))) (fun _ =>
    mbind (lift (dict_item (u "codigo") metadata)) (fun codigo =>
    mbind (show (ShowCodigo codigo)) (fun _ =>
    mbind (show ShowRule) (fun _ =>
    for_each chunks (fun chunk =>
      if existsb (PyStr.eqb (chunk_tipo chunk))
                 [u "identificacao"; u "objetivo"; u "ementa"]
      then
        mbind (show (ShowTipo (chunk_tipo chunk))) (fun _ =>
        mbind (show (ShowTexto (chunk_text chunk))) (fun _ =>
        show ShowDash))
      else ret tt)))))))).

Definition display_chunks_overview (pdf_dir : str) : M display_state unit :=
  fun s =>
    match os_listdir pdf_dir with
    | Raise e => (Raise e, s)
    | Ok names =>
        let pdf_files := pdf_files_in pdf_dir names in
        match pdf_files with
        | [] => show ShowNoPdf s
        | _ =>
            mbind (show (ShowFound (length pdf_files) pdf_dir)) (fun _ =>
            for_each pdf_files (fun pdf_file =>
              try_except (display_one pdf_file)
                         (fun e => show (ShowError pdf_file e)))) s
        end
    end.

End Display.

Arguments DisplayState {vec}.
Arguments ds_world {vec}.
Arguments ds_shown {vec}.
Arguments show {vec}.
Arguments in_display {vec A}.
Arguments display_one {py vec}.
Arguments display_chunks_overview {py vec}.

(** ** Predicates and constants of the statements *)

Import Re.

Section Statements.

Context {py : Re.engine}.

(** *** Patterns with a literal prefix *)

(** The literal pattern [s] followed by [r]. *)
Fixpoint lits (s : str) (r : regex) : regex :=
  match s with
  | [] => r
  | c :: tl => Seq (Lit c) (lits tl r)
  end.

(** [st'] is reached from [st] by consuming code points that satisfy [P]. *)
Definition consumes (P : char -> Prop) (st st' : mstate) : Prop :=
  exists w, rest st = w ++ rest st' /\ pos st' = pos st + length w /\ Forall P w.

(** Every one-character pattern of [r] outside a lookahead accepts only
    code points that satisfy [P]. *)
Fixpoint atoms_sat (P : char -> Prop) (r : regex) : Prop :=
  match r with
  | Eps | Bol | Eol | Look _ _ => True
  | Lit _ | LitI _ | Any | AnyButNewline | InSet _ _ =>
      forall c, char_test r c = true -> P c
  | Seq a b | Alt a b => atoms_sat P a /\ atoms_sat P b
  | Rep _ _ _ a | Group _ a => atoms_sat P a
  end.

(** *** Plain markers *)

(** The characters with a meaning of their own in a pattern. *)
Definition special (c : char) : bool :=
  existsb (N.eqb c) [46; 92; 91; 123; 40; 41; 42; 43; 63; 94; 36; 124]%N.

(** A string that, spliced into a pattern, stands for itself. *)
Definition plain (s : str) : bool := forallb (fun c => negb (special c)) s.

Definition Plain (s : str) : Prop := Forall (fun c => special c = false) s.

(** The input does not start with a quantifier. *)
Definition no_quantifier (inp : str) : Prop :=
  head_is 42 inp = false /\ head_is 43 inp = false /\
  head_is 63 inp = false /\ head_is 123 inp = false.

(** *** The patterns of the section splitter *)

(** The text after the first occurrence of [p] in [s]. *)
Fixpoint after_first (p s : str) : option str :=
  if PyStr.startswith p s then Some (skipn (length p) s)
  else
    match s with
    | [] => None
    | _ :: tl => after_first p tl
    end.

(** The lazy group [(.*?)] under DOTALL. *)
Definition lazy_group : regex := Group 1 (Seq (Rep false 0 None Any) Eps).

(** The fallback terminators of the section splitter. *)
Definition fallback_tail : str := u "(.*?)(?=(?:Bibliografia|Resumo da Alteração|$))".

Definition fallback_regex : regex :=
  Eval vm_compute in
    match parse_seq (3 * length fallback_tail + 2) DOTALL fallback_tail 1 with
    | Some (r, _, _) => r
    | None => Eps
    end.

(** *** Capture groups *)

(** Group [n] is closed on every path through the pattern. *)
Fixpoint sets (n : nat) (r : regex) : bool :=
  match r with
  | Group k r1 => Nat.eqb k n || sets n r1
  | Seq a b => sets n a || sets n b
  | Alt a b => sets n a && sets n b
  | Rep _ min _ a => (0 <? min) && sets n a
  | Look true a => sets n a
  | _ => false
  end.

Definition has_cap (n : nat) (st : mstate) : Prop := lookup_cap n (caps st) <> None.

(** *** The patterns of the identification branch *)

(** A pattern that compiles to a regex that always closes group 1. *)
Definition good_pattern (fl : flags) (pat : str) : bool :=
  match compile fl pat with
  | Some r => sets 1 r
  | None => false
  end.

Definition compiles (fl : flags) (pat : str) : bool :=
  match compile fl pat with
  | Some _ => true
  | None => false
  end.

(** The course-code pattern of the identification branch. *)
Definition code_regex : regex :=
  Eval vm_compute in
    match compile NOFLAGS (u "(CC|PP|CH|OP|MEIU)\d+[A-Z0-9]") with
    | Some r => r
    | None => Eps
    end.

(** The tail of the first name pattern, after the interpolated code. *)
Definition name_tail : str :=
  u "\s+(.*?)(?=Nota/Conceito|Frequência|Presencial|Semestral)".

Definition name_regex : regex :=
  Eval vm_compute in
    match parse_seq (3 * length name_tail + 2) DOTALL name_tail 1 with
    | Some (r, _, _) => r
    | None => Eps
    end.

(** The credit-hours patterns in the order the code tries them. *)
Definition carga_patterns : list str :=
  [ u "Total\s+\d+\s+\d+\s+\d+\s+\d+\s+\d+\s+\d+\s+\d+\s+(\d+)";
    u "Total\s+(\d+)\s+AT:"; u "Total\s*:\s*(\d+)"; u "Total\s+(\d+)\s*h";
    u "Total\s+(\d+)" ].

(** *** The origin of a chunk *)

(** Where a chunk other than the identification chunk comes from: a
    section of the text that the splitter found non-empty, or a topic of
    the syllabus content; its text is the default cleaning of that
    fragment. *)
Definition from_section (text : str) (section_start section_end : str) (c : chunk) : Prop :=
  exists s, extract_section_from_pdf text section_start (Some section_end) = Ok s /\
            s <> [] /\ clean_chunk_text s None = Ok (chunk_text c).

Definition from_topic (text : str) (c : chunk) : Prop :=
  exists conteudo topicos topico,
    extract_section_from_pdf text (u "Conteúdo Programático") (Some (u "Bibliografia"))
      = Ok conteudo /\
    conteudo <> [] /\
    findall DOTALL (u "(\d+\s*.*?(?=\d+\s*|Bibliografia|$))") conteudo = Ok topicos /\
    List.In topico topicos /\
    PyStr.strip topico <> [] /\
    clean_chunk_text (PyStr.strip topico) None = Ok (chunk_text c).

Definition chunk_origin (text : str) (c : chunk) : Prop :=
  (chunk_tipo c = u "objetivo" /\ from_section text (u "Objetivo") (u "Ementa") c) \/
  (chunk_tipo c = u "ementa" /\
   from_section text (u "Ementa") (u "Conteúdo Programático") c) \/
  (chunk_tipo c = u "conteudo_programatico" /\ from_topic text c) \/
  (chunk_tipo c = u "bibliografia_basica" /\
   from_section text (u "Bibliografia Básica") (u "Bibliografia Complementar") c) \/
  (chunk_tipo c = u "bibliografia_complementar" /\
   from_section text (u "Bibliografia Complementar") (u "Resumo") c).

(** *** The tipos of the chunks *)

(** The chunk types the assembler emits. *)
Definition tipos : list str :=
  [ u "identificacao"; u "objetivo"; u "ementa"; u "conteudo_programatico";
    u "bibliografia_basica"; u "bibliografia_complementar" ].

(** The number a string of decimal digits stands for. *)
Definition nat_of_digits (s : str) : nat :=
  fold_left (fun a c => 10 * a + (N.to_nat c - 48)) s 0.

(** *** The language of a pattern and the course codes *)

(** The strings a pattern can consume, lookaheads and anchors consuming
    nothing: an upper bound of what the matcher consumes. *)
Fixpoint lang (r : regex) (w : str) : Prop :=
  match r with
  | Eps | Bol | Eol | Look _ _ => w = []
  | Lit _ | LitI _ | Any | AnyButNewline | InSet _ _ =>
      exists c, w = [c] /\ char_test r c = true
  | Seq a b => exists w1 w2, w = w1 ++ w2 /\ lang a w1 /\ lang b w2
  | Alt a b => lang a w \/ lang b w
  | Rep _ min max a =>
      exists ws, w = concat ws /\ Forall (lang a) ws /\ min <= length ws
  | Group _ a => lang a w
  end.

(** [st'] is reached from [st] by consuming [w]. *)
Definition reaches (st st' : mstate) (w : str) : Prop :=
  rest st = w ++ rest st' /\ pos st' = pos st + length w.

Definition code_prefixes : list str := [u "CC"; u "PP"].

Definition is_upper (c : char) : bool := ((65 <=? c) && (c <=? 90))%N.

(** The course code as the specification words it: a prefix of the fixed
    set, digits, and an optional trailing letter. *)
Definition spec_course_code (code : str) : Prop :=
  exists prefix digits letter,
    code = prefix ++ digits ++ letter /\ List.In prefix code_prefixes /\
    digits <> [] /\ forallb PyStr.isdigit digits = true /\
    (letter = [] \/ exists c, letter = [c] /\ is_upper c = true).

(** The course code with the trailing letter required. *)
Definition course_code (code : str) : Prop :=
  exists prefix digits c,
    code = prefix ++ digits ++ [c] /\ List.In prefix code_prefixes /\
    digits <> [] /\ forallb PyStr.isdigit digits = true /\ is_upper c = true.

(** [text] has an occurrence of a string satisfying [P] after [pre]. *)
Definition occurs_at (P : str -> Prop) (text pre : str) : Prop :=
  exists code post, text = pre ++ code ++ post /\ P code.

Definition header_code_regex : regex :=
  Eval vm_compute in
    match compile NOFLAGS (u "(CC|PP)\d+[A-Z]") with
    | Some r => r
    | None => Eps
    end.

(** *** Invariants of the drivers *)

(** A computation never leaves the relation [R] between the state it
    starts from and the state it ends in, whether it returns or raises. *)
Definition stays {S A : Type} (R : S -> S -> Prop) (c : M S A) : Prop :=
  forall s, R s (snd (c s)).

(** *** Whitespace normalisation *)

(** Every maximal run of whitespace replaced by one space: what
    [re.sub(r'\s+', ' ', s)] computes. [in_ws] tells that the previous
    code point was whitespace. *)
Fixpoint collapse (in_ws : bool) (s : str) : str :=
  match s with
  | [] => []
  | c :: tl =>
      if PyStr.isspace c
      then if in_ws then collapse true tl else 32%N :: collapse true tl
      else c :: collapse false tl
  end.

(** The only whitespace of [s] is single spaces; [prev_ws] tells that a
    whitespace precedes [s]. *)
Fixpoint tidy (prev_ws : bool) (s : str) : bool :=
  match s with
  | [] => true
  | c :: tl =>
      if PyStr.isspace c then (c =? 32)%N && negb prev_ws && tidy true tl
      else tidy false tl
  end.

Definition ws_regex : regex := Seq (Rep true 1 None (InSet false [ISpace])) Eps.

Fixpoint take_while (f : char -> bool) (s : str) : str :=
  match s with
  | c :: tl => if f c then c :: take_while f tl else []
  | [] => []
  end.

Fixpoint drop_while (f : char -> bool) (s : str) : str :=
  match s with
  | c :: tl => if f c then drop_while f tl else s
  | [] => []
  end.

Definition nonspace (c : char) : bool := negb (PyStr.isspace c).

(** *** The patterns of the assembler *)

(** The tail of the name pattern of the assembler, after the interpolated
    code. *)
Definition disciplina_tail : str := u "(.*?)(?=Frequência|Presencial|Nota|$)".

Definition disciplina_regex : regex :=
  Eval vm_compute in
    match parse_seq (3 * length disciplina_tail + 2) DOTALL disciplina_tail 1 with
    | Some (r, _, _) => r
    | None => Eps
    end.

(** The pattern of the topics of the syllabus content. *)
Definition topic_body : regex :=
  Eval vm_compute in
    match compile DOTALL (u "(\d+\s*.*?(?=\d+\s*|Bibliografia|$))") with
    | Some (Seq (Group _ r) _) => r
    | _ => Eps
    end.

(** *** Bounds on the fuel of the matcher *)

(** The iterations a repeat can still make from [st]: the ones below
    [min], one for every code point left, and the one that finds the
    position unchanged. *)
Definition rep_bound (min count : nat) (last : option nat) (st : mstate) : nat :=
  (min - count) + length (rest st) + (if opt_nat_eqb last (pos st) then 1 else 2).

(** The scans [re.sub] and [re.findall] can still make over [suffix]. *)
Definition scan_bound (must_advance : bool) (suffix : str) : nat :=
  2 * length suffix + (if must_advance then 1 else 2).

(** *** The text between two markers *)

(** The text before the first occurrence of [p] in [s]. *)
Fixpoint before_first (p s : str) : option str :=
  if PyStr.startswith p s then Some []
  else
    match s with
    | [] => None
    | c :: tl => option_map (cons c) (before_first p tl)
    end.

(** The states a lazy [.*?] under DOTALL leaves in, in the order the
    matcher tries them: after no code point, after one, and so on. *)
Definition lazy_states (p : nat) (suffix : str) (caps : list (nat * (nat * nat)))
  : list mstate :=
  map (fun j => MState (p + j) (skipn j suffix) caps) (seq 0 (S (length suffix))).

(** *** The chunk list of the assembler *)

(** The text the default branch of the cleaner returns. *)
Definition cleaned (s : str) : str :=
  match clean_chunk_text s None with
  | Ok c => c
  | Raise _ => []
  end.

(** The chunk of a section: none when the section is empty. *)
Definition section_chunk (s tipo : str) (metadata : dict) : list chunk :=
  if PyStr.eqb s [] then [] else [Chunk (cleaned s) tipo metadata].

(** The chunk of one topic of the syllabus content. *)
Definition topic_chunk (metadata : dict) (topico : str) : chunk :=
  Chunk (cleaned (PyStr.strip topico)) (u "conteudo_programatico")
        (dict_set (u "secao") (u "Tópico " ++ hd [] (PyStr.split_ws topico)) metadata).

(** The topics of a syllabus content. *)
Definition topics_of (conteudo : str) : list str :=
  if PyStr.eqb conteudo [] then []
  else
    match findall DOTALL (u "(\d+\s*.*?(?=\d+\s*|Bibliografia|$))") conteudo with
    | Ok topicos => topicos
    | Raise _ => []
    end.

(** The section of the text between two markers, as the splitter returns
    it. *)
Definition section_of (text section_start section_end : str) : str :=
  match extract_section_from_pdf text section_start (Some section_end) with
  | Ok s => s
  | Raise _ => []
  end.

(** The chunk list of the assembler, read off the five sections of the
    text. *)
Definition chunks_of (text : str) (ident : str) (metadata : dict) : list chunk :=
  Chunk ident (u "identificacao") metadata
    :: section_chunk (section_of text (u "Objetivo") (u "Ementa")) (u "objetivo") metadata
    ++ section_chunk (section_of text (u "Ementa") (u "Conteúdo Programático"))
         (u "ementa") metadata
    ++ map (topic_chunk metadata)
         (topics_of (section_of text (u "Conteúdo Programático") (u "Bibliografia")))
    ++ section_chunk (section_of text (u "Bibliografia Básica")
                        (u "Bibliografia Complementar"))
         (u "bibliografia_basica") metadata
    ++ section_chunk (section_of text (u "Bibliografia Complementar") (u "Resumo"))
         (u "bibliografia_complementar") metadata.

(** The start markers of the five sections the assembler looks for. *)
Definition section_starts : list str :=
  [ u "Objetivo"; u "Ementa"; u "Conteúdo Programático"; u "Bibliografia Básica";
    u "Bibliografia Complementar" ].

(** *** The metadata of the assembler *)

(** The document metadata once the assembler has filled in the code. *)
Definition with_codigo (filename : str) (metadata : dict) : dict :=
  if negb (dict_truthy (u "codigo") metadata)
  then dict_set (u "codigo") (splitext_root filename) metadata
  else metadata.

(** The derivation of the course name in the assembler. *)
Definition derive_disciplina (text : str) (metadata : dict) : result dict :=
  if negb (dict_truthy (u "disciplina") metadata) then
    codigo <- dict_item (u "codigo") metadata ;;
    disciplina_match <-
      search DOTALL (codigo ++ u "(.*?)(?=Frequência|Presencial|Nota|$)") text ;;
    match disciplina_match with
    | Some m =>
        g <- group1 m ;;
        Ok (dict_set (u "disciplina") (PyStr.strip g) metadata)
    | None =>
        disc_match <-
          search DOTALL
            (u "(?:Disciplina|Unidade Curricular)[:\s]+(.*?)(?=Frequência|Presencial|Nota|$)")
            text ;;
        match disc_match with
        | Some m =>
            g <- group1 m ;;
            Ok (dict_set (u "disciplina") (PyStr.strip g) metadata)
        | None =>
            Ok (dict_set (u "disciplina") (u "Disciplina " ++ codigo) metadata)
        end
    end
  else Ok metadata.

(** The keys of the document metadata. *)
Definition metadata_keys : list str :=
  [ u "codigo"; u "disciplina"; u "modalidade"; u "oferta" ].

(** The pattern of the labelled course name, after its two labels. *)
Definition label_tail : regex :=
  Eval vm_compute in
    match
      compile DOTALL
        (u "(?:Disciplina|Unidade Curricular)[:\s]+(.*?)(?=Frequência|Presencial|Nota|$)")
    with
    | Some (Seq _ r) => r
    | _ => Eps
    end.

(** The property of the metadata of one chunk of a document: a topic
    chunk carries the document metadata and a [secao] that names the
    first word of the topic, which starts with a digit; every other chunk
    carries the document metadata unchanged. *)
Definition chunk_metadata_ok (metadata : dict) (c : chunk) : Prop :=
  if PyStr.eqb (chunk_tipo c) (u "conteudo_programatico")
  then exists d w,
         PyStr.isdigit d = true /\
         chunk_metadata c = dict_set (u "secao") (u "Tópico " ++ d :: w) metadata
  else chunk_metadata c = metadata.

(** The same, with the topic named: a topic chunk is the cleaning of a
    topic of the programme, and its [secao] names the first word of that
    topic. *)
Definition chunk_metadata_from (text : str) (metadata : dict) (c : chunk) : Prop :=
  if PyStr.eqb (chunk_tipo c) (u "conteudo_programatico")
  then exists topico d w,
         List.In topico
           (topics_of (section_of text (u "Conteúdo Programático") (u "Bibliografia"))) /\
         chunk_text c = cleaned (PyStr.strip topico) /\
         hd [] (PyStr.split_ws topico) = d :: w /\
         PyStr.isdigit d = true /\
         chunk_metadata c = dict_set (u "secao") (u "Tópico " ++ d :: w) metadata
  else chunk_metadata c = metadata.

(** The tipo a section contributes: none when the section is empty. *)
Definition section_tipo (s tipo : str) : list str :=
  if PyStr.eqb s [] then [] else [tipo].

(** *** Subsequences and literal prefixes *)

(** [a] is [b] with some of its code points left out. *)
Inductive subseq : str -> str -> Prop :=
| subseq_nil : forall b, subseq [] b
| subseq_cons : forall c a b, subseq a b -> subseq (c :: a) (c :: b)
| subseq_skip : forall c a b, subseq a b -> subseq a (c :: b).

(** The pattern [r] starts with the literal [p]. *)
Fixpoint starts_lits (p : str) (r : regex) : bool :=
  match p with
  | [] => true
  | c :: p' =>
      match r with
      | Seq (Lit c') r' => (c =? c')%N && starts_lits p' r'
      | _ => false
      end
  end.

(** The pattern [pat] compiles to a pattern that starts with the literal
    [p]. *)
Definition literal_pattern (fl : flags) (p pat : str) : bool :=
  match compile fl pat with
  | Some r => starts_lits p r
  | None => false
  end.

(** The prefixes of the course codes of the identification branch. *)
Definition ident_prefixes : list str := [u "CC"; u "PP"; u "CH"; u "OP"; u "MEIU"].

(** What follows the prefix in the course-code pattern of the
    identification branch. *)
Definition code_tail : regex :=
  Eval vm_compute in match code_regex with Seq _ r => r | _ => Eps end.

(** *** Records and their origin *)

(** The store [b] holds the collections of [a], and every record it
    holds beyond those of [a] satisfies [P] with the name of its
    collection. *)
Definition adds {vec : Type} (P : str -> record vec -> Prop)
    (a b : list (collection vec)) : Prop :=
  Forall2 (fun c c' => coll_name c = coll_name c' /\
                       exists added, coll_records c' = coll_records c ++ added /\
                                     Forall (P (coll_name c)) added) a b.

Definition adds_w {vec : Type} (P : str -> record vec -> Prop) (w w' : world vec) : Prop :=
  adds P (store w) (store w').

Definition adds_rs {vec : Type} (P : str -> record vec -> Prop) (s s' : run_state vec)
  : Prop :=
  adds P (store (rs_world s)) (store (rs_world s')).

(** The record [r] of the collection [cname] is the [i]-th chunk of a
    document of the given origin, embedded by the model that is paired
    with that collection: its identifier, its document, its embedding and
    its metadata are the ones the insertion loop builds. *)
Definition stored_by {vec : Type} (models : list (model vec)) (collections : list str)
    (origin : str -> str -> list chunk -> Prop) (cname : str) (r : record vec) : Prop :=
  exists model_name encode codigo source chunks i chunk,
    List.In ((model_name, encode), cname) (combine models collections) /\
    origin codigo source chunks /\
    nth_error chunks i = Some chunk /\
    r_id r = chunk_id codigo (chunk_tipo chunk) i model_name /\
    r_document r = chunk_text chunk /\
    encode (r_document r) = Ok (r_embedding r) /\
    dict_get (u "codigo") (r_metadata r) = Some codigo /\
    dict_get (u "tipo") (r_metadata r) = Some (chunk_tipo chunk) /\
    dict_get (u "source") (r_metadata r) = Some source /\
    forall k, ~ List.In k [u "codigo"; u "tipo"; u "source"] ->
              dict_get k (r_metadata r) = dict_get k (chunk_metadata chunk).

(** The number of records of a store. *)
Definition total_records {vec : Type} (cs : list (collection vec)) : nat :=
  list_sum (map (fun c => length (coll_records c)) cs).

(** What the directory driver makes of one file: the code and the chunks
    it enters in its dictionary, when the file can be read and
    assembled. *)
Definition assembled (fitz_text : str -> result str) (pdf_file : str)
  : option (str * list chunk) :=
  match fitz_text pdf_file with
  | Ok (c :: text) =>
      match process_pdf_content (c :: text) (basename pdf_file) with
      | Ok (metadata, chunks) =>
          match dict_get (u "codigo") metadata with
          | Some codigo => Some (codigo, chunks)
          | None => None
          end
      | Raise _ => None
      end
  | _ => None
  end.

(** The dictionary of a list of files: a later file replaces an earlier
    one of the same code. *)
Definition dictionary_of (fitz_text : str -> result str) (pdf_files : list str)
  : pdict (list chunk) :=
  fold_left (fun d f => match assembled fitz_text f with
                        | Some (codigo, chunks) => dict_set codigo chunks d
                        | None => d
                        end) pdf_files [].

(** The PDF files the directory driver finds: none when the directory
    cannot be listed. *)
Definition listed_pdfs (os_listdir : str -> result (list str)) (pdf_dir : str) : list str :=
  match os_listdir pdf_dir with
  | Ok names => pdf_files_in pdf_dir names
  | Raise _ => []
  end.

(** The origin of the chunks the directory driver stores. *)
Definition from_directory (fitz_text : str -> result str) (pdf_files : list str)
    (codigo source : str) (chunks : list chunk) : Prop :=
  exists pdf_file, List.In pdf_file pdf_files /\ source = basename pdf_file /\
                   assembled fitz_text pdf_file = Some (codigo, chunks).

(** The origin of the chunks the single-file driver stores. *)
Definition from_file (fitz_text : str -> result str) (pdf_path : str)
    (codigo source : str) (chunks : list chunk) : Prop :=
  source = basename pdf_path /\ codigo = splitext_root (basename pdf_path) /\
  exists text metadata,
    fitz_text pdf_path = Ok text /\ text <> [] /\
    process_pdf_content text (basename pdf_path) = Ok (metadata, chunks).

(** *** The collections of the set-up *)

(** The name of the collection of a model. *)
Definition collection_name_of (model_name : str) : str :=
  u "ementas-disciplinas_" ++ model_name.

(** The names of the collections of a list of models, in order. *)
Definition collection_names {vec : Type} (models : list (model vec)) : list str :=
  map (fun m => collection_name_of (fst m)) models.

(** The collections of a store whose names are in [names]. *)
Definition named_in {vec : Type} (names : list str) (c : collection vec) : bool :=
  existsb (PyStr.eqb (coll_name c)) names.

(** The store holds a collection of the given name. *)
Definition holds {vec : Type} (name : str) (cs : list (collection vec)) : bool :=
  existsb (fun c => PyStr.eqb (coll_name c) name) cs.

(** The collections a store keeps when the one called [name] is
    deleted. *)
Definition without {vec : Type} (name : str) (cs : list (collection vec))
  : list (collection vec) :=
  filter (fun c => negb (PyStr.eqb (coll_name c) name)) cs.

(** *** The lines of the overview *)

(** The three lines the overview prints for a chunk it shows. *)
Definition chunk_lines (c : chunk) : list display_event :=
  [ShowTipo (chunk_tipo c); ShowTexto (chunk_text c); ShowDash].

(** The chunks the overview shows. *)
Definition shown (c : chunk) : bool :=
  existsb (PyStr.eqb (chunk_tipo c)) [u "identificacao"; u "objetivo"; u "ementa"].

(** The store is the same in both states. *)
Definition same_store {vec : Type} (s s' : display_state vec) : Prop :=
  store (ds_world s') = store (ds_world s).

(** *** The text of a chunk *)

(** The property of the text of a chunk that is not the identification
    chunk: its only whitespace is single spaces between words, and its
    other code points are code points of the document, in the order they
    have there. *)
Definition text_from (text : str) (c : chunk) : Prop :=
  tidy false (chunk_text c) = true /\ PyStr.strip (chunk_text c) = chunk_text c /\
  subseq (filter nonspace (chunk_text c)) (filter nonspace text).

(** *** When the default cleaning leaves nothing *)

(** The lines of a fragment that the cleaner keeps, joined again. *)
Definition kept_lines (text : str) : str :=
  PyStr.join (u "
") (filter keep_line (PyStr.split_on 10%N text)).

(** Nothing but whitespace. *)
Definition blank (s : str) : bool := forallb PyStr.isspace s.

(** A number and the whitespace after it. *)
Definition ordinal (w : str) : Prop :=
  exists ds ws, w = ds ++ ws /\ ds <> [] /\ forallb PyStr.isdigit ds = true /\
                ws <> [] /\ blank ws = true.

(** A code point of a pattern as the parser reads it under IGNORECASE. *)
Definition ci_atom (p : char) : regex :=
  match mk_lit IGNORECASE p with
  | Some r => r
  | None => Eps
  end.

(** [w] is [p] up to the case of its letters, as [re] compares them under
    IGNORECASE. *)
Definition same_ignoring_case (p w : str) : Prop :=
  Forall2 (fun r c => char_test r c = true) (map ci_atom p) w.

(** The heading "Bibliografia Complementar" in any case, and the
    whitespace after it. *)
Definition heading (w : str) : Prop :=
  exists h ws, w = h ++ ws /\ same_ignoring_case (u "Bibliografia Complementar") h /\
               blank ws = true.

Definition headings (w : str) : Prop :=
  exists hs, w = concat hs /\ Forall heading hs.

(** A text that the substitutions of the cleaner empty: an optional
    leading number with the whitespace after it, whitespace, and headings
    "Bibliografia Complementar" up to the end. *)
Definition drained (t : str) : Prop :=
  exists ord mid heads,
    t = ord ++ mid ++ heads /\ (ord = [] \/ ordinal ord) /\ blank mid = true /\
    headings heads.

(** A sequence of patterns before a tail. *)
Definition atoms (rs : list regex) (tail : regex) : regex := fold_right Seq tail rs.

(** A pattern that takes exactly one code point. *)
Definition is_char_atom (r : regex) : bool :=
  match r with
  | Lit _ | LitI _ | Any | AnyButNewline | InSet _ _ => true
  | _ => false
  end.

Definition ordinal_regex : regex :=
  Seq Bol (Seq (Rep true 1 None (InSet false [IDigit]))
               (Seq (Rep true 1 None (InSet false [ISpace])) Eps)).

Definition heading_regex : regex :=
  Seq (Rep true 1 None
         (Group 1 (atoms (map ci_atom (u "Bibliografia Complementar"))
                     (Seq (Rep true 0 None (InSet false [ISpace])) Eps))))
      (Seq Eol Eps).

(** *** The name the identification branch derives *)

(** The three name patterns of the identification branch, the first one
    built from the course code. *)
Definition name_patterns (codigo : str) : list str :=
  [ codigo ++ u "\s+(.*?)(?=Nota/Conceito|Frequência|Presencial|Semestral)";
    u "Disciplina/Unidade[^>]*?([^>]*?)(?=Nota/Conceito|Frequência|Presencial|Semestral)";
    u "Curricular\s*([^>]*?)(?=Nota/Conceito|Frequência|Presencial|Semestral)" ].

(** What group 1 of a pattern captures at its first match in the text,
    when there is one. *)
Definition capture (pattern text : str) : option str :=
  match search DOTALL pattern text with
  | Ok (Some m) => group 1 m
  | _ => None
  end.

(** A captured name as the loop normalises it: stripped, its runs of
    whitespace made one space, a leading "Curricular" removed, stripped
    again. *)
Definition normalised (g : str) : str :=
  match
    (d <- sub NOFLAGS (u "\s+") (u " ") (PyStr.strip g) ;;
     d <- sub NOFLAGS (u "^\s*Curricular\s*") (u "") d ;;
     Ok (PyStr.strip d))
  with
  | Ok d => d
  | Raise _ => []
  end.

(** The normalised captures of the patterns that match, in the order of
    the patterns. *)
Definition candidates (patterns : list str) (text : str) : list str :=
  flat_map (fun pattern => match capture pattern text with
                           | Some g => [normalised g]
                           | None => []
                           end) patterns.

(** A name the loop stops at: neither empty nor the sentinel. *)
Definition acceptable (d : str) : bool :=
  negb (PyStr.eqb d []) && negb (PyStr.eqb d NA).

(** The first acceptable candidate; when there is none, the last
    candidate, and [default] when there is no candidate at all. *)
Definition chosen (cands : list str) (default : str) : str :=
  match find acceptable cands with
  | Some d => d
  | None => last cands default
  end.

(** The name of the identification text: [codigo] is the course code
    found in the fragment, if any. *)
Definition derived_name (text : str) (codigo : option str) : str :=
  let d :=
    match codigo with
    | Some code => chosen (candidates (name_patterns code) text) NA
    | None => NA
    end in
  if acceptable d then d
  else
    match capture (u "Disciplina:\s*([^>]*?)(?=\.|$)") text with
    | Some g => PyStr.strip g
    | None => d
    end.


(** *** Texts the cleaner empties *)

(** The code points whose lowercase is [x]: [x] itself, when it has no
    other lowercase, and one code point for every run of the table that
    reaches [x]. *)
Definition lowered_to (x : char) : list char :=
  x :: flat_map (fun e => match e with
                          | (lo, hi, step, img) =>
                              if ((img <=? x) && (x <=? img + (hi - lo)))%N
                              then [(lo + (x - img))%N]
                              else []
                          end) PyStr.lower_table.

(** [n] iterations of the body of a repeat, each of which moves on in the
    subject. *)
Inductive iterates (body : mstate -> list mstate) : nat -> mstate -> mstate -> Prop :=
| iterates_0 : forall st, iterates body 0 st st
| iterates_S : forall n st mid st',
    List.In mid (body st) -> pos st < pos mid -> iterates body n mid st' ->
    iterates body (S n) st st'.

(** *** Insertions of identifiers the store does not hold *)


(** *** The statements of the specification *)

(** The identifiers and the [codigo] entries of the records a store
    holds. *)
Definition stored_ids {vec : Type} (w : world vec) : list str :=
  map r_id (flat_map coll_records (store w)).

Definition stored_codes {vec : Type} (w : world vec) : list (option str) :=
  map (fun r => dict_get (u "codigo") (r_metadata r)) (flat_map coll_records (store w)).


(** The f-string that ends the identification branch. *)
Definition identification_text (codigo disciplina carga_horaria : str) : str :=
  u "Informações da disciplina " ++ codigo ++ u " " ++ disciplina
    ++ u ". Carga Horária " ++ carga_horaria.

(** The fragment of the document that a chunk of the given tipo is the
    cleaning of: the section between its two markers, as the splitter
    returns it, or a topic of the syllabus content, stripped. *)
Definition fragment (text tipo s : str) : Prop :=
  (tipo = u "objetivo" /\
   extract_section_from_pdf text (u "Objetivo") (Some (u "Ementa")) = Ok s) \/
  (tipo = u "ementa" /\
   extract_section_from_pdf text (u "Ementa") (Some (u "Conteúdo Programático")) = Ok s) \/
  (tipo = u "conteudo_programatico" /\
   exists conteudo topicos topico,
     extract_section_from_pdf text (u "Conteúdo Programático") (Some (u "Bibliografia"))
       = Ok conteudo /\
     conteudo <> [] /\
     findall DOTALL (u "(\d+\s*.*?(?=\d+\s*|Bibliografia|$))") conteudo = Ok topicos /\
     List.In topico topicos /\
     s = PyStr.strip topico) \/
  (tipo = u "bibliografia_basica" /\
   extract_section_from_pdf text (u "Bibliografia Básica")
     (Some (u "Bibliografia Complementar")) = Ok s) \/
  (tipo = u "bibliografia_complementar" /\
   extract_section_from_pdf text (u "Bibliografia Complementar") (Some (u "Resumo")) = Ok s).

End Statements.

(** ** Sample documents *)

(** An engine for the samples: it refuses every pattern it is asked
    about. The patterns of the samples are parsed, or known to be
    malformed, so that no sample depends on it. *)
Definition strict_engine : Re.engine :=
  {| engine_search := fun _ _ _ => Raise ReError;
     engine_sub := fun _ _ _ _ => Raise ReError;
     engine_findall := fun _ _ _ => Raise ReError |}.

Section SampleData.

#[local] Existing Instance strict_engine.

(** A syllabus whose header names the course CC56E. *)
Definition sample_text : str :=
  u "CC56E Aspectos Formais da Computação
Objetivo Estudar linguagens formais.
Ementa Autômatos finitos.".

Definition sample_text_b : str :=
  u "PP10B Redes de Computadores
Objetivo Entender redes.
Ementa Camadas.".

(** A syllabus whose objective is a single boilerplate line. *)
Definition boilerplate_text : str :=
  u "Objetivo
Total
Ementa".

(** A syllabus whose objective is a lone heading "Bibliografia
    Complementar", and one whose objective is a number on a line of its
    own before a boilerplate line. *)
Definition heading_text : str :=
  u "Objetivo
BIBLIOGRAFIA complementar
Ementa".

Definition ordinal_text : str :=
  u "Objetivo 1 
Total
Ementa".

(** A fragment with a course code and no name before "Presencial". *)
Definition nameless_fragment : str := u "CC56E Presencial".

(** The files of the sample directory: every path reads as [sample_text]
    but the one of PP10B. *)
Definition sample_fitz (path : str) : result str :=
  if PyStr.eqb path (u "docs/PP10B.pdf") then Ok sample_text_b else Ok sample_text.

Definition sample_listdir (dir : str) : result (list str) :=
  Ok [u "OP63P.pdf"; u "notes.txt"; u "PP10B.pdf"].

(** A path that exists and is no directory. *)
Definition file_listdir (dir : str) : result (list str) :=
  Raise (ExternalError (u "NotADirectoryError")).

(** A model that embeds everything, and one that fails on one chunk. *)
Definition sample_models : list (model unit) := [(u "m", fun _ => Ok tt)].

Definition failing_models : list (model unit) :=
  [(u "m", fun t => if PyStr.eqb t (u "Estudar linguagens formais.")
                    then Raise (ExternalError (u "encode"))
                    else Ok tt)].

Definition accept_all (held : list (record unit)) (r : record unit) : option exn := None.

Definition sample_world : world unit := World [Collection (u "col") []] [].

(** The state in which the loop over the files of the sample directory
    starts. *)
Definition sample_start : run_state unit :=
  RunState (World (store sample_world)
              (console sample_world ++ [PrintFound 2 (u "docs")])) [].

Definition sample_metadata : dict :=
  Eval vm_compute in
    match process_pdf_content sample_text (u "OP63P.pdf") with
    | Ok (metadata, _) => metadata
    | Raise _ => []
    end.

Definition sample_chunks : list chunk :=
  Eval vm_compute in
    match process_pdf_content sample_text (u "OP63P.pdf") with
    | Ok (_, chunks) => chunks
    | Raise _ => []
    end.

(** The state of the sample run when the embedding of the second chunk
    of OP63P.pdf fails: the record of its first chunk is in the store. *)
Definition sample_failure : run_state unit :=
  Eval vm_compute in
    snd (process_one sample_fitz accept_all (u "docs/OP63P.pdf") failing_models [u "col"]
           sample_start).

(** A text without headings, course code or labelled name. *)
Definition plain_notes : str := u "Notas de aula sobre grafos. Presencial".

(** A fragment that holds only blank lines and boilerplate phrases. *)
Definition boilerplate_lines : str :=
  u "Ementa

  Total
AT".

(** A syllabus with its five sections and two topics in its programme. *)
Definition full_text : str :=
  u "CC56E Teoria da Computação
Objetivo Estudar.
Ementa Autômatos.
Conteúdo Programático 1 Automatos 2 Gramaticas Bibliografia Básica HOPCROFT. Bibliografia Complementar SIPSER. Resumo".

Definition full_metadata : dict :=
  Eval vm_compute in
    match process_pdf_content full_text (u "CC56E.pdf") with
    | Ok (metadata, _) => metadata
    | Raise _ => []
    end.

Definition full_chunks : list chunk :=
  Eval vm_compute in
    match process_pdf_content full_text (u "CC56E.pdf") with
    | Ok (_, chunks) => chunks
    | Raise _ => []
    end.

(** The text of [sample_text] after its first "Objetivo", and the part
    of it before the first "Ementa". *)
Definition sample_after_objetivo : str :=
  u " Estudar linguagens formais.
Ementa Autômatos finitos.".

Definition sample_objetivo_body : str :=
  u " Estudar linguagens formais.
".

(** A reader that fails on every file. *)
Definition damaged_fitz (path : str) : result str := Raise (ExternalError (u "damaged")).

(** A client that refuses to create a collection whose name it holds and
    creates every other. *)
Definition reject_held (cs : list (collection unit)) (name : str) : option exn :=
  if holds name cs then Some (ExternalError name) else None.

(** A record left from an earlier run, and a client that holds it in the
    collection of the model "m" and in a collection of another name. *)
Definition stale_record : record unit := Record_ (u "old_id") tt (u "old text") [].

Definition stale_client : chroma unit :=
  Chroma [ Collection (u "ementas-disciplinas_m") [stale_record];
           Collection (u "other") [stale_record] ] [].

(** The client after the set-up for [sample_models], and the store after
    the ingestion of the sample directory into its collections. *)
Definition fresh_client : chroma unit :=
  Eval vm_compute in snd (setup_chromadb reject_held (u "base") sample_models stale_client).

Definition pipeline_store : list (collection unit) :=
  Eval vm_compute in
    store (snd (process_all_pdfs_in_directory sample_fitz (fun _ => true) sample_listdir
                  accept_all (u "docs") sample_models [u "ementas-disciplinas_m"]
                  (World (cl_collections fresh_client) []))).

(** A fragment with a topic number, a boilerplate line and runs of
    whitespace. *)
Definition untidy_fragment : str :=
  u "1  Autômatos
Total
  finitos  ".

End SampleData.

(** * Lemmas and theorems *)

(** The literals of the code are compared as written, not unfolded. *)
Opaque PyStr.u.

Ltac not_special :=
  unfold special; cbn [existsb]; rewrite ?orb_false_iff;
  repeat split; try apply N.eqb_neq; lia.

(** Every property below holds whatever the [re] module answers on the
    patterns the parser does not cover. *)
Section Properties.

Context {py : Re.engine}.

(** ** The matcher: literal prefixes and scans *)

Section Consumes.

Variable P : char -> Prop.

Lemma consumes_refl : forall st, consumes P st st.
Proof. intros st. exists []. simpl. repeat split; auto; lia. Qed.

Lemma consumes_trans : forall a b c,
  consumes P a b -> consumes P b c -> consumes P a c.
Proof.
  intros a b c [w1 (H1 & H2 & H3)] [w2 (H4 & H5 & H6)].
  exists (w1 ++ w2). rewrite H1, H4, <- app_assoc. repeat split.
  - rewrite H5, H2, length_app. lia.
  - apply Forall_app; auto.
Qed.

Lemma step_char_consumes : forall r st st',
  (forall c, char_test r c = true -> P c) ->
  In st' (step_char r st) -> consumes P st st'.
Proof.
  intros r st st' HP. unfold step_char.
  destruct (rest st) as [|c tl] eqn:E; simpl; [tauto|].
  destruct (char_test r c) eqn:T; simpl; [|tauto].
  intros [<-|[]]. exists [c]. simpl. repeat split; auto; lia.
Qed.

Lemma rep_loop_consumes : forall body greedy min max,
  (forall st st', In st' (body st) -> consumes P st st') ->
  forall fuel count last st st',
    In st' (rep_loop body greedy min max fuel count last st) -> consumes P st st'.
Proof.
  intros body greedy min max Hb. induction fuel as [|fuel IH]; simpl; [tauto|].
  intros count last st st'.
  assert (Hagain : forall l, In st' (flat_map (rep_loop body greedy min max fuel (S count) l) (body st))
                        -> consumes P st st').
  { intros l H. apply in_flat_map in H. destruct H as [mid [H1 H2]].
    eapply consumes_trans; eauto. }
  destruct (count <? min); [apply Hagain|].
  destruct (below max count && negb (opt_nat_eqb last (pos st))).
  - destruct greedy.
    + intros H. apply in_app_or in H. destruct H as [H|[<-|[]]]; eauto using consumes_refl.
    + intros [<-|H]; eauto using consumes_refl.
  - intros [<-|[]]. apply consumes_refl.
Qed.

Lemma run_consumes : forall r, atoms_sat P r ->
  forall st st', In st' (run r st) -> consumes P st st'.
Proof.
  induction r; intros HP st st' H;
    try (eapply step_char_consumes; [exact HP | exact H]); simpl in HP, H.
  - destruct H as [<-|[]]. apply consumes_refl.
  - apply in_flat_map in H. destruct H as [mid [H1 H2]]. destruct HP.
    eapply consumes_trans; eauto.
  - destruct HP. apply in_app_or in H. destruct H; eauto.
  - eapply rep_loop_consumes; eauto.
  - apply in_map_iff in H. destruct H as [mid [<- H]].
    destruct (IHr HP _ _ H) as [w Hw]. exists w. simpl. exact Hw.
  - destruct positive.
    + destruct (run r st) as [|x l]; simpl in H; [tauto|].
      destruct H as [<-|[]]. exists []. simpl. repeat split; auto; lia.
    + destruct (run r st); simpl in H; [|tauto].
      destruct H as [<-|[]]. apply consumes_refl.
  - destruct (Nat.eqb (pos st) 0); simpl in H; [|tauto].
    destruct H as [<-|[]]. apply consumes_refl.
  - destruct (rest st) as [|c [|d tl]]; simpl in H; try tauto.
    + destruct H as [<-|[]]. apply consumes_refl.
    + destruct (c =? 10)%N; simpl in H; [|tauto].
      destruct H as [<-|[]]. apply consumes_refl.
Qed.

End Consumes.

Lemma atoms_sat_True : forall r, atoms_sat (fun _ => True) r.
Proof. induction r; simpl; auto. Qed.

(** The literal prefix of a pattern. *)
Lemma run_lits : forall s r st,
  run (lits s r) st =
    if PyStr.startswith s (rest st)
    then run r (MState (pos st + length s) (skipn (length s) (rest st)) (caps st))
    else [].
Proof.
  induction s as [|c s IH]; intros r st; simpl.
  - rewrite Nat.add_0_r. destruct st; reflexivity.
  - unfold step_char. destruct (rest st) as [|x tl] eqn:E; simpl; [reflexivity|].
    rewrite (N.eqb_sym c x).
    destruct (x =? c)%N eqn:T; simpl; [|reflexivity].
    rewrite app_nil_r, IH. simpl.
    replace (pos st + S (length s)) with (S (pos st + length s)) by lia. reflexivity.
Qed.

Lemma startswith_spec : forall p s,
  PyStr.startswith p s = true <-> exists tl, s = p ++ tl.
Proof.
  induction p as [|a p IH]; intros s; simpl.
  - split; eauto.
  - destruct s as [|b s]; simpl.
    + split; [discriminate|]. intros [tl H]. discriminate.
    + rewrite andb_true_iff, N.eqb_eq, IH. split.
      * intros [-> [tl ->]]. eauto.
      * intros [tl H]. injection H as -> ->. eauto.
Qed.

Lemma contains_spec : forall p s,
  PyStr.contains p s = true <-> exists pre post, s = pre ++ p ++ post.
Proof.
  intros p. induction s as [|b s IH]; simpl.
  - rewrite orb_false_r, startswith_spec. split.
    + intros [tl H]. exists [], tl. exact H.
    + intros [pre [post H]]. destruct pre; simpl in H.
      * eauto.
      * discriminate.
  - rewrite orb_true_iff, IH, startswith_spec. split.
    + intros [[tl H]|[pre [post H]]].
      * exists [], tl. exact H.
      * exists (b :: pre), post. simpl. congruence.
    + intros [pre [post H]]. destruct pre as [|x pre]; simpl in H.
      * left. eauto.
      * right. injection H as -> ->. eauto.
Qed.

(** What [search_from] reports is a match of the pattern at some position
    from [p] on, and no position before it has an accepted match. *)
Lemma search_from_some : forall r text suffix ma p m,
  search_from r text ma p suffix = Some m ->
  exists k st', k <= length suffix /\
    In st' (run r (MState (p + k) (skipn k suffix) [])) /\
    m = Match text (p + k) (pos st') (caps st').
Proof.
  intros r text. induction suffix as [|c tl IH]; intros ma p m; simpl.
  - destruct (if ma then _ else _) as [|st l] eqn:E; [discriminate|].
    intros [= <-]. exists 0, st. rewrite Nat.add_0_r. split; [lia|]. split; [|reflexivity].
    destruct ma.
    + assert (H : In st (filter (fun st0 => negb (Nat.eqb (pos st0) p)) (run r (MState p [] []))))
        by (rewrite E; left; reflexivity).
      apply filter_In in H. tauto.
    + simpl. rewrite E. left. reflexivity.
  - destruct (if ma then _ else _) as [|st l] eqn:E.
    + intros H. apply IH in H. destruct H as [k [st' (H1 & H2 & H3)]].
      exists (S k), st'. simpl. replace (p + S k) with (S p + k) by lia.
      split; [lia|]. split; assumption.
    + intros [= <-]. exists 0, st. rewrite Nat.add_0_r. split; [lia|]. split; [|reflexivity].
      destruct ma.
      * assert (H : In st (filter (fun st0 => negb (Nat.eqb (pos st0) p)) (run r (MState p (c :: tl) []))))
          by (rewrite E; left; reflexivity).
        apply filter_In in H. tauto.
      * simpl. rewrite E. left. reflexivity.
Qed.

Lemma search_from_none : forall r text suffix p,
  search_from r text false p suffix = None <->
  forall k, k <= length suffix -> run r (MState (p + k) (skipn k suffix) []) = [].
Proof.
  intros r text. induction suffix as [|c tl IH]; intros p; simpl.
  - destruct (run r (MState p [] [])) eqn:E.
    + split; auto. intros _ k Hk. replace k with 0 by lia. rewrite Nat.add_0_r. exact E.
    + split; [discriminate|]. intros H. specialize (H 0 (Nat.le_refl _)).
      rewrite Nat.add_0_r in H. simpl in H. congruence.
  - destruct (run r (MState p (c :: tl) [])) eqn:E.
    + rewrite IH. split.
      * intros H [|k] Hk; simpl.
        -- rewrite Nat.add_0_r. exact E.
        -- replace (p + S k) with (S p + k) by lia. apply H. lia.
      * intros H k Hk. specialize (H (S k)). simpl in H.
        replace (p + S k) with (S p + k) in H by lia. apply H. lia.
    + split; [discriminate|]. intros H. specialize (H 0 (Nat.le_0_l _)).
      rewrite Nat.add_0_r in H. simpl in H. congruence.
Qed.

(** ** The parser on plain text *)

Lemma special_false : forall c, special c = false ->
  (c =? 46)%N = false /\ (c =? 92)%N = false /\ (c =? 91)%N = false /\
  (c =? 123)%N = false /\ (c =? 40)%N = false /\ (c =? 41)%N = false /\
  (c =? 42)%N = false /\ (c =? 43)%N = false /\ (c =? 63)%N = false /\
  (c =? 94)%N = false /\ (c =? 36)%N = false /\ (c =? 124)%N = false.
Proof.
  unfold special. simpl. intros c H.
  repeat (apply orb_false_iff in H; destruct H as [? H]).
  repeat split; assumption.
Qed.

Lemma plain_no_quantifier : forall c s, special c = false -> no_quantifier (c :: s).
Proof.
  intros c s H. apply special_false in H. unfold no_quantifier, head_is.
  intuition.
Qed.

Lemma no_quantifier_nil : no_quantifier [].
Proof. repeat split. Qed.

Lemma quantify_none : forall a inp, no_quantifier inp -> quantify a inp = Some (a, inp).
Proof.
  intros a inp (H1 & H2 & H3 & H4). unfold quantify. rewrite H1, H2, H3, H4. reflexivity.
Qed.

Lemma parse_atom_plain : forall fuel fl c rest0 g,
  ignorecase fl = false -> special c = false ->
  parse_atom (S fuel) fl c rest0 g = Some (Lit c, rest0, g).
Proof.
  intros fuel fl c rest0 g Hi H. apply special_false in H.
  destruct H as (H1 & H2 & H3 & H4 & H5 & H6 & H7 & H8 & H9 & H10 & H11 & H12).
  simpl. rewrite H5, H2, H3, H1, H10, H11, H7, H8, H9, H4. simpl.
  unfold mk_lit. rewrite Hi. reflexivity.
Qed.

(** A plain prefix of a pattern parses to the literals of the prefix. *)
Lemma parse_seq_plain : forall fl s fuel inp g,
  ignorecase fl = false -> Plain s -> no_quantifier inp ->
  parse_seq (length s + S fuel) fl (s ++ inp) g =
    match parse_seq (S fuel) fl inp g with
    | Some (r, rest, g') => Some (lits s r, rest, g')
    | None => None
    end.
Proof.
  intros fl. induction s as [|c s IH]; intros fuel inp g Hi Hs Hq.
  - simpl. destruct inp as [|x inp]; [reflexivity|].
    destruct ((x =? 124)%N || (x =? 41)%N); [reflexivity|].
    destruct (parse_atom fuel fl x inp g) as [[[a r1] g1]|]; [|reflexivity].
    destruct (quantify a r1) as [[it r2]|]; [|reflexivity].
    destruct (parse_seq fuel fl r2 g1) as [[[r r3] g3]|]; reflexivity.
  - inversion Hs as [|? ? Hc Hs']; subst.
    assert (Hq' : no_quantifier (s ++ inp)).
    { destruct s as [|d s]; [exact Hq|]. inversion Hs'; subst.
      simpl. apply plain_no_quantifier. assumption. }
    specialize (IH fuel inp g Hi Hs' Hq).
    remember (parse_seq (S fuel) fl inp g) as res eqn:Eres. clear Eres.
    change (length (c :: s) + S fuel) with (S (length s + S fuel)).
    change ((c :: s) ++ inp) with (c :: (s ++ inp)).
    cbn [parse_seq].
    pose proof (special_false _ Hc) as (_ & _ & _ & _ & _ & H41 & _ & _ & _ & _ & _ & H124).
    rewrite H124, H41. cbn [orb].
    replace (length s + S fuel) with (S (length s + fuel)) by lia.
    rewrite parse_atom_plain by assumption.
    rewrite quantify_none by assumption.
    replace (S (length s + fuel)) with (length s + S fuel) by lia.
    rewrite IH.
    destruct res as [[[r rest] g']|]; reflexivity.
Qed.

(** More fuel does not change what the parser returns. *)
Lemma parse_mono : forall fuel,
  (forall fl inp g x, parse_alt fuel fl inp g = Some x ->
     forall fuel', fuel <= fuel' -> parse_alt fuel' fl inp g = Some x) /\
  (forall fl inp g x, parse_seq fuel fl inp g = Some x ->
     forall fuel', fuel <= fuel' -> parse_seq fuel' fl inp g = Some x) /\
  (forall fl c inp g x, parse_atom fuel fl c inp g = Some x ->
     forall fuel', fuel <= fuel' -> parse_atom fuel' fl c inp g = Some x).
Proof.
  induction fuel as [|fuel (IHa & IHs & IHt)].
  - repeat split; intros; discriminate.
  - repeat split.
    + intros fl inp g x H [|fuel'] Hle; [lia|]. apply le_S_n in Hle.
      cbn [parse_alt] in *.
      destruct (parse_seq fuel fl inp g) as [[[r1 rest] g1]|] eqn:E; [|discriminate].
      rewrite (IHs _ _ _ _ E _ Hle).
      destruct (head_is 124 rest); [|exact H].
      destruct (parse_alt fuel fl (tl rest) g1) as [[[r2 rest2] g2]|] eqn:E2; [|discriminate].
      rewrite (IHa _ _ _ _ E2 _ Hle). exact H.
    + intros fl inp g x H [|fuel'] Hle; [lia|]. apply le_S_n in Hle.
      cbn [parse_seq] in *.
      destruct inp as [|c rest0]; [exact H|].
      destruct ((c =? 124)%N || (c =? 41)%N); [exact H|].
      destruct (parse_atom fuel fl c rest0 g) as [[[a rest] g1]|] eqn:E; [|discriminate].
      rewrite (IHt _ _ _ _ _ E _ Hle).
      destruct (quantify a rest) as [[it rest1]|]; [|discriminate].
      destruct (parse_seq fuel fl rest1 g1) as [[[r rest2] g2]|] eqn:E2; [|discriminate].
      rewrite (IHs _ _ _ _ E2 _ Hle). exact H.
    + intros fl c inp g x H [|fuel'] Hle; [lia|]. apply le_S_n in Hle.
      cbn [parse_atom] in *.
      assert (Hc : forall wrap inner g0,
                 closing wrap (parse_alt fuel fl inner g0) = Some x ->
                 closing wrap (parse_alt fuel' fl inner g0) = Some x).
      { intros wrap inner g0 Hx.
        destruct (parse_alt fuel fl inner g0) as [y|] eqn:E; [|discriminate].
        rewrite (IHa _ _ _ _ E _ Hle). exact Hx. }
      destruct (c =? 40)%N.
      * destruct (head_is 63 inp).
        -- destruct (head_is 58 (tl inp)); [auto|].
           destruct (head_is 61 (tl inp)); [auto|].
           destruct (head_is 33 (tl inp)); [auto|exact H].
        -- auto.
      * exact H.
Qed.

Lemma parse_alt_mono : forall fuel fuel' fl inp g x,
  parse_alt fuel fl inp g = Some x -> fuel <= fuel' -> parse_alt fuel' fl inp g = Some x.
Proof. intros. eapply (proj1 (parse_mono fuel)); eauto. Qed.

Lemma parse_seq_mono : forall fuel fuel' fl inp g x,
  parse_seq fuel fl inp g = Some x -> fuel <= fuel' -> parse_seq fuel' fl inp g = Some x.
Proof. intros. eapply (proj1 (proj2 (parse_mono fuel))); eauto. Qed.

(** Compiling a plain prefix followed by a pattern [tail] that parses as
    one alternative-free sequence [r]. *)
Lemma compile_plain_prefix : forall fl s tail r g' fuel,
  ignorecase fl = false -> Plain s -> no_quantifier tail ->
  parse_seq (S fuel) fl tail 1 = Some (r, [], g') ->
  S fuel <= 2 * length s + 3 * length tail + 2 ->
  compile fl (s ++ tail) = Some (lits s r).
Proof.
  intros fl s tail r g' fuel Hi Hs Hq Hp Hf. unfold compile.
  rewrite length_app.
  replace (3 * (length s + length tail) + 3)
    with (S (length s + S (2 * length s + 3 * length tail + 1))) by lia.
  cbn [parse_alt].
  rewrite parse_seq_plain by assumption.
  assert (Hp' : parse_seq (S (2 * length s + 3 * length tail + 1)) fl tail 1
                 = Some (r, [], g')).
  { eapply parse_seq_mono; [exact Hp | lia]. }
  rewrite Hp'. reflexivity.
Qed.

Lemma plain_Plain : forall s, plain s = true -> Plain s.
Proof.
  intros s H. apply Forall_forall. intros c Hc.
  unfold plain in H. rewrite forallb_forall in H. specialize (H c Hc).
  destruct (special c); [discriminate|reflexivity].
Qed.

Lemma Plain_no_quantifier : forall s, Plain s -> no_quantifier s.
Proof.
  intros [|c s] H; [apply no_quantifier_nil|].
  inversion H; subst. apply plain_no_quantifier. assumption.
Qed.

(** ** The fuel of the parser *)

Lemma tl_length : forall (s : str), length (tl s) <= length s.
Proof. intros [|c s]; simpl; lia. Qed.

Lemma head_is_length : forall c s, head_is c s = true -> length (tl s) < length s.
Proof. intros c [|x s] H; simpl in *; [discriminate|lia]. Qed.

Lemma quantify_length : forall a inp it rest,
  quantify a inp = Some (it, rest) -> length rest <= length inp.
Proof.
  intros a inp it rest H. unfold quantify in H.
  pose proof (tl_length inp). pose proof (tl_length (tl inp)).
  destruct (head_is 42 inp); [|destruct (head_is 43 inp); [|destruct (head_is 63 inp)]];
    try (destruct (is_anchor a); [discriminate|];
         destruct (head_is 63 (tl inp)); [injection H as _ <-; lia|];
         destruct (head_is 43 (tl inp)); [discriminate|];
         injection H as _ <-; lia).
  destruct (head_is 123 inp); [discriminate|]. injection H as _ <-. lia.
Qed.

Lemma class_member_length : forall inp it rest,
  class_member inp = Some (it, rest) -> length rest < length inp.
Proof.
  intros [|c tl] it rest H; simpl in H; [discriminate|].
  destruct (c =? 92)%N.
  - destruct tl as [|e tl']; [discriminate|].
    destruct (class_escape e); [|discriminate]. injection H as _ <-. simpl. lia.
  - injection H as _ <-. simpl. lia.
Qed.

Lemma parse_class_length : forall fuel inp acc items rest,
  parse_class fuel inp acc = Some (items, rest) -> length rest <= length inp.
Proof.
  induction fuel as [|fuel IH]; intros inp acc items rest H; cbn [parse_class] in H;
    [discriminate|].
  pose proof (tl_length inp).
  destruct (head_is 93 inp && negb (Nat.eqb (length acc) 0)); [injection H as _ <-; lia|].
  destruct (class_member inp) as [[code1 rest1]|] eqn:E; [|discriminate].
  apply class_member_length in E.
  pose proof (tl_length rest1). pose proof (tl_length (tl rest1)).
  destruct (head_is 45 rest1).
  - destruct (head_is 93 (tl rest1)); [injection H as _ <-; lia|].
    destruct (class_member (tl rest1)) as [[[hi| | | | |] rest2]|] eqn:E2; try discriminate.
    destruct code1 as [lo| | | | |]; try discriminate.
    destruct (hi <? lo)%N; [discriminate|].
    apply class_member_length in E2. apply IH in H. lia.
  - apply IH in H. lia.
Qed.

Lemma closing_length : forall wrap res r rest g n,
  (forall r0 rest0 g0, res = Some (r0, rest0, g0) -> length rest0 <= n) ->
  closing wrap res = Some (r, rest, g) -> length rest <= n.
Proof.
  intros wrap [[[r0 rest0] g0]|] r rest g n Hn H; simpl in H; [|discriminate].
  destruct (head_is 41 rest0); [|discriminate]. injection H as _ <- _.
  specialize (Hn _ _ _ eq_refl). pose proof (tl_length rest0). lia.
Qed.

(** The parser never returns more input than it was given. *)
Lemma parse_length : forall fuel,
  (forall fl inp g r rest g', parse_alt fuel fl inp g = Some (r, rest, g') ->
     length rest <= length inp) /\
  (forall fl inp g r rest g', parse_seq fuel fl inp g = Some (r, rest, g') ->
     length rest <= length inp) /\
  (forall fl c inp g r rest g', parse_atom fuel fl c inp g = Some (r, rest, g') ->
     length rest <= length inp).
Proof.
  induction fuel as [|fuel (IHa & IHs & IHt)].
  - repeat split; intros; discriminate.
  - split; [|split].
    + intros fl inp g r rest g' H. cbn [parse_alt] in H.
      destruct (parse_seq fuel fl inp g) as [[[r1 rest1] g1]|] eqn:E; [|discriminate].
      apply IHs in E.
      destruct (head_is 124 rest1) eqn:Eh; [|injection H as _ <- _; exact E].
      destruct (parse_alt fuel fl (tl rest1) g1) as [[[r2 rest2] g2]|] eqn:E2;
        [|discriminate].
      injection H as _ <- _. apply IHa in E2. pose proof (tl_length rest1). lia.
    + intros fl inp g r rest g' H. cbn [parse_seq] in H.
      destruct inp as [|c rest0]; [injection H as _ <- _; simpl; lia|].
      destruct ((c =? 124)%N || (c =? 41)%N); [injection H as _ <- _; lia|].
      destruct (parse_atom fuel fl c rest0 g) as [[[a rest1] g1]|] eqn:E; [|discriminate].
      apply IHt in E.
      destruct (quantify a rest1) as [[it rest2]|] eqn:Eq; [|discriminate].
      apply quantify_length in Eq.
      destruct (parse_seq fuel fl rest2 g1) as [[[r3 rest3] g3]|] eqn:E3; [|discriminate].
      injection H as _ <- _. apply IHs in E3. simpl. lia.
    + intros fl c inp g r rest g' H. cbn [parse_atom] in H.
      pose proof (tl_length inp). pose proof (tl_length (tl inp)).
      assert (Hc : forall wrap inner g0,
                 length inner <= length inp ->
                 closing wrap (parse_alt fuel fl inner g0) = Some (r, rest, g') ->
                 length rest <= length inp).
      { intros wrap inner g0 Hi Hx. eapply closing_length; [|exact Hx].
        intros r0 rest0 g1 E. apply IHa in E. lia. }
      destruct (c =? 40)%N.
      { destruct (head_is 63 inp).
        - destruct (head_is 58 (tl inp)); [eapply Hc; [|exact H]; lia|].
          destruct (head_is 61 (tl inp)); [eapply Hc; [|exact H]; lia|].
          destruct (head_is 33 (tl inp)); [eapply Hc; [|exact H]; lia|discriminate].
        - eapply Hc; [|exact H]. lia. }
      destruct (c =? 92)%N.
      { destruct inp as [|e rest1]; [discriminate|].
        destruct (escape fl e); [|discriminate]. injection H as _ <- _. simpl. lia. }
      destruct (c =? 91)%N.
      { destruct (ignorecase fl); [discriminate|]. cbv zeta in H.
        destruct (parse_class _ _ _) as [[items rest1]|] eqn:E; [|discriminate].
        injection H as _ <- _. apply parse_class_length in E.
        destruct (head_is 94 inp); lia. }
      destruct (c =? 46)%N; [injection H as _ <- _; lia|].
      destruct (c =? 94)%N; [injection H as _ <- _; lia|].
      destruct (c =? 36)%N; [injection H as _ <- _; lia|].
      destruct ((c =? 42)%N || (c =? 43)%N || (c =? 63)%N || (c =? 123)%N); [discriminate|].
      destruct (mk_lit fl c); [|discriminate]. injection H as _ <- _. lia.
Qed.

(** The parser gives the same result with any fuel above three units
    for every code point of its input. *)
Lemma parse_fuel : forall f1,
  (forall fl inp g f2, 3 * length inp + 3 <= f1 -> 3 * length inp + 3 <= f2 ->
     parse_alt f1 fl inp g = parse_alt f2 fl inp g) /\
  (forall fl inp g f2, 3 * length inp + 2 <= f1 -> 3 * length inp + 2 <= f2 ->
     parse_seq f1 fl inp g = parse_seq f2 fl inp g) /\
  (forall fl c inp g f2, 3 * length inp + 4 <= f1 -> 3 * length inp + 4 <= f2 ->
     parse_atom f1 fl c inp g = parse_atom f2 fl c inp g).
Proof.
  induction f1 as [|f1 (IHa & IHs & IHt)].
  - repeat split; intros; lia.
  - split; [|split].
    + intros fl inp g [|f2] H1 H2; [lia|]. cbn [parse_alt].
      rewrite (IHs fl inp g f2) by lia.
      destruct (parse_seq f2 fl inp g) as [[[r1 rest] g1]|] eqn:E; [|reflexivity].
      apply (proj1 (proj2 (parse_length f2))) in E.
      destruct (head_is 124 rest) eqn:Eh; [|reflexivity].
      apply head_is_length in Eh.
      rewrite (IHa fl (tl rest) g1 f2) by lia. reflexivity.
    + intros fl inp g [|f2] H1 H2; [lia|]. cbn [parse_seq].
      destruct inp as [|c rest0]; [reflexivity|]. cbn [length] in H1, H2.
      destruct ((c =? 124)%N || (c =? 41)%N); [reflexivity|].
      rewrite (IHt fl c rest0 g f2) by lia.
      destruct (parse_atom f2 fl c rest0 g) as [[[a rest] g1]|] eqn:E; [|reflexivity].
      apply (proj2 (proj2 (parse_length f2))) in E.
      destruct (quantify a rest) as [[it rest1]|] eqn:Eq; [|reflexivity].
      apply quantify_length in Eq.
      rewrite (IHs fl rest1 g1 f2) by lia. reflexivity.
    + intros fl c inp g [|f2] H1 H2; [lia|]. cbn [parse_atom].
      pose proof (tl_length inp). pose proof (tl_length (tl inp)).
      rewrite (IHa fl (tl (tl inp)) g f2) by lia.
      rewrite (IHa fl inp (S g) f2) by lia.
      reflexivity.
Qed.

(** The fuel of [compile] is enough: more fuel changes nothing. *)
Lemma compile_fuel : forall fl pat extra,
  match parse_alt (3 * length pat + 3 + extra) fl pat 1 with
  | Some (r, [], _) => Some r
  | _ => None
  end = compile fl pat.
Proof.
  intros fl pat extra. unfold compile.
  rewrite (proj1 (parse_fuel (3 * length pat + 3 + extra)) fl pat 1 (3 * length pat + 3))
    by lia.
  reflexivity.
Qed.

(** ** The section splitter *)

Lemma parse_fallback_tail :
  parse_seq (S (3 * length fallback_tail + 1)) DOTALL fallback_tail 1
    = Some (fallback_regex, [], 2).
Proof. vm_compute. reflexivity. Qed.

Lemma compile_fallback : forall s, Plain s ->
  compile DOTALL (s ++ fallback_tail) = Some (lits s fallback_regex).
Proof.
  intros s Hs. eapply compile_plain_prefix; eauto using parse_fallback_tail.
  - repeat split.
  - lia.
Qed.

Lemma lazy_group_src : u "(.*?)" = [40; 46; 42; 63; 41]%N.
Proof. vm_compute. reflexivity. Qed.

Lemma parse_seq_lazy_group : forall f e g,
  parse_seq (S (S (S (S (S f))))) DOTALL (40 :: 46 :: 42 :: 63 :: 41 :: e)%N g =
    match quantify (Group g (Seq (Rep false 0 None Any) Eps)) e with
    | Some (it, rest1) =>
        match parse_seq (S (S (S (S f)))) DOTALL rest1 (S g) with
        | Some (r, rest2, g2) => Some (Seq it r, rest2, g2)
        | None => None
        end
    | None => None
    end.
Proof. intros. reflexivity. Qed.

Lemma parse_lazy_group : forall e, Plain e ->
  parse_seq (S (length e + 4)) DOTALL (u "(.*?)" ++ e) 1
    = Some (Seq lazy_group (lits e Eps), [], 2).
Proof.
  intros e He.
  pose proof (parse_seq_plain DOTALL e 3 [] 2 eq_refl He no_quantifier_nil) as H.
  rewrite app_nil_r in H. cbn [parse_seq] in H.
  replace (S (length e + 4)) with (S (S (S (S (S (length e)))))) by lia.
  replace (length e + 4) with (S (S (S (S (length e))))) in H by lia.
  rewrite lazy_group_src. cbn [app].
  rewrite parse_seq_lazy_group.
  rewrite quantify_none by (apply Plain_no_quantifier; assumption).
  rewrite H. reflexivity.
Qed.

Lemma compile_section : forall s e, Plain s -> Plain e ->
  compile DOTALL (s ++ u "(.*?)" ++ e) = Some (lits s (Seq lazy_group (lits e Eps))).
Proof.
  intros s e Hs He. eapply compile_plain_prefix; eauto using parse_lazy_group.
  - repeat split.
  - rewrite length_app, lazy_group_src. simpl. lia.
Qed.

Lemma flat_map_nil : forall (A B : Type) (f : A -> list B) (l : list A),
  (forall x, List.In x l -> f x = []) -> flat_map f l = [].
Proof.
  intros A B f. induction l as [|x l IH]; intros H; simpl; [reflexivity|].
  rewrite (H x) by (left; reflexivity). simpl. apply IH. intros y Hy. apply H. right. exact Hy.
Qed.

Lemma contains_skipn : forall p s k,
  PyStr.startswith p (skipn k s) = true -> PyStr.contains p s = true.
Proof.
  intros p s k H. apply startswith_spec in H. destruct H as [tl H].
  apply contains_spec. exists (firstn k s), tl.
  rewrite <- H. symmetry. apply firstn_skipn.
Qed.

Lemma search_absent_prefix : forall s r text,
  PyStr.contains s text = false ->
  search_from (lits s r) text false 0 text = None.
Proof.
  intros s r text H. apply search_from_none. intros k _.
  rewrite run_lits. cbn [rest].
  destruct (PyStr.startswith s (skipn k text)) eqn:E; [|reflexivity].
  apply contains_skipn in E. congruence.
Qed.

Lemma after_first_suffix : forall p s k tl,
  skipn k s = p ++ tl ->
  exists post pre, after_first p s = Some post /\ post = pre ++ tl.
Proof.
  intros p. induction s as [|x s IH]; intros k tl H.
  - rewrite skipn_nil in H. destruct p; [|discriminate]. simpl in H. subst tl.
    exists [], []. split; reflexivity.
  - cbn [after_first]. destruct (PyStr.startswith p (x :: s)) eqn:E.
    + exists (skipn (length p) (x :: s)), (firstn k (skipn (length p) (x :: s))).
      split; [reflexivity|].
      rewrite <- (firstn_skipn k (skipn (length p) (x :: s))) at 1.
      f_equal. rewrite skipn_skipn, Nat.add_comm, <- skipn_skipn, H.
      rewrite skipn_app, skipn_all, Nat.sub_diag. reflexivity.
    + destruct k as [|k].
      * simpl in H. assert (PyStr.startswith p (x :: s) = true)
          by (apply startswith_spec; eauto). congruence.
      * simpl in H. apply IH in H. exact H.
Qed.

Lemma contains_app_r : forall p a b,
  PyStr.contains p b = true -> PyStr.contains p (a ++ b) = true.
Proof.
  intros p a b H. apply contains_spec in H. destruct H as [pre [post ->]].
  apply contains_spec. exists (a ++ pre), post. rewrite <- app_assoc. reflexivity.
Qed.

Lemma contains_after_first : forall p s,
  PyStr.contains p s = true -> exists post, after_first p s = Some post.
Proof.
  intros p. induction s as [|x s IH]; intros H; cbn [after_first].
  - simpl in H. rewrite orb_false_r in H. rewrite H. eauto.
  - destruct (PyStr.startswith p (x :: s)) eqn:E; [eauto|].
    simpl in H. simpl in E. rewrite E in H. simpl in H. apply IH. exact H.
Qed.

(** ** Capture groups *)

Lemma rep_loop_keeps : forall n body greedy min max,
  (forall st st', List.In st' (body st) -> has_cap n st -> has_cap n st') ->
  forall fuel count last st st',
    List.In st' (rep_loop body greedy min max fuel count last st) ->
    has_cap n st -> has_cap n st'.
Proof.
  intros n body greedy min max Hb.
  induction fuel as [|fuel IH]; simpl; [tauto|].
  intros count last st st'.
  assert (Hagain : forall l,
    List.In st' (flat_map (rep_loop body greedy min max fuel (S count) l) (body st)) ->
    has_cap n st -> has_cap n st').
  { intros l H Hc. apply in_flat_map in H. destruct H as [mid [H1 H2]]. eauto. }
  destruct (count <? min); [apply Hagain|].
  destruct (below max count && negb (opt_nat_eqb last (pos st))).
  - destruct greedy.
    + intros H. apply in_app_or in H. destruct H as [H|[<-|[]]]; eauto.
    + intros [<-|H]; eauto.
  - intros [<-|[]]. auto.
Qed.

Lemma run_keeps : forall n r st st',
  List.In st' (run r st) -> has_cap n st -> has_cap n st'.
Proof.
  intros n. induction r; intros st st' H Hc; simpl in H.
  - destruct H as [<-|[]]; assumption.
  - unfold step_char in H. destruct (rest st); [destruct H|].
    destruct (char_test _ _); [|destruct H]. destruct H as [<-|[]]. exact Hc.
  - unfold step_char in H. destruct (rest st); [destruct H|].
    destruct (char_test _ _); [|destruct H]. destruct H as [<-|[]]. exact Hc.
  - unfold step_char in H. destruct (rest st); [destruct H|].
    destruct (char_test _ _); [|destruct H]. destruct H as [<-|[]]. exact Hc.
  - unfold step_char in H. destruct (rest st); [destruct H|].
    destruct (char_test _ _); [|destruct H]. destruct H as [<-|[]]. exact Hc.
  - unfold step_char in H. destruct (rest st); [destruct H|].
    destruct (char_test _ _); [|destruct H]. destruct H as [<-|[]]. exact Hc.
  - apply in_flat_map in H. destruct H as [mid [H1 H2]]. eauto.
  - apply in_app_or in H. destruct H; eauto.
  - eapply rep_loop_keeps; eauto.
  - apply in_map_iff in H. destruct H as [mid [<- H]].
    unfold has_cap. simpl. destruct (Nat.eqb n0 n); [discriminate|].
    apply (IHr _ _ H Hc).
  - destruct positive.
    + destruct (run r st) as [|x l] eqn:E; [destruct H|].
      destruct H as [<-|[]]. unfold has_cap. simpl.
      apply (IHr st x); [rewrite E; left; reflexivity|exact Hc].
    + destruct (run r st); [|destruct H]. destruct H as [<-|[]]. exact Hc.
  - destruct (Nat.eqb (pos st) 0); [|destruct H]. destruct H as [<-|[]]. exact Hc.
  - destruct (rest st) as [|c [|d tl]]; try (destruct H; fail).
    + destruct H as [<-|[]]. exact Hc.
    + destruct (c =? 10)%N; [|destruct H]. destruct H as [<-|[]]. exact Hc.
Qed.

Lemma run_sets : forall n r st st',
  sets n r = true -> List.In st' (run r st) -> has_cap n st'.
Proof.
  intros n. induction r; intros st st' Hs H; simpl in Hs; try discriminate.
  - simpl in H. apply in_flat_map in H. destruct H as [mid [H1 H2]].
    apply orb_true_iff in Hs. destruct Hs as [Hs|Hs].
    + eapply run_keeps; eauto.
    + eauto.
  - simpl in H. apply andb_true_iff in Hs. destruct Hs.
    apply in_app_or in H. destruct H; eauto.
  - apply andb_true_iff in Hs. destruct Hs as [Hm Hs].
    apply Nat.ltb_lt in Hm. simpl in H.
    destruct (min + length (rest st) + 2) as [|fuel] eqn:Ef; [lia|].
    cbn [rep_loop] in H.
    assert (Hlt : (0 <? min) = true) by (apply Nat.ltb_lt; exact Hm).
    rewrite Hlt in H. apply in_flat_map in H. destruct H as [mid [H1 H2]].
    eapply rep_loop_keeps; [|exact H2|eauto].
    intros a b Hab. eapply run_keeps; eauto.
  - simpl in H. apply in_map_iff in H. destruct H as [mid [<- H]].
    unfold has_cap. simpl. apply orb_true_iff in Hs.
    destruct (Nat.eqb n0 n); [discriminate|].
    destruct Hs as [Hs|Hs]; [discriminate|]. apply (IHr _ _ Hs H).
  - destruct positive; [|discriminate]. simpl in H.
    destruct (run r st) as [|x l] eqn:E; [destruct H|].
    destruct H as [<-|[]]. unfold has_cap. simpl.
    apply (IHr st x Hs). rewrite E. left. reflexivity.
Qed.

Lemma sets_lits : forall n s r, sets n (lits s r) = sets n r.
Proof. intros n. induction s; intros r; simpl; auto. Qed.

(** A match of a pattern that always closes group 1 has a group 1. *)
Lemma group1_ok : forall r text ma p suffix m,
  sets 1 r = true -> search_from r text ma p suffix = Some m ->
  exists s, group1 m = Ok s.
Proof.
  intros r text ma p suffix m Hs H.
  apply search_from_some in H. destruct H as [k [st' (_ & H & ->)]].
  apply (run_sets 1 r _ _ Hs) in H. unfold has_cap in H.
  unfold group1, group. cbn [m_caps].
  destruct (lookup_cap 1 (caps st')) as [[b e]|]; [eauto|congruence].
Qed.

(** The text of a match is what the matcher consumed. *)
Lemma group0_consumed : forall P r text m,
  atoms_sat P r -> search_from r text false 0 text = Some m -> Forall P (group0 m).
Proof.
  intros P r text m HP H.
  apply search_from_some in H. destruct H as [k [st' (_ & H & ->)]].
  apply (run_consumes P r HP) in H. destruct H as [w (H1 & H2 & H3)].
  cbn [rest pos] in H1, H2. unfold group0, slice. cbn [m_text m_start m_end].
  rewrite H2. replace (0 + k + length w - (0 + k)) with (length w + 0) by lia.
  change (0 + k) with k. rewrite H1.
  rewrite firstn_app_2. simpl. rewrite app_nil_r. exact H3.
Qed.

(** ** The identification branch of the cleaner *)

Lemma search_good : forall fl pat text,
  good_pattern fl pat = true ->
  exists mo, search fl pat text = Ok mo /\
             forall m, mo = Some m -> exists s, group1 m = Ok s.
Proof.
  intros fl pat text H. unfold good_pattern in H. unfold search.
  destruct (compile fl pat) as [r|]; [|discriminate].
  eexists. split; [reflexivity|]. intros m Hm. eapply group1_ok; eauto.
Qed.

Lemma sub_compiles : forall fl pat repl text,
  compiles fl pat = true -> exists s, sub fl pat repl text = Ok s.
Proof.
  intros fl pat repl text H. unfold compiles in H. unfold sub.
  destruct (compile fl pat); [eauto|discriminate].
Qed.

Lemma first_match_good : forall fl patterns text,
  forallb (good_pattern fl) patterns = true ->
  exists mo, first_match fl patterns text = Ok mo /\
             forall m, mo = Some m -> exists s, group1 m = Ok s.
Proof.
  intros fl patterns text. induction patterns as [|p ps IH]; simpl; intros H.
  - exists None. split; [reflexivity|]. discriminate.
  - apply andb_true_iff in H. destruct H as [Hp Hps].
    destruct (search_good _ _ text Hp) as [mo [E Hm]]. rewrite E. cbn [bind].
    destruct mo as [m|]; [|auto].
    exists (Some m). split; [reflexivity|]. exact Hm.
Qed.

Lemma disciplina_loop_total : forall patterns text d,
  forallb (good_pattern DOTALL) patterns = true ->
  exists d', disciplina_loop patterns text d = Ok d'.
Proof.
  induction patterns as [|p ps IH]; intros text d H; simpl.
  - eauto.
  - simpl in H. apply andb_true_iff in H. destruct H as [Hp Hps].
    destruct (search_good _ _ text Hp) as [mo [E Hm]]. rewrite E. cbn [bind].
    destruct mo as [m|]; [|auto].
    destruct (Hm m eq_refl) as [g Hg]. rewrite Hg. cbn [bind].
    destruct (sub_compiles NOFLAGS (u "\s+") (u " ") (PyStr.strip g) eq_refl) as [d1 E1].
    rewrite E1. cbn [bind].
    destruct (sub_compiles NOFLAGS (u "^\s*Curricular\s*") (u "") d1 eq_refl) as [d2 E2].
    rewrite E2. cbn [bind].
    destruct (_ && _); eauto.
Qed.

Lemma in_ranges_inv : forall tbl c,
  PyStr.in_ranges tbl c = true ->
  exists lo hi, List.In (lo, hi) tbl /\ (lo <= c)%N /\ (c <= hi)%N.
Proof.
  intros tbl c H. unfold PyStr.in_ranges in H. apply existsb_exists in H.
  destruct H as [[lo hi] [Hin H]]. apply andb_true_iff in H. destruct H as [H1 H2].
  apply N.leb_le in H1, H2. simpl in H1, H2. eauto.
Qed.

Lemma isdigit_bounds : forall c,
  PyStr.isdigit c = true -> (48 <= c <= 57)%N \/ (1632 <= c)%N.
Proof.
  intros c H. apply in_ranges_inv in H. destruct H as [lo [hi (Hin & H1 & H2)]].
  unfold PyStr.digit_table in Hin. simpl in Hin.
  destruct Hin as [Hin|Hin]; [injection Hin as <- <-; left; lia|].
  right.
  repeat (destruct Hin as [Hin|Hin]; [injection Hin as <- <-; lia|]).
  destruct Hin.
Qed.

Lemma isdigit_not_special : forall c, PyStr.isdigit c = true -> special c = false.
Proof.
  intros c H. apply isdigit_bounds in H. destruct H; not_special.
Qed.

Lemma compile_code : compile NOFLAGS (u "(CC|PP|CH|OP|MEIU)\d+[A-Z0-9]") = Some code_regex.
Proof. vm_compute. reflexivity. Qed.

Lemma code_regex_plain : atoms_sat (fun c => special c = false) code_regex.
Proof.
  unfold code_regex. cbn [atoms_sat].
  repeat split;
    try (intros c H; cbn [char_test] in H; apply N.eqb_eq in H; subst c; reflexivity).
  - intros c H. cbn [char_test existsb item_test xorb orb] in H.
    rewrite orb_false_r in H. apply isdigit_not_special. exact H.
  - intros c H. cbn [char_test existsb item_test xorb orb] in H.
    rewrite orb_false_r in H. apply orb_true_iff in H.
    destruct H as [H|H]; apply andb_true_iff in H; destruct H as [H1 H2];
      apply N.leb_le in H1, H2; not_special.
Qed.

Lemma code_match_plain : forall text m,
  search NOFLAGS (u "(CC|PP|CH|OP|MEIU)\d+[A-Z0-9]") text = Ok (Some m) ->
  Plain (group0 m).
Proof.
  intros text m H. unfold search in H. rewrite compile_code in H.
  injection H as H. eapply group0_consumed; [apply code_regex_plain|exact H].
Qed.

Lemma parse_name_tail :
  parse_seq (S (3 * length name_tail + 1)) DOTALL name_tail 1 = Some (name_regex, [], 2).
Proof. vm_compute. reflexivity. Qed.

Lemma name_pattern_good : forall codigo,
  Plain codigo -> good_pattern DOTALL (codigo ++ name_tail) = true.
Proof.
  intros codigo H. unfold good_pattern.
  rewrite (compile_plain_prefix DOTALL codigo name_tail name_regex 2
             (3 * length name_tail + 1) eq_refl H).
  - rewrite sets_lits. reflexivity.
  - vm_compute. repeat split.
  - exact parse_name_tail.
  - lia.
Qed.

Lemma bind_ok : forall (A B : Type) (x : result A) (a : A) (f : A -> result B),
  x = Ok a -> bind x f = f a.
Proof. intros A B x a f ->. reflexivity. Qed.

Lemma pystr_eqb_refl : forall a, PyStr.eqb a a = true.
Proof. intros a. unfold PyStr.eqb. destruct (list_eq_dec N.eq_dec a a); congruence. Qed.

Lemma pystr_eqb_eq : forall a b, PyStr.eqb a b = true <-> a = b.
Proof.
  intros a b. unfold PyStr.eqb. destruct (list_eq_dec N.eq_dec a b); split; congruence.
Qed.

Lemma clean_identificacao_shape : forall text,
  exists codigo disciplina carga_horaria,
    clean_chunk_text text (Some identificacao) =
      Ok (u "Informações da disciplina " ++ codigo ++ u " " ++ disciplina
            ++ u ". Carga Horária " ++ carga_horaria)
    /\ (exists mo, search NOFLAGS (u "(CC|PP|CH|OP|MEIU)\d+[A-Z0-9]") text = Ok mo /\
          codigo = match mo with Some m => group0 m | None => NA end)
    /\ (exists mo, first_match NOFLAGS carga_patterns text = Ok mo /\
          match mo with
          | Some m => exists hours, group1 m = Ok hours /\ carga_horaria = hours ++ u " Horas"
          | None => carga_horaria = NA
          end)
    /\ (search NOFLAGS (u "(CC|PP|CH|OP|MEIU)\d+[A-Z0-9]") text = Ok None ->
        search DOTALL (u "Disciplina:\s*([^>]*?)(?=\.|$)") text = Ok None ->
        disciplina = NA).
Proof.
  intros text.
  destruct (search_good NOFLAGS (u "(CC|PP|CH|OP|MEIU)\d+[A-Z0-9]") text eq_refl)
    as [mo_code [Ecode _]].
  (* the name found by the loop *)
  assert (Hloop : exists d0,
    match mo_code with
    | Some _ =>
        disciplina_loop
          [ match mo_code with Some m => group0 m | None => NA end
              ++ u "\s+(.*?)(?=Nota/Conceito|Frequência|Presencial|Semestral)";
            u "Disciplina/Unidade[^>]*?([^>]*?)(?=Nota/Conceito|Frequência|Presencial|Semestral)";
            u "Curricular\s*([^>]*?)(?=Nota/Conceito|Frequência|Presencial|Semestral)" ]
          text NA
    | None => Ok NA
    end = Ok d0 /\ (mo_code = None -> d0 = NA)).
  { destruct mo_code as [m|].
    - destruct (disciplina_loop_total
        [ group0 m ++ name_tail;
          u "Disciplina/Unidade[^>]*?([^>]*?)(?=Nota/Conceito|Frequência|Presencial|Semestral)";
          u "Curricular\s*([^>]*?)(?=Nota/Conceito|Frequência|Presencial|Semestral)" ]
        text NA) as [d0 Ed].
      + cbn [forallb]. rewrite name_pattern_good by (eapply code_match_plain; eauto).
        reflexivity.
      + exists d0. split; [exact Ed|discriminate].
    - exists NA. split; [reflexivity|reflexivity]. }
  destruct Hloop as [d0 [Ed0 Hd0]].
  (* the credit hours *)
  destruct (first_match_good NOFLAGS carga_patterns text eq_refl) as [mo_h [Eh Hh]].
  assert (Hcarga : exists carga_horaria,
    match mo_h with
    | Some m => g <- group1 m ;; Ok (g ++ u " Horas")
    | None => Ok NA
    end = Ok carga_horaria /\
    match mo_h with
    | Some m => exists hours, group1 m = Ok hours /\ carga_horaria = hours ++ u " Horas"
    | None => carga_horaria = NA
    end).
  { destruct mo_h as [m|].
    - destruct (Hh m eq_refl) as [hours Hg]. rewrite Hg. cbn [bind].
      exists (hours ++ u " Horas"). split; [reflexivity|]. exists hours. auto.
    - exists NA. split; reflexivity. }
  destruct Hcarga as [carga_horaria [Ec Hc]].
  (* the name under the label *)
  assert (Hname : exists disciplina,
    (if PyStr.eqb d0 NA || PyStr.eqb d0 [] then
       disciplina_match <- search DOTALL (u "Disciplina:\s*([^>]*?)(?=\.|$)") text ;;
       match disciplina_match with
       | Some m => g <- group1 m ;; Ok (PyStr.strip g)
       | None => Ok d0
       end
     else Ok d0) = Ok disciplina /\
    (mo_code = None ->
     search DOTALL (u "Disciplina:\s*([^>]*?)(?=\.|$)") text = Ok None -> disciplina = NA)).
  { destruct (PyStr.eqb d0 NA || PyStr.eqb d0 []).
    - destruct (search_good DOTALL (u "Disciplina:\s*([^>]*?)(?=\.|$)") text eq_refl)
        as [mo_d [Ed Hd]].
      rewrite Ed. cbn [bind]. destruct mo_d as [m|].
      + destruct (Hd m eq_refl) as [g Hg]. rewrite Hg. cbn [bind].
        exists (PyStr.strip g). split; [reflexivity|]. intros _ H. discriminate.
      + exists d0. split; [reflexivity|]. intros H _. auto.
    - exists d0. split; [reflexivity|]. intros H _. auto. }
  destruct Hname as [disciplina [En Hn]].
  exists (match mo_code with Some m => group0 m | None => NA end), disciplina, carga_horaria.
  split; [|split; [|split]].
  - unfold clean_chunk_text. cbv zeta. rewrite pystr_eqb_refl.
    erewrite bind_ok; [|exact Ecode].
    erewrite bind_ok; [|exact Ed0].
    unfold carga_patterns in Eh. cbn [first_match] in Eh.
    destruct (search NOFLAGS (u "Total\s+\d+\s+\d+\s+\d+\s+\d+\s+\d+\s+\d+\s+\d+\s+(\d+)") text)
      as [mo1|e1]; [|discriminate].
    cbn [bind] in Eh |- *.
    erewrite bind_ok; [|destruct mo1; exact Eh].
    erewrite bind_ok; [|exact Ec].
    erewrite bind_ok; [|exact En].
    reflexivity.
  - exists mo_code. split; [exact Ecode|reflexivity].
  - exists mo_h. split; [exact Eh|exact Hc].
  - intros H1 H2. apply Hn; [congruence|exact H2].
Qed.

(** ** The chunks of the assembler *)

Lemma bind_inv : forall (A B : Type) (x : result A) (f : A -> result B) (b : B),
  bind x f = Ok b -> exists a, x = Ok a /\ f a = Ok b.
Proof. intros A B [a|e] f b H; simpl in H; [eauto|discriminate]. Qed.

Lemma lstrip_nil : forall s, PyStr.lstrip s = [] <-> forallb PyStr.isspace s = true.
Proof.
  induction s as [|c s IH]; simpl; [tauto|].
  destruct (PyStr.isspace c); simpl; [exact IH|]. split; discriminate.
Qed.

Lemma forallb_rev : forall (A : Type) (f : A -> bool) (l : list A),
  forallb f (rev l) = forallb f l.
Proof.
  intros A f. induction l as [|x l IH]; simpl; [reflexivity|].
  rewrite forallb_app, IH. simpl. rewrite andb_true_r. apply andb_comm.
Qed.

Lemma lstrip_idem : forall s, PyStr.lstrip (PyStr.lstrip s) = PyStr.lstrip s.
Proof.
  induction s as [|c s IH]; simpl; [reflexivity|].
  destruct (PyStr.isspace c) eqn:E; [exact IH|]. simpl. rewrite E. reflexivity.
Qed.

Lemma strip_nil : forall s, PyStr.strip s = [] <-> forallb PyStr.isspace s = true.
Proof.
  intros s. unfold PyStr.strip, PyStr.rstrip. split.
  - intros H. apply (f_equal (@rev char)) in H. rewrite rev_involutive in H. simpl in H.
    apply lstrip_nil in H. rewrite forallb_rev in H.
    apply lstrip_nil in H. rewrite lstrip_idem in H. apply lstrip_nil. exact H.
  - intros H. apply lstrip_nil in H. rewrite H. reflexivity.
Qed.

Lemma words_aux_spaces : forall s,
  forallb PyStr.isspace s = true -> PyStr.words_aux [] s = [].
Proof.
  induction s as [|c s IH]; simpl; [reflexivity|].
  destruct (PyStr.isspace c); simpl; [exact IH|discriminate].
Qed.

Lemma split_ws_strip : forall s w ws, PyStr.split_ws s = w :: ws -> PyStr.strip s <> [].
Proof.
  intros s w ws H Hs. apply strip_nil in Hs. apply words_aux_spaces in Hs.
  unfold PyStr.split_ws in H. congruence.
Qed.

Lemma topicos_loop_chunks : forall topicos metadata chunks chunks',
  topicos_loop topicos metadata chunks = Ok chunks' ->
  exists added, chunks' = chunks ++ added /\
    Forall (fun c => chunk_tipo c = u "conteudo_programatico" /\
                     exists topico, List.In topico topicos /\ PyStr.strip topico <> [] /\
                       clean_chunk_text (PyStr.strip topico) None = Ok (chunk_text c))
           added.
Proof.
  induction topicos as [|t ts IH]; intros metadata chunks chunks' H; cbn [topicos_loop] in H.
  - injection H as <-. exists []. rewrite app_nil_r. split; constructor.
  - apply bind_inv in H. destruct H as [cleaned [Hc H]].
    apply bind_inv in H. destruct H as [w [Hw H]].
    apply IH in H. destruct H as [added [-> Hadded]].
    eexists (_ :: added). rewrite <- app_assoc. split; [reflexivity|].
    constructor.
    + split; [reflexivity|]. exists t. split; [left; reflexivity|]. split; [|exact Hc].
      destruct (PyStr.split_ws t) as [|w0 ws] eqn:E; [discriminate|].
      eapply split_ws_strip; eauto.
    + eapply Forall_impl; [|exact Hadded]. intros c [H1 [topico (H2 & H3 & H4)]].
      split; [exact H1|]. exists topico. split; [right; exact H2|]. auto.
Qed.

Lemma section_step : forall s tipo metadata chunks chunks',
  (if negb (PyStr.eqb s []) then
     cleaned <- clean_chunk_text s None ;;
     Ok (chunks ++ [Chunk cleaned tipo metadata])
   else Ok chunks) = Ok chunks' ->
  exists added, chunks' = chunks ++ added /\
    Forall (fun c => chunk_tipo c = tipo /\ s <> [] /\
                     clean_chunk_text s None = Ok (chunk_text c)) added.
Proof.
  intros s tipo metadata chunks chunks' H.
  destruct (PyStr.eqb s []) eqn:E; cbn [negb] in H.
  - injection H as <-. exists []. rewrite app_nil_r. split; constructor.
  - apply bind_inv in H. destruct H as [cleaned [Hc H]]. injection H as <-.
    eexists [_]. split; [reflexivity|]. constructor; [|constructor].
    split; [reflexivity|]. split; [|exact Hc].
    intros ->. rewrite pystr_eqb_refl in E. discriminate.
Qed.

(** The shape of the chunk list of the assembler. *)
Lemma process_pdf_content_chunks : forall text filename metadata chunks,
  process_pdf_content text filename = Ok (metadata, chunks) ->
  exists ident rest,
    clean_chunk_text (firstn 500 text) (Some identificacao) = Ok ident /\
    chunks = Chunk ident (u "identificacao") metadata :: rest /\
    Forall (chunk_origin text) rest.
Proof.
  intros text filename metadata chunks H. unfold process_pdf_content in H. cbv zeta in H.
  apply bind_inv in H. destruct H as [md0 [_ H]].
  apply bind_inv in H. destruct H as [md [_ H]].
  apply bind_inv in H. destruct H as [ident [Hident H]].
  apply bind_inv in H. destruct H as [objetivo [Hobj H]].
  apply bind_inv in H. destruct H as [chunks1 [H1 H]].
  apply bind_inv in H. destruct H as [ementa [Hem H]].
  apply bind_inv in H. destruct H as [chunks2 [H2 H]].
  apply bind_inv in H. destruct H as [conteudo [Hco H]].
  apply bind_inv in H. destruct H as [chunks3 [H3 H]].
  apply bind_inv in H. destruct H as [basica [Hbb H]].
  apply bind_inv in H. destruct H as [chunks4 [H4 H]].
  apply bind_inv in H. destruct H as [complementar [Hbc H]].
  apply bind_inv in H. destruct H as [chunks5 [H5 H]].
  injection H as <- <-.
  apply section_step in H1. destruct H1 as [a1 [-> F1]].
  apply section_step in H2. destruct H2 as [a2 [-> F2]].
  assert (H3' : exists a3, chunks3 = ((([] ++ [Chunk ident (u "identificacao") md]) ++ a1) ++ a2) ++ a3
                 /\ Forall (fun c => chunk_tipo c = u "conteudo_programatico" /\ from_topic text c) a3).
  { destruct (PyStr.eqb conteudo []) eqn:E; cbn [negb] in H3.
    - injection H3 as <-. exists []. rewrite app_nil_r. split; constructor.
    - apply bind_inv in H3. destruct H3 as [topicos [Hf H3]].
      apply topicos_loop_chunks in H3. destruct H3 as [a3 [-> F3]].
      exists a3. split; [reflexivity|].
      eapply Forall_impl; [|exact F3]. intros c [Ht [topico (Hin & Hs & Hc)]].
      split; [exact Ht|]. exists conteudo, topicos, topico.
      repeat split; auto.
      intros ->. rewrite pystr_eqb_refl in E. discriminate. }
  destruct H3' as [a3 [-> F3]].
  apply section_step in H4. destruct H4 as [a4 [-> F4]].
  apply section_step in H5. destruct H5 as [a5 [-> F5]].
  exists ident, (a1 ++ a2 ++ a3 ++ a4 ++ a5).
  split; [exact Hident|]. split.
  - cbn [app]. rewrite <- !app_assoc. reflexivity.
  - rewrite !Forall_app. repeat split.
    + eapply Forall_impl; [|exact F1]. intros c (Ht & Hs & Hc).
      left. split; [exact Ht|]. exists objetivo. auto.
    + eapply Forall_impl; [|exact F2]. intros c (Ht & Hs & Hc).
      right; left. split; [exact Ht|]. exists ementa. auto.
    + eapply Forall_impl; [|exact F3]. intros c (Ht & Hc).
      right; right; left. auto.
    + eapply Forall_impl; [|exact F4]. intros c (Ht & Hs & Hc).
      right; right; right; left. split; [exact Ht|]. exists basica. auto.
    + eapply Forall_impl; [|exact F5]. intros c (Ht & Hs & Hc).
      right; right; right; right. split; [exact Ht|]. exists complementar. auto.
Qed.

(** ** Storage identifiers *)

Lemma digit_value : forall d, d < 10 -> N.to_nat (48 + N.of_nat d) - 48 = d.
Proof. intros d H. lia. Qed.

Lemma digits_aux_fold : forall fuel n acc,
  n < fuel ->
  fold_left (fun a c => 10 * a + (N.to_nat c - 48)) (PyStr.digits_aux fuel n acc) 0
    = fold_left (fun a c => 10 * a + (N.to_nat c - 48)) acc n.
Proof.
  induction fuel as [|fuel IH]; intros n acc H; [lia|].
  cbn [PyStr.digits_aux].
  destruct (n <? 10) eqn:E.
  - apply Nat.ltb_lt in E. cbn [fold_left]. rewrite digit_value by (apply Nat.mod_upper_bound; lia).
    rewrite Nat.mod_small by lia. reflexivity.
  - apply Nat.ltb_ge in E.
    rewrite IH.
    + cbn [fold_left]. rewrite digit_value by (apply Nat.mod_upper_bound; lia).
      f_equal. pose proof (Nat.div_mod_eq n 10). lia.
    + pose proof (Nat.div_lt n 10). lia.
Qed.

Lemma nat_of_digits_of_nat : forall n, nat_of_digits (PyStr.str_of_nat n) = n.
Proof.
  intros n. unfold nat_of_digits, PyStr.str_of_nat.
  rewrite digits_aux_fold by lia. reflexivity.
Qed.

Lemma str_of_nat_inj : forall i j, PyStr.str_of_nat i = PyStr.str_of_nat j -> i = j.
Proof.
  intros i j H. apply (f_equal nat_of_digits) in H.
  rewrite !nat_of_digits_of_nat in H. exact H.
Qed.

Lemma digits_aux_digits : forall fuel n acc,
  Forall (fun c => c <> 95%N) acc ->
  Forall (fun c => c <> 95%N) (PyStr.digits_aux fuel n acc).
Proof.
  induction fuel as [|fuel IH]; intros n acc H; cbn [PyStr.digits_aux]; [exact H|].
  assert (Hd : Forall (fun c => c <> 95%N) ((48 + N.of_nat (n mod 10))%N :: acc)).
  { constructor; [|exact H]. pose proof (Nat.mod_upper_bound n 10). lia. }
  destruct (n <? 10); [exact Hd|]. apply IH. exact Hd.
Qed.

Lemma str_of_nat_no_underscore : forall n, Forall (fun c => c <> 95%N) (PyStr.str_of_nat n).
Proof. intros n. apply digits_aux_digits. constructor. Qed.

(** Two strings without an underscore, each followed by an underscore,
    are equal when the whole strings are. *)
Lemma split_at_underscore : forall a b x y,
  Forall (fun c => c <> 95%N) a -> Forall (fun c => c <> 95%N) b ->
  a ++ 95%N :: x = b ++ 95%N :: y -> a = b /\ x = y.
Proof.
  induction a as [|c a IH]; intros b x y Ha Hb H.
  - destruct b as [|d b]; simpl in H.
    + injection H as ->. auto.
    + injection H as <- _. inversion Hb; subst. congruence.
  - destruct b as [|d b]; simpl in H.
    + injection H as -> _. inversion Ha; subst. congruence.
    + injection H as -> H. inversion Ha; inversion Hb; subst.
      destruct (IH b x y) as [-> ->]; auto.
Qed.

Lemma tipos_codes : tipos =
  [ [105; 100; 101; 110; 116; 105; 102; 105; 99; 97; 99; 97; 111];
    [111; 98; 106; 101; 116; 105; 118; 111];
    [101; 109; 101; 110; 116; 97];
    [99; 111; 110; 116; 101; 117; 100; 111; 95; 112; 114; 111; 103; 114; 97; 109; 97;
     116; 105; 99; 111];
    [98; 105; 98; 108; 105; 111; 103; 114; 97; 102; 105; 97; 95; 98; 97; 115; 105; 99; 97];
    [98; 105; 98; 108; 105; 111; 103; 114; 97; 102; 105; 97; 95; 99; 111; 109; 112; 108;
     101; 109; 101; 110; 116; 97; 114] ]%N.
Proof. vm_compute. reflexivity. Qed.

(** No chunk type followed by an underscore is a prefix of another. *)
Lemma tipos_prefix_free : forall t1 t2 x y,
  List.In t1 tipos -> List.In t2 tipos ->
  t1 ++ 95%N :: x = t2 ++ 95%N :: y -> t1 = t2.
Proof.
  intros t1 t2 x y H1 H2 H. rewrite tipos_codes in H1, H2.
  cbn [List.In] in H1, H2.
  repeat (destruct H1 as [H1|H1]; [subst t1|]); try contradiction;
  repeat (destruct H2 as [H2|H2]; [subst t2|]); try contradiction;
  try reflexivity; cbn [app] in H; congruence.
Qed.

Lemma underscore_code : u "_" = [95%N].
Proof. vm_compute. reflexivity. Qed.

(** The identifier determines the chunk type, the index and the model. *)
Lemma chunk_id_inj : forall codigo t1 t2 i j m n,
  List.In t1 tipos -> List.In t2 tipos ->
  chunk_id codigo t1 i m = chunk_id codigo t2 j n ->
  t1 = t2 /\ i = j /\ m = n.
Proof.
  intros codigo t1 t2 i j m n H1 H2 H. unfold chunk_id in H.
  rewrite underscore_code in H. cbn [app] in H.
  apply app_inv_head in H. injection H as H.
  assert (Ht : t1 = t2) by (eapply tipos_prefix_free; eauto).
  subst t2. apply app_inv_head in H. injection H as H.
  apply split_at_underscore in H; try apply str_of_nat_no_underscore.
  destruct H as [Hd ->]. apply str_of_nat_inj in Hd. auto.
Qed.

Lemma chunk_origin_tipo : forall text c, chunk_origin text c -> List.In (chunk_tipo c) tipos.
Proof.
  intros text c H. unfold tipos. cbn [List.In].
  destruct H as [[H _]|[[H _]|[[H _]|[[H _]|[H _]]]]]; rewrite H; tauto.
Qed.

Lemma process_pdf_content_tipos : forall text filename metadata chunks,
  process_pdf_content text filename = Ok (metadata, chunks) ->
  Forall (fun c => List.In (chunk_tipo c) tipos) chunks.
Proof.
  intros text filename metadata chunks H.
  apply process_pdf_content_chunks in H. destruct H as [ident [rest (_ & -> & H)]].
  constructor.
  - left. reflexivity.
  - eapply Forall_impl; [|exact H]. intros c. apply chunk_origin_tipo.
Qed.

(** ** The language of a pattern *)

Lemma step_char_lang : forall r st st',
  List.In st' (step_char r st) ->
  exists c, reaches st st' [c] /\ char_test r c = true.
Proof.
  intros r st st'. unfold step_char.
  destruct (rest st) as [|c tl] eqn:E; simpl; [tauto|].
  destruct (char_test r c) eqn:T; simpl; [|tauto].
  intros [<-|[]]. exists c. unfold reaches. simpl. repeat split; auto; lia.
Qed.

Lemma rep_loop_lang : forall (L : str -> Prop) body greedy min max,
  (forall st st', List.In st' (body st) -> exists w, reaches st st' w /\ L w) ->
  forall fuel count last st st',
    List.In st' (rep_loop body greedy min max fuel count last st) ->
    exists ws, reaches st st' (concat ws) /\ Forall L ws /\ min <= count + length ws.
Proof.
  intros L body greedy min max Hb. induction fuel as [|fuel IH]; simpl; [tauto|].
  intros count last st st'.
  assert (Hstop : min <= count ->
    exists ws, reaches st st (concat ws) /\ Forall L ws /\ min <= count + length ws).
  { intros Hm. exists []. unfold reaches. simpl. repeat split; auto; lia. }
  assert (Hagain : forall l,
    List.In st' (flat_map (rep_loop body greedy min max fuel (S count) l) (body st)) ->
    exists ws, reaches st st' (concat ws) /\ Forall L ws /\ min <= count + length ws).
  { intros l H. apply in_flat_map in H. destruct H as [mid [H1 H2]].
    apply Hb in H1. destruct H1 as [w [[R1 R2] Hw]].
    apply IH in H2. destruct H2 as [ws [[R3 R4] [Hws Hm]]].
    exists (w :: ws). unfold reaches. simpl. rewrite <- app_assoc, <- R3, R1.
    repeat split; auto.
    - rewrite R4, R2, length_app. lia.
    - lia. }
  destruct (count <? min) eqn:E; [apply Hagain|].
  apply Nat.ltb_ge in E.
  destruct (below max count && negb (opt_nat_eqb last (pos st))).
  - destruct greedy.
    + intros H. apply in_app_or in H. destruct H as [H|[<-|[]]]; eauto.
    + intros [<-|H]; eauto.
  - intros [<-|[]]. auto.
Qed.

(** Soundness of the matcher: what it consumes is in the language. *)
Lemma run_lang : forall r st st',
  List.In st' (run r st) -> exists w, reaches st st' w /\ lang r w.
Proof.
  assert (Hrefl : forall st, reaches st st []).
  { intros st. unfold reaches. simpl. split; auto; lia. }
  induction r; intros st st' H;
    try (apply step_char_lang in H; destruct H as [c0 [H1 H2]];
         exists [c0]; split; [exact H1|cbn [lang]; exists c0; split; [reflexivity|exact H2]]; fail);
    simpl in H.
  - destruct H as [<-|[]]. exists []. split; [apply Hrefl|reflexivity].
  - apply in_flat_map in H. destruct H as [mid [H1 H2]].
    apply IHr1 in H1. destruct H1 as [w1 [[R1 R2] L1]].
    apply IHr2 in H2. destruct H2 as [w2 [[R3 R4] L2]].
    exists (w1 ++ w2). split.
    + unfold reaches. rewrite <- app_assoc, <- R3, R1, R4, R2, length_app. split; auto; lia.
    + exists w1, w2. auto.
  - apply in_app_or in H. destruct H as [H|H].
    + apply IHr1 in H. destruct H as [w [R L1]]. exists w. split; [exact R|left; exact L1].
    + apply IHr2 in H. destruct H as [w [R L1]]. exists w. split; [exact R|right; exact L1].
  - apply (rep_loop_lang (lang r)) in H; [|exact IHr].
    destruct H as [ws (R & F & Hm)]. exists (concat ws). split; [exact R|].
    exists ws. repeat split; auto.
  - apply in_map_iff in H. destruct H as [mid [<- H]].
    apply IHr in H. destruct H as [w [R L1]]. exists w. split; [exact R|exact L1].
  - exists []. split; [|reflexivity]. destruct positive.
    + destruct (run r st) as [|x l]; simpl in H; [tauto|].
      destruct H as [<-|[]]. unfold reaches. simpl. split; auto; lia.
    + destruct (run r st); simpl in H; [|tauto].
      destruct H as [<-|[]]. apply Hrefl.
  - exists []. split; [|reflexivity].
    destruct (Nat.eqb (pos st) 0); simpl in H; [|tauto].
    destruct H as [<-|[]]. apply Hrefl.
  - exists []. split; [|reflexivity].
    destruct (rest st) as [|c [|d tl]]; simpl in H; try tauto.
    + destruct H as [<-|[]]. apply Hrefl.
    + destruct (c =? 10)%N; simpl in H; [|tauto].
      destruct H as [<-|[]]. apply Hrefl.
Qed.

(** A run of code points accepted by a one-character pattern is one of
    the ways through its repeat. *)
Lemma rep_char_reach : forall a greedy min w tl caps fuel count last p,
  Forall (fun c => char_test a c = true) w ->
  min <= count + length w ->
  length w + (min - count) < fuel ->
  (forall q, last = Some q -> q < p) ->
  List.In (MState (p + length w) tl caps)
          (rep_loop (step_char a) greedy min None fuel count last (MState p (w ++ tl) caps)).
Proof.
  intros a greedy min w. induction w as [|c w IH];
    intros tl caps fuel count last p Hw Hm Hf Hlast.
  - destruct fuel as [|fuel]; [simpl in Hf; lia|].
    simpl in Hm. cbn [rep_loop length app].
    replace (count <? min) with false by (symmetry; apply Nat.ltb_ge; lia).
    rewrite Nat.add_0_r. cbn [below andb pos].
    destruct (negb (opt_nat_eqb last p)).
    + destruct greedy.
      * apply in_or_app. right. left. reflexivity.
      * left. reflexivity.
    + left. reflexivity.
  - destruct fuel as [|fuel]; [simpl in Hf; lia|].
    inversion Hw as [|? ? Hc Hw']; subst.
    cbn [rep_loop length app].
    assert (Hbody : step_char a (MState p (c :: w ++ tl) caps)
                    = [MState (S p) (w ++ tl) caps]).
    { unfold step_char. cbn [rest pos Re.caps]. rewrite Hc. reflexivity. }
    rewrite Hbody. cbn [flat_map]. rewrite !app_nil_r.
    replace (p + S (length w)) with (S p + length w) by lia.
    simpl in Hm, Hf.
    destruct (count <? min) eqn:E.
    + apply Nat.ltb_lt in E. apply IH; auto; try lia.
      intros q Hq. apply Hlast in Hq. lia.
    + apply Nat.ltb_ge in E. cbn [below andb pos].
      assert (Hne : negb (opt_nat_eqb last p) = true).
      { destruct last as [q|]; [|reflexivity]. simpl.
        specialize (Hlast q eq_refl). apply negb_true_iff. apply Nat.eqb_neq. lia. }
      rewrite Hne.
      assert (Hin : List.In (MState (S p + length w) tl caps)
                (rep_loop (step_char a) greedy min None fuel (S count) (Some p)
                   (MState (S p) (w ++ tl) caps))).
      { apply IH; auto; try lia. intros q [= <-]. lia. }
      destruct greedy.
      * apply in_or_app. left. exact Hin.
      * right. exact Hin.
Qed.

(** *** The course code of the metadata extractor *)

Lemma compile_header_code : compile NOFLAGS (u "(CC|PP)\d+[A-Z]") = Some header_code_regex.
Proof. vm_compute. reflexivity. Qed.

Lemma code_prefixes_codes : code_prefixes = [[67; 67]; [80; 80]]%N.
Proof. vm_compute. reflexivity. Qed.

Lemma concat_digits : forall ws,
  Forall (fun w => exists c, w = [c] /\ PyStr.isdigit c = true) ws ->
  forallb PyStr.isdigit (concat ws) = true /\ length (concat ws) = length ws.
Proof.
  induction ws as [|w ws IH]; intros H; simpl; [auto|].
  inversion H as [|? ? [c [-> Hc]] H']; subst. destruct (IH H') as [H1 H2].
  simpl. rewrite Hc, H1, H2. auto.
Qed.

Lemma header_code_lang : forall w, lang header_code_regex w -> course_code w.
Proof.
  intros w H. unfold header_code_regex in H. cbn [lang] in H.
  destruct H as (w1 & w2 & -> & Hp & w3 & w4 & -> & (ws & -> & Hws & Hn)
                 & w5 & w6 & -> & (c & -> & Hc) & ->).
  assert (Hd : Forall (fun w => exists c, w = [c] /\ PyStr.isdigit c = true) ws).
  { eapply Forall_impl; [|exact Hws]. intros x [d [-> Hd]]. exists d. split; [reflexivity|].
    cbn [char_test existsb item_test xorb] in Hd. rewrite orb_false_r in Hd. exact Hd. }
  apply concat_digits in Hd. destruct Hd as [Hd Hl].
  exists w1, (concat ws), c. rewrite app_nil_r. split; [reflexivity|].
  split; [|split; [|split]].
  - rewrite code_prefixes_codes.
    destruct Hp as [Hp|Hp];
      destruct Hp as (a & b & -> & (x & -> & Hx) & y & z & -> & (x2 & -> & Hx2) & ->);
      cbn [char_test] in Hx, Hx2; apply N.eqb_eq in Hx, Hx2; subst; simpl; auto.
  - intros E. rewrite E in Hl. simpl in Hl. lia.
  - exact Hd.
  - cbn [char_test existsb item_test xorb] in Hc. rewrite orb_false_r in Hc. exact Hc.
Qed.

Lemma in_nonempty : forall (A : Type) (x : A) (l : list A), List.In x l -> l <> [].
Proof. intros A x l H E. rewrite E in H. destruct H. Qed.

Lemma header_code_complete : forall prefix digits c post p caps,
  List.In prefix code_prefixes -> digits <> [] ->
  forallb PyStr.isdigit digits = true -> is_upper c = true ->
  run header_code_regex (MState p (prefix ++ digits ++ [c] ++ post) caps) <> [].
Proof.
  intros prefix digits c post p caps Hp Hne Hd Hc.
  rewrite code_prefixes_codes in Hp. unfold header_code_regex.
  assert (Hrest : forall p' caps',
    run (Seq (Rep true 1 None (InSet false [IDigit]))
             (Seq (InSet false [IRange 65%N 90%N]) Eps))
        (MState p' (digits ++ [c] ++ post) caps') <> []).
  { intros p' caps'. cbn [run].
    eapply in_nonempty. apply in_flat_map.
    exists (MState (p' + length digits) ([c] ++ post) caps'). split.
    - change (run (InSet false [IDigit])) with (step_char (InSet false [IDigit])).
      cbn [rest].
      apply rep_char_reach.
      + apply Forall_forall. intros d Hin. rewrite forallb_forall in Hd.
        cbn [char_test existsb item_test xorb]. rewrite (Hd d Hin). reflexivity.
      + destruct digits; [congruence|]. simpl. lia.
      + rewrite !length_app. simpl. lia.
      + discriminate.
    - apply in_flat_map. eexists. split; [|left; reflexivity].
      unfold step_char. cbn [rest app char_test existsb item_test xorb].
      unfold is_upper in Hc. rewrite Hc. left. reflexivity. }
  destruct Hp as [<-|[<-|[]]].
  - cbn [run app step_char rest pos Re.caps char_test N.eqb Pos.eqb flat_map map].
    rewrite ?app_nil_r. exact (Hrest _ _).
  - cbn [run app step_char rest pos Re.caps char_test N.eqb Pos.eqb flat_map map].
    rewrite ?app_nil_r. exact (Hrest _ _).
Qed.

Lemma dict_get_set_same : forall (V : Type) k (v : V) d,
  dict_get k (dict_set k v d) = Some v.
Proof.
  intros V k v. induction d as [|[k' v'] d IH]; simpl.
  - rewrite pystr_eqb_refl. reflexivity.
  - destruct (PyStr.eqb k' k) eqn:E; simpl; rewrite E; auto.
Qed.

Lemma dict_get_set_other : forall (V : Type) a b (v : V) d,
  PyStr.eqb a b = false -> dict_get b (dict_set a v d) = dict_get b d.
Proof.
  intros V a b v d Hab. induction d as [|[k' v'] d IH]; simpl.
  - rewrite Hab. reflexivity.
  - destruct (PyStr.eqb k' a) eqn:E; simpl.
    + apply pystr_eqb_eq in E. subst k'. rewrite Hab. reflexivity.
    + destruct (PyStr.eqb k' b); auto.
Qed.

(** No position before the reported match has a match. *)
Lemma search_from_leftmost : forall r text suffix p m,
  search_from r text false p suffix = Some m ->
  forall j, p + j < m_start m -> run r (MState (p + j) (skipn j suffix) []) = [].
Proof.
  intros r text. induction suffix as [|c tl IH]; intros p m H j Hj; simpl in H.
  - destruct (run r (MState p [] [])) as [|st l] eqn:E; [discriminate|].
    injection H as <-. simpl in Hj. lia.
  - destruct (run r (MState p (c :: tl) [])) as [|st l] eqn:E.
    + destruct j as [|j].
      * rewrite Nat.add_0_r. exact E.
      * simpl. replace (p + S j) with (S p + j) by lia. eapply IH; eauto. lia.
    + injection H as <-. simpl in Hj. lia.
Qed.

(** ** The ingestion drivers *)

Section Stays.

Variables (S : Type) (R : S -> S -> Prop).
Hypothesis R_refl : forall s, R s s.
Hypothesis R_trans : forall a b c, R a b -> R b c -> R a c.

Lemma stays_ret : forall (A : Type) (a : A), stays R (ret a).
Proof. intros A a s. apply R_refl. Qed.

Lemma stays_lift : forall (A : Type) (r : result A), stays R (lift r).
Proof. intros A r s. apply R_refl. Qed.

Lemma stays_mbind : forall (A B : Type) (c : M S A) (f : A -> M S B),
  stays R c -> (forall a, stays R (f a)) -> stays R (mbind c f).
Proof.
  intros A B c f Hc Hf s. unfold mbind. specialize (Hc s).
  destruct (c s) as [[a|e] s']; simpl in *.
  - eapply R_trans; [exact Hc|apply Hf].
  - exact Hc.
Qed.

Lemma stays_try_except : forall (A : Type) (body : M S A) (handler : exn -> M S A),
  stays R body -> (forall e, stays R (handler e)) -> stays R (try_except body handler).
Proof.
  intros A body handler Hb Hh s. unfold try_except. specialize (Hb s).
  destruct (body s) as [[a|e] s']; simpl in *.
  - exact Hb.
  - eapply R_trans; [exact Hb|apply Hh].
Qed.

Lemma stays_for_each : forall (A : Type) (xs : list A) (body : A -> M S unit),
  (forall x, stays R (body x)) -> stays R (for_each xs body).
Proof.
  intros A xs body Hb. induction xs as [|x xs IH]; simpl.
  - apply stays_ret.
  - apply stays_mbind; [apply Hb|intros _; exact IH].
Qed.

End Stays.

Section Drivers.

Variable vec : Type.
Variable fitz_text : str -> result str.
Variable os_path_exists : str -> bool.
Variable os_listdir : str -> result (list str).
Variable add_error : list (record vec) -> record vec -> option exn.

Lemma extends_refl : forall a : list (collection vec), extends a a.
Proof.
  induction a as [|c a IH]; constructor; [|exact IH].
  split; [reflexivity|]. exists []. symmetry. apply app_nil_r.
Qed.

Lemma extends_trans : forall a b c : list (collection vec), extends a b -> extends b c -> extends a c.
Proof.
  intros a b c H. revert c. induction H as [|x y a b [Hn [ad Hr]] H IH]; intros c Hc.
  - inversion Hc. constructor.
  - inversion Hc as [|? z ? c' [Hn' [ad' Hr']] Hc']; subst. constructor; [|apply IH; exact Hc'].
    split; [congruence|]. exists (ad ++ ad'). rewrite Hr', Hr, app_assoc. reflexivity.
Qed.

Lemma grows_refl : forall w : world vec, grows w w.
Proof.
  intros w. split; [apply extends_refl|]. exists []. symmetry. apply app_nil_r.
Qed.

Lemma grows_trans : forall a b c : world vec, grows a b -> grows b c -> grows a c.
Proof.
  intros a b c [H1 [e1 E1]] [H2 [e2 E2]]. split; [eapply extends_trans; eauto|].
  exists (e1 ++ e2). rewrite E2, E1, app_assoc. reflexivity.
Qed.

Lemma grows_rs_refl : forall s : run_state vec, grows_rs s s.
Proof. intros s. apply grows_refl. Qed.

Lemma grows_rs_trans : forall a b c : run_state vec, grows_rs a b -> grows_rs b c -> grows_rs a c.
Proof. intros a b c. apply grows_trans. Qed.

Lemma store_add_extends : forall name r cs cs',
  store_add add_error name r cs = Ok cs' -> extends cs cs'.
Proof.
  intros name r. induction cs as [|c cs IH]; intros cs' H; simpl in H; [discriminate|].
  destruct (PyStr.eqb (coll_name c) name).
  - destruct (add_error (coll_records c) r); [discriminate|].
    destruct (holds_id (r_id r) (coll_records c)); injection H as <-.
    + apply extends_refl.
    + constructor; [|apply extends_refl]. split; [reflexivity|]. exists [r]. reflexivity.
  - destruct (store_add add_error name r cs) as [tl'|e]; [|discriminate].
    injection H as <-. constructor; [|apply IH; reflexivity].
    split; [reflexivity|]. exists []. symmetry. apply app_nil_r.
Qed.

Lemma stays_print : forall ev, stays (@grows vec) (print ev).
Proof.
  intros ev w. unfold print. simpl. split; [apply extends_refl|].
  exists [ev]. reflexivity.
Qed.

Lemma stays_collection_add : forall name r,
  stays (@grows vec) (collection_add add_error name r).
Proof.
  intros name r w. unfold collection_add.
  destruct (store_add add_error name r (store w)) as [s'|e] eqn:E; simpl.
  - split; [eapply store_add_extends; eauto|]. exists []. symmetry. apply app_nil_r.
  - apply grows_refl.
Qed.

Lemma stays_in_world : forall (A : Type) (c : M (world vec) A),
  stays (@grows vec) c -> stays (@grows_rs vec) (in_world c).
Proof.
  intros A c H s. unfold in_world. specialize (H (rs_world s)).
  destruct (c (rs_world s)) as [r w']. exact H.
Qed.

Lemma stays_extract_text : forall pdf_path,
  stays (@grows vec) (extract_text_from_pdf fitz_text pdf_path).
Proof.
  intros pdf_path. unfold extract_text_from_pdf.
  apply stays_try_except; try apply grows_trans.
  - apply stays_mbind; try apply grows_trans.
    + apply stays_lift, grows_refl.
    + intros a. apply stays_ret, grows_refl.
  - intros e. apply stays_mbind; try apply grows_trans.
    + apply stays_print.
    + intros _. apply stays_ret, grows_refl.
Qed.

Lemma stays_insert_chunks : forall source codigo chunks models collections,
  stays (@grows vec) (insert_chunks add_error source codigo chunks models collections).
Proof.
  intros source codigo chunks models collections. unfold insert_chunks.
  apply stays_for_each; try apply grows_refl; try apply grows_trans.
  intros [[model_name encode] collection].
  apply stays_mbind; try apply grows_trans; [apply stays_print|]. intros _.
  apply stays_mbind; try apply grows_trans; [|intros _; apply stays_print].
  apply stays_for_each; try apply grows_refl; try apply grows_trans.
  intros [i chunk].
  apply stays_mbind; try apply grows_trans; [apply stays_lift, grows_refl|].
  intros embedding. apply stays_collection_add.
Qed.

Lemma stays_process_one : forall pdf_file models collections,
  stays (@grows_rs vec) (process_one fitz_text add_error pdf_file models collections).
Proof.
  intros pdf_file models collections. unfold process_one.
  apply stays_mbind; try apply grows_rs_trans.
  - apply stays_in_world, stays_extract_text.
  - intros text. destruct (negb (text_truthy text)).
    + apply stays_ret, grows_rs_refl.
    + apply stays_mbind; try apply grows_rs_trans; [apply stays_lift, grows_rs_refl|].
      intros [metadata chunks].
      apply stays_mbind; try apply grows_rs_trans; [apply stays_lift, grows_rs_refl|].
      intros codigo.
      apply stays_mbind; try apply grows_rs_trans.
      * intros s. simpl. apply grows_refl.
      * intros _. apply stays_mbind; try apply grows_rs_trans.
        -- apply stays_in_world, stays_print.
        -- intros _. apply stays_in_world, stays_insert_chunks.
Qed.

(** One turn of the loop over the files. *)
Lemma process_files_cons : forall pdf_file rest models collections s,
  process_files fitz_text add_error (pdf_file :: rest) models collections s =
    match process_one fitz_text add_error pdf_file models collections s with
    | (Ok _, s1) => process_files fitz_text add_error rest models collections s1
    | (Raise e, s1) =>
        process_files fitz_text add_error rest models collections (logged pdf_file e s1)
    end.
Proof.
  intros pdf_file rest models collections s.
  unfold process_files. cbn [for_each]. unfold mbind at 1. unfold try_except at 1.
  destruct (process_one fitz_text add_error pdf_file models collections s) as [[[]|e] s1];
    reflexivity.
Qed.

(** The loop over the files never raises. *)
Lemma process_files_returns : forall pdf_files models collections s,
  exists s', process_files fitz_text add_error pdf_files models collections s = (Ok tt, s').
Proof.
  induction pdf_files as [|f fs IH]; intros models collections s.
  - eexists. reflexivity.
  - rewrite process_files_cons.
    destruct (process_one fitz_text add_error f models collections s) as [[[]|e] s1]; apply IH.
Qed.

Lemma stays_process_files : forall pdf_files models collections,
  stays (@grows_rs vec) (process_files fitz_text add_error pdf_files models collections).
Proof.
  intros pdf_files models collections. unfold process_files.
  apply stays_for_each; try apply grows_rs_refl; try apply grows_rs_trans.
  intros f. apply stays_try_except; try apply grows_rs_trans.
  - apply stays_process_one.
  - intros e. apply stays_in_world, stays_print.
Qed.

(** The files after a run of files are processed from the state that
    run ends in. *)
Lemma process_files_app : forall before after models collections s s',
  process_files fitz_text add_error before models collections s = (Ok tt, s') ->
  process_files fitz_text add_error (before ++ after) models collections s
    = process_files fitz_text add_error after models collections s'.
Proof.
  induction before as [|f fs IH]; intros after models collections s s' H.
  - cbn in H. injection H as <-. reflexivity.
  - rewrite <- app_comm_cons. rewrite process_files_cons in H |- *.
    destruct (process_one fitz_text add_error f models collections s) as [[[]|e] s1];
      apply IH; exact H.
Qed.

(** The driver over a directory that exists, can be listed and holds PDF
    files: its result is read from the state the loop over the files ends
    in. *)
Lemma process_all_pdfs_run : forall pdf_dir names models collections w s,
  os_path_exists pdf_dir = true ->
  os_listdir pdf_dir = Ok names ->
  pdf_files_in pdf_dir names <> [] ->
  process_files fitz_text add_error (pdf_files_in pdf_dir names) models collections
    (RunState (World (store w)
                 (console w ++ [PrintFound (length (pdf_files_in pdf_dir names)) pdf_dir]))
              [])
    = (Ok tt, s) ->
  process_all_pdfs_in_directory fitz_text os_path_exists os_listdir add_error
    pdf_dir models collections w
    = (Ok (chunks_por_disciplina s),
       World (store (rs_world s)) (console (rs_world s) ++ [PrintDone])).
Proof.
  intros pdf_dir names models collections w s He Hl Hne Hs.
  unfold process_all_pdfs_in_directory. rewrite He, Hl. cbn [negb]. cbv zeta.
  destruct (pdf_files_in pdf_dir names) as [|f fs] eqn:E; [congruence|].
  unfold mbind at 1. unfold in_world at 1. unfold print at 1. cbn [rs_world chunks_por_disciplina].
  unfold mbind at 1. rewrite Hs.
  unfold in_world, print. reflexivity.
Qed.

(** The listing of the directory is outside every [try]: its exception
    is the driver's, and nothing has been stored or printed. *)
Lemma process_all_pdfs_listing_raises : forall pdf_dir models collections w e,
  os_path_exists pdf_dir = true ->
  os_listdir pdf_dir = Raise e ->
  process_all_pdfs_in_directory fitz_text os_path_exists os_listdir add_error
    pdf_dir models collections w = (Raise e, w).
Proof.
  intros pdf_dir models collections w e He Hl.
  unfold process_all_pdfs_in_directory. rewrite He, Hl. reflexivity.
Qed.

(** The driver over a directory that is missing, or that can be listed,
    never raises and loses nothing. *)
Lemma process_all_pdfs_returns : forall pdf_dir models collections w,
  (os_path_exists pdf_dir = true -> exists names, os_listdir pdf_dir = Ok names) ->
  exists d w',
    process_all_pdfs_in_directory fitz_text os_path_exists os_listdir add_error
      pdf_dir models collections w = (Ok d, w') /\
    grows w w'.
Proof.
  intros pdf_dir models collections w Hl.
  destruct (os_path_exists pdf_dir) eqn:He.
  - destruct (Hl eq_refl) as [names Hn].
    destruct (pdf_files_in pdf_dir names) as [|f fs] eqn:E.
    + unfold process_all_pdfs_in_directory. rewrite He, Hn. cbn [negb]. cbv zeta.
      rewrite E.
      eexists. eexists. split; [reflexivity|].
      split; [apply extends_refl|]. cbn. eexists. reflexivity.
    + destruct (process_files_returns (pdf_files_in pdf_dir names) models collections
                  (RunState (World (store w)
                     (console w ++ [PrintFound (length (pdf_files_in pdf_dir names))
                                      pdf_dir])) [])) as [s Hs].
      rewrite (process_all_pdfs_run pdf_dir names models collections w s He Hn) by congruence.
      eexists. eexists. split; [reflexivity|].
      pose proof (stays_process_files (pdf_files_in pdf_dir names) models collections
                    (RunState (World (store w)
                       (console w ++ [PrintFound (length (pdf_files_in pdf_dir names))
                                        pdf_dir])) [])) as Hg.
      rewrite Hs in Hg. destruct Hg as [Hst [evs Hevs]]. cbn in Hst, Hevs.
      split; [exact Hst|]. cbn. rewrite Hevs, <- !app_assoc. eexists. reflexivity.
  - unfold process_all_pdfs_in_directory. rewrite He. cbn [negb].
    eexists. eexists. split; [reflexivity|].
    split; [apply extends_refl|]. cbn. eexists. reflexivity.
Qed.

(** A loop that raises at one element keeps what the elements before it
    did. *)
Lemma for_each_raise : forall (S A : Type) (xs : list A) (y : A) (ys : list A)
    (body : A -> M S unit) (s s1 s2 : S) (e : exn),
  for_each xs body s = (Ok tt, s1) -> body y s1 = (Raise e, s2) ->
  for_each (xs ++ y :: ys) body s = (Raise e, s2).
Proof.
  intros S A xs y ys body. induction xs as [|x xs IH]; intros s s1 s2 e H1 H2.
  - simpl in H1. injection H1 as <-. simpl. unfold mbind. rewrite H2. reflexivity.
  - simpl in H1 |- *. unfold mbind in H1 |- *.
    destruct (body x s) as [[[]|e'] s'] eqn:E; [|discriminate].
    eapply IH; eauto.
Qed.

End Drivers.

(** ** The default branch of the cleaner *)

Lemma compile_ws : compile NOFLAGS (u "\s+") = Some ws_regex.
Proof. vm_compute. reflexivity. Qed.

Lemma space_code : u " " = [32%N].
Proof. vm_compute. reflexivity. Qed.

Lemma ws_test : forall c, char_test (InSet false [ISpace]) c = PyStr.isspace c.
Proof. intros c. simpl. apply orb_false_r. Qed.

(** A greedy repeat of a one-character pattern first takes the whole run. *)
Lemma rep_greedy_head : forall a min w tl caps fuel count last p,
  Forall (fun c => char_test a c = true) w ->
  match tl with [] => True | c :: _ => char_test a c = false end ->
  min <= count + length w ->
  length w + (min - count) < fuel ->
  (forall q, last = Some q -> q < p) ->
  exists others,
    rep_loop (step_char a) true min None fuel count last (MState p (w ++ tl) caps)
      = MState (p + length w) tl caps :: others.
Proof.
  intros a min w. induction w as [|c w IH];
    intros tl caps fuel count last p Hw Htl Hm Hf Hlast.
  - destruct fuel as [|fuel]; [simpl in Hf; lia|].
    simpl in Hm. cbn [rep_loop length app].
    replace (count <? min) with false by (symmetry; apply Nat.ltb_ge; lia).
    rewrite Nat.add_0_r. cbn [below andb pos].
    assert (Hbody : step_char a (MState p tl caps) = []).
    { unfold step_char. cbn [rest]. destruct tl as [|x tl]; [reflexivity|].
      rewrite Htl. reflexivity. }
    rewrite Hbody. cbn [flat_map app].
    destruct (negb (opt_nat_eqb last p)); exists []; reflexivity.
  - destruct fuel as [|fuel]; [simpl in Hf; lia|].
    inversion Hw as [|? ? Hc Hw']; subst.
    cbn [rep_loop length app].
    assert (Hbody : step_char a (MState p (c :: w ++ tl) caps)
                    = [MState (S p) (w ++ tl) caps]).
    { unfold step_char. cbn [rest pos Re.caps]. rewrite Hc. reflexivity. }
    rewrite Hbody. cbn [flat_map]. rewrite !app_nil_r.
    replace (p + S (length w)) with (S p + length w) by lia.
    simpl in Hm, Hf.
    destruct (count <? min) eqn:E.
    + apply Nat.ltb_lt in E. apply IH; auto; try lia.
      intros q Hq. apply Hlast in Hq. lia.
    + apply Nat.ltb_ge in E. cbn [below andb pos].
      assert (Hne : negb (opt_nat_eqb last p) = true).
      { destruct last as [q|]; [|reflexivity]. simpl.
        specialize (Hlast q eq_refl). apply negb_true_iff. apply Nat.eqb_neq. lia. }
      rewrite Hne.
      destruct (IH tl caps fuel (S count) (Some p) (S p)) as [others Ho]; auto; try lia.
      { intros q [= <-]. lia. }
      rewrite Ho. eexists. reflexivity.
Qed.

Lemma run_ws_unfold : forall st,
  run ws_regex st =
    flat_map (fun st' => [st'])
      (rep_loop (step_char (InSet false [ISpace])) true 1 None
                (1 + length (rest st) + 2) 0 None st).
Proof. intros st. reflexivity. Qed.

(** The whitespace pattern at a position: no match before a code point
    that is not whitespace, the whole run otherwise. *)
Lemma run_ws_none : forall p suffix caps,
  match suffix with [] => True | c :: _ => PyStr.isspace c = false end ->
  run ws_regex (MState p suffix caps) = [].
Proof.
  intros p suffix caps H. rewrite run_ws_unfold. cbn [rest].
  replace (1 + length suffix + 2) with (S (length suffix + 2)) by lia.
  cbn [rep_loop Nat.ltb Nat.leb].
  unfold step_char. cbn [rest]. destruct suffix as [|c tl]; [reflexivity|].
  rewrite ws_test, H. reflexivity.
Qed.

Lemma run_ws_some : forall p w tl caps,
  w <> [] -> Forall (fun c => PyStr.isspace c = true) w ->
  match tl with [] => True | c :: _ => PyStr.isspace c = false end ->
  exists others,
    run ws_regex (MState p (w ++ tl) caps) = MState (p + length w) tl caps :: others.
Proof.
  intros p w tl caps Hne Hw Htl. rewrite run_ws_unfold. cbn [rest].
  destruct (rep_greedy_head (InSet false [ISpace]) 1 w tl caps
              (1 + length (w ++ tl) + 2) 0 None p) as [others Ho].
  - eapply Forall_impl; [|exact Hw]. intros c Hc. rewrite ws_test. exact Hc.
  - destruct tl; [exact I|]. rewrite ws_test. exact Htl.
  - destruct w; [congruence|]. simpl. lia.
  - rewrite length_app. lia.
  - discriminate.
  - rewrite Ho. cbn [flat_map app]. eexists. reflexivity.
Qed.

Lemma take_drop_while : forall f s, s = take_while f s ++ drop_while f s.
Proof.
  intros f. induction s as [|c s IH]; simpl; [reflexivity|].
  destruct (f c); simpl; [f_equal; exact IH|reflexivity].
Qed.

Lemma take_while_all : forall f s, Forall (fun c => f c = true) (take_while f s).
Proof.
  intros f. induction s as [|c s IH]; simpl; [constructor|].
  destruct (f c) eqn:E; constructor; auto.
Qed.

Lemma drop_while_head : forall f s,
  match drop_while f s with [] => True | c :: _ => f c = false end.
Proof.
  intros f. induction s as [|c s IH]; simpl; [exact I|].
  destruct (f c) eqn:E; [exact IH|exact E].
Qed.

Lemma search_ws_skip : forall text nows suffix p,
  Forall (fun c => nonspace c = true) nows ->
  search_from ws_regex text false p (nows ++ suffix)
    = search_from ws_regex text false (p + length nows) suffix.
Proof.
  intros text. induction nows as [|c nows IH]; intros suffix p H.
  - simpl. rewrite Nat.add_0_r. reflexivity.
  - inversion H as [|? ? Hc H']; subst. cbn [app search_from].
    rewrite run_ws_none.
    + rewrite IH by assumption. cbn [length]. f_equal. lia.
    + unfold nonspace in Hc. apply negb_true_iff in Hc. exact Hc.
Qed.

Lemma search_ws_end : forall text p, search_from ws_regex text false p [] = None.
Proof. intros text p. cbn [search_from]. rewrite run_ws_none; [reflexivity|exact I]. Qed.

Lemma search_ws_hit : forall text w tl p,
  w <> [] -> Forall (fun c => PyStr.isspace c = true) w ->
  match tl with [] => True | c :: _ => PyStr.isspace c = false end ->
  search_from ws_regex text false p (w ++ tl) = Some (Match text p (p + length w) []).
Proof.
  intros text w tl p Hne Hw Htl.
  destruct (run_ws_some p w tl [] Hne Hw Htl) as [others Ho].
  destruct w as [|c w]; [congruence|]. cbn [app search_from].
  cbn [app] in Ho. rewrite Ho. reflexivity.
Qed.

Lemma collapse_nonspace : forall nows x,
  Forall (fun c => nonspace c = true) nows ->
  collapse false (nows ++ x) = nows ++ collapse false x.
Proof.
  induction nows as [|c nows IH]; intros x H; [reflexivity|].
  inversion H as [|? ? Hc H']; subst. unfold nonspace in Hc. apply negb_true_iff in Hc.
  simpl. rewrite Hc. f_equal. apply IH. exact H'.
Qed.

Lemma collapse_true_head : forall tl,
  match tl with [] => True | c :: _ => PyStr.isspace c = false end ->
  collapse true tl = collapse false tl.
Proof. intros [|c tl] H; simpl; [reflexivity|]. rewrite H. reflexivity. Qed.

Lemma collapse_true_spaces : forall w tl,
  Forall (fun c => PyStr.isspace c = true) w ->
  match tl with [] => True | c :: _ => PyStr.isspace c = false end ->
  collapse true (w ++ tl) = collapse false tl.
Proof.
  induction w as [|c w IH]; intros tl Hw Htl.
  - apply collapse_true_head. exact Htl.
  - inversion Hw as [|? ? Hc Hw']; subst. simpl. rewrite Hc. apply IH; assumption.
Qed.

Lemma collapse_spaces : forall w tl,
  w <> [] -> Forall (fun c => PyStr.isspace c = true) w ->
  match tl with [] => True | c :: _ => PyStr.isspace c = false end ->
  collapse false (w ++ tl) = 32%N :: collapse false tl.
Proof.
  intros [|c w] tl Hne Hw Htl; [congruence|].
  inversion Hw as [|? ? Hc Hw']; subst. simpl. rewrite Hc. f_equal.
  apply collapse_true_spaces; assumption.
Qed.

Lemma collapse_nonspace_all : forall s,
  Forall (fun c => nonspace c = true) s -> collapse false s = s.
Proof.
  intros s H. rewrite <- (app_nil_r s) at 1. rewrite collapse_nonspace by assumption.
  simpl. apply app_nil_r.
Qed.

(** The replacement of the whitespace runs from a position on. *)
Lemma sub_ws_from : forall text n suffix p fuel,
  length suffix <= n -> skipn p text = suffix -> length suffix < fuel ->
  replace_all text [32%N] p (matches_from fuel ws_regex text false p suffix)
    = collapse false suffix.
Proof.
  intros text. induction n as [|n IH]; intros suffix p fuel Hn Hs Hf.
  - destruct suffix; [|simpl in Hn; lia].
    destruct fuel as [|fuel]; [simpl in Hf; lia|].
    cbn [matches_from]. rewrite search_ws_end. cbn [replace_all]. rewrite Hs. reflexivity.
  - destruct fuel as [|fuel]; [lia|].
    pose proof (take_drop_while nonspace suffix) as Hsplit.
    pose proof (take_while_all nonspace suffix) as Hnows.
    pose proof (drop_while_head nonspace suffix) as Hhead.
    remember (take_while nonspace suffix) as nows eqn:Enows. clear Enows.
    destruct (drop_while nonspace suffix) as [|c r1] eqn:Er.
    + (* no whitespace left *)
      cbn [matches_from]. rewrite Hsplit.
      rewrite search_ws_skip, search_ws_end by assumption. cbn [replace_all].
      rewrite Hs, Hsplit, app_nil_r. symmetry. apply collapse_nonspace_all. exact Hnows.
    + (* a run of whitespace *)
      unfold nonspace in Hhead. apply negb_false_iff in Hhead.
      pose proof (take_drop_while PyStr.isspace (c :: r1)) as Hsplit2.
      pose proof (take_while_all PyStr.isspace (c :: r1)) as Hw.
      pose proof (drop_while_head PyStr.isspace (c :: r1)) as Htl.
      assert (Hwne : take_while PyStr.isspace (c :: r1) <> []).
      { simpl. rewrite Hhead. discriminate. }
      remember (take_while PyStr.isspace (c :: r1)) as w eqn:Ew. clear Ew.
      remember (drop_while PyStr.isspace (c :: r1)) as tl eqn:Etl. clear Etl.
      assert (Hsuffix : suffix = nows ++ w ++ tl) by (rewrite <- Hsplit2; exact Hsplit).
      assert (Hlen : length suffix = length nows + length w + length tl).
      { rewrite Hsuffix, !length_app. lia. }
      assert (Hwlen : 0 < length w) by (destruct w; [congruence|simpl; lia]).
      cbn [matches_from]. rewrite Hsuffix at 1.
      rewrite search_ws_skip, search_ws_hit by assumption.
      cbn [m_start m_end replace_all].
      replace (Nat.eqb (p + length nows) (p + length nows + length w)) with false
        by (symmetry; apply Nat.eqb_neq; lia).
      replace (skipn (p + length nows + length w - p) suffix) with tl.
      2:{ rewrite Hsuffix. replace (p + length nows + length w - p)
            with (length nows + length w) by lia.
          rewrite app_assoc, skipn_app, skipn_all2 by (rewrite length_app; lia).
          rewrite length_app, Nat.sub_diag. reflexivity. }
      rewrite IH.
      * unfold slice. rewrite Hs, Hsuffix.
        rewrite collapse_nonspace, collapse_spaces by assumption.
        replace (p + length nows - p) with (length nows + 0) by lia.
        rewrite firstn_app_2. simpl. rewrite app_nil_r. reflexivity.
      * lia.
      * rewrite <- (Nat.add_assoc p), Nat.add_comm, <- skipn_skipn, Hs, Hsuffix.
        rewrite app_assoc, skipn_app, skipn_all2 by (rewrite length_app; lia).
        rewrite length_app, Nat.sub_diag. reflexivity.
      * lia.
Qed.

(** [re.sub(r'\s+', ' ', text)] *)
Lemma sub_ws : forall text,
  sub NOFLAGS (u "\s+") (u " ") text = Ok (collapse false text).
Proof.
  intros text. unfold sub. rewrite compile_ws, space_code. unfold matches.
  rewrite (sub_ws_from text (length text)); auto. lia.
Qed.

Lemma tidy_collapse : forall s b, tidy b (collapse b s) = true.
Proof.
  induction s as [|c s IH]; intros b; simpl; [reflexivity|].
  destruct (PyStr.isspace c) eqn:E.
  - destruct b; [apply IH|]. simpl.
    replace (PyStr.isspace 32%N) with true by (vm_compute; reflexivity).
    simpl. apply IH.
  - simpl. rewrite E. apply IH.
Qed.


Lemma tidy_lstrip : forall s b, tidy b s = true -> tidy false (PyStr.lstrip s) = true.
Proof.
  induction s as [|c s IH]; intros b H; simpl in *; [reflexivity|].
  destruct (PyStr.isspace c) eqn:E.
  - apply andb_true_iff in H. destruct H as [_ H]. eapply IH. exact H.
  - simpl. rewrite E. exact H.
Qed.

Lemma tidy_app_l : forall s1 s2 b, tidy b (s1 ++ s2) = true -> tidy b s1 = true.
Proof.
  induction s1 as [|c s1 IH]; intros s2 b H; simpl in *; [reflexivity|].
  destruct (PyStr.isspace c).
  - apply andb_true_iff in H. destruct H as [H H2]. rewrite H. simpl. eapply IH. exact H2.
  - eapply IH. exact H.
Qed.

Lemma rstrip_snoc : forall s c,
  PyStr.rstrip (s ++ [c]) = if PyStr.isspace c then PyStr.rstrip s else s ++ [c].
Proof.
  intros s c. unfold PyStr.rstrip. rewrite rev_app_distr. simpl.
  destruct (PyStr.isspace c); [reflexivity|]. simpl. rewrite rev_involutive. reflexivity.
Qed.

Lemma rstrip_prefix : forall s, exists t, s = PyStr.rstrip s ++ t.
Proof.
  induction s as [|c s IH] using rev_ind.
  - exists []. reflexivity.
  - rewrite rstrip_snoc. destruct (PyStr.isspace c).
    + destruct IH as [t Ht]. exists (t ++ [c]). rewrite app_assoc, <- Ht. reflexivity.
    + exists []. symmetry. apply app_nil_r.
Qed.

Lemma tidy_rstrip : forall s b, tidy b s = true -> tidy b (PyStr.rstrip s) = true.
Proof.
  intros s b H. destruct (rstrip_prefix s) as [t Ht]. rewrite Ht in H.
  eapply tidy_app_l. exact H.
Qed.

Lemma rstrip_idem : forall s, PyStr.rstrip (PyStr.rstrip s) = PyStr.rstrip s.
Proof.
  intros s. unfold PyStr.rstrip. rewrite rev_involutive, lstrip_idem. reflexivity.
Qed.

Lemma lstrip_head : forall s,
  match PyStr.lstrip s with [] => True | c :: _ => PyStr.isspace c = false end.
Proof.
  induction s as [|c s IH]; simpl; [exact I|].
  destruct (PyStr.isspace c) eqn:E; [exact IH|exact E].
Qed.

Lemma lstrip_fixed : forall s,
  match s with [] => True | c :: _ => PyStr.isspace c = false end -> PyStr.lstrip s = s.
Proof. intros [|c s] H; simpl; [reflexivity|]. rewrite H. reflexivity. Qed.

Lemma strip_idem : forall s, PyStr.strip (PyStr.strip s) = PyStr.strip s.
Proof.
  intros s. unfold PyStr.strip.
  assert (H : PyStr.lstrip (PyStr.rstrip (PyStr.lstrip s)) = PyStr.rstrip (PyStr.lstrip s)).
  { apply lstrip_fixed. pose proof (lstrip_head s) as Hh.
    destruct (rstrip_prefix (PyStr.lstrip s)) as [t Ht].
    destruct (PyStr.rstrip (PyStr.lstrip s)) as [|c r]; [exact I|].
    rewrite Ht in Hh. exact Hh. }
  rewrite H. apply rstrip_idem.
Qed.

Lemma tidy_strip : forall s b, tidy b s = true -> tidy false (PyStr.strip s) = true.
Proof.
  intros s b H. unfold PyStr.strip. apply tidy_rstrip. eapply tidy_lstrip. exact H.
Qed.




(** The default branch of the cleaner always returns, and what it
    returns is tidy and stripped. *)
Lemma clean_default_tidy : forall text,
  exists c, clean_chunk_text text None = Ok c /\
            tidy false c = true /\ PyStr.strip c = c.
Proof.
  intros text. unfold clean_chunk_text. cbv zeta. cbn match.
  destruct (sub_compiles NOFLAGS (u "^\d+\s+") (u "")
              (PyStr.join (u "
") (filter keep_line (PyStr.split_on 10%N text))) eq_refl) as [t1 E1].
  rewrite E1. cbn [bind].
  destruct (sub_compiles IGNORECASE (u "(Bibliografia Complementar\s*)+$") (u "") t1 eq_refl)
    as [t2 E2].
  rewrite E2. cbn [bind]. rewrite sub_ws. cbn [bind].
  eexists. split; [reflexivity|]. split.
  - eapply tidy_strip. apply tidy_collapse.
  - apply strip_idem.
Qed.

Lemma clean_default_tag : forall text chunk_type,
  chunk_type <> Some identificacao ->
  clean_chunk_text text chunk_type = clean_chunk_text text None.
Proof.
  intros text [ty|] H; [|reflexivity]. unfold clean_chunk_text.
  destruct (PyStr.eqb ty identificacao) eqn:E; [|reflexivity].
  apply pystr_eqb_eq in E. congruence.
Qed.


(** ** The assembler returns *)

Lemma bind_total : forall (A B : Type) (x : result A) (f : A -> result B) (a : A),
  x = Ok a -> (exists b, f a = Ok b) -> exists b, bind x f = Ok b.
Proof. intros A B x f a -> H. exact H. Qed.

Lemma prefix_pattern_good : forall fl s tail r g',
  ignorecase fl = false -> Plain s -> no_quantifier tail ->
  parse_seq (S (3 * length tail + 1)) fl tail 1 = Some (r, [], g') ->
  sets 1 r = true ->
  good_pattern fl (s ++ tail) = true.
Proof.
  intros fl s tail r g' Hfl Hs Hq Hp Hr. unfold good_pattern.
  rewrite (compile_plain_prefix fl s tail r g' (3 * length tail + 1) Hfl Hs Hq Hp)
    by lia.
  rewrite sets_lits. exact Hr.
Qed.

Lemma disciplina_pattern_good : forall codigo,
  Plain codigo -> good_pattern DOTALL (codigo ++ disciplina_tail) = true.
Proof.
  intros codigo H.
  apply (prefix_pattern_good DOTALL codigo disciplina_tail disciplina_regex 2 eq_refl H).
  - vm_compute. repeat split.
  - vm_compute. reflexivity.
  - vm_compute. reflexivity.
Qed.

Lemma section_pattern_good : forall s e,
  Plain s -> Plain e -> good_pattern DOTALL (s ++ u "(.*?)" ++ e) = true.
Proof.
  intros s e Hs He. unfold good_pattern. rewrite (compile_section s e Hs He).
  rewrite sets_lits. reflexivity.
Qed.

Lemma fallback_pattern_good : forall s,
  Plain s -> good_pattern DOTALL (s ++ fallback_tail) = true.
Proof.
  intros s Hs. unfold good_pattern. rewrite (compile_fallback s Hs).
  rewrite sets_lits. vm_compute. reflexivity.
Qed.

(** The section splitter returns on plain markers. *)
Lemma extract_section_returns : forall text section_start section_end,
  plain section_start = true ->
  match section_end with Some e => plain e = true | None => True end ->
  exists s, extract_section_from_pdf text section_start section_end = Ok s.
Proof.
  intros text section_start section_end Hs He. apply plain_Plain in Hs.
  unfold extract_section_from_pdf. cbv zeta.
  assert (Hgood : good_pattern DOTALL
            match section_end with
            | Some (c :: e) => section_start ++ u "(.*?)" ++ c :: e
            | _ => section_start ++ u "(.*?)(?=(?:Bibliografia|Resumo da Alteração|$))"
            end = true).
  { destruct section_end as [[|c e]|].
    - apply (fallback_pattern_good section_start Hs).
    - apply section_pattern_good; [exact Hs|]. apply plain_Plain. exact He.
    - apply (fallback_pattern_good section_start Hs). }
  destruct (search_good _ _ text Hgood) as [mo [E Hm]].
  eapply bind_total; [exact E|]. destruct mo as [m|]; [|eauto].
  destruct (Hm m eq_refl) as [g Hg].
  eapply bind_total; [exact Hg|]. eauto.
Qed.

(** The default branch of the cleaner returns. *)
Lemma clean_default_returns : forall text,
  exists c, clean_chunk_text text None = Ok c.
Proof.
  intros text. destruct (clean_default_tidy text) as (c & H & _). eauto.
Qed.

Lemma section_step_returns : forall s tipo metadata chunks,
  exists chunks',
    (if negb (PyStr.eqb s []) then
       cleaned <- clean_chunk_text s None ;;
       Ok (chunks ++ [Chunk cleaned tipo metadata])
     else Ok chunks) = Ok chunks'.
Proof.
  intros s tipo metadata chunks. destruct (negb (PyStr.eqb s [])); [|eauto].
  destruct (clean_default_returns s) as [c Hc].
  eapply bind_total; [exact Hc|]. eauto.
Qed.

(** What a scan reports is a word of the language of the pattern, read
    from the subject at the start of the match. *)
Lemma search_from_word : forall r text ma p m,
  search_from r text ma p (skipn p text) = Some m ->
  exists st' w,
    List.In st' (run r (MState (m_start m) (skipn (m_start m) text) [])) /\
    m = Match text (m_start m) (pos st') (caps st') /\
    skipn (m_start m) text = w ++ skipn (m_end m) text /\
    m_end m = m_start m + length w /\ p <= m_start m /\
    lang r w /\ group0 m = w.
Proof.
  intros r text ma p m H.
  apply search_from_some in H. destruct H as [k [st' (Hk & Hin & ->)]].
  rewrite skipn_skipn in Hin. rewrite (Nat.add_comm k p) in Hin.
  pose proof (run_lang _ _ _ Hin) as [w [[R1 R2] Hw]].
  cbn [rest pos] in R1, R2. cbn [m_start m_end].
  assert (Hend : skipn (pos st') text = rest st').
  { rewrite R2, (Nat.add_comm (p + k)), <- skipn_skipn, R1.
    rewrite skipn_app, skipn_all, Nat.sub_diag. reflexivity. }
  exists st', w. split; [exact Hin|]. split; [reflexivity|].
  split; [rewrite Hend; exact R1|]. split; [exact R2|]. split; [lia|].
  split; [exact Hw|].
  unfold group0, slice. cbn [m_text m_start m_end]. rewrite R2, R1.
  replace (p + k + length w - (p + k)) with (length w + 0) by lia.
  rewrite firstn_app_2. simpl. apply app_nil_r.
Qed.

(** Every match of [re.findall] and [re.sub] is reported by a scan that
    starts inside the subject. *)
Lemma matches_from_scan : forall fuel r text ma p m,
  List.In m (matches_from fuel r text ma p (skipn p text)) ->
  exists ma' p', search_from r text ma' p' (skipn p' text) = Some m.
Proof.
  induction fuel as [|fuel IH]; intros r text ma p m H; cbn [matches_from] in H.
  - destruct H.
  - destruct (search_from r text ma p (skipn p text)) as [m0|] eqn:E; [|destruct H].
    destruct H as [<-|H]; [eauto|].
    destruct (search_from_word _ _ _ _ _ E) as (st' & w & _ & _ & _ & He & Hp & _).
    rewrite skipn_skipn in H.
    replace (m_end m0 - p + p) with (m_end m0) in H by lia.
    eapply IH. exact H.
Qed.

Lemma course_code_plain : forall code, course_code code -> Plain code.
Proof.
  intros code (prefix & digits & c & -> & Hp & _ & Hd & Hc). unfold Plain.
  rewrite !Forall_app. split; [|split].
  - rewrite code_prefixes_codes in Hp.
    destruct Hp as [<-|[<-|[]]]; repeat constructor.
  - apply Forall_forall. intros d Hin. rewrite forallb_forall in Hd.
    apply isdigit_not_special. apply Hd. exact Hin.
  - constructor; [|constructor]. unfold is_upper in Hc.
    apply andb_true_iff in Hc. destruct Hc as [H1 H2]. apply N.leb_le in H1, H2.
    not_special.
Qed.

(** The metadata extractor returns, and the code it finds is plain. *)
Lemma extract_metadata_returns : forall text,
  exists metadata,
    extract_metadata_from_header text = Ok metadata /\
    forall code, dict_get (u "codigo") metadata = Some code -> Plain code.
Proof.
  intros text. unfold extract_metadata_from_header, search.
  rewrite compile_header_code. cbn [bind]. cbv zeta.
  eexists. split; [reflexivity|]. intros code.
  rewrite !dict_get_set_other by (vm_compute; reflexivity).
  destruct (search_from header_code_regex text false 0 text) as [m|] eqn:E.
  - rewrite !dict_get_set_other by (vm_compute; reflexivity).
    rewrite dict_get_set_same. intros [= <-].
    destruct (search_from_word header_code_regex text false 0 m E)
      as (st' & w & _ & _ & _ & _ & _ & Hw & ->).
    apply course_code_plain, header_code_lang. exact Hw.
  - simpl. discriminate.
Qed.

(** The derivation of the name in the assembler returns when the code is
    plain. *)
Lemma disciplina_step_returns : forall text (metadata : dict) code,
  dict_get (u "codigo") metadata = Some code -> Plain code ->
  exists metadata',
    (if negb (dict_truthy (u "disciplina") metadata) then
       codigo <- dict_item (u "codigo") metadata ;;
       disciplina_match <-
         search DOTALL (codigo ++ u "(.*?)(?=Frequência|Presencial|Nota|$)") text ;;
       match disciplina_match with
       | Some m =>
           g <- group1 m ;;
           Ok (dict_set (u "disciplina") (PyStr.strip g) metadata)
       | None =>
           disc_match <-
             search DOTALL
               (u "(?:Disciplina|Unidade Curricular)[:\s]+(.*?)(?=Frequência|Presencial|Nota|$)")
               text ;;
           match disc_match with
           | Some m =>
               g <- group1 m ;;
               Ok (dict_set (u "disciplina") (PyStr.strip g) metadata)
           | None =>
               Ok (dict_set (u "disciplina") (u "Disciplina " ++ codigo) metadata)
           end
       end
     else Ok metadata) = Ok metadata'.
Proof.
  intros text metadata code Hget Hplain.
  destruct (negb (dict_truthy (u "disciplina") metadata)); [|eauto].
  unfold dict_item. rewrite Hget. cbn [bind].
  destruct (search_good DOTALL (code ++ disciplina_tail) text
              (disciplina_pattern_good code Hplain)) as [mo [E Hm]].
  eapply bind_total; [exact E|]. destruct mo as [m|].
  - destruct (Hm m eq_refl) as [g Hg]. eapply bind_total; [exact Hg|]. eauto.
  - assert (Hgood : good_pattern DOTALL
              (u "(?:Disciplina|Unidade Curricular)[:\s]+(.*?)(?=Frequência|Presencial|Nota|$)")
              = true) by (vm_compute; reflexivity).
    destruct (search_good _ _ text Hgood) as [mo' [E' Hm']].
    eapply bind_total; [exact E'|]. destruct mo' as [m|]; [|eauto].
    destruct (Hm' m eq_refl) as [g Hg]. eapply bind_total; [exact Hg|]. eauto.
Qed.

Lemma digit_not_space : forall c, PyStr.isdigit c = true -> PyStr.isspace c = false.
Proof.
  intros c H.
  assert (Hd : forallb (fun d => forallb (fun s => (snd d <? fst s)%N || (snd s <? fst d)%N)
                                   PyStr.space_table) PyStr.digit_table = true)
    by (vm_compute; reflexivity).
  destruct (PyStr.isspace c) eqn:Es; [|reflexivity]. exfalso.
  apply in_ranges_inv in H. destruct H as [lo [hi (Hin & H1 & H2)]].
  apply in_ranges_inv in Es. destruct Es as [lo' [hi' (Hin' & H1' & H2')]].
  rewrite forallb_forall in Hd. specialize (Hd _ Hin).
  rewrite forallb_forall in Hd. specialize (Hd _ Hin').
  cbn [fst snd] in Hd. apply orb_true_iff in Hd.
  destruct Hd as [Hd|Hd]; apply N.ltb_lt in Hd; lia.
Qed.

Lemma words_aux_nonempty : forall s cur,
  cur <> [] -> PyStr.words_aux cur s <> [].
Proof.
  induction s as [|c s IH]; intros cur Hcur; simpl.
  - destruct cur; [congruence|discriminate].
  - destruct (PyStr.isspace c).
    + destruct cur; [congruence|discriminate].
    + apply IH. discriminate.
Qed.

(** A string that starts with a digit has a first word. *)
Lemma split_ws_digit : forall c tl,
  PyStr.isdigit c = true -> PyStr.split_ws (c :: tl) <> [].
Proof.
  intros c tl H. unfold PyStr.split_ws. simpl. rewrite (digit_not_space c H).
  apply words_aux_nonempty. discriminate.
Qed.

Lemma compile_topics :
  compile DOTALL (u "(\d+\s*.*?(?=\d+\s*|Bibliografia|$))")
    = Some (Seq (Group 1 topic_body) Eps).
Proof. vm_compute. reflexivity. Qed.

Lemma topic_body_lang : forall w,
  lang topic_body w -> exists c tl, w = c :: tl /\ PyStr.isdigit c = true.
Proof.
  intros w H. unfold topic_body in H. cbn [lang] in H.
  destruct H as (w1 & w2 & -> & (ws & -> & F & Hmin) & _).
  destruct ws as [|d ws]; [simpl in Hmin; lia|].
  inversion F as [|? ? (c & -> & Hc) _]; subst.
  exists c, (concat ws ++ w2). split; [reflexivity|].
  cbn [char_test existsb item_test xorb] in Hc. rewrite orb_false_r in Hc. exact Hc.
Qed.

(** The topics [re.findall] reports start with a digit. *)
Lemma findall_topics : forall conteudo,
  exists topicos,
    findall DOTALL (u "(\d+\s*.*?(?=\d+\s*|Bibliografia|$))") conteudo = Ok topicos /\
    Forall (fun t => exists c tl, t = c :: tl /\ PyStr.isdigit c = true) topicos.
Proof.
  intros conteudo. unfold findall. rewrite compile_topics.
  eexists. split; [reflexivity|].
  apply Forall_forall. intros t Ht. apply in_map_iff in Ht.
  destruct Ht as [m [<- Hm]]. unfold matches in Hm.
  apply (matches_from_scan _ _ conteudo false 0) in Hm.
  destruct Hm as [ma [p Hs]].
  destruct (search_from_word _ _ _ _ _ Hs) as (st' & w & Hin & Hm & Hsk & He & _ & _ & _).
  cbn [run] in Hin. apply in_flat_map in Hin. destruct Hin as [mid [Hmid Hst]].
  destruct Hst as [<-|[]].
  apply in_map_iff in Hmid. destruct Hmid as [st0 [<- Hrun]].
  pose proof (run_lang _ _ _ Hrun) as [w0 [[R1 R2] Hw0]].
  cbn [rest pos] in R1, R2.
  rewrite Hm. unfold group. cbn [m_caps Re.caps lookup_cap Nat.eqb pos m_text].
  unfold slice. rewrite R2, R1.
  replace (m_start m + length w0 - m_start m) with (length w0 + 0) by lia.
  rewrite firstn_app_2. simpl. rewrite app_nil_r.
  apply topic_body_lang. exact Hw0.
Qed.

Lemma topicos_loop_returns : forall topicos metadata chunks,
  Forall (fun t => exists c tl, t = c :: tl /\ PyStr.isdigit c = true) topicos ->
  exists chunks', topicos_loop topicos metadata chunks = Ok chunks'.
Proof.
  induction topicos as [|t ts IH]; intros metadata chunks H; cbn [topicos_loop].
  - eauto.
  - inversion H as [|? ? (c & tl & -> & Hc) Hts]; subst.
    destruct (clean_default_returns (PyStr.strip (c :: tl))) as [cleaned Hcl].
    eapply bind_total; [exact Hcl|].
    pose proof (split_ws_digit c tl Hc) as Hw.
    destruct (PyStr.split_ws (c :: tl)) as [|w ws]; [congruence|].
    cbn [bind]. apply IH. exact Hts.
Qed.

(** The identification branch of the cleaner returns. *)
Lemma clean_identificacao_returns : forall text,
  exists ident, clean_chunk_text text (Some identificacao) = Ok ident.
Proof.
  intros text. destruct (clean_identificacao_shape text) as (a & b & c & H & _). eauto.
Qed.

(** The assembler returns for every text when the stem of the file name
    holds no character that is special in a regular expression. *)
Lemma process_pdf_content_returns : forall text filename,
  plain (splitext_root filename) = true ->
  exists metadata chunks, process_pdf_content text filename = Ok (metadata, chunks).
Proof.
  intros text filename Hstem. apply plain_Plain in Hstem.
  assert (H : exists r, process_pdf_content text filename = Ok r).
  { unfold process_pdf_content. cbv zeta.
    destruct (extract_metadata_returns text) as [md0 [E0 Hcode0]].
    eapply bind_total; [exact E0|].
    assert (Hcodigo : exists code,
              dict_get (u "codigo")
                (if negb (dict_truthy (u "codigo") md0)
                 then dict_set (u "codigo") (splitext_root filename) md0
                 else md0) = Some code /\ Plain code).
    { unfold dict_truthy.
      destruct (dict_get (u "codigo") md0) as [[|c code]|] eqn:G; cbn [negb].
      - exists (splitext_root filename). split; [apply dict_get_set_same|exact Hstem].
      - exists (c :: code). split; [exact G|]. apply Hcode0. reflexivity.
      - exists (splitext_root filename). split; [apply dict_get_set_same|exact Hstem]. }
    destruct Hcodigo as [code [Hget Hplain]].
    destruct (disciplina_step_returns text _ code Hget Hplain) as [md1 E1].
    eapply bind_total; [exact E1|].
    destruct (clean_identificacao_returns (firstn 500 text)) as [ident Eid].
    eapply bind_total; [exact Eid|].
    destruct (extract_section_returns text (u "Objetivo") (Some (u "Ementa")))
      as [objetivo Eo]; [vm_compute; reflexivity|vm_compute; reflexivity|].
    eapply bind_total; [exact Eo|].
    destruct (section_step_returns objetivo (u "objetivo") md1
                ([] ++ [Chunk ident (u "identificacao") md1])) as [chunks1 E2].
    eapply bind_total; [exact E2|].
    destruct (extract_section_returns text (u "Ementa") (Some (u "Conteúdo Programático")))
      as [ementa Ee]; [vm_compute; reflexivity|vm_compute; reflexivity|].
    eapply bind_total; [exact Ee|].
    destruct (section_step_returns ementa (u "ementa") md1 chunks1) as [chunks2 E3].
    eapply bind_total; [exact E3|].
    destruct (extract_section_returns text (u "Conteúdo Programático")
                (Some (u "Bibliografia")))
      as [conteudo Ec]; [vm_compute; reflexivity|vm_compute; reflexivity|].
    eapply bind_total; [exact Ec|].
    assert (E4 : exists chunks3,
              (if negb (PyStr.eqb conteudo []) then
                 topicos <-
                   findall DOTALL (u "(\d+\s*.*?(?=\d+\s*|Bibliografia|$))") conteudo ;;
                 topicos_loop topicos md1 chunks2
               else Ok chunks2) = Ok chunks3).
    { destruct (negb (PyStr.eqb conteudo [])); [|eauto].
      destruct (findall_topics conteudo) as [topicos [Ef Ft]].
      eapply bind_total; [exact Ef|]. apply topicos_loop_returns. exact Ft. }
    destruct E4 as [chunks3 E4].
    eapply bind_total; [exact E4|].
    destruct (extract_section_returns text (u "Bibliografia Básica")
                (Some (u "Bibliografia Complementar")))
      as [basica Eb]; [vm_compute; reflexivity|vm_compute; reflexivity|].
    eapply bind_total; [exact Eb|].
    destruct (section_step_returns basica (u "bibliografia_basica") md1 chunks3)
      as [chunks4 E5].
    eapply bind_total; [exact E5|].
    destruct (extract_section_returns text (u "Bibliografia Complementar")
                (Some (u "Resumo")))
      as [complementar Ecp]; [vm_compute; reflexivity|vm_compute; reflexivity|].
    eapply bind_total; [exact Ecp|].
    destruct (section_step_returns complementar (u "bibliografia_complementar") md1 chunks4)
      as [chunks5 E6].
    eapply bind_total; [exact E6|].
    eauto. }
  destruct H as [[metadata chunks] H]. eauto.
Qed.

(** ** The fuel of the matcher *)

Lemma flat_map_ext_on : forall (A B : Type) (f g : A -> list B) (l : list A),
  (forall x, List.In x l -> f x = g x) -> flat_map f l = flat_map g l.
Proof.
  intros A B f g. induction l as [|x l IH]; intros H; simpl; [reflexivity|].
  rewrite (H x) by (left; reflexivity). f_equal. apply IH.
  intros y Hy. apply H. right. exact Hy.
Qed.

(** A repeat gives the same results with any fuel that covers the
    iterations it can make. *)
Lemma rep_loop_fuel : forall body greedy min max,
  (forall st st', List.In st' (body st) -> exists w, reaches st st' w) ->
  forall f1 f2 count last st,
    rep_bound min count last st <= f1 -> rep_bound min count last st <= f2 ->
    rep_loop body greedy min max f1 count last st
      = rep_loop body greedy min max f2 count last st.
Proof.
  intros body greedy min max Hb.
  induction f1 as [|f1 IH]; intros f2 count last st H1 H2.
  - unfold rep_bound in H1. destruct (opt_nat_eqb last (pos st)); lia.
  - destruct f2 as [|f2]; [unfold rep_bound in H2; destruct (opt_nat_eqb last (pos st)); lia|].
    cbn [rep_loop].
    assert (Hlow : count < min ->
      flat_map (rep_loop body greedy min max f1 (S count) last) (body st)
        = flat_map (rep_loop body greedy min max f2 (S count) last) (body st)).
    { intros Hc. apply flat_map_ext_on. intros mid Hmid.
      destruct (Hb _ _ Hmid) as [w [R1 R2]].
      assert (Hlen : length (rest st) = length w + length (rest mid))
        by (rewrite R1, length_app; reflexivity).
      assert (Hb' : rep_bound min (S count) last mid < rep_bound min count last st).
      { unfold rep_bound. destruct w as [|c w].
        - simpl in R2, Hlen. rewrite Nat.add_0_r in R2. rewrite R2, Hlen.
          destruct (opt_nat_eqb last (pos st)); lia.
        - simpl in Hlen.
          destruct (opt_nat_eqb last (pos mid)), (opt_nat_eqb last (pos st)); lia. }
      apply IH; lia. }
    assert (Hhigh : min <= count -> opt_nat_eqb last (pos st) = false ->
      flat_map (rep_loop body greedy min max f1 (S count) (Some (pos st))) (body st)
        = flat_map (rep_loop body greedy min max f2 (S count) (Some (pos st))) (body st)).
    { intros Hc Hl. apply flat_map_ext_on. intros mid Hmid.
      destruct (Hb _ _ Hmid) as [w [R1 R2]].
      assert (Hlen : length (rest st) = length w + length (rest mid))
        by (rewrite R1, length_app; reflexivity).
      assert (Hb' : rep_bound min (S count) (Some (pos st)) mid
                    < rep_bound min count last st).
      { unfold rep_bound. rewrite Hl. cbn [opt_nat_eqb]. destruct w as [|c w].
        - simpl in R2, Hlen. rewrite Nat.add_0_r in R2. rewrite R2, Nat.eqb_refl. lia.
        - simpl in Hlen. destruct (Nat.eqb (pos st) (pos mid)); lia. }
      apply IH; lia. }
    destruct (count <? min) eqn:E.
    + apply Hlow. apply Nat.ltb_lt. exact E.
    + apply Nat.ltb_ge in E.
      destruct (opt_nat_eqb last (pos st)) eqn:El.
      * rewrite andb_false_r. reflexivity.
      * cbn [negb]. rewrite andb_true_r. destruct (below max count); [|reflexivity].
        rewrite (Hhigh E eq_refl). reflexivity.
Qed.

(** The fuel [run] gives a repeat is enough: more fuel changes nothing. *)
Lemma run_rep_fuel : forall greedy min max r st extra,
  rep_loop (run r) greedy min max (min + length (rest st) + 2 + extra) 0 None st
    = run (Rep greedy min max r) st.
Proof.
  intros greedy min max r st extra. cbn [run].
  apply rep_loop_fuel.
  - intros a b H. destruct (run_lang _ _ _ H) as [w [R _]]. eauto.
  - unfold rep_bound. cbn [opt_nat_eqb]. lia.
  - unfold rep_bound. cbn [opt_nat_eqb]. lia.
Qed.

(** Where the match of a scan lies. *)
Lemma search_from_span : forall r text suffix ma p m,
  search_from r text ma p suffix = Some m ->
  p <= m_start m /\ m_start m <= m_end m /\ m_end m <= p + length suffix /\
  (ma = true -> p < m_end m).
Proof.
  intros r text. induction suffix as [|c tl IH]; intros ma p m H; cbn [search_from] in H.
  - destruct (if ma then _ else _) as [|st l] eqn:E; [discriminate|].
    injection H as <-. cbn [m_start m_end].
    assert (Hin : List.In st (run r (MState p [] [])) /\ (ma = true -> pos st <> p)).
    { destruct ma.
      - assert (H : List.In st (filter (fun st0 => negb (Nat.eqb (pos st0) p))
                                  (run r (MState p [] []))))
          by (rewrite E; left; reflexivity).
        apply filter_In in H. destruct H as [H1 H2]. split; [exact H1|].
        intros _. apply negb_true_iff, Nat.eqb_neq in H2. exact H2.
      - split; [rewrite E; left; reflexivity|discriminate]. }
    destruct Hin as [Hin Hma].
    destruct (run_lang _ _ _ Hin) as [w [[R1 R2] _]]. cbn [rest pos] in R1, R2.
    destruct w; [|discriminate]. simpl in R2. simpl.
    repeat split; try lia. intros Hm. specialize (Hma Hm). lia.
  - destruct (if ma then _ else _) as [|st l] eqn:E.
    + apply IH in H. cbn [length]. destruct H as (H1 & H2 & H3 & _).
      repeat split; try lia.
    + injection H as <-. cbn [m_start m_end].
      assert (Hin : List.In st (run r (MState p (c :: tl) [])) /\
                    (ma = true -> pos st <> p)).
      { destruct ma.
        - assert (H : List.In st (filter (fun st0 => negb (Nat.eqb (pos st0) p))
                                    (run r (MState p (c :: tl) []))))
            by (rewrite E; left; reflexivity).
          apply filter_In in H. destruct H as [H1 H2]. split; [exact H1|].
          intros _. apply negb_true_iff, Nat.eqb_neq in H2. exact H2.
        - split; [rewrite E; left; reflexivity|discriminate]. }
      destruct Hin as [Hin Hma].
      destruct (run_lang _ _ _ Hin) as [w [[R1 R2] _]]. cbn [rest pos] in R1, R2.
      assert (Hlen : length (c :: tl) = length w + length (rest st))
        by (rewrite R1, length_app; reflexivity).
      repeat split; try lia. intros Hm. specialize (Hma Hm). lia.
Qed.

(** The scans give the same matches with any fuel that covers the scans
    they can make. *)
Lemma matches_from_fuel : forall r text f1 f2 ma p suffix,
  scan_bound ma suffix <= f1 -> scan_bound ma suffix <= f2 ->
  matches_from f1 r text ma p suffix = matches_from f2 r text ma p suffix.
Proof.
  intros r text. induction f1 as [|f1 IH]; intros f2 ma p suffix H1 H2.
  - unfold scan_bound in H1. destruct ma; lia.
  - destruct f2 as [|f2]; [unfold scan_bound in H2; destruct ma; lia|].
    cbn [matches_from].
    destruct (search_from r text ma p suffix) as [m|] eqn:E; [|reflexivity].
    f_equal. destruct (search_from_span _ _ _ _ _ _ E) as (Hs & He & Hl & Hma).
    assert (Hb : scan_bound (Nat.eqb (m_start m) (m_end m)) (skipn (m_end m - p) suffix)
                 < scan_bound ma suffix).
    { unfold scan_bound. rewrite length_skipn.
      destruct (Nat.eqb (m_start m) (m_end m)) eqn:Eq.
      - apply Nat.eqb_eq in Eq. destruct ma; [specialize (Hma eq_refl)|]; lia.
      - apply Nat.eqb_neq in Eq. destruct ma; lia. }
    apply IH; lia.
Qed.

(** The fuel of [matches] is enough: more fuel changes nothing. *)
Lemma matches_fuel : forall r text extra,
  matches_from (2 * length text + 2 + extra) r text false 0 text = matches r text.
Proof.
  intros r text extra. unfold matches. apply matches_from_fuel; unfold scan_bound; lia.
Qed.

(** ** The section splitter between two markers *)

Lemma before_first_spec : forall p s body,
  before_first p s = Some body ->
  (exists post, s = body ++ p ++ post) /\
  (forall j, j < length body -> PyStr.startswith p (skipn j s) = false).
Proof.
  intros p. induction s as [|c s IH]; intros body H; cbn [before_first] in H.
  - destruct (PyStr.startswith p []) eqn:E; [|discriminate]. injection H as <-.
    apply startswith_spec in E. split; [exact E|]. simpl. intros j Hj. lia.
  - destruct (PyStr.startswith p (c :: s)) eqn:E.
    + injection H as <-. apply startswith_spec in E. split; [exact E|].
      simpl. intros j Hj. lia.
    + destruct (before_first p s) as [b|] eqn:Eb; [|discriminate].
      injection H as <-. destruct (IH b eq_refl) as [[post Hs] Hj].
      split; [exists post; rewrite Hs; reflexivity|].
      intros [|j] Hlt; [exact E|]. simpl in Hlt |- *. apply Hj. lia.
Qed.

Lemma after_first_spec : forall p s post,
  after_first p s = Some post ->
  exists pre, s = pre ++ p ++ post /\
    forall k, k < length pre -> PyStr.startswith p (skipn k s) = false.
Proof.
  intros p. induction s as [|c s IH]; intros post H; cbn [after_first] in H.
  - destruct (PyStr.startswith p []) eqn:E; [|discriminate]. injection H as <-.
    exists []. apply startswith_spec in E. destruct E as [tl E].
    split; [|simpl; intros; lia].
    destruct p; [reflexivity|discriminate].
  - destruct (PyStr.startswith p (c :: s)) eqn:E.
    + injection H as <-. exists []. split; [|simpl; intros; lia].
      apply startswith_spec in E. destruct E as [tl E]. rewrite E.
      rewrite skipn_app, skipn_all, Nat.sub_diag. reflexivity.
    + destruct (IH _ H) as [pre [Hs Hk]]. exists (c :: pre).
      split; [rewrite Hs; reflexivity|].
      intros [|k] Hlt; [exact E|]. simpl in Hlt |- *. apply Hk. lia.
Qed.

Lemma lazy_states_cons : forall p c tl caps,
  lazy_states p (c :: tl) caps
    = MState p (c :: tl) caps :: lazy_states (S p) tl caps.
Proof.
  intros p c tl caps. unfold lazy_states.
  change (seq 0 (S (length (c :: tl)))) with (0 :: seq 1 (S (length tl))).
  cbn [map skipn]. rewrite Nat.add_0_r. f_equal.
  rewrite <- seq_shift, map_map. apply map_ext. intros j.
  cbn [skipn]. f_equal. lia.
Qed.

(** The lazy repeat of [.] under DOTALL stops after every prefix, the
    shortest first. *)
Lemma rep_lazy_any : forall suffix fuel count last p caps,
  length suffix < fuel ->
  (forall q, last = Some q -> q < p) ->
  rep_loop (step_char Any) false 0 None fuel count last (MState p suffix caps)
    = lazy_states p suffix caps.
Proof.
  induction suffix as [|c tl IH]; intros fuel count last p caps Hf Hlast.
  - destruct fuel as [|fuel]; [simpl in Hf; lia|].
    cbn [rep_loop Nat.ltb Nat.leb below andb pos].
    assert (Hl : opt_nat_eqb last p = false).
    { destruct last as [q|]; [|reflexivity]. simpl. apply Nat.eqb_neq.
      specialize (Hlast q eq_refl). lia. }
    rewrite Hl. cbn [negb]. unfold step_char. cbn [rest flat_map].
    unfold lazy_states. simpl. rewrite Nat.add_0_r. reflexivity.
  - destruct fuel as [|fuel]; [simpl in Hf; lia|].
    cbn [rep_loop Nat.ltb Nat.leb below andb pos].
    assert (Hl : opt_nat_eqb last p = false).
    { destruct last as [q|]; [|reflexivity]. simpl. apply Nat.eqb_neq.
      specialize (Hlast q eq_refl). lia. }
    rewrite Hl. cbn [negb]. unfold step_char. cbn [rest char_test flat_map pos Re.caps].
    rewrite app_nil_r. rewrite IH.
    + rewrite lazy_states_cons. reflexivity.
    + simpl in Hf. lia.
    + intros q [= <-]. lia.
Qed.

Lemma flat_map_singleton : forall (A : Type) (l : list A),
  flat_map (fun x => [x]) l = l.
Proof. intros A. induction l as [|x l IH]; simpl; [reflexivity|]. rewrite IH. reflexivity. Qed.

(** The group [(.*?)] from a state: it closes after every prefix, the
    shortest first. *)
Lemma run_lazy_group : forall p suffix caps,
  run lazy_group (MState p suffix caps)
    = map (fun j => MState (p + j) (skipn j suffix) ((1, (p, p + j)) :: caps))
          (seq 0 (S (length suffix))).
Proof.
  intros p suffix caps. unfold lazy_group. cbn [run rest pos].
  change (run Any) with (step_char Any).
  rewrite rep_lazy_any by (try discriminate; lia).
  change (fun st : mstate => [st]) with (fun x : mstate => [x]).
  rewrite flat_map_singleton. unfold lazy_states. rewrite map_map. reflexivity.
Qed.

Lemma flat_map_first : forall (A B : Type) (f : A -> list B) (l1 : list A) (a : A)
    (l2 : list A) (x : B) (t : list B),
  (forall y, List.In y l1 -> f y = []) -> f a = x :: t ->
  flat_map f (l1 ++ a :: l2) = x :: (t ++ flat_map f l2).
Proof.
  intros A B f l1 a l2 x t H Ha. rewrite flat_map_app.
  rewrite (flat_map_nil _ _ f l1 H). simpl. rewrite Ha. reflexivity.
Qed.

(** A scan reports the first position with a match, and there the first
    way the matcher finds. *)
Lemma search_from_hit : forall r text suffix p k st l,
  k <= length suffix ->
  (forall j, j < k -> run r (MState (p + j) (skipn j suffix) []) = []) ->
  run r (MState (p + k) (skipn k suffix) []) = st :: l ->
  search_from r text false p suffix = Some (Match text (p + k) (pos st) (caps st)).
Proof.
  intros r text. induction suffix as [|c tl IH]; intros p k st l Hk Hnone Hrun.
  - simpl in Hk. assert (k = 0) by lia. subst k. rewrite Nat.add_0_r in *.
    simpl in Hrun. cbn [search_from]. rewrite Hrun. reflexivity.
  - cbn [search_from]. destruct k as [|k].
    + rewrite Nat.add_0_r in *. simpl in Hrun. rewrite Hrun. reflexivity.
    + pose proof (Hnone 0 (Nat.lt_0_succ k)) as H0. rewrite Nat.add_0_r in H0.
      simpl in H0. rewrite H0.
      replace (p + S k) with (S p + k) by lia.
      apply (IH (S p) k st l).
      * simpl in Hk. lia.
      * intros j Hj. specialize (Hnone (S j)). simpl in Hnone.
        replace (S p + j) with (p + S j) by lia. apply Hnone. lia.
      * replace (S p + k) with (p + S k) by lia. exact Hrun.
Qed.

(** The section pattern on plain markers, where the start marker
    matches: the group closes before the first end marker. *)
Lemma run_section_found : forall e p rest0 body caps,
  e <> [] -> before_first e rest0 = Some body ->
  exists others,
    run (Seq lazy_group (lits e Eps)) (MState p rest0 caps)
      = MState (p + length body + length e)
               (skipn (length e) (skipn (length body) rest0))
               ((1, (p, p + length body)) :: caps) :: others.
Proof.
  intros e p rest0 body caps Hne Hb.
  destruct (before_first_spec _ _ _ Hb) as [[post Hrest] Hj].
  cbn [run]. fold lazy_group. rewrite run_lazy_group.
  assert (Hlen : length body <= length rest0).
  { rewrite Hrest, length_app. lia. }
  replace (S (length rest0)) with (length body + S (length rest0 - length body)) by lia.
  rewrite seq_app, map_app. cbn [seq map Nat.add].
  eexists. apply flat_map_first.
  - intros y Hy. apply in_map_iff in Hy. destruct Hy as [j [<- Hin]].
    apply in_seq in Hin. rewrite run_lits. cbn [rest]. rewrite Hj by lia. reflexivity.
  - rewrite run_lits. cbn [rest pos Re.caps].
    assert (Hs : PyStr.startswith e (skipn (length body) rest0) = true).
    { apply startswith_spec. exists post. rewrite Hrest.
      rewrite skipn_app, skipn_all, Nat.sub_diag. reflexivity. }
    rewrite Hs. cbn [run]. reflexivity.
Qed.

(** ** The chunk list of the assembler *)

Lemma section_step_eq : forall s tipo metadata chunks chunks',
  (if negb (PyStr.eqb s []) then
     cleaned <- clean_chunk_text s None ;;
     Ok (chunks ++ [Chunk cleaned tipo metadata])
   else Ok chunks) = Ok chunks' ->
  chunks' = chunks ++ section_chunk s tipo metadata.
Proof.
  intros s tipo metadata chunks chunks' H. unfold section_chunk, cleaned.
  destruct (PyStr.eqb s []); cbn [negb] in H.
  - injection H as <-. symmetry. apply app_nil_r.
  - apply bind_inv in H. destruct H as [c [Hc H]]. rewrite Hc. injection H as <-.
    reflexivity.
Qed.

Lemma topicos_loop_eq : forall topicos metadata chunks chunks',
  topicos_loop topicos metadata chunks = Ok chunks' ->
  chunks' = chunks ++ map (topic_chunk metadata) topicos.
Proof.
  induction topicos as [|t ts IH]; intros metadata chunks chunks' H;
    cbn [topicos_loop] in H.
  - injection H as <-. symmetry. apply app_nil_r.
  - apply bind_inv in H. destruct H as [c [Hc H]].
    apply bind_inv in H. destruct H as [w [Hw H]].
    apply IH in H. subst chunks'. rewrite <- app_assoc. cbn [map app].
    unfold topic_chunk at 2. unfold cleaned. rewrite Hc.
    destruct (PyStr.split_ws t) as [|w0 ws]; [discriminate|].
    injection Hw as <-. reflexivity.
Qed.

(** What the assembler returns, read off its sections. *)
Lemma process_pdf_content_eq : forall text filename metadata chunks,
  process_pdf_content text filename = Ok (metadata, chunks) ->
  exists ident,
    clean_chunk_text (firstn 500 text) (Some identificacao) = Ok ident /\
    chunks = chunks_of text ident metadata.
Proof.
  intros text filename metadata chunks H. unfold process_pdf_content in H. cbv zeta in H.
  apply bind_inv in H. destruct H as [md0 [_ H]].
  apply bind_inv in H. destruct H as [md [_ H]].
  apply bind_inv in H. destruct H as [ident [Hident H]].
  apply bind_inv in H. destruct H as [objetivo [Hobj H]].
  apply bind_inv in H. destruct H as [chunks1 [H1 H]].
  apply bind_inv in H. destruct H as [ementa [Hem H]].
  apply bind_inv in H. destruct H as [chunks2 [H2 H]].
  apply bind_inv in H. destruct H as [conteudo [Hco H]].
  apply bind_inv in H. destruct H as [chunks3 [H3 H]].
  apply bind_inv in H. destruct H as [basica [Hbb H]].
  apply bind_inv in H. destruct H as [chunks4 [H4 H]].
  apply bind_inv in H. destruct H as [complementar [Hbc H]].
  apply bind_inv in H. destruct H as [chunks5 [H5 H]].
  injection H as <- <-.
  apply section_step_eq in H1, H2, H4, H5.
  assert (H3' : chunks3 = chunks2 ++ map (topic_chunk md) (topics_of conteudo)).
  { unfold topics_of. destruct (PyStr.eqb conteudo []); cbn [negb] in H3.
    - injection H3 as <-. symmetry. apply app_nil_r.
    - apply bind_inv in H3. destruct H3 as [topicos [Hf H3]]. rewrite Hf.
      apply topicos_loop_eq. exact H3. }
  exists ident. split; [exact Hident|].
  unfold chunks_of, section_of. rewrite Hobj, Hem, Hco, Hbb, Hbc.
  subst chunks5 chunks4 chunks3 chunks2 chunks1.
  cbn [app]. rewrite <- !app_assoc. reflexivity.
Qed.

(** ** The metadata of a document and of its chunks *)

Lemma dict_get_set : forall (V : Type) k k' (v : V) d,
  dict_get k (dict_set k' v d) = if PyStr.eqb k' k then Some v else dict_get k d.
Proof.
  intros V k k' v d. destruct (PyStr.eqb k' k) eqn:E.
  - apply pystr_eqb_eq in E. subst k'. apply dict_get_set_same.
  - apply dict_get_set_other. exact E.
Qed.

Lemma course_code_nonempty : forall code, course_code code -> code <> [].
Proof.
  intros code (prefix & digits & c & -> & _ & Hne & _) E.
  apply app_eq_nil in E. destruct E as [_ E]. apply app_eq_nil in E.
  destruct E as [E _]. contradiction.
Qed.

(** The code the metadata extractor reports occurs in the text. *)
Lemma header_search_occurs : forall text m,
  search_from header_code_regex text false 0 text = Some m ->
  course_code (group0 m) /\ exists pre, occurs_at course_code text pre.
Proof.
  intros text m E.
  destruct (search_from_word header_code_regex text false 0 m E)
    as (st' & w & _ & _ & Hsk & _ & _ & Hw & Hg).
  apply header_code_lang in Hw. rewrite Hg. split; [exact Hw|].
  exists (firstn (m_start m) text), w, (skipn (m_end m) text).
  split; [|exact Hw]. rewrite <- Hsk. symmetry. apply firstn_skipn.
Qed.

(** A text without a course code is one where the code pattern matches
    nowhere. *)
Lemma no_code_by_search : forall text,
  search_from header_code_regex text false 0 text = None ->
  forall pre, ~ occurs_at course_code text pre.
Proof.
  intros text Hs pre (code & post & Htext & (prefix & digits & c & -> & Hp & Hne & Hd & Hc)).
  pose proof (proj1 (search_from_none _ _ _ _) Hs (length pre)) as Hrun.
  assert (Hlen : length pre <= length text) by (rewrite Htext, length_app; lia).
  specialize (Hrun Hlen). rewrite Htext in Hrun.
  rewrite skipn_app, skipn_all, Nat.sub_diag in Hrun. cbn [app skipn] in Hrun.
  rewrite <- !app_assoc in Hrun.
  exact (header_code_complete prefix digits c post _ _ Hp Hne Hd Hc Hrun).
Qed.

(** What the metadata extractor returns. *)
Lemma header_metadata_spec : forall text metadata,
  extract_metadata_from_header text = Ok metadata ->
  (forall code, dict_get (u "codigo") metadata = Some code ->
     course_code code /\ exists pre, occurs_at course_code text pre) /\
  (dict_get (u "codigo") metadata = None -> dict_get (u "disciplina") metadata = None) /\
  dict_get (u "modalidade") metadata
    = Some (if PyStr.contains (u "Presencial") text then u "Presencial"
            else u "Não Presencial") /\
  dict_get (u "oferta") metadata
    = Some (if PyStr.contains (u "Semestral") text then u "Semestral" else u "Anual") /\
  (forall k, dict_get k metadata <> None -> List.In k metadata_keys).
Proof.
  intros text metadata H. unfold extract_metadata_from_header, search in H.
  rewrite compile_header_code in H. cbn [bind] in H. cbv zeta in H.
  apply (f_equal (fun r => match r with Ok d => d | Raise _ => [] end)) in H.
  cbv beta iota in H. subst metadata.
  split; [|split; [|split; [|split]]].
  - intros code. rewrite !dict_get_set_other by (vm_compute; reflexivity).
    destruct (search_from header_code_regex text false 0 text) as [m|] eqn:E.
    + rewrite !dict_get_set_other by (vm_compute; reflexivity).
      rewrite dict_get_set_same. intros [= <-]. apply header_search_occurs. exact E.
    + simpl. discriminate.
  - rewrite !dict_get_set_other by (vm_compute; reflexivity).
    destruct (search_from header_code_regex text false 0 text) as [m|] eqn:E.
    + rewrite !dict_get_set_other by (vm_compute; reflexivity).
      rewrite dict_get_set_same. discriminate.
    + reflexivity.
  - rewrite dict_get_set_other by (vm_compute; reflexivity). apply dict_get_set_same.
  - apply dict_get_set_same.
  - intros k Hk. unfold metadata_keys. rewrite !dict_get_set in Hk.
    destruct (PyStr.eqb (u "oferta") k) eqn:E1;
      [apply pystr_eqb_eq in E1; subst k; simpl; tauto|].
    destruct (PyStr.eqb (u "modalidade") k) eqn:E2;
      [apply pystr_eqb_eq in E2; subst k; simpl; tauto|].
    destruct (search_from header_code_regex text false 0 text) as [m|].
    + rewrite !dict_get_set in Hk.
      destruct (PyStr.eqb (u "disciplina") k) eqn:E3;
        [apply pystr_eqb_eq in E3; subst k; simpl; tauto|].
      destruct (PyStr.eqb (u "codigo") k) eqn:E4;
        [apply pystr_eqb_eq in E4; subst k; simpl; tauto|].
      simpl in Hk. congruence.
    + simpl in Hk. congruence.
Qed.

Lemma process_pdf_content_metadata : forall text filename metadata chunks,
  process_pdf_content text filename = Ok (metadata, chunks) ->
  exists md0,
    extract_metadata_from_header text = Ok md0 /\
    derive_disciplina text (with_codigo filename md0) = Ok metadata.
Proof.
  intros text filename metadata chunks H. unfold process_pdf_content in H. cbv zeta in H.
  apply bind_inv in H. destruct H as [md0 [E0 H]].
  apply bind_inv in H. destruct H as [md [E1 H]].
  apply bind_inv in H. destruct H as [ident [_ H]].
  apply bind_inv in H. destruct H as [objetivo [_ H]].
  apply bind_inv in H. destruct H as [chunks1 [_ H]].
  apply bind_inv in H. destruct H as [ementa [_ H]].
  apply bind_inv in H. destruct H as [chunks2 [_ H]].
  apply bind_inv in H. destruct H as [conteudo [_ H]].
  apply bind_inv in H. destruct H as [chunks3 [_ H]].
  apply bind_inv in H. destruct H as [basica [_ H]].
  apply bind_inv in H. destruct H as [chunks4 [_ H]].
  apply bind_inv in H. destruct H as [complementar [_ H]].
  apply bind_inv in H. destruct H as [chunks5 [_ H]].
  injection H as <- <-.
  exists md0. split; [exact E0|exact E1].
Qed.

Lemma derive_disciplina_inv : forall text md1 metadata,
  derive_disciplina text md1 = Ok metadata ->
  (dict_truthy (u "disciplina") md1 = true /\ metadata = md1) \/
  (dict_truthy (u "disciplina") md1 = false /\
   exists d, metadata = dict_set (u "disciplina") d md1).
Proof.
  intros text md1 metadata H. unfold derive_disciplina in H.
  destruct (dict_truthy (u "disciplina") md1); cbn [negb] in H;
    [injection H as <-; left; split; reflexivity|].
  right. split; [reflexivity|].
  apply bind_inv in H. destruct H as [codigo [_ H]].
  apply bind_inv in H. destruct H as [[m|] [_ H]].
  - apply bind_inv in H. destruct H as [g [_ H]]. injection H as <-. eauto.
  - apply bind_inv in H. destruct H as [[m|] [_ H]].
    + apply bind_inv in H. destruct H as [g [_ H]]. injection H as <-. eauto.
    + injection H as <-. eauto.
Qed.

Lemma derive_disciplina_get : forall text md1 metadata k,
  derive_disciplina text md1 = Ok metadata ->
  PyStr.eqb (u "disciplina") k = false ->
  dict_get k metadata = dict_get k md1.
Proof.
  intros text md1 metadata k H Hk.
  destruct (derive_disciplina_inv _ _ _ H) as [[_ ->]|[_ [d ->]]]; [reflexivity|].
  apply dict_get_set_other. exact Hk.
Qed.

Lemma derive_disciplina_present : forall text md1 metadata,
  derive_disciplina text md1 = Ok metadata ->
  exists d, dict_get (u "disciplina") metadata = Some d.
Proof.
  intros text md1 metadata H.
  destruct (derive_disciplina_inv _ _ _ H) as [[T ->]|[_ [d ->]]].
  - unfold dict_truthy in T.
    destruct (dict_get (u "disciplina") md1) as [d|]; [eauto|discriminate].
  - exists d. apply dict_get_set_same.
Qed.

Lemma with_codigo_get : forall filename md0 k,
  PyStr.eqb (u "codigo") k = false ->
  dict_get k (with_codigo filename md0) = dict_get k md0.
Proof.
  intros filename md0 k Hk. unfold with_codigo.
  destruct (negb (dict_truthy (u "codigo") md0)); [|reflexivity].
  apply dict_get_set_other. exact Hk.
Qed.

Lemma with_codigo_codigo : forall filename (md0 : dict),
  (forall code : str, dict_get (u "codigo") md0 = Some code -> code <> []) ->
  dict_get (u "codigo") (with_codigo filename md0)
    = Some match dict_get (u "codigo") md0 with
           | Some code => code
           | None => splitext_root filename
           end.
Proof.
  intros filename md0 Hne. unfold with_codigo, dict_truthy.
  destruct (dict_get (u "codigo") md0) as [[|c code]|] eqn:G; cbn [negb].
  - destruct (Hne [] eq_refl eq_refl).
  - exact G.
  - apply dict_get_set_same.
Qed.

(** The document metadata the assembler returns: its four keys, the
    origin of the code, and the values the extractor set. *)
Lemma process_pdf_content_keys : forall text filename metadata chunks,
  process_pdf_content text filename = Ok (metadata, chunks) ->
  exists md0,
    extract_metadata_from_header text = Ok md0 /\
    dict_get (u "codigo") metadata
      = Some match dict_get (u "codigo") md0 with
             | Some code => code
             | None => splitext_root filename
             end /\
    (exists d, dict_get (u "disciplina") metadata = Some d) /\
    dict_get (u "modalidade") metadata
      = Some (if PyStr.contains (u "Presencial") text then u "Presencial"
              else u "Não Presencial") /\
    dict_get (u "oferta") metadata
      = Some (if PyStr.contains (u "Semestral") text then u "Semestral" else u "Anual") /\
    (forall k, dict_get k metadata <> None -> List.In k metadata_keys).
Proof.
  intros text filename metadata chunks H.
  destruct (process_pdf_content_metadata _ _ _ _ H) as [md0 [E0 E1]].
  destruct (header_metadata_spec _ _ E0) as (Hcode & _ & Hmod & Hof & Hkeys).
  exists md0. split; [exact E0|].
  split; [|split; [|split; [|split]]].
  - rewrite (derive_disciplina_get _ _ _ _ E1) by (vm_compute; reflexivity).
    apply with_codigo_codigo. intros code G.
    apply course_code_nonempty. apply (Hcode code G).
  - exact (derive_disciplina_present _ _ _ E1).
  - rewrite (derive_disciplina_get _ _ _ _ E1) by (vm_compute; reflexivity).
    rewrite with_codigo_get by (vm_compute; reflexivity). exact Hmod.
  - rewrite (derive_disciplina_get _ _ _ _ E1) by (vm_compute; reflexivity).
    rewrite with_codigo_get by (vm_compute; reflexivity). exact Hof.
  - intros k Hk.
    destruct (PyStr.eqb (u "disciplina") k) eqn:Ed;
      [apply pystr_eqb_eq in Ed; subst k; unfold metadata_keys; simpl; tauto|].
    rewrite (derive_disciplina_get _ _ _ _ E1) in Hk by exact Ed.
    destruct (PyStr.eqb (u "codigo") k) eqn:Ec;
      [apply pystr_eqb_eq in Ec; subst k; unfold metadata_keys; simpl; tauto|].
    rewrite with_codigo_get in Hk by exact Ec. apply Hkeys. exact Hk.
Qed.

Lemma metadata_no_secao : forall text filename metadata chunks,
  process_pdf_content text filename = Ok (metadata, chunks) ->
  dict_get (u "secao") metadata = None.
Proof.
  intros text filename metadata chunks H.
  destruct (process_pdf_content_keys _ _ _ _ H) as (md0 & _ & _ & _ & _ & _ & Hkeys).
  destruct (dict_get (u "secao") metadata) as [v|] eqn:G; [|reflexivity].
  exfalso. assert (Hin : List.In (u "secao") metadata_keys)
    by (apply Hkeys; rewrite G; discriminate).
  assert (Hd : existsb (PyStr.eqb (u "secao")) metadata_keys = false)
    by (vm_compute; reflexivity).
  assert (Ht : existsb (PyStr.eqb (u "secao")) metadata_keys = true).
  { apply existsb_exists. exists (u "secao"). split; [exact Hin|apply pystr_eqb_refl]. }
  congruence.
Qed.

(** *** The metadata of the chunks *)

Lemma words_aux_first : forall s cur,
  cur <> [] -> exists w ws, PyStr.words_aux cur s = (rev cur ++ w) :: ws.
Proof.
  induction s as [|c s IH]; intros cur Hcur; simpl.
  - destruct cur; [congruence|]. exists [], []. rewrite app_nil_r. reflexivity.
  - destruct (PyStr.isspace c).
    + destruct cur; [congruence|]. exists [], (PyStr.words_aux [] s).
      rewrite app_nil_r. reflexivity.
    + destruct (IH (c :: cur)) as [w [ws E]]; [discriminate|].
      exists (c :: w), ws. rewrite E. simpl. rewrite <- app_assoc. reflexivity.
Qed.

(** The first word of a string that starts with a digit starts with that
    digit. *)
Lemma split_ws_first_digit : forall c tl,
  PyStr.isdigit c = true ->
  exists w, hd [] (PyStr.split_ws (c :: tl)) = c :: w.
Proof.
  intros c tl H. unfold PyStr.split_ws. simpl. rewrite (digit_not_space c H).
  destruct (words_aux_first tl [c]) as [w [ws E]]; [discriminate|].
  rewrite E. exists w. reflexivity.
Qed.

Lemma topics_of_digits : forall conteudo,
  Forall (fun t => exists c tl, t = c :: tl /\ PyStr.isdigit c = true) (topics_of conteudo).
Proof.
  intros conteudo. unfold topics_of. destruct (PyStr.eqb conteudo []); [constructor|].
  destruct (findall_topics conteudo) as [topicos [E F]]. rewrite E. exact F.
Qed.

Lemma section_chunk_metadata : forall s tipo metadata,
  PyStr.eqb tipo (u "conteudo_programatico") = false ->
  Forall (chunk_metadata_ok metadata) (section_chunk s tipo metadata).
Proof.
  intros s tipo metadata Ht. unfold section_chunk.
  destruct (PyStr.eqb s []); constructor; [|constructor].
  unfold chunk_metadata_ok. cbn [chunk_tipo chunk_metadata]. rewrite Ht. reflexivity.
Qed.

Lemma process_pdf_content_chunk_metadata : forall text filename metadata chunks,
  process_pdf_content text filename = Ok (metadata, chunks) ->
  Forall (chunk_metadata_ok metadata) chunks.
Proof.
  intros text filename metadata chunks H.
  destruct (process_pdf_content_eq _ _ _ _ H) as [ident [_ ->]].
  unfold chunks_of. constructor.
  { unfold chunk_metadata_ok. cbn [chunk_tipo chunk_metadata].
    replace (PyStr.eqb (u "identificacao") (u "conteudo_programatico")) with false
      by (vm_compute; reflexivity).
    reflexivity. }
  rewrite !Forall_app. split; [|split; [|split; [|split]]];
    try (apply section_chunk_metadata; vm_compute; reflexivity).
  apply Forall_forall. intros c Hc. apply in_map_iff in Hc. destruct Hc as [t [<- Ht]].
  pose proof (topics_of_digits
                (section_of text (u "Conteúdo Programático") (u "Bibliografia"))) as F.
  rewrite Forall_forall in F. destruct (F t Ht) as (d & tl & -> & Hd).
  unfold chunk_metadata_ok, topic_chunk. cbn [chunk_tipo chunk_metadata].
  rewrite pystr_eqb_refl.
  destruct (split_ws_first_digit d tl Hd) as [w Hw]. rewrite Hw.
  exists d, w. split; [exact Hd|reflexivity].
Qed.

Lemma section_chunk_metadata_from : forall text s tipo metadata,
  PyStr.eqb tipo (u "conteudo_programatico") = false ->
  Forall (chunk_metadata_from text metadata) (section_chunk s tipo metadata).
Proof.
  intros text s tipo metadata Ht. unfold section_chunk.
  destruct (PyStr.eqb s []); constructor; [|constructor].
  unfold chunk_metadata_from. cbn [chunk_tipo chunk_metadata]. rewrite Ht. reflexivity.
Qed.

Lemma process_pdf_content_chunk_metadata_from : forall text filename metadata chunks,
  process_pdf_content text filename = Ok (metadata, chunks) ->
  Forall (chunk_metadata_from text metadata) chunks.
Proof.
  intros text filename metadata chunks H.
  destruct (process_pdf_content_eq _ _ _ _ H) as [ident [_ ->]].
  unfold chunks_of. constructor.
  { unfold chunk_metadata_from. cbn [chunk_tipo chunk_metadata].
    replace (PyStr.eqb (u "identificacao") (u "conteudo_programatico")) with false
      by (vm_compute; reflexivity).
    reflexivity. }
  rewrite !Forall_app. split; [|split; [|split; [|split]]];
    try (apply section_chunk_metadata_from; vm_compute; reflexivity).
  apply Forall_forall. intros c Hc. apply in_map_iff in Hc. destruct Hc as [t [<- Ht]].
  pose proof (topics_of_digits
                (section_of text (u "Conteúdo Programático") (u "Bibliografia"))) as F.
  rewrite Forall_forall in F. destruct (F t Ht) as (d & tl & Et & Hd).
  unfold chunk_metadata_from, topic_chunk. cbn [chunk_tipo chunk_metadata chunk_text].
  rewrite pystr_eqb_refl.
  destruct (split_ws_first_digit d tl Hd) as [w Hw].
  exists t, d, w. split; [exact Ht|]. split; [reflexivity|].
  assert (Hh : hd [] (PyStr.split_ws t) = d :: w) by (rewrite Et; exact Hw).
  rewrite Hh. split; [reflexivity|]. split; [exact Hd|reflexivity].
Qed.

(** *** Texts without section headings *)

Lemma extract_section_absent : forall text section_start section_end,
  Plain section_start -> Plain section_end ->
  PyStr.contains section_start text = false ->
  extract_section_from_pdf text section_start (Some section_end) = Ok [].
Proof.
  intros text s e Hs He Habs. unfold extract_section_from_pdf, search.
  destruct e as [|c e].
  - fold fallback_tail. rewrite compile_fallback by assumption. cbn [bind].
    rewrite search_absent_prefix by assumption. reflexivity.
  - rewrite compile_section by assumption. cbn [bind].
    rewrite search_absent_prefix by assumption. reflexivity.
Qed.

Lemma section_of_absent : forall text section_start section_end,
  plain section_start = true -> plain section_end = true ->
  PyStr.contains section_start text = false ->
  section_of text section_start section_end = [].
Proof.
  intros text s e Hs He Habs. unfold section_of.
  rewrite extract_section_absent by (try apply plain_Plain; assumption). reflexivity.
Qed.

Lemma section_chunk_nil : forall tipo metadata, section_chunk [] tipo metadata = [].
Proof. intros. unfold section_chunk. rewrite pystr_eqb_refl. reflexivity. Qed.

Lemma topics_of_nil : topics_of [] = [].
Proof. unfold topics_of. rewrite pystr_eqb_refl. reflexivity. Qed.

Lemma chunks_of_no_sections : forall text ident metadata,
  (forall s, List.In s section_starts -> PyStr.contains s text = false) ->
  chunks_of text ident metadata = [Chunk ident (u "identificacao") metadata].
Proof.
  intros text ident metadata H. unfold chunks_of.
  unfold section_starts in H.
  assert (H1 : PyStr.contains (u "Objetivo") text = false)
    by (apply H; left; reflexivity).
  assert (H2 : PyStr.contains (u "Ementa") text = false)
    by (apply H; right; left; reflexivity).
  assert (H3 : PyStr.contains (u "Conteúdo Programático") text = false)
    by (apply H; right; right; left; reflexivity).
  assert (H4 : PyStr.contains (u "Bibliografia Básica") text = false)
    by (apply H; right; right; right; left; reflexivity).
  assert (H5 : PyStr.contains (u "Bibliografia Complementar") text = false)
    by (apply H; right; right; right; right; left; reflexivity).
  rewrite (section_of_absent text (u "Objetivo") (u "Ementa"))
    by (exact H1 || (vm_compute; reflexivity)).
  rewrite (section_of_absent text (u "Ementa") (u "Conteúdo Programático"))
    by (exact H2 || (vm_compute; reflexivity)).
  rewrite (section_of_absent text (u "Conteúdo Programático") (u "Bibliografia"))
    by (exact H3 || (vm_compute; reflexivity)).
  rewrite (section_of_absent text (u "Bibliografia Básica") (u "Bibliografia Complementar"))
    by (exact H4 || (vm_compute; reflexivity)).
  rewrite (section_of_absent text (u "Bibliografia Complementar") (u "Resumo"))
    by (exact H5 || (vm_compute; reflexivity)).
  rewrite !section_chunk_nil, topics_of_nil. reflexivity.
Qed.

(** *** The order of the chunks *)

Lemma map_tipo_section_chunk : forall s tipo metadata,
  map chunk_tipo (section_chunk s tipo metadata) = section_tipo s tipo.
Proof.
  intros s tipo metadata. unfold section_chunk, section_tipo.
  destruct (PyStr.eqb s []); reflexivity.
Qed.

Lemma map_tipo_topics : forall metadata topicos,
  map chunk_tipo (map (topic_chunk metadata) topicos)
    = repeat (u "conteudo_programatico") (length topicos).
Proof.
  intros metadata. induction topicos as [|t ts IH]; simpl; [reflexivity|].
  rewrite IH. reflexivity.
Qed.

(** *** The placeholder name *)

Lemma compile_disciplina : forall codigo,
  Plain codigo ->
  compile DOTALL (codigo ++ u "(.*?)(?=Frequência|Presencial|Nota|$)")
    = Some (lits codigo disciplina_regex).
Proof.
  intros codigo H. fold disciplina_tail.
  apply (compile_plain_prefix DOTALL codigo disciplina_tail disciplina_regex 2
           (3 * length disciplina_tail + 1) eq_refl H).
  - vm_compute. repeat split.
  - vm_compute. reflexivity.
  - lia.
Qed.

Lemma compile_label :
  compile DOTALL
    (u "(?:Disciplina|Unidade Curricular)[:\s]+(.*?)(?=Frequência|Presencial|Nota|$)")
    = Some (Seq (Alt (lits (u "Disciplina") Eps) (lits (u "Unidade Curricular") Eps))
                label_tail).
Proof. vm_compute. reflexivity. Qed.

Lemma startswith_absent : forall p s k,
  PyStr.contains p s = false -> PyStr.startswith p (skipn k s) = false.
Proof.
  intros p s k H. destruct (PyStr.startswith p (skipn k s)) eqn:E; [|reflexivity].
  apply contains_skipn in E. congruence.
Qed.

(** The labelled-name pattern matches nowhere in a text that holds
    neither label. *)
Lemma search_label_absent : forall text,
  PyStr.contains (u "Disciplina") text = false ->
  PyStr.contains (u "Unidade Curricular") text = false ->
  search DOTALL
    (u "(?:Disciplina|Unidade Curricular)[:\s]+(.*?)(?=Frequência|Presencial|Nota|$)") text
    = Ok None.
Proof.
  intros text H1 H2. unfold search. rewrite compile_label.
  assert (Hn : search_from
                 (Seq (Alt (lits (u "Disciplina") Eps) (lits (u "Unidade Curricular") Eps))
                      label_tail) text false 0 text = None).
  { apply search_from_none. intros k _. cbn [run]. rewrite !run_lits. cbn [rest].
    rewrite !startswith_absent by assumption. reflexivity. }
  rewrite Hn. reflexivity.
Qed.

Lemma derive_disciplina_placeholder : forall text (metadata : dict) codigo,
  dict_truthy (u "disciplina") metadata = false ->
  dict_get (u "codigo") metadata = Some codigo -> Plain codigo ->
  PyStr.contains codigo text = false ->
  PyStr.contains (u "Disciplina") text = false ->
  PyStr.contains (u "Unidade Curricular") text = false ->
  derive_disciplina text metadata
    = Ok (dict_set (u "disciplina") (u "Disciplina " ++ codigo) metadata).
Proof.
  intros text metadata codigo Ht Hget Hplain Hc H1 H2. unfold derive_disciplina.
  rewrite Ht. cbn [negb]. unfold dict_item. rewrite Hget. cbn [bind].
  unfold search at 1. rewrite compile_disciplina by exact Hplain.
  rewrite search_absent_prefix by exact Hc. cbn [bind].
  rewrite search_label_absent by assumption. reflexivity.
Qed.

(** ** What the cleaner keeps *)

Lemma subseq_refl : forall a, subseq a a.
Proof. induction a; constructor; assumption. Qed.

Lemma subseq_app_r : forall a b c, subseq a b -> subseq a (c ++ b).
Proof. intros a b c H. induction c; simpl; [exact H|constructor; assumption]. Qed.

Lemma subseq_app : forall a b c d, subseq a b -> subseq c d -> subseq (a ++ c) (b ++ d).
Proof.
  intros a b c d H. induction H; intros Hc; simpl.
  - apply subseq_app_r. exact Hc.
  - constructor. auto.
  - constructor. auto.
Qed.

Lemma subseq_app_l : forall a b c, subseq a b -> subseq a (b ++ c).
Proof.
  intros a b c H. rewrite <- (app_nil_r a). apply subseq_app; [exact H|constructor].
Qed.

Lemma subseq_trans : forall a b c, subseq a b -> subseq b c -> subseq a c.
Proof.
  intros a b c H1 H2. revert a H1. induction H2; intros x H1.
  - inversion H1; subst. constructor.
  - inversion H1; subst.
    + constructor.
    + constructor. auto.
    + constructor. auto.
  - constructor. auto.
Qed.

Lemma subseq_filter : forall f a b, subseq a b -> subseq (filter f a) (filter f b).
Proof.
  intros f a b H. induction H; simpl.
  - constructor.
  - destruct (f c); [constructor|]; assumption.
  - destruct (f c); [constructor|]; assumption.
Qed.

Lemma subseq_skipn : forall k (a : str), subseq (skipn k a) a.
Proof.
  induction k as [|k IH]; intros a; simpl; [apply subseq_refl|].
  destruct a; [constructor|]. constructor. apply IH.
Qed.

Lemma subseq_firstn : forall k (a : str), subseq (firstn k a) a.
Proof.
  intros k a. rewrite <- (firstn_skipn k a) at 2. apply subseq_app_l, subseq_refl.
Qed.

(** The lines that are kept, joined, are the text with some code points
    left out. *)
Lemma join_cons : forall sep p ps,
  ps <> [] -> PyStr.join sep (p :: ps) = p ++ sep ++ PyStr.join sep ps.
Proof. intros sep p [|q qs] H; [congruence|reflexivity]. Qed.

Lemma split_on_nonempty : forall sep s, PyStr.split_on sep s <> [].
Proof.
  intros sep [|c s]; cbn [PyStr.split_on]; [discriminate|].
  destruct (c =? sep)%N; [discriminate|].
  destruct (PyStr.split_on sep s); discriminate.
Qed.

Lemma join_split : forall sep s, PyStr.join [sep] (PyStr.split_on sep s) = s.
Proof.
  intros sep. induction s as [|c s IH]; [reflexivity|].
  cbn [PyStr.split_on]. pose proof (split_on_nonempty sep s) as Hne.
  destruct (PyStr.split_on sep s) as [|p ps] eqn:Es; [congruence|].
  destruct (c =? sep)%N eqn:E.
  - apply N.eqb_eq in E. subst c. rewrite join_cons by discriminate.
    rewrite IH. reflexivity.
  - destruct ps as [|q qs].
    + cbn [PyStr.join] in IH |- *. rewrite IH. reflexivity.
    + rewrite join_cons in IH |- * by discriminate. rewrite <- IH. reflexivity.
Qed.

Lemma join_filter_subseq : forall sep f ls,
  subseq (PyStr.join sep (filter f ls)) (PyStr.join sep ls).
Proof.
  intros sep f. induction ls as [|l ls IH]; [constructor|].
  destruct ls as [|l2 r].
  - cbn [filter]. destruct (f l); [apply subseq_refl|constructor].
  - rewrite (join_cons sep l (l2 :: r)) by discriminate.
    cbn [filter] in IH |- *. destruct (f l).
    + destruct (if f l2 then l2 :: filter f r else filter f r) as [|x xs] eqn:E.
      * cbn [PyStr.join]. apply subseq_app_l, subseq_refl.
      * rewrite (join_cons sep l (x :: xs)) by discriminate.
        apply subseq_app; [apply subseq_refl|].
        apply subseq_app; [apply subseq_refl|]. exact IH.
    + apply subseq_app_r, subseq_app_r. exact IH.
Qed.

(** Deleting the matches of a pattern leaves out code points. *)
Lemma replace_all_subseq : forall r text fuel ma p,
  subseq (replace_all text [] p (matches_from fuel r text ma p (skipn p text)))
         (skipn p text).
Proof.
  intros r text. induction fuel as [|fuel IH]; intros ma p; cbn [matches_from].
  - cbn [replace_all]. apply subseq_refl.
  - destruct (search_from r text ma p (skipn p text)) as [m|] eqn:E.
    + destruct (search_from_span _ _ _ _ _ _ E) as (Hs & He & Hl & _).
      cbn [replace_all app]. rewrite skipn_skipn.
      replace (m_end m - p + p) with (m_end m) by lia.
      unfold slice.
      rewrite <- (firstn_skipn (m_start m - p) (skipn p text)) at 2.
      apply subseq_app; [apply subseq_refl|].
      eapply subseq_trans; [apply IH|].
      rewrite skipn_skipn. replace (m_start m - p + p) with (m_start m) by lia.
      replace (m_end m) with ((m_end m - m_start m) + m_start m) at 1 by lia.
      rewrite <- skipn_skipn. apply subseq_skipn.
    + cbn [replace_all]. apply subseq_refl.
Qed.

Lemma empty_code : u "" = [].
Proof. vm_compute. reflexivity. Qed.

Lemma sub_delete_subseq : forall fl pat text t,
  compiles fl pat = true ->
  sub fl pat (u "") text = Ok t -> subseq t text.
Proof.
  intros fl pat text t Hc H. unfold sub in H. unfold compiles in Hc.
  destruct (compile fl pat) as [r|]; [|discriminate]. injection H as <-.
  rewrite empty_code. unfold matches.
  exact (replace_all_subseq r text _ false 0).
Qed.

Lemma collapse_nonspace_filter : forall s b,
  filter nonspace (collapse b s) = filter nonspace s.
Proof.
  induction s as [|c s IH]; intros b; simpl; [reflexivity|].
  unfold nonspace at 2. destruct (PyStr.isspace c) eqn:E; cbn [negb].
  - destruct b; [apply IH|]. cbn [filter]. unfold nonspace at 1.
    replace (PyStr.isspace 32%N) with true by (vm_compute; reflexivity).
    cbn [negb]. apply IH.
  - cbn [filter]. unfold nonspace at 1. rewrite E. cbn [negb]. rewrite IH. reflexivity.
Qed.

Lemma lstrip_subseq : forall s, subseq (PyStr.lstrip s) s.
Proof.
  induction s as [|c s IH]; simpl; [constructor|].
  destruct (PyStr.isspace c); [constructor; exact IH|apply subseq_refl].
Qed.

Lemma strip_subseq : forall s, subseq (PyStr.strip s) s.
Proof.
  intros s. unfold PyStr.strip. eapply subseq_trans; [|apply lstrip_subseq].
  destruct (rstrip_prefix (PyStr.lstrip s)) as [t Ht].
  rewrite Ht at 2. apply subseq_app_l, subseq_refl.
Qed.

(** The default branch of the cleaner invents nothing: the code points
    of its result that are not whitespace are code points of the
    fragment, in the same order. *)
Lemma clean_default_subseq : forall text c,
  clean_chunk_text text None = Ok c ->
  subseq (filter nonspace c) (filter nonspace text).
Proof.
  intros text c H. unfold clean_chunk_text in H. cbv zeta in H. cbn match in H.
  apply bind_inv in H. destruct H as [t1 [E1 H]].
  apply bind_inv in H. destruct H as [t2 [E2 H]].
  apply bind_inv in H. destruct H as [t3 [E3 H]].
  injection H as <-.
  rewrite sub_ws in E3. injection E3 as <-.
  apply sub_delete_subseq in E1, E2; try reflexivity.
  eapply subseq_trans; [apply subseq_filter, strip_subseq|].
  rewrite collapse_nonspace_filter. apply subseq_filter.
  eapply subseq_trans; [exact E2|]. eapply subseq_trans; [exact E1|].
  replace (u "
") with [10%N] by (vm_compute; reflexivity).
  rewrite <- (join_split 10%N text) at 2. apply join_filter_subseq.
Qed.

(** *** Patterns that start with a literal *)

Lemma starts_lits_spec : forall p r,
  starts_lits p r = true -> exists r', r = lits p r'.
Proof.
  induction p as [|c p IH]; intros r H; simpl in H.
  - exists r. reflexivity.
  - destruct r as [| | | | | |r1 r2| | | | | |]; try discriminate.
    destruct r1; try discriminate.
    apply andb_true_iff in H. destruct H as [Hc Hp].
    apply N.eqb_eq in Hc. subst.
    destruct (IH _ Hp) as [r' ->]. exists r'. reflexivity.
Qed.

(** A pattern that starts with a literal matches nowhere in a text that
    does not hold it. *)
Lemma search_literal_absent : forall fl pat p r text,
  compile fl pat = Some r -> starts_lits p r = true ->
  PyStr.contains p text = false ->
  search fl pat text = Ok None.
Proof.
  intros fl pat p r text Hc Hp Habs. unfold search. rewrite Hc.
  destruct (starts_lits_spec _ _ Hp) as [r' ->].
  rewrite search_absent_prefix by exact Habs. reflexivity.
Qed.

Lemma search_literal_pattern : forall fl p pat text,
  literal_pattern fl p pat = true -> PyStr.contains p text = false ->
  search fl pat text = Ok None.
Proof.
  intros fl p pat text H Habs. unfold literal_pattern in H.
  destruct (compile fl pat) as [r|] eqn:Ec; [|discriminate].
  exact (search_literal_absent fl pat p r text Ec H Habs).
Qed.

Lemma code_regex_eq :
  code_regex
    = Seq (Group 1 (Alt (lits (u "CC") Eps)
                   (Alt (lits (u "PP") Eps)
                   (Alt (lits (u "CH") Eps)
                   (Alt (lits (u "OP") Eps) (lits (u "MEIU") Eps))))))
          code_tail.
Proof. vm_compute. reflexivity. Qed.

(** The course-code pattern of the identification branch matches nowhere
    in a text that holds none of its prefixes. *)
Lemma search_code_absent : forall text,
  (forall p, List.In p ident_prefixes -> PyStr.contains p text = false) ->
  search NOFLAGS (u "(CC|PP|CH|OP|MEIU)\d+[A-Z0-9]") text = Ok None.
Proof.
  intros text H. unfold search. rewrite compile_code, code_regex_eq.
  unfold ident_prefixes in H.
  assert (H1 : PyStr.contains (u "CC") text = false) by (apply H; left; reflexivity).
  assert (H2 : PyStr.contains (u "PP") text = false)
    by (apply H; right; left; reflexivity).
  assert (H3 : PyStr.contains (u "CH") text = false)
    by (apply H; right; right; left; reflexivity).
  assert (H4 : PyStr.contains (u "OP") text = false)
    by (apply H; right; right; right; left; reflexivity).
  assert (H5 : PyStr.contains (u "MEIU") text = false)
    by (apply H; right; right; right; right; left; reflexivity).
  match goal with
  | |- Ok ?x = _ => assert (Hn : x = None); [|rewrite Hn; reflexivity]
  end.
  apply search_from_none. intros k _. cbn [run]. rewrite !run_lits. cbn [rest].
  rewrite !startswith_absent by assumption. reflexivity.
Qed.

(** ** The records the drivers store *)

Section Stays2.

Variables (S : Type) (R : S -> S -> Prop).
Hypothesis R_refl : forall s, R s s.
Hypothesis R_trans : forall a b c, R a b -> R b c -> R a c.

Lemma stays_lift_bind : forall (A B : Type) (r : result A) (f : A -> M S B),
  (forall a, r = Ok a -> stays R (f a)) -> stays R (mbind (lift r) f).
Proof.
  intros A B r f H s. unfold mbind, lift. destruct r as [a|e]; simpl.
  - apply H. reflexivity.
  - apply R_refl.
Qed.

Lemma stays_for_each_in : forall (A : Type) (xs : list A) (body : A -> M S unit),
  (forall x, List.In x xs -> stays R (body x)) -> stays R (for_each xs body).
Proof.
  intros A xs body. induction xs as [|x xs IH]; intros Hb; simpl.
  - apply stays_ret. exact R_refl.
  - apply stays_mbind; [exact R_trans|apply Hb; left; reflexivity|].
    intros _. apply IH. intros y Hy. apply Hb. right. exact Hy.
Qed.

End Stays2.

Lemma in_combine_seq : forall (A : Type) (l : list A) (a i : nat) (x : A),
  List.In (i, x) (combine (seq a (length l)) l) -> a <= i /\ nth_error l (i - a) = Some x.
Proof.
  intros A. induction l as [|y l IH]; intros a i x H; simpl in H; [destruct H|].
  destruct H as [H|H].
  - injection H as <- <-. rewrite Nat.sub_diag. split; [lia|reflexivity].
  - apply IH in H. destruct H as [H1 H2]. split; [lia|].
    replace (i - a) with (S (i - S a)) by lia. exact H2.
Qed.

Lemma in_enumerate : forall (A : Type) (l : list A) (i : nat) (x : A),
  List.In (i, x) (enumerate l) -> nth_error l i = Some x.
Proof.
  intros A l i x H. apply in_combine_seq in H. rewrite Nat.sub_0_r in H. apply H.
Qed.

Section Records.

Variable vec : Type.
Variable fitz_text : str -> result str.
Variable os_path_exists : str -> bool.
Variable os_listdir : str -> result (list str).
Variable add_error : list (record vec) -> record vec -> option exn.
Variable P : str -> record vec -> Prop.

Lemma adds_refl : forall a : list (collection vec), adds P a a.
Proof.
  induction a as [|c a IH]; constructor; [|exact IH].
  split; [reflexivity|]. exists []. split; [symmetry; apply app_nil_r|constructor].
Qed.

Lemma adds_trans : forall a b c : list (collection vec),
  adds P a b -> adds P b c -> adds P a c.
Proof.
  intros a b c H. revert c.
  induction H as [|x y a b [Hn [ad [Hr Hp]]] H IH]; intros c Hc.
  - inversion Hc. constructor.
  - inversion Hc as [|? z ? c' [Hn' [ad' [Hr' Hp']]] Hc']; subst.
    constructor; [|apply IH; exact Hc'].
    split; [congruence|]. exists (ad ++ ad').
    split; [rewrite Hr', Hr, app_assoc; reflexivity|].
    apply Forall_app. split; [exact Hp|]. rewrite Hn. exact Hp'.
Qed.

Lemma adds_w_refl : forall w : world vec, adds_w P w w.
Proof. intros w. apply adds_refl. Qed.

Lemma adds_w_trans : forall a b c : world vec, adds_w P a b -> adds_w P b c -> adds_w P a c.
Proof. intros a b c. apply adds_trans. Qed.

Lemma adds_rs_refl : forall s : run_state vec, adds_rs P s s.
Proof. intros s. apply adds_refl. Qed.

Lemma adds_rs_trans : forall a b c : run_state vec,
  adds_rs P a b -> adds_rs P b c -> adds_rs P a c.
Proof. intros a b c. apply adds_trans. Qed.

Lemma store_add_adds : forall name r cs cs',
  P name r -> store_add add_error name r cs = Ok cs' -> adds P cs cs'.
Proof.
  intros name r cs cs' Hp. revert cs'.
  induction cs as [|c cs IH]; intros cs' H; simpl in H; [discriminate|].
  destruct (PyStr.eqb (coll_name c) name) eqn:En.
  - destruct (add_error (coll_records c) r); [discriminate|].
    destruct (holds_id (r_id r) (coll_records c)); injection H as <-.
    + apply adds_refl.
    + constructor; [|apply adds_refl]. split; [reflexivity|]. exists [r].
      split; [reflexivity|]. constructor; [|constructor].
      apply pystr_eqb_eq in En. rewrite En. exact Hp.
  - destruct (store_add add_error name r cs) as [tl'|e]; [|discriminate].
    injection H as <-. constructor; [|apply IH; reflexivity].
    split; [reflexivity|]. exists []. split; [symmetry; apply app_nil_r|constructor].
Qed.

Lemma adds_print : forall ev, stays (adds_w P) (print ev).
Proof. intros ev w. unfold print. simpl. apply adds_refl. Qed.

Lemma adds_collection_add : forall name r,
  P name r -> stays (adds_w P) (collection_add add_error name r).
Proof.
  intros name r Hp w. unfold collection_add.
  destruct (store_add add_error name r (store w)) as [s'|e] eqn:E; simpl.
  - eapply store_add_adds; eauto.
  - apply adds_refl.
Qed.

Lemma adds_in_world : forall (A : Type) (c : M (world vec) A),
  stays (adds_w P) c -> stays (adds_rs P) (in_world c).
Proof.
  intros A c H s. unfold in_world. specialize (H (rs_world s)).
  destruct (c (rs_world s)) as [r w']. exact H.
Qed.

End Records.

Section Drivers2.

Variable vec : Type.
Variable fitz_text : str -> result str.
Variable os_path_exists : str -> bool.
Variable os_listdir : str -> result (list str).
Variable add_error : list (record vec) -> record vec -> option exn.

(** The insertion loop adds only the records of the chunks it is given,
    each to the collection paired with the model that embedded it. *)
Lemma insert_chunks_adds : forall (origin : str -> str -> list chunk -> Prop)
    source codigo chunks (models : list (model vec)) collections,
  origin codigo source chunks ->
  stays (adds_w (stored_by models collections origin))
        (insert_chunks add_error source codigo chunks models collections).
Proof.
  clear fitz_text os_path_exists os_listdir.
  intros origin source codigo chunks models collections Ho. unfold insert_chunks.
  apply stays_for_each_in; try apply adds_w_refl; try apply adds_w_trans.
  intros [[model_name encode] collection] Hin.
  apply stays_mbind; try apply adds_w_trans; [apply adds_print|]. intros _.
  apply stays_mbind; try apply adds_w_trans; [|intros _; apply adds_print].
  apply stays_for_each_in; try apply adds_w_refl; try apply adds_w_trans.
  intros [i chunk] Hic. apply in_enumerate in Hic.
  apply stays_lift_bind; try apply adds_w_refl.
  intros embedding He. apply adds_collection_add.
  exists model_name, encode, codigo, source, chunks, i, chunk.
  cbn [r_id r_document r_embedding r_metadata].
  split; [exact Hin|]. split; [exact Ho|]. split; [exact Hic|].
  split; [reflexivity|]. split; [reflexivity|]. split; [exact He|].
  split; [apply dict_get_set_same|].
  split; [rewrite dict_get_set_other by (vm_compute; reflexivity);
          apply dict_get_set_same|].
  split; [rewrite !dict_get_set_other by (vm_compute; reflexivity);
          apply dict_get_set_same|].
  intros k Hk. rewrite !dict_get_set.
  destruct (PyStr.eqb (u "codigo") k) eqn:E1;
    [apply pystr_eqb_eq in E1; subst k; exfalso; apply Hk; simpl; tauto|].
  destruct (PyStr.eqb (u "tipo") k) eqn:E2;
    [apply pystr_eqb_eq in E2; subst k; exfalso; apply Hk; simpl; tauto|].
  destruct (PyStr.eqb (u "source") k) eqn:E3;
    [apply pystr_eqb_eq in E3; subst k; exfalso; apply Hk; simpl; tauto|].
  reflexivity.
Qed.

(** The text reader: the text, or [None] and a printed line when the
    library raises. *)
Lemma extract_text_eq : forall pdf_path (w : world vec),
  extract_text_from_pdf fitz_text pdf_path w
    = match fitz_text pdf_path with
      | Ok text => (Ok (Some text), w)
      | Raise e => (Ok None, World (store w) (console w ++ [PrintExtractError e]))
      end.
Proof.
  intros pdf_path w. unfold extract_text_from_pdf, try_except, mbind, lift, ret, print.
  destruct (fitz_text pdf_path); reflexivity.
Qed.

(** The body of the loop over the files, case by case. *)
Lemma process_one_eq : forall pdf_file (models : list (model vec)) collections s,
  process_one fitz_text add_error pdf_file models collections s
    = match fitz_text pdf_file with
      | Raise e =>
          (Ok tt, RunState (World (store (rs_world s))
                              (console (rs_world s) ++ [PrintExtractError e]))
                           (chunks_por_disciplina s))
      | Ok [] => (Ok tt, RunState (rs_world s) (chunks_por_disciplina s))
      | Ok (c :: text) =>
          match process_pdf_content (c :: text) (basename pdf_file) with
          | Raise e => (Raise e, RunState (rs_world s) (chunks_por_disciplina s))
          | Ok (metadata, chunks) =>
              match dict_get (u "codigo") metadata with
              | None => (Raise KeyError, RunState (rs_world s) (chunks_por_disciplina s))
              | Some codigo =>
                  in_world
                    (insert_chunks add_error (basename pdf_file) codigo chunks models
                       collections)
                    (RunState
                       (World (store (rs_world s))
                          (console (rs_world s)
                             ++ [PrintProcessing (basename pdf_file)
                                   (get_or (u "disciplina") metadata NA) codigo]))
                       (dict_set codigo chunks (chunks_por_disciplina s)))
              end
          end
      end.
Proof.
  intros pdf_file models collections s. unfold process_one. cbv zeta.
  unfold mbind at 1. unfold in_world at 1. rewrite extract_text_eq.
  destruct (fitz_text pdf_file) as [[|c text]|e]; cbn [text_truthy negb]; try reflexivity.
  unfold mbind at 1. unfold lift at 1.
  destruct (process_pdf_content (c :: text) (basename pdf_file)) as [[metadata chunks]|e];
    [|reflexivity].
  unfold mbind at 1. unfold lift at 1. unfold dict_item.
  destruct (dict_get (u "codigo") metadata) as [codigo|]; [|reflexivity].
  unfold mbind at 1. cbn [rs_world chunks_por_disciplina].
  unfold mbind at 1. unfold in_world at 1. unfold print at 1.
  cbn [rs_world chunks_por_disciplina store console].
  reflexivity.
Qed.

Lemma in_world_dict : forall (A : Type) (c : M (world vec) A) (s : run_state vec),
  chunks_por_disciplina (snd (in_world c s)) = chunks_por_disciplina s.
Proof.
  intros A c s. unfold in_world. destruct (c (rs_world s)) as [r w']. reflexivity.
Qed.

(** The dictionary after one file does not depend on the insertion. *)
Lemma process_one_dict : forall pdf_file (models : list (model vec)) collections s,
  chunks_por_disciplina
    (snd (process_one fitz_text add_error pdf_file models collections s))
    = match assembled fitz_text pdf_file with
      | Some (codigo, chunks) => dict_set codigo chunks (chunks_por_disciplina s)
      | None => chunks_por_disciplina s
      end.
Proof.
  intros pdf_file models collections s. rewrite process_one_eq. unfold assembled.
  destruct (fitz_text pdf_file) as [[|c text]|e]; try reflexivity.
  destruct (process_pdf_content (c :: text) (basename pdf_file)) as [[metadata chunks]|e];
    [|reflexivity].
  destruct (dict_get (u "codigo") metadata) as [codigo|]; [|reflexivity].
  rewrite in_world_dict. reflexivity.
Qed.

Lemma process_files_dict : forall pdf_files (models : list (model vec)) collections s s',
  process_files fitz_text add_error pdf_files models collections s = (Ok tt, s') ->
  chunks_por_disciplina s'
    = fold_left (fun d f => match assembled fitz_text f with
                            | Some (codigo, chunks) => dict_set codigo chunks d
                            | None => d
                            end) pdf_files (chunks_por_disciplina s).
Proof.
  induction pdf_files as [|f fs IH]; intros models collections s s' H.
  - cbn in H. injection H as <-. reflexivity.
  - rewrite process_files_cons in H. cbn [fold_left].
    rewrite <- (process_one_dict f models collections s).
    destruct (process_one fitz_text add_error f models collections s) as [[[]|e] s1];
      apply IH in H; exact H.
Qed.

(** The dictionary the directory driver returns is read off the files
    alone. *)
Lemma process_all_pdfs_dictionary : forall pdf_dir names (models : list (model vec))
    collections w,
  (os_path_exists pdf_dir = true -> os_listdir pdf_dir = Ok names) ->
  fst (process_all_pdfs_in_directory fitz_text os_path_exists os_listdir add_error
         pdf_dir models collections w)
    = Ok (if os_path_exists pdf_dir
          then dictionary_of fitz_text (pdf_files_in pdf_dir names)
          else []).
Proof.
  intros pdf_dir names models collections w Hl.
  destruct (os_path_exists pdf_dir) eqn:He.
  - specialize (Hl eq_refl).
    destruct (pdf_files_in pdf_dir names) as [|f fs] eqn:E.
    + unfold process_all_pdfs_in_directory. rewrite He, Hl. cbv zeta. rewrite E.
      reflexivity.
    + rewrite <- E.
      destruct (process_files_returns vec fitz_text add_error
                  (pdf_files_in pdf_dir names) models collections
                  (RunState (World (store w)
                     (console w ++ [PrintFound (length (pdf_files_in pdf_dir names))
                                      pdf_dir])) [])) as [s Hs].
      rewrite (process_all_pdfs_run vec fitz_text os_path_exists os_listdir add_error
                 pdf_dir names models collections w s He Hl) by congruence.
      cbn [fst]. apply process_files_dict in Hs. rewrite Hs. reflexivity.
  - unfold process_all_pdfs_in_directory. rewrite He. reflexivity.
Qed.

(** The body of the loop stores only chunks of its file. *)
Lemma process_one_adds : forall pdf_files pdf_file (models : list (model vec)) collections,
  List.In pdf_file pdf_files ->
  stays (adds_rs (stored_by models collections (from_directory fitz_text pdf_files)))
        (process_one fitz_text add_error pdf_file models collections).
Proof.
  intros pdf_files pdf_file models collections Hin s. rewrite process_one_eq.
  destruct (fitz_text pdf_file) as [[|c text]|e] eqn:Ef; try apply adds_refl.
  destruct (process_pdf_content (c :: text) (basename pdf_file)) as [[metadata chunks]|e]
    eqn:Ep; [|apply adds_refl].
  destruct (dict_get (u "codigo") metadata) as [codigo|] eqn:Eg; [|apply adds_refl].
  assert (Ho : from_directory fitz_text pdf_files codigo (basename pdf_file) chunks).
  { exists pdf_file. split; [exact Hin|]. split; [reflexivity|].
    unfold assembled. rewrite Ef, Ep, Eg. reflexivity. }
  match goal with
  | |- context [in_world ?c ?s0] =>
      exact (adds_in_world vec _ unit c
               (insert_chunks_adds _ _ _ _ models collections Ho) s0)
  end.
Qed.

Lemma process_files_adds : forall pdf_files fs (models : list (model vec)) collections,
  (forall f, List.In f fs -> List.In f pdf_files) ->
  stays (adds_rs (stored_by models collections (from_directory fitz_text pdf_files)))
        (process_files fitz_text add_error fs models collections).
Proof.
  intros pdf_files fs models collections Hsub. unfold process_files.
  apply stays_for_each_in; try apply adds_rs_refl; try apply adds_rs_trans.
  intros f Hf. apply stays_try_except; try apply adds_rs_trans.
  - apply process_one_adds. apply Hsub. exact Hf.
  - intros e. apply adds_in_world, adds_print.
Qed.

(** The directory driver stores only chunks of the files of the
    directory. *)
Lemma process_all_pdfs_adds : forall pdf_dir (models : list (model vec)) collections w,
  adds (stored_by models collections
          (from_directory fitz_text (listed_pdfs os_listdir pdf_dir)))
       (store w)
       (store (snd (process_all_pdfs_in_directory fitz_text os_path_exists os_listdir
                      add_error pdf_dir models collections w))).
Proof.
  intros pdf_dir models collections w. unfold listed_pdfs.
  destruct (os_path_exists pdf_dir) eqn:He.
  - destruct (os_listdir pdf_dir) as [names|e] eqn:Hl.
    + destruct (pdf_files_in pdf_dir names) as [|f fs] eqn:E.
      * unfold process_all_pdfs_in_directory. rewrite He, Hl. cbv zeta. rewrite E.
        apply adds_refl.
      * rewrite <- E.
        destruct (process_files_returns vec fitz_text add_error
                    (pdf_files_in pdf_dir names) models collections
                    (RunState (World (store w)
                       (console w ++ [PrintFound (length (pdf_files_in pdf_dir names))
                                        pdf_dir])) [])) as [s Hs].
        rewrite (process_all_pdfs_run vec fitz_text os_path_exists os_listdir add_error
                   pdf_dir names models collections w s He Hl) by congruence.
        cbn [snd store].
        pose proof (process_files_adds (pdf_files_in pdf_dir names)
                      (pdf_files_in pdf_dir names) models collections
                      (fun f H => H)
                      (RunState (World (store w)
                         (console w ++ [PrintFound (length (pdf_files_in pdf_dir names))
                                          pdf_dir])) [])) as Hg.
        rewrite Hs in Hg. exact Hg.
    + rewrite (process_all_pdfs_listing_raises vec fitz_text os_path_exists os_listdir
                 add_error pdf_dir models collections w e He Hl).
      apply adds_refl.
  - unfold process_all_pdfs_in_directory. rewrite He. apply adds_refl.
Qed.

(** The single-file driver, case by case. *)
Lemma process_pdf_and_add_eq : forall pdf_path (models : list (model vec)) collections w,
  process_pdf_and_add_to_collections fitz_text add_error pdf_path models collections w
    = match fitz_text pdf_path with
      | Raise e =>
          (Ok tt, World (store w)
                    ((console w ++ [PrintExtractError e]) ++ [PrintSkipped pdf_path]))
      | Ok [] => (Ok tt, World (store w) (console w ++ [PrintSkipped pdf_path]))
      | Ok (c :: text) =>
          match process_pdf_content (c :: text) (basename pdf_path) with
          | Raise e => (Ok tt, World (store w) (console w ++ [PrintError pdf_path e]))
          | Ok (metadata, chunks) =>
              match
                insert_chunks add_error (basename pdf_path)
                  (splitext_root (basename pdf_path)) chunks models collections
                  (World (store w)
                     (console w
                        ++ [PrintProcessing (basename pdf_path)
                              (get_or (u "disciplina")
                                 (dict_set (u "codigo") (splitext_root (basename pdf_path))
                                    (dict_set (u "source") (basename pdf_path) metadata))
                                 NA)
                              (splitext_root (basename pdf_path))]))
              with
              | (Ok _, w') => (Ok tt, w')
              | (Raise e, w') =>
                  (Ok tt, World (store w') (console w' ++ [PrintError pdf_path e]))
              end
          end
      end.
Proof.
  intros pdf_path models collections w.
  unfold process_pdf_and_add_to_collections, try_except. cbv zeta.
  unfold mbind at 1. rewrite extract_text_eq.
  destruct (fitz_text pdf_path) as [[|c text]|e]; cbn [text_truthy negb]; try reflexivity.
  unfold mbind at 1. unfold lift at 1.
  destruct (process_pdf_content (c :: text) (basename pdf_path)) as [[metadata chunks]|e];
    [|reflexivity].
  unfold mbind at 1. unfold lift at 1. unfold dict_item.
  rewrite dict_get_set_same.
  unfold mbind at 1. unfold print at 1.
  destruct (insert_chunks _ _ _ _ _ _ _) as [[[]|e] w']; reflexivity.
Qed.

(** The single-file driver never raises. *)
Lemma process_pdf_and_add_returns : forall pdf_path (models : list (model vec))
    collections w,
  fst (process_pdf_and_add_to_collections fitz_text add_error pdf_path models
         collections w) = Ok tt.
Proof.
  intros pdf_path models collections w. rewrite process_pdf_and_add_eq.
  destruct (fitz_text pdf_path) as [[|c text]|e]; try reflexivity.
  destruct (process_pdf_content (c :: text) (basename pdf_path)) as [[metadata chunks]|e];
    [|reflexivity].
  destruct (insert_chunks _ _ _ _ _ _ _) as [[[]|e] w']; reflexivity.
Qed.

(** The single-file driver stores only chunks of its file, under the
    stem of the file name. *)
Lemma process_pdf_and_add_adds : forall pdf_path (models : list (model vec)) collections w,
  adds (stored_by models collections (from_file fitz_text pdf_path))
       (store w)
       (store (snd (process_pdf_and_add_to_collections fitz_text add_error pdf_path
                      models collections w))).
Proof.
  clear os_path_exists os_listdir.
  intros pdf_path models collections w. rewrite process_pdf_and_add_eq.
  destruct (fitz_text pdf_path) as [[|c text]|e] eqn:Ef; try apply adds_refl.
  destruct (process_pdf_content (c :: text) (basename pdf_path)) as [[metadata chunks]|e]
    eqn:Ep; [|apply adds_refl].
  match goal with
  | |- context [insert_chunks ?a ?b ?c ?d ?e ?f ?g] =>
      pose proof (insert_chunks_adds (from_file fitz_text pdf_path) b c d e f) as Hg;
      specialize (fun H => Hg H g)
  end.
  assert (Ho : from_file fitz_text pdf_path (splitext_root (basename pdf_path))
                 (basename pdf_path) chunks).
  { split; [reflexivity|]. split; [reflexivity|].
    exists (c :: text), metadata. split; [exact Ef|]. split; [discriminate|exact Ep]. }
  specialize (Hg Ho). unfold adds_w in Hg. cbn [store] in Hg.
  destruct (insert_chunks _ _ _ _ _ _ _) as [[[]|e] w']; exact Hg.
Qed.

(** *** Counting the records *)




(** *** Files that cannot be read or assembled *)

Lemma process_files_unassembled : forall pdf_files (models : list (model vec))
    collections s s',
  (forall f, List.In f pdf_files -> assembled fitz_text f = None) ->
  process_files fitz_text add_error pdf_files models collections s = (Ok tt, s') ->
  store (rs_world s') = store (rs_world s).
Proof.
  induction pdf_files as [|f fs IH]; intros models collections s s' Hnone H.
  - cbn in H. injection H as <-. reflexivity.
  - rewrite process_files_cons in H.
    assert (Hf : assembled fitz_text f = None) by (apply Hnone; left; reflexivity).
    assert (Hs : store (rs_world (snd (process_one fitz_text add_error f models
                                         collections s))) = store (rs_world s)).
    { rewrite process_one_eq. unfold assembled in Hf.
      destruct (fitz_text f) as [[|c text]|e]; try reflexivity.
      destruct (process_pdf_content (c :: text) (basename f)) as [[metadata chunks]|e];
        [|reflexivity].
      destruct (dict_get (u "codigo") metadata); [discriminate|reflexivity]. }
    destruct (process_one fitz_text add_error f models collections s) as [[[]|e] s1];
      cbn [snd] in Hs; apply IH in H; try (intros g Hg; apply Hnone; right; exact Hg).
    + rewrite H. exact Hs.
    + rewrite H. exact Hs.
Qed.

End Drivers2.

(** ** The set-up of the vector store *)

Lemma holds_In : forall (vec : Type) name (cs : list (collection vec)),
  holds name cs = true <-> List.In name (map coll_name cs).
Proof.
  intros vec name cs. unfold holds. rewrite existsb_exists, in_map_iff. split.
  - intros [c [Hc E]]. apply pystr_eqb_eq in E. eauto.
  - intros [c [E Hc]]. exists c. split; [exact Hc|]. apply pystr_eqb_eq. exact E.
Qed.

Lemma existsb_eqb_In : forall (name : str) (l : list str),
  existsb (PyStr.eqb name) l = true <-> List.In name l.
Proof.
  intros name l. rewrite existsb_exists. split.
  - intros [x [Hx E]]. apply pystr_eqb_eq in E. subst x. exact Hx.
  - intros H. exists name. split; [exact H|apply pystr_eqb_refl].
Qed.

Lemma pystr_eqb_neq : forall a b : str, PyStr.eqb a b = false <-> a <> b.
Proof.
  intros a b. split.
  - intros H E. apply pystr_eqb_eq in E. congruence.
  - intros H. destruct (PyStr.eqb a b) eqn:E; [|reflexivity].
    apply pystr_eqb_eq in E. contradiction.
Qed.

Lemma without_names : forall (vec : Type) name other (cs : list (collection vec)),
  List.In other (map coll_name (without name cs))
  <-> other <> name /\ List.In other (map coll_name cs).
Proof.
  intros vec name other cs. unfold without. rewrite !in_map_iff. split.
  - intros [c [E Hc]]. apply filter_In in Hc. destruct Hc as [Hc Hn].
    apply negb_true_iff, pystr_eqb_neq in Hn. split; [congruence|eauto].
  - intros [Hne [c [E Hc]]]. exists c. split; [exact E|]. apply filter_In.
    split; [exact Hc|]. apply negb_true_iff, pystr_eqb_neq. congruence.
Qed.

Section SetupLemmas.

Variable vec : Type.
Variable create_error : list (collection vec) -> str -> option exn.

(** One turn of the loop over the models. *)
Lemma setup_loop_cons : forall model_name encode (tl : list (model vec))
    existing_collections collections s,
  setup_loop create_error ((model_name, encode) :: tl) existing_collections collections s =
    let name := collection_name_of model_name in
    let deleting := existsb (PyStr.eqb name) existing_collections in
    if deleting && negb (holds name (cl_collections s))
    then (Raise (ExternalError name),
          Chroma (cl_collections s) (cl_console s ++ [PrintDeleting name]))
    else
      let cs := if deleting then without name (cl_collections s) else cl_collections s in
      let printed :=
        if deleting then (cl_console s ++ [PrintDeleting name]) ++ [PrintCreating name]
        else cl_console s ++ [PrintCreating name] in
      match create_error cs name with
      | Some e => (Raise e, Chroma cs printed)
      | None =>
          setup_loop create_error tl existing_collections (collections ++ [name])
            (Chroma (cs ++ [Collection name []]) printed)
      end.
Proof.
  intros model_name encode tl existing_collections collections s.
  cbn [setup_loop]. cbv zeta. fold (collection_name_of model_name).
  destruct (existsb (PyStr.eqb (collection_name_of model_name)) existing_collections).
  - unfold mbind at 1. unfold mbind at 1. unfold setup_print at 1.
    unfold delete_collection. cbn [cl_collections cl_console].
    fold (holds (collection_name_of model_name) (cl_collections s)).
    destruct (holds (collection_name_of model_name) (cl_collections s)); cbn [andb negb];
      [|reflexivity].
    fold (without (collection_name_of model_name) (cl_collections s)).
    unfold mbind at 1. unfold setup_print at 1. cbn [cl_collections cl_console].
    unfold mbind at 1. unfold create_collection at 1. cbn [cl_collections cl_console].
    destruct (create_error _ _); reflexivity.
  - cbn [andb]. unfold mbind at 1. unfold ret at 1.
    unfold mbind at 1. unfold setup_print at 1. cbn [cl_collections cl_console].
    unfold mbind at 1. unfold create_collection at 1. cbn [cl_collections cl_console].
    destruct (create_error _ _); reflexivity.
Qed.

(** The loop returns the collections built so far and one more for every
    model, in order. *)
Lemma setup_loop_names : forall (models : list (model vec)) existing_collections
    collections s cols s',
  setup_loop create_error models existing_collections collections s = (Ok cols, s') ->
  cols = collections ++ collection_names models.
Proof.
  induction models as [|[model_name encode] tl IH]; intros ex acc s cols s' H.
  - cbn in H. injection H as <- <-. symmetry. apply app_nil_r.
  - rewrite setup_loop_cons in H. cbv zeta in H.
    destruct (_ && _); [discriminate|].
    destruct (create_error _ _); [discriminate|].
    apply IH in H. rewrite H, <- app_assoc. reflexivity.
Qed.

(** The collections the loop has created hold no record, and the
    collections it has no model for are the ones it found. *)
Lemma setup_loop_fresh : forall (models : list (model vec)) ex acc done s cols s',
  Forall (fun c => List.In (coll_name c) ex \/ coll_records c = []) (cl_collections s) ->
  Forall (fun c => List.In (coll_name c) done -> coll_records c = []) (cl_collections s) ->
  setup_loop create_error models ex acc s = (Ok cols, s') ->
  Forall (fun c => List.In (coll_name c) (done ++ collection_names models) ->
                   coll_records c = []) (cl_collections s').
Proof.
  induction models as [|[model_name encode] tl IH]; intros ex acc done s cols s' HI HJ H.
  - cbn in H. injection H as _ <-. cbn. rewrite app_nil_r. exact HJ.
  - rewrite setup_loop_cons in H. cbv zeta in H.
    destruct (_ && _) eqn:Ed; [discriminate|].
    set (name := collection_name_of model_name) in *.
    set (cs := if existsb (PyStr.eqb name) ex then without name (cl_collections s)
               else cl_collections s) in *.
    destruct (create_error cs name); [discriminate|].
    assert (Hsub : forall c, List.In c cs -> List.In c (cl_collections s)).
    { intros c Hc. unfold cs in Hc. destruct (existsb (PyStr.eqb name) ex); [|exact Hc].
      apply filter_In in Hc. apply Hc. }
    assert (Hname : forall c, List.In c cs -> coll_name c = name -> coll_records c = []).
    { intros c Hc En. unfold cs in Hc.
      destruct (existsb (PyStr.eqb name) ex) eqn:Ex.
      - apply filter_In in Hc. destruct Hc as [_ Hn].
        apply negb_true_iff, pystr_eqb_neq in Hn. contradiction.
      - rewrite Forall_forall in HI. destruct (HI c Hc) as [Hin|He]; [|exact He].
        rewrite En in Hin. apply existsb_eqb_In in Hin. congruence. }
    apply (IH ex _ (done ++ [name])) in H.
    + cbn [collection_names map fst]. fold name.
      replace (done ++ name :: map (fun m => collection_name_of (fst m)) tl)
        with ((done ++ [name]) ++ collection_names tl)
        by (rewrite <- app_assoc; reflexivity).
      exact H.
    + cbn [cl_collections]. apply Forall_app. split.
      * apply Forall_forall. intros c Hc. rewrite Forall_forall in HI.
        apply HI, Hsub, Hc.
      * constructor; [right; reflexivity|constructor].
    + cbn [cl_collections]. apply Forall_app. split.
      * apply Forall_forall. intros c Hc Hin. apply in_app_or in Hin.
        destruct Hin as [Hin|[Hin|[]]].
        -- rewrite Forall_forall in HJ. apply HJ; [apply Hsub, Hc|exact Hin].
        -- apply Hname; [exact Hc|congruence].
      * constructor; [reflexivity|constructor].
Qed.

(** The loop leaves alone the collections it has no model for. *)
Lemma setup_loop_others : forall (models : list (model vec)) ex acc s cols s' names,
  (forall name, List.In name (collection_names models) -> List.In name names) ->
  setup_loop create_error models ex acc s = (Ok cols, s') ->
  filter (fun c => negb (named_in names c)) (cl_collections s')
    = filter (fun c => negb (named_in names c)) (cl_collections s).
Proof.
  induction models as [|[model_name encode] tl IH]; intros ex acc s cols s' names Hn H.
  - cbn in H. injection H as _ <-. reflexivity.
  - rewrite setup_loop_cons in H. cbv zeta in H.
    destruct (_ && _) eqn:Ed; [discriminate|].
    set (name := collection_name_of model_name) in *.
    set (cs := if existsb (PyStr.eqb name) ex then without name (cl_collections s)
               else cl_collections s) in *.
    destruct (create_error cs name); [discriminate|].
    apply (IH _ _ _ _ _ names) in H.
    + rewrite H. cbn [cl_collections]. rewrite filter_app. cbn [filter].
      assert (Hin : named_in names (Collection name (@nil (record vec))) = true).
      { unfold named_in. cbn [coll_name]. apply existsb_eqb_In. apply Hn.
        left. reflexivity. }
      rewrite Hin. cbn [negb]. rewrite app_nil_r.
      unfold cs. destruct (existsb (PyStr.eqb name) ex); [|reflexivity].
      unfold without. clear -Hn. induction (cl_collections s) as [|c l IHl];
        [reflexivity|].
      cbn [filter]. destruct (PyStr.eqb (coll_name c) name) eqn:E; cbn [negb].
      * apply pystr_eqb_eq in E.
        assert (Hc : named_in names c = true).
        { unfold named_in. rewrite E. apply existsb_eqb_In. apply Hn. left. reflexivity. }
        rewrite Hc. cbn [negb]. exact IHl.
      * cbn [filter]. destruct (negb (named_in names c)); [rewrite IHl|]; auto.
    + intros n Hin. apply Hn. right. exact Hin.
Qed.

(** The loop returns when the names of the models are distinct and the
    client creates every collection whose name it does not hold. *)
Lemma setup_loop_returns : forall (models : list (model vec)) ex acc s,
  (forall cs name, holds name cs = false -> create_error cs name = None) ->
  NoDup (collection_names models) ->
  (forall name, List.In name (collection_names models) ->
     (List.In name ex <-> List.In name (map coll_name (cl_collections s)))) ->
  exists cols s', setup_loop create_error models ex acc s = (Ok cols, s').
Proof.
  intros models ex acc s Hclient. revert acc s.
  induction models as [|[model_name encode] tl IH]; intros acc s Hnd Hk.
  - exists acc, s. reflexivity.
  - rewrite setup_loop_cons. cbv zeta.
    set (name := collection_name_of model_name) in *.
    cbn [collection_names map fst] in Hnd, Hk. fold name in Hnd, Hk.
    inversion Hnd as [|? ? Hnotin Hnd']; subst.
    assert (Hd : existsb (PyStr.eqb name) ex && negb (holds name (cl_collections s))
                 = false).
    { destruct (existsb (PyStr.eqb name) ex) eqn:Ex; [|reflexivity].
      apply existsb_eqb_In in Ex. apply (Hk name (or_introl eq_refl)) in Ex.
      apply holds_In in Ex. rewrite Ex. reflexivity. }
    rewrite Hd.
    set (cs := if existsb (PyStr.eqb name) ex then without name (cl_collections s)
               else cl_collections s) in *.
    assert (Habs : holds name cs = false).
    { destruct (holds name cs) eqn:Eh; [|reflexivity]. exfalso.
      apply holds_In in Eh. unfold cs in Eh.
      destruct (existsb (PyStr.eqb name) ex) eqn:Ex.
      - apply without_names in Eh. destruct Eh as [Hne _]. congruence.
      - apply (Hk name (or_introl eq_refl)) in Eh. apply existsb_eqb_In in Eh.
        congruence. }
    rewrite (Hclient cs name Habs).
    apply IH; [exact Hnd'|].
    intros other Hin. cbn [cl_collections]. rewrite map_app, in_app_iff.
    cbn [map coll_name In].
    assert (Hne : other <> name) by (intros ->; contradiction).
    rewrite (Hk other (or_intror Hin)). unfold cs.
    destruct (existsb (PyStr.eqb name) ex).
    + rewrite without_names. split.
      * intros H. left. split; assumption.
      * intros [[_ H]|[H|[]]]; [exact H|congruence].
    + split.
      * intros H. left. exact H.
      * intros [H|[H|[]]]; [exact H|congruence].
Qed.

(** The collections the loop has created are held by the client it
    ends with. *)
Lemma setup_loop_held : forall (models : list (model vec)) ex acc done s cols s',
  (forall name, List.In name done -> holds name (cl_collections s) = true) ->
  setup_loop create_error models ex acc s = (Ok cols, s') ->
  forall name, List.In name (done ++ collection_names models) ->
               holds name (cl_collections s') = true.
Proof.
  induction models as [|[model_name encode] tl IH]; intros ex acc done s cols s' Hd H.
  - cbn in H. injection H as _ <-. cbn. rewrite app_nil_r. exact Hd.
  - rewrite setup_loop_cons in H. cbv zeta in H.
    destruct (_ && _) eqn:Ed; [discriminate|].
    set (name := collection_name_of model_name) in *.
    set (cs := if existsb (PyStr.eqb name) ex then without name (cl_collections s)
               else cl_collections s) in *.
    destruct (create_error cs name); [discriminate|].
    intros other Hin. apply (IH ex _ (done ++ [name]) _ _ _) with (name := other) in H.
    + exact H.
    + intros n Hn. cbn [cl_collections]. apply holds_In. rewrite map_app, in_app_iff.
      apply in_app_or in Hn. destruct Hn as [Hn|[<-|[]]]; [|right; left; reflexivity].
      destruct (PyStr.eqb n name) eqn:En.
      * apply pystr_eqb_eq in En. right. left. symmetry. exact En.
      * left. apply pystr_eqb_neq in En. specialize (Hd n Hn). apply holds_In in Hd.
        unfold cs. destruct (existsb (PyStr.eqb name) ex); [|exact Hd].
        apply without_names. split; assumption.
    + cbn [collection_names map fst] in Hin. fold name in Hin.
      rewrite <- app_assoc. exact Hin.
Qed.

(** What [setup_chromadb] returns and leaves in the client. *)
Lemma setup_chromadb_spec : forall base_dir (models : list (model vec)) s cols s',
  setup_chromadb create_error base_dir models s = (Ok cols, s') ->
  cols = collection_names models /\
  (forall name, List.In name cols -> holds name (cl_collections s') = true) /\
  (forall c, List.In c (cl_collections s') -> List.In (coll_name c) cols ->
             coll_records c = []) /\
  filter (fun c => negb (named_in cols c)) (cl_collections s')
    = filter (fun c => negb (named_in cols c)) (cl_collections s).
Proof.
  intros base_dir models s cols s' H. unfold setup_chromadb in H.
  unfold mbind at 1 in H. unfold list_collection_names in H.
  pose proof (setup_loop_names _ _ _ _ _ _ H) as Hn. cbn [app] in Hn. subst cols.
  split; [reflexivity|]. split; [|split].
  - intros name Hin.
    eapply (setup_loop_held models _ [] []); [|exact H|exact Hin]. intros n [].
  - assert (F : Forall (fun c => List.In (coll_name c) ([] ++ collection_names models) ->
                                coll_records c = []) (cl_collections s')).
    { eapply (setup_loop_fresh models _ [] []); [| |exact H].
      - apply Forall_forall. intros c Hc. left. apply in_map. exact Hc.
      - apply Forall_forall. intros c _ []. }
    cbn [app] in F. rewrite Forall_forall in F. exact F.
  - eapply setup_loop_others; [|exact H]. auto.
Qed.

Lemma collection_name_of_inj : forall a b,
  collection_name_of a = collection_name_of b -> a = b.
Proof. intros a b H. unfold collection_name_of in H. apply app_inv_head in H. exact H. Qed.

Lemma collection_names_NoDup : forall (models : list (model vec)),
  NoDup (map fst models) -> NoDup (collection_names models).
Proof.
  induction models as [|[model_name encode] tl IH]; intros H; cbn in *.
  - constructor.
  - inversion H as [|? ? Hnotin Hnd]; subst. constructor; [|apply IH; exact Hnd].
    intros Hin. apply Hnotin. apply in_map_iff in Hin. destruct Hin as [m [E Hm]].
    apply collection_name_of_inj in E. rewrite <- E. apply in_map. exact Hm.
Qed.

(** [setup_chromadb] returns, whatever the client holds, when the names
    of the models are distinct and the client creates every collection
    whose name it does not hold. *)
Lemma setup_chromadb_returns : forall base_dir (models : list (model vec)) s,
  (forall cs name, holds name cs = false -> create_error cs name = None) ->
  NoDup (map fst models) ->
  exists cols s', setup_chromadb create_error base_dir models s = (Ok cols, s').
Proof.
  intros base_dir models s Hclient Hnd. unfold setup_chromadb.
  unfold mbind at 1. unfold list_collection_names.
  apply setup_loop_returns; [exact Hclient|apply collection_names_NoDup; exact Hnd|].
  intros name _. reflexivity.
Qed.

End SetupLemmas.

(** *** The pipeline: the store after its set-up and an ingestion *)

Lemma in_combine_map : forall (A B : Type) (f : A -> B) (l : list A) (x : A) (y : B),
  List.In (x, y) (combine l (map f l)) -> y = f x /\ List.In x l.
Proof.
  intros A B f. induction l as [|a l IH]; intros x y H; simpl in H; [destruct H|].
  destruct H as [H|H].
  - injection H as <- <-. split; [reflexivity|left; reflexivity].
  - apply IH in H. destruct H as [H1 H2]. split; [exact H1|right; exact H2].
Qed.

Lemma adds_In : forall (vec : Type) (P : str -> record vec -> Prop)
    (a b : list (collection vec)) (c' : collection vec),
  adds P a b -> List.In c' b ->
  exists c added, List.In c a /\ coll_name c = coll_name c' /\
                  coll_records c' = coll_records c ++ added /\
                  Forall (P (coll_name c')) added.
Proof.
  intros vec P a b c' H. induction H as [|x y a b [Hn [ad [Hr Hp]]] H IH]; intros Hin.
  - destruct Hin.
  - destruct Hin as [<-|Hin].
    + exists x, ad. split; [left; reflexivity|]. split; [exact Hn|].
      split; [exact Hr|]. rewrite <- Hn. exact Hp.
    + destruct (IH Hin) as (c & added & Hc & Hrest). exists c, added.
      split; [right; exact Hc|exact Hrest].
Qed.

(** ** The overview of the chunks *)

Section DisplayLemmas.

Variable vec : Type.
Variable fitz_text : str -> result str.
Variable os_listdir : str -> result (list str).

Lemma same_store_refl : forall s : display_state vec, same_store s s.
Proof. intros s. reflexivity. Qed.

Lemma same_store_trans : forall a b c : display_state vec,
  same_store a b -> same_store b c -> same_store a c.
Proof. intros a b c H1 H2. unfold same_store in *. congruence. Qed.

Lemma stays_show : forall ev, stays (@same_store vec) (show ev).
Proof. intros ev s. reflexivity. Qed.

(** The loop over the chunks prints the lines of the chunks it shows. *)
Lemma show_chunks_eq : forall chunks (s : display_state vec),
  for_each chunks (fun chunk =>
    if existsb (PyStr.eqb (chunk_tipo chunk)) [u "identificacao"; u "objetivo"; u "ementa"]
    then
      mbind (show (ShowTipo (chunk_tipo chunk))) (fun _ =>
      mbind (show (ShowTexto (chunk_text chunk))) (fun _ =>
      show ShowDash))
    else ret tt) s
  = (Ok tt, DisplayState (ds_world s)
              (ds_shown s ++ flat_map chunk_lines (filter shown chunks))).
Proof.
  induction chunks as [|c cs IH]; intros s.
  - cbn. rewrite app_nil_r. destruct s; reflexivity.
  - cbn [for_each filter]. unfold mbind at 1. fold (shown c).
    destruct (shown c).
    + unfold mbind at 1. unfold show at 1. unfold mbind at 1. unfold show at 1.
      unfold show at 1. cbn [ds_world ds_shown]. rewrite IH. cbn [ds_world ds_shown].
      cbn [flat_map chunk_lines app]. rewrite <- !app_assoc. reflexivity.
    + unfold ret at 1. apply IH.
Qed.

(** The body of the loop over the files, case by case. *)
Lemma display_one_eq : forall pdf_file (s : display_state vec),
  display_one fitz_text pdf_file s
    = match fitz_text pdf_file with
      | Raise e =>
          (Ok tt,
           DisplayState (World (store (ds_world s))
                           (console (ds_world s) ++ [PrintExtractError e]))
                        (ds_shown s ++ [ShowSkipped pdf_file]))
      | Ok [] => (Ok tt, DisplayState (ds_world s) (ds_shown s ++ [ShowSkipped pdf_file]))
      | Ok (c :: text) =>
          match process_pdf_content (c :: text) (basename pdf_file) with
          | Raise e => (Raise e, DisplayState (ds_world s) (ds_shown s))
          | Ok (metadata, chunks) =>
              match dict_get (u "codigo") metadata with
              | None =>
                  (Raise KeyError,
                   DisplayState (ds_world s)
                     ((ds_shown s ++ [ShowArquivo (basename pdf_file)])
                        ++ [ShowDisciplina (get_or (u "disciplina") metadata NA)]))
              | Some codigo =>
                  (Ok tt,
                   DisplayState (ds_world s)
                     (ds_shown s
                        ++ [ ShowArquivo (basename pdf_file);
                             ShowDisciplina (get_or (u "disciplina") metadata NA);
                             ShowCodigo codigo; ShowRule ]
                        ++ flat_map chunk_lines (filter shown chunks)))
              end
          end
      end.
Proof.
  intros pdf_file s. unfold display_one. cbv zeta.
  unfold mbind at 1. unfold in_display at 1. rewrite extract_text_eq.
  destruct (fitz_text pdf_file) as [[|c text]|e]; cbn [text_truthy negb]; try reflexivity.
  unfold mbind at 1. unfold lift at 1.
  destruct (process_pdf_content (c :: text) (basename pdf_file)) as [[metadata chunks]|e];
    [|reflexivity].
  unfold mbind at 1. unfold show at 1. cbn [ds_world ds_shown].
  unfold mbind at 1. unfold show at 1. cbn [ds_world ds_shown].
  unfold mbind at 1. unfold lift at 1. unfold dict_item.
  destruct (dict_get (u "codigo") metadata) as [codigo|]; [|reflexivity].
  unfold mbind at 1. unfold show at 1. cbn [ds_world ds_shown].
  unfold mbind at 1. unfold show at 1. cbn [ds_world ds_shown].
  rewrite show_chunks_eq. cbn [ds_world ds_shown].
  rewrite <- !app_assoc. reflexivity.
Qed.

Lemma stays_display_one : forall pdf_file,
  stays (@same_store vec) (display_one fitz_text pdf_file).
Proof.
  intros pdf_file s. rewrite display_one_eq.
  destruct (fitz_text pdf_file) as [[|c text]|e]; try reflexivity.
  destruct (process_pdf_content (c :: text) (basename pdf_file)) as [[metadata chunks]|e];
    [|reflexivity].
  destruct (dict_get (u "codigo") metadata); reflexivity.
Qed.

(** A loop whose body prints its exception never raises. *)
Lemma for_each_caught : forall (A : Type) (xs : list A)
    (body : A -> M (display_state vec) unit) (line : A -> exn -> display_event) s,
  fst (for_each xs (fun x => try_except (body x) (fun e => show (line x e))) s) = Ok tt.
Proof.
  intros A xs body line. induction xs as [|x xs IH]; intros s; [reflexivity|].
  cbn [for_each]. unfold mbind at 1. unfold try_except at 1.
  destruct (body x s) as [[[]|e] s1]; [apply IH|].
  unfold show at 1. apply IH.
Qed.

(** The overview never changes the store; it returns when the directory
    can be listed, and raises the exception of the listing when it
    cannot. *)
Lemma display_chunks_overview_spec : forall pdf_dir (s : display_state vec),
  store (ds_world (snd (display_chunks_overview fitz_text os_listdir pdf_dir s)))
    = store (ds_world s) /\
  (forall names, os_listdir pdf_dir = Ok names ->
   fst (display_chunks_overview fitz_text os_listdir pdf_dir s) = Ok tt) /\
  (forall e, os_listdir pdf_dir = Raise e ->
   display_chunks_overview fitz_text os_listdir pdf_dir s = (Raise e, s)).
Proof.
  intros pdf_dir s. unfold display_chunks_overview. cbv zeta.
  destruct (os_listdir pdf_dir) as [names|e0].
  - destruct (pdf_files_in pdf_dir names) as [|f fs] eqn:E.
    + split; [reflexivity|]. split; [reflexivity|discriminate].
    + split; [|split; [|discriminate]].
      * assert (Hs : stays (@same_store vec)
                  (mbind (show (ShowFound (length (f :: fs)) pdf_dir)) (fun _ =>
                   for_each (f :: fs) (fun pdf_file =>
                     try_except (display_one fitz_text pdf_file)
                                (fun e => show (ShowError pdf_file e)))))).
        { apply stays_mbind; [apply same_store_trans|apply stays_show|]. intros _.
          apply stays_for_each; [apply same_store_refl|apply same_store_trans|].
          intros x. apply stays_try_except; [apply same_store_trans| |].
          - apply stays_display_one.
          - intros e. apply stays_show. }
        exact (Hs s).
      * intros _ _. unfold mbind at 1. unfold show at 1. apply for_each_caught.
  - split; [reflexivity|]. split; [discriminate|]. intros e [= ->]. reflexivity.
Qed.

Lemma filter_shown_section : forall s tipo metadata,
  filter shown (section_chunk s tipo metadata)
    = if existsb (PyStr.eqb tipo) [u "identificacao"; u "objetivo"; u "ementa"]
      then section_chunk s tipo metadata else [].
Proof.
  intros s tipo metadata. unfold section_chunk.
  destruct (PyStr.eqb s []); cbn [filter].
  - destruct (existsb _ _); reflexivity.
  - unfold shown. cbn [chunk_tipo]. destruct (existsb _ _); reflexivity.
Qed.

Lemma filter_shown_topics : forall metadata topicos,
  filter shown (map (topic_chunk metadata) topicos) = [].
Proof.
  intros metadata. induction topicos as [|t ts IH]; [reflexivity|].
  cbn [map filter]. unfold shown at 1. unfold topic_chunk at 1. cbn [chunk_tipo].
  replace (existsb (PyStr.eqb (u "conteudo_programatico"))
             [u "identificacao"; u "objetivo"; u "ementa"]) with false
    by (vm_compute; reflexivity).
  exact IH.
Qed.

(** The chunks of a document that the overview shows: the identification
    chunk, then the objetivo and ementa chunks when there are any. *)
Lemma filter_shown_chunks : forall text ident metadata,
  filter shown (chunks_of text ident metadata)
    = Chunk ident (u "identificacao") metadata
      :: section_chunk (section_of text (u "Objetivo") (u "Ementa")) (u "objetivo") metadata
      ++ section_chunk (section_of text (u "Ementa") (u "Conteúdo Programático"))
           (u "ementa") metadata.
Proof.
  intros text ident metadata. unfold chunks_of. cbn [filter].
  unfold shown at 1. cbn [chunk_tipo].
  replace (existsb (PyStr.eqb (u "identificacao"))
             [u "identificacao"; u "objetivo"; u "ementa"]) with true
    by (vm_compute; reflexivity).
  f_equal. rewrite !filter_app, !filter_shown_section, filter_shown_topics.
  replace (existsb (PyStr.eqb (u "objetivo"))
             [u "identificacao"; u "objetivo"; u "ementa"]) with true
    by (vm_compute; reflexivity).
  replace (existsb (PyStr.eqb (u "ementa"))
             [u "identificacao"; u "objetivo"; u "ementa"]) with true
    by (vm_compute; reflexivity).
  replace (existsb (PyStr.eqb (u "bibliografia_basica"))
             [u "identificacao"; u "objetivo"; u "ementa"]) with false
    by (vm_compute; reflexivity).
  replace (existsb (PyStr.eqb (u "bibliografia_complementar"))
             [u "identificacao"; u "objetivo"; u "ementa"]) with false
    by (vm_compute; reflexivity).
  cbn [app]. rewrite !app_nil_r. reflexivity.
Qed.

(** What the overview prints for a file that is read and assembled. *)
Lemma display_one_assembled : forall pdf_file c text metadata chunks (s : display_state vec),
  fitz_text pdf_file = Ok (c :: text) ->
  process_pdf_content (c :: text) (basename pdf_file) = Ok (metadata, chunks) ->
  exists ident codigo disciplina,
    clean_chunk_text (firstn 500 (c :: text)) (Some identificacao) = Ok ident /\
    dict_get (u "codigo") metadata = Some codigo /\
    dict_get (u "disciplina") metadata = Some disciplina /\
    display_one fitz_text pdf_file s
      = (Ok tt,
         DisplayState (ds_world s)
           (ds_shown s
              ++ [ ShowArquivo (basename pdf_file); ShowDisciplina disciplina;
                   ShowCodigo codigo; ShowRule ]
              ++ flat_map chunk_lines
                   (Chunk ident (u "identificacao") metadata
                    :: section_chunk (section_of (c :: text) (u "Objetivo") (u "Ementa"))
                         (u "objetivo") metadata
                    ++ section_chunk
                         (section_of (c :: text) (u "Ementa") (u "Conteúdo Programático"))
                         (u "ementa") metadata))).
Proof.
  intros pdf_file c text metadata chunks s Hf Hp.
  destruct (process_pdf_content_eq _ _ _ _ Hp) as (ident & Hi & Hc).
  destruct (process_pdf_content_keys _ _ _ _ Hp) as (md0 & _ & Hcod & [d Hd] & _).
  eexists ident, _, d. split; [exact Hi|]. split; [exact Hcod|]. split; [exact Hd|].
  rewrite display_one_eq, Hf, Hp, Hcod. unfold get_or. rewrite Hd.
  rewrite Hc, filter_shown_chunks. reflexivity.
Qed.

End DisplayLemmas.

(** ** The assembler on a text that names its course, and the text of its chunks *)

(** *** The assembler on a text that names its course *)

(** The metadata extractor sets the code when the text holds one. *)
Lemma header_codigo_present : forall text pre md0,
  occurs_at course_code text pre ->
  extract_metadata_from_header text = Ok md0 ->
  exists code, dict_get (u "codigo") md0 = Some code /\ code <> [] /\ Plain code.
Proof.
  intros text pre md0 Hocc E.
  destruct (header_metadata_spec text md0 E) as (Hcode & _).
  destruct (dict_get (u "codigo") md0) as [code|] eqn:G.
  - exists code. destruct (Hcode code eq_refl) as [Hc _].
    split; [reflexivity|]. split; [apply course_code_nonempty|apply course_code_plain];
      exact Hc.
  - exfalso. revert G. unfold extract_metadata_from_header, search in E.
    rewrite compile_header_code in E. cbn [bind] in E. cbv zeta in E.
    apply (f_equal (fun r => match r with Ok d => d | Raise _ => [] end)) in E.
    cbv beta iota in E. subst md0.
    rewrite !dict_get_set_other by (vm_compute; reflexivity).
    destruct (search_from header_code_regex text false 0 text) as [m|] eqn:Es.
    + rewrite !dict_get_set_other by (vm_compute; reflexivity).
      rewrite dict_get_set_same. discriminate.
    + destruct (no_code_by_search text Es pre Hocc).
Qed.

(** The assembler returns when the code it splices into its name
    pattern is plain. *)
Lemma process_pdf_content_returns_plain_code : forall text filename,
  (forall md0, extract_metadata_from_header text = Ok md0 ->
     exists code, dict_get (u "codigo") (with_codigo filename md0) = Some code /\
                  Plain code) ->
  exists metadata chunks, process_pdf_content text filename = Ok (metadata, chunks).
Proof.
  intros text filename Hcode.
  assert (H : exists r, process_pdf_content text filename = Ok r).
  { unfold process_pdf_content. cbv zeta.
    destruct (extract_metadata_returns text) as [md0 [E0 _]].
    eapply bind_total; [exact E0|].
    destruct (Hcode md0 E0) as [code [Hget Hplain]]. unfold with_codigo in Hget.
    destruct (disciplina_step_returns text _ code Hget Hplain) as [md1 E1].
    eapply bind_total; [exact E1|].
    destruct (clean_identificacao_returns (firstn 500 text)) as [ident Eid].
    eapply bind_total; [exact Eid|].
    destruct (extract_section_returns text (u "Objetivo") (Some (u "Ementa")))
      as [objetivo Eo]; [vm_compute; reflexivity|vm_compute; reflexivity|].
    eapply bind_total; [exact Eo|].
    destruct (section_step_returns objetivo (u "objetivo") md1
                ([] ++ [Chunk ident (u "identificacao") md1])) as [chunks1 E2].
    eapply bind_total; [exact E2|].
    destruct (extract_section_returns text (u "Ementa") (Some (u "Conteúdo Programático")))
      as [ementa Ee]; [vm_compute; reflexivity|vm_compute; reflexivity|].
    eapply bind_total; [exact Ee|].
    destruct (section_step_returns ementa (u "ementa") md1 chunks1) as [chunks2 E3].
    eapply bind_total; [exact E3|].
    destruct (extract_section_returns text (u "Conteúdo Programático")
                (Some (u "Bibliografia")))
      as [conteudo Ec]; [vm_compute; reflexivity|vm_compute; reflexivity|].
    eapply bind_total; [exact Ec|].
    assert (E4 : exists chunks3,
              (if negb (PyStr.eqb conteudo []) then
                 topicos <-
                   findall DOTALL (u "(\d+\s*.*?(?=\d+\s*|Bibliografia|$))") conteudo ;;
                 topicos_loop topicos md1 chunks2
               else Ok chunks2) = Ok chunks3).
    { destruct (negb (PyStr.eqb conteudo [])); [|eauto].
      destruct (findall_topics conteudo) as [topicos [Ef Ft]].
      eapply bind_total; [exact Ef|]. apply topicos_loop_returns. exact Ft. }
    destruct E4 as [chunks3 E4].
    eapply bind_total; [exact E4|].
    destruct (extract_section_returns text (u "Bibliografia Básica")
                (Some (u "Bibliografia Complementar")))
      as [basica Eb]; [vm_compute; reflexivity|vm_compute; reflexivity|].
    eapply bind_total; [exact Eb|].
    destruct (section_step_returns basica (u "bibliografia_basica") md1 chunks3)
      as [chunks4 E5].
    eapply bind_total; [exact E5|].
    destruct (extract_section_returns text (u "Bibliografia Complementar")
                (Some (u "Resumo")))
      as [complementar Ecp]; [vm_compute; reflexivity|vm_compute; reflexivity|].
    eapply bind_total; [exact Ecp|].
    destruct (section_step_returns complementar (u "bibliografia_complementar") md1 chunks4)
      as [chunks5 E6].
    eapply bind_total; [exact E6|].
    eauto. }
  destruct H as [[metadata chunks] H]. eauto.
Qed.

(** *** Where the text of a chunk comes from *)

Lemma slice_subseq : forall (t : str) b e, subseq (slice t b e) t.
Proof.
  intros t b e. unfold slice.
  eapply subseq_trans; [apply subseq_firstn|apply subseq_skipn].
Qed.

Lemma strip_subseq_of : forall s t, subseq s t -> subseq (PyStr.strip s) t.
Proof. intros s t H. eapply subseq_trans; [apply strip_subseq|exact H]. Qed.

(** The group of a match is a part of the subject. *)
Lemma group1_subseq : forall r text ma p suffix m g,
  search_from r text ma p suffix = Some m -> group1 m = Ok g -> subseq g text.
Proof.
  intros r text ma p suffix m g Hs Hg.
  apply search_from_some in Hs. destruct Hs as (k & st' & _ & _ & ->).
  unfold group1, group in Hg. cbn [m_caps m_text] in Hg.
  destruct (lookup_cap 1 (caps st')) as [[b e]|]; [|discriminate].
  injection Hg as <-. apply slice_subseq.
Qed.

(** The section the splitter returns between plain markers is a part of
    the text. *)
Lemma section_of_subseq : forall text section_start section_end,
  plain section_start = true -> plain section_end = true ->
  subseq (section_of text section_start section_end) text.
Proof.
  intros text a b Ha Hb. apply plain_Plain in Ha, Hb. unfold section_of.
  destruct (extract_section_from_pdf text a (Some b)) as [s|e] eqn:E; [|constructor].
  unfold extract_section_from_pdf in E. cbv zeta in E.
  apply bind_inv in E. destruct E as [[m|] [Hs E]].
  - apply bind_inv in E. destruct E as [g [Hg E]]. injection E as <-.
    unfold search in Hs. destruct b as [|c e].
    + fold fallback_tail in Hs. rewrite (compile_fallback a Ha) in Hs.
      injection Hs as Hs. apply strip_subseq_of.
      exact (group1_subseq _ _ _ _ _ _ _ Hs Hg).
    + rewrite (compile_section a (c :: e) Ha Hb) in Hs.
      injection Hs as Hs. apply strip_subseq_of.
      exact (group1_subseq _ _ _ _ _ _ _ Hs Hg).
  - injection E as <-. constructor.
Qed.

(** Every topic is a part of the programme. *)
Lemma topics_of_subseq : forall conteudo t,
  List.In t (topics_of conteudo) -> subseq t conteudo.
Proof.
  intros conteudo t Ht. unfold topics_of in Ht.
  destruct (PyStr.eqb conteudo []); [destruct Ht|].
  unfold findall in Ht. rewrite compile_topics in Ht.
  apply in_map_iff in Ht. destruct Ht as [m [<- Hm]]. unfold matches in Hm.
  apply (matches_from_scan _ _ conteudo false 0) in Hm. destruct Hm as [ma [p Hs]].
  apply search_from_some in Hs. destruct Hs as (k & st' & _ & _ & ->).
  unfold group. cbn [m_caps m_text].
  destruct (lookup_cap 1 (caps st')) as [[b e]|]; [apply slice_subseq|constructor].
Qed.

(** The default cleaning of a fragment: what it keeps and how it leaves
    the whitespace. *)
Lemma cleaned_spec : forall s,
  tidy false (cleaned s) = true /\ PyStr.strip (cleaned s) = cleaned s /\
  subseq (filter nonspace (cleaned s)) (filter nonspace s).
Proof.
  intros s. unfold cleaned. destruct (clean_default_tidy s) as (c & Hc & Ht & Hs).
  rewrite Hc. split; [exact Ht|]. split; [exact Hs|]. exact (clean_default_subseq s c Hc).
Qed.

Lemma section_chunk_from : forall text s tipo metadata,
  subseq s text -> Forall (text_from text) (section_chunk s tipo metadata).
Proof.
  intros text s tipo metadata Hs. unfold section_chunk.
  destruct (PyStr.eqb s []); constructor; [|constructor].
  unfold text_from. cbn [chunk_text]. destruct (cleaned_spec s) as (H1 & H2 & H3).
  split; [exact H1|]. split; [exact H2|].
  eapply subseq_trans; [exact H3|]. apply subseq_filter. exact Hs.
Qed.

Lemma chunks_of_from : forall text ident metadata,
  Forall (text_from text) (tl (chunks_of text ident metadata)).
Proof.
  intros text ident metadata. unfold chunks_of. cbn [tl].
  rewrite !Forall_app. split; [|split; [|split; [|split]]];
    try (apply section_chunk_from; apply section_of_subseq; vm_compute; reflexivity).
  apply Forall_forall. intros c Hc. apply in_map_iff in Hc. destruct Hc as [t [<- Ht]].
  unfold text_from, topic_chunk. cbn [chunk_text].
  destruct (cleaned_spec (PyStr.strip t)) as (H1 & H2 & H3).
  split; [exact H1|]. split; [exact H2|].
  eapply subseq_trans; [exact H3|]. apply subseq_filter.
  apply strip_subseq_of. eapply subseq_trans; [apply (topics_of_subseq _ _ Ht)|].
  apply section_of_subseq; vm_compute; reflexivity.
Qed.

(** ** When the default cleaning leaves nothing *)

(** *** When the default cleaning leaves nothing *)

Lemma compile_ordinal : compile NOFLAGS (u "^\d+\s+") = Some ordinal_regex.
Proof. vm_compute. reflexivity. Qed.

Lemma compile_heading :
  compile IGNORECASE (u "(Bibliografia Complementar\s*)+$") = Some heading_regex.
Proof. vm_compute. reflexivity. Qed.

Lemma blank_app : forall a b, blank (a ++ b) = blank a && blank b.
Proof. intros a b. apply forallb_app. Qed.

Lemma blank_filter : forall s, blank s = true <-> filter nonspace s = [].
Proof.
  induction s as [|c s IH]; simpl; [tauto|].
  unfold nonspace at 1. destruct (PyStr.isspace c); simpl; [exact IH|].
  split; discriminate.
Qed.

Lemma blank_collapse : forall s b, blank (collapse b s) = true -> blank s = true.
Proof.
  intros s b H. apply blank_filter. apply blank_filter in H.
  rewrite collapse_nonspace_filter in H. exact H.
Qed.

Lemma concat_chars : forall (f : char -> bool) ws,
  Forall (fun w => exists c, w = [c] /\ f c = true) ws -> forallb f (concat ws) = true.
Proof.
  intros f. induction ws as [|w ws IH]; intros H; [reflexivity|].
  inversion H as [|? ? (c & -> & Hc) Hws]; subst. simpl. rewrite Hc. apply IH. exact Hws.
Qed.

Lemma set_test : forall it c, char_test (InSet false [it]) c = item_test c it.
Proof. intros it c. simpl. apply orb_false_r. Qed.

(** What the pattern of the leading number takes is a number and the
    whitespace after it. *)
Lemma ordinal_lang : forall w, lang ordinal_regex w -> ordinal w.
Proof.
  intros w H. unfold ordinal_regex in H. cbn [lang] in H.
  destruct H as (w0 & w1 & -> & -> & wd & w2 & -> & (ds & -> & Fd & Hd) & ws0 & w3 & ->
                 & (ws & -> & Fs & Hs) & ->).
  exists (concat ds), (concat ws). cbn [app]. rewrite app_nil_r.
  split; [reflexivity|]. split; [|split; [|split]].
  - destruct ds as [|d ds]; [simpl in Hd; lia|].
    inversion Fd as [|? ? (c & -> & _) _]; subst. discriminate.
  - apply concat_chars. eapply Forall_impl; [|exact Fd].
    intros a (c & -> & Hc). exists c. split; [reflexivity|].
    rewrite set_test in Hc. exact Hc.
  - destruct ws as [|d ws]; [simpl in Hs; lia|].
    inversion Fs as [|? ? (c & -> & _) _]; subst. discriminate.
  - apply concat_chars. eapply Forall_impl; [|exact Fs].
    intros a (c & -> & Hc). exists c. split; [reflexivity|].
    rewrite set_test in Hc. exact Hc.
Qed.

Lemma char_atom_lang : forall r w,
  is_char_atom r = true -> lang r w -> exists c, w = [c] /\ char_test r c = true.
Proof. intros r w H L. destruct r; try discriminate H; exact L. Qed.

Lemma atoms_lang : forall rs tail w,
  forallb is_char_atom rs = true -> lang (atoms rs tail) w ->
  exists cs w2, w = cs ++ w2 /\ Forall2 (fun r c => char_test r c = true) rs cs /\
                lang tail w2.
Proof.
  induction rs as [|r rs IH]; intros tail w Hrs L; cbn [atoms fold_right] in L.
  - exists [], w. split; [reflexivity|]. split; [constructor|exact L].
  - cbn [forallb] in Hrs. apply andb_true_iff in Hrs. destruct Hrs as [Hr Hrs].
    cbn [lang] in L. destruct L as (w1 & w2 & -> & L1 & L2).
    destruct (char_atom_lang r w1 Hr L1) as (c & -> & Hc).
    destruct (IH tail w2 Hrs L2) as (cs & w3 & -> & F & L3).
    exists (c :: cs), w3. split; [reflexivity|]. split; [constructor; assumption|exact L3].
Qed.

Lemma heading_atoms :
  forallb is_char_atom (map ci_atom (u "Bibliografia Complementar")) = true.
Proof. vm_compute. reflexivity. Qed.

Lemma heading_length : forall h,
  same_ignoring_case (u "Bibliografia Complementar") h -> length h = 25.
Proof.
  intros h H. unfold same_ignoring_case in H. apply Forall2_length in H.
  rewrite <- H. vm_compute. reflexivity.
Qed.

Lemma heading_nonempty : forall w, heading w -> w <> [].
Proof.
  intros w (h & ws & -> & Hh & _). apply heading_length in Hh.
  destruct h; [discriminate Hh|discriminate].
Qed.

(** What the pattern of the trailing headings takes is a run of
    headings. *)
Lemma heading_lang : forall w, lang heading_regex w -> headings w /\ w <> [].
Proof.
  intros w H. unfold heading_regex in H. cbn [lang] in H.
  destruct H as (w0 & w1 & -> & (blocks & -> & F & Hmin) & wa & wb & -> & -> & ->).
  cbn [app]. rewrite app_nil_r.
  assert (Fh : Forall heading blocks).
  { eapply Forall_impl; [|exact F]. intros b Hb.
    apply atoms_lang in Hb; [|exact heading_atoms].
    destruct Hb as (cs & w2 & -> & F2 & L2). cbn [lang] in L2.
    destruct L2 as (ws0 & w3 & -> & (ws & -> & Fs & _) & ->). rewrite app_nil_r.
    exists cs, (concat ws). split; [reflexivity|]. split; [exact F2|].
    apply concat_chars. eapply Forall_impl; [|exact Fs].
    intros a (c & -> & Hc). exists c. split; [reflexivity|].
    rewrite set_test in Hc. exact Hc. }
  split; [exists blocks; split; [reflexivity|exact Fh]|].
  destruct blocks as [|b blocks]; [simpl in Hmin; lia|].
  inversion Fh as [|? ? Hb _]; subst. apply heading_nonempty in Hb.
  simpl. destruct b; [congruence|discriminate].
Qed.

Lemma headings_nil : headings [].
Proof. exists []. split; [reflexivity|constructor]. Qed.

Lemma headings_app : forall a b, headings a -> headings b -> headings (a ++ b).
Proof.
  intros a b (ha & -> & Fa) (hb & -> & Fb). exists (ha ++ hb).
  split; [symmetry; apply concat_app|]. apply Forall_app. split; assumption.
Qed.

(** Whitespace after a run of headings belongs to the last of them. *)
Lemma headings_blank : forall a b,
  headings a -> a <> [] -> blank b = true -> headings (a ++ b).
Proof.
  intros a b (hs & -> & F) Hne Hb.
  destruct hs as [|x xs] using rev_ind; [simpl in Hne; congruence|]. clear IHxs.
  apply Forall_app in F. destruct F as [Fx Fl].
  inversion Fl as [|? ? (h & ws & -> & Hh & Hws) _]; subst.
  exists (xs ++ [h ++ (ws ++ b)]). split.
  - rewrite !concat_app. simpl. rewrite !app_nil_r, <- !app_assoc. reflexivity.
  - apply Forall_app. split; [exact Fx|]. constructor; [|constructor].
    exists h, (ws ++ b). split; [reflexivity|]. split; [exact Hh|].
    rewrite blank_app, Hws, Hb. reflexivity.
Qed.

(** Deleting the matches of a pattern from a text leaves whitespace only
    when the text is whitespace followed by matches and whitespace. *)
Lemma replace_all_blank : forall (H : str -> Prop) r text,
  H [] -> (forall a b, H a -> H b -> H (a ++ b)) ->
  (forall a b, H a -> a <> [] -> blank b = true -> H (a ++ b)) ->
  (forall w, lang r w -> H w /\ w <> []) ->
  forall fuel ma p,
    blank (replace_all text [] p (matches_from fuel r text ma p (skipn p text))) = true ->
    exists mid heads, skipn p text = mid ++ heads /\ blank mid = true /\ H heads.
Proof.
  intros H r text Hnil Happ Hblank Hlang.
  induction fuel as [|fuel IH]; intros ma p Hb; cbn [matches_from] in Hb.
  - cbn [replace_all] in Hb. exists (skipn p text), [].
    split; [symmetry; apply app_nil_r|]. split; [exact Hb|exact Hnil].
  - destruct (search_from r text ma p (skipn p text)) as [m|] eqn:E.
    + destruct (search_from_word _ _ _ _ _ E) as (st' & w & _ & _ & Hsk & He & Hp & Hw & _).
      cbn [replace_all app] in Hb. rewrite skipn_skipn in Hb.
      replace (m_end m - p + p) with (m_end m) in Hb by lia.
      rewrite blank_app in Hb. apply andb_true_iff in Hb. destruct Hb as [Hb1 Hb2].
      destruct (IH _ _ Hb2) as (mid' & heads' & Hs' & Hm' & Hh').
      destruct (Hlang w Hw) as [Hhw Hne].
      exists (slice text p (m_start m)), ((w ++ mid') ++ heads').
      split; [|split; [exact Hb1|]].
      * unfold slice. rewrite <- (firstn_skipn (m_start m - p) (skipn p text)) at 1.
        f_equal. rewrite skipn_skipn.
        replace (m_start m - p + p) with (m_start m) by lia.
        rewrite Hsk, Hs', <- app_assoc. reflexivity.
      * apply Happ; [|exact Hh']. apply Hblank; assumption.
    + cbn [replace_all] in Hb. exists (skipn p text), [].
      split; [symmetry; apply app_nil_r|]. split; [exact Hb|exact Hnil].
Qed.

Lemma matches_from_nothing : forall fuel r text ma p suffix,
  search_from r text ma p suffix = None -> matches_from fuel r text ma p suffix = [].
Proof.
  intros [|fuel] r text ma p suffix H; [reflexivity|]. cbn [matches_from].
  rewrite H. reflexivity.
Qed.

(** A pattern that starts with [^] matches at the start of the text
    only. *)
Lemma bol_at_start : forall r st st',
  List.In st' (run (Seq Bol r) st) -> pos st = 0.
Proof.
  intros r st st' H. cbn [run] in H.
  destruct (Nat.eqb (pos st) 0) eqn:E; [apply Nat.eqb_eq; exact E|destruct H].
Qed.

(** The substitution of the leading number: when the pattern does not
    match at the start, the text is left as it is; otherwise a number and
    the whitespace after it are removed from the start. *)
Lemma sub_ordinal_cases : forall text t1,
  sub NOFLAGS (u "^\d+\s+") (u "") text = Ok t1 ->
  (run ordinal_regex (MState 0 text []) = [] /\ t1 = text) \/
  (exists ord, text = ord ++ t1 /\ ordinal ord).
Proof.
  intros text t1 H. unfold sub in H. rewrite compile_ordinal in H. injection H as <-.
  rewrite empty_code. unfold matches.
  replace (2 * length text + 2) with (S (2 * length text + 1)) by lia.
  cbn [matches_from].
  destruct (search_from ordinal_regex text false 0 text) as [m|] eqn:E.
  - right.
    destruct (search_from_word ordinal_regex text false 0 m E)
      as (st' & w & Hin & _ & Hsk & He & _ & Hw & _).
    pose proof (bol_at_start _ _ _ Hin) as H0. cbn [pos] in H0.
    rewrite H0 in Hsk, He. cbn [skipn] in Hsk. cbn [Nat.add] in He.
    pose proof (ordinal_lang w Hw) as Ho.
    assert (Hlen : 0 < m_end m).
    { destruct Ho as (ds & ws & -> & Hd & _). rewrite He, length_app.
      destruct ds; [congruence|]. simpl. lia. }
    rewrite Nat.sub_0_r.
    rewrite matches_from_nothing.
    + cbn [replace_all app]. rewrite H0. unfold slice. cbn [Nat.sub firstn app].
      exists w. split; [exact Hsk|exact Ho].
    + destruct (search_from ordinal_regex text (Nat.eqb (m_start m) (m_end m)) (m_end m)
                  (skipn (m_end m) text)) as [m'|] eqn:E'; [|reflexivity].
      exfalso.
      destruct (search_from_word ordinal_regex text _ _ m' E')
        as (st'' & w' & Hin' & _ & _ & _ & Hp' & _).
      pose proof (bol_at_start _ _ _ Hin') as H0'. cbn [pos] in H0'. lia.
  - left. cbn [replace_all skipn]. split; [|reflexivity].
    destruct (run ordinal_regex (MState 0 text [])) as [|st l] eqn:R; [reflexivity|].
    exfalso. destruct text; cbn [search_from] in E; rewrite R in E; discriminate E.
Qed.

(** The substitution of the leading number removes nothing, or a number
    and the whitespace after it from the start of the text. *)
Lemma sub_ordinal : forall text t1,
  sub NOFLAGS (u "^\d+\s+") (u "") text = Ok t1 ->
  exists ord, text = ord ++ t1 /\ (ord = [] \/ ordinal ord).
Proof.
  intros text t1 H. destruct (sub_ordinal_cases _ _ H) as [[_ ->]|(ord & E & Ho)].
  - exists []. split; [reflexivity|left; reflexivity].
  - exists ord. split; [exact E|right; exact Ho].
Qed.

(** The default branch of the cleaner returns the empty string only for
    a fragment whose kept lines are drained by its substitutions. *)
Lemma clean_empty_drained : forall s,
  clean_chunk_text s None = Ok [] -> drained (kept_lines s).
Proof.
  intros s H. unfold clean_chunk_text in H. cbv zeta in H. cbn match in H.
  fold (kept_lines s) in H.
  apply bind_inv in H. destruct H as [t1 [E1 H]].
  apply bind_inv in H. destruct H as [t2 [E2 H]].
  apply bind_inv in H. destruct H as [t3 [E3 H]].
  rewrite sub_ws in E3. injection E3 as <-.
  apply (f_equal (fun r => match r with Ok x => x | Raise _ => [] end)) in H.
  cbv beta iota in H. apply strip_nil in H. apply blank_collapse in H.
  destruct (sub_ordinal _ _ E1) as (ord & Hk & Hord).
  unfold sub in E2. rewrite compile_heading in E2. injection E2 as <-.
  rewrite empty_code in H. unfold matches in H.
  destruct (replace_all_blank headings heading_regex t1 headings_nil headings_app
              headings_blank heading_lang _ false 0 H) as (mid & heads & Ht1 & Hm & Hh).
  cbn [skipn] in Ht1.
  exists ord, mid, heads. split; [rewrite Hk, Ht1; reflexivity|].
  split; [exact Hord|]. split; [exact Hm|exact Hh].
Qed.

(** ** The name and the hours of the identification text *)

(** *** The name the identification branch derives *)






(** ** Texts the cleaner empties *)

(** *** Texts the cleaner empties *)

Lemma lookup_lower_preimage : forall tbl c,
  c = PyStr.lookup_lower tbl c \/
  List.In c (flat_map (fun e => match e with
                                | (lo, hi, step, img) =>
                                    if ((img <=? PyStr.lookup_lower tbl c)
                                        && (PyStr.lookup_lower tbl c <=? img + (hi - lo)))%N
                                    then [(lo + (PyStr.lookup_lower tbl c - img))%N]
                                    else []
                                end) tbl).
Proof.
  induction tbl as [|[[[lo hi] step] img] tbl IH]; intros c; [left; reflexivity|].
  cbn [PyStr.lookup_lower].
  destruct ((lo <=? c)%N && (c <=? hi)%N && ((c - lo) mod step =? 0)%N) eqn:E.
  - right. cbn [flat_map]. apply in_or_app. left.
    apply andb_true_iff in E. destruct E as [E _].
    apply andb_true_iff in E. destruct E as [E1 E2].
    apply N.leb_le in E1, E2.
    replace ((img <=? img + (c - lo)) && (img + (c - lo) <=? img + (hi - lo)))%N with true.
    + left. lia.
    + symmetry. apply andb_true_iff. split; apply N.leb_le; lia.
  - destruct (IH c) as [H|H]; [left; exact H|].
    right. cbn [flat_map]. apply in_or_app. right. exact H.
Qed.

Lemma tolower_preimage : forall c x, PyStr.tolower c = x -> List.In c (lowered_to x).
Proof.
  intros c x <-. unfold lowered_to, PyStr.tolower.
  destruct (lookup_lower_preimage PyStr.lower_table c) as [H|H].
  - left. symmetry. exact H.
  - right. exact H.
Qed.

(** A heading starts with a letter B, which is neither whitespace nor a
    digit. *)
Lemma heading_first : forall w,
  heading w ->
  exists c tl, w = c :: tl /\ PyStr.isspace c = false /\ PyStr.isdigit c = false.
Proof.
  intros w (h & ws & -> & Hh & _). unfold same_ignoring_case in Hh.
  assert (Hp : exists tl, map ci_atom (u "Bibliografia Complementar") = LitI 98%N :: tl)
    by (eexists; vm_compute; reflexivity).
  destruct Hp as [tl Hp]. rewrite Hp in Hh.
  inversion Hh as [|r c rs h' Hc Hrest]; subst.
  exists c, (h' ++ ws). split; [reflexivity|].
  cbn [char_test] in Hc. unfold casefix in Hc. cbn [N.eqb Pos.eqb existsb] in Hc.
  rewrite orb_false_r in Hc. apply N.eqb_eq in Hc.
  apply tolower_preimage in Hc.
  assert (Hl : lowered_to 98%N = [98; 66]%N) by (vm_compute; reflexivity).
  rewrite Hl in Hc.
  destruct Hc as [<-|[<-|[]]]; split; vm_compute; reflexivity.
Qed.

Lemma headings_first : forall w,
  headings w ->
  w = [] \/ exists c tl, w = c :: tl /\ PyStr.isspace c = false /\ PyStr.isdigit c = false.
Proof.
  intros w (hs & -> & F). destruct hs as [|x xs]; [left; reflexivity|]. right.
  inversion F as [|? ? Hx _]; subst.
  destruct (heading_first x Hx) as (c & tl & -> & Hs & Hd).
  exists c, (tl ++ concat xs). split; [reflexivity|]. split; assumption.
Qed.

(** Iterations that move on are one of the ways through an unbounded
    repeat. *)
Lemma rep_iterates : forall body greedy min n st st',
  iterates body n st st' ->
  forall fuel count last,
    min <= count + n -> n + (min - count) < fuel ->
    (forall q, last = Some q -> q < pos st) ->
    List.In st' (rep_loop body greedy min None fuel count last st).
Proof.
  intros body greedy min n st st' H.
  induction H as [st|n st mid st' Hin Hlt H IH]; intros fuel count last Hm Hf Hlast.
  - destruct fuel as [|fuel]; [lia|]. cbn [rep_loop].
    replace (count <? min) with false by (symmetry; apply Nat.ltb_ge; lia).
    cbn [below andb].
    destruct (negb (opt_nat_eqb last (pos st))).
    + destruct greedy.
      * apply in_or_app. right. left. reflexivity.
      * left. reflexivity.
    + left. reflexivity.
  - destruct fuel as [|fuel]; [lia|]. cbn [rep_loop].
    assert (Hnext : forall last',
              (forall q, last' = Some q -> q < pos mid) ->
              List.In st' (flat_map (rep_loop body greedy min None fuel (S count) last')
                             (body st))).
    { intros last' Hl. apply in_flat_map. exists mid. split; [exact Hin|].
      apply IH; [lia|lia|exact Hl]. }
    destruct (count <? min) eqn:E.
    + apply Hnext. intros q Hq. apply Hlast in Hq. lia.
    + cbn [below andb].
      assert (Hne : negb (opt_nat_eqb last (pos st)) = true).
      { destruct last as [q|]; [|reflexivity]. simpl.
        specialize (Hlast q eq_refl). apply negb_true_iff. apply Nat.eqb_neq. lia. }
      rewrite Hne.
      destruct greedy.
      * apply in_or_app. left. apply Hnext. intros q [= <-]. exact Hlt.
      * right. apply Hnext. intros q [= <-]. exact Hlt.
Qed.

(** One-character patterns in a row take the code points they accept. *)
Lemma run_atoms : forall rs cs,
  Forall2 (fun r c => char_test r c = true) rs cs ->
  forallb is_char_atom rs = true ->
  forall tail p rest0 caps,
    run (atoms rs tail) (MState p (cs ++ rest0) caps)
      = run tail (MState (p + length cs) rest0 caps).
Proof.
  intros rs cs H. induction H as [|r c rs cs Hc H IH]; intros Ha tail p rest0 caps.
  - cbn [atoms fold_right app length]. rewrite Nat.add_0_r. reflexivity.
  - cbn [forallb] in Ha. apply andb_true_iff in Ha. destruct Ha as [Hr Hrs].
    cbn [atoms fold_right]. fold (atoms rs tail). cbn [run].
    assert (Hstep : run r (MState p ((c :: cs) ++ rest0) caps)
                    = [MState (S p) (cs ++ rest0) caps]).
    { destruct r; try discriminate Hr; cbn [run]; unfold step_char;
        cbn [rest pos Re.caps app]; rewrite Hc; reflexivity. }
    rewrite Hstep. cbn [flat_map]. rewrite app_nil_r.
    rewrite (IH Hrs). cbn [length]. f_equal. f_equal. lia.
Qed.

(** The whitespace of a blank string is accepted by [\s]. *)
Lemma blank_tests : forall ws,
  blank ws = true -> Forall (fun c => char_test (InSet false [ISpace]) c = true) ws.
Proof.
  intros ws H. apply Forall_forall. intros c Hc. unfold blank in H.
  rewrite forallb_forall in H. rewrite set_test. cbn [item_test]. exact (H c Hc).
Qed.

Lemma digits_test : forall ds,
  forallb PyStr.isdigit ds = true ->
  Forall (fun c => char_test (InSet false [IDigit]) c = true) ds.
Proof.
  intros ds H. apply Forall_forall. intros c Hc.
  rewrite forallb_forall in H. rewrite set_test. cbn [item_test]. exact (H c Hc).
Qed.

(** The body of the heading pattern takes a heading. *)
Lemma heading_body_reach : forall w rest0 p caps,
  heading w ->
  List.In (MState (p + length w) rest0 ((1, (p, p + length w)) :: caps))
    (run (Group 1 (atoms (map ci_atom (u "Bibliografia Complementar"))
                     (Seq (Rep true 0 None (InSet false [ISpace])) Eps)))
         (MState p (w ++ rest0) caps)).
Proof.
  intros w rest0 p caps (h & ws & -> & Hh & Hws).
  cbn [run]. apply in_map_iff.
  exists (MState (p + length (h ++ ws)) rest0 caps). split; [reflexivity|].
  rewrite <- !app_assoc.
  rewrite (run_atoms _ _ Hh heading_atoms). cbn [run rest].
  apply in_flat_map. exists (MState (p + length (h ++ ws)) rest0 caps).
  split; [|left; reflexivity].
  change (run (InSet false [ISpace])) with (step_char (InSet false [ISpace])).
  rewrite length_app, Nat.add_assoc.
  apply rep_char_reach.
  - apply blank_tests. exact Hws.
  - lia.
  - rewrite length_app. lia.
  - discriminate.
Qed.

Lemma headings_iterate : forall hs p caps,
  Forall heading hs ->
  exists caps',
    iterates (run (Group 1 (atoms (map ci_atom (u "Bibliografia Complementar"))
                              (Seq (Rep true 0 None (InSet false [ISpace])) Eps))))
             (length hs) (MState p (concat hs) caps)
             (MState (p + length (concat hs)) [] caps').
Proof.
  induction hs as [|x xs IH]; intros p caps F.
  - exists caps. cbn [concat length]. rewrite Nat.add_0_r. constructor.
  - inversion F as [|? ? Hx Fxs]; subst.
    destruct (IH (p + length x) ((1, (p, p + length x)) :: caps) Fxs) as [caps' Hit].
    exists caps'. cbn [concat length].
    apply (iterates_S _ _ _ (MState (p + length x) (concat xs)
                               ((1, (p, p + length x)) :: caps))).
    + apply heading_body_reach. exact Hx.
    + cbn [pos]. apply heading_nonempty in Hx. destruct x; [congruence|]. simpl. lia.
    + rewrite length_app, Nat.add_assoc. exact Hit.
Qed.

Lemma concat_length_bound : forall hs : list str,
  Forall (fun h => h <> []) hs -> length hs <= length (concat hs).
Proof.
  induction hs as [|x xs IH]; intros F; [simpl; lia|].
  inversion F as [|? ? Hx Fxs]; subst. cbn [concat length]. rewrite length_app.
  specialize (IH Fxs). destruct x; [congruence|]. simpl. lia.
Qed.

(** The heading pattern matches where headings run to the end of the
    text. *)
Lemma heading_run_complete : forall hs p,
  hs <> [] -> Forall heading hs ->
  run heading_regex (MState p (concat hs) []) <> [].
Proof.
  intros hs p Hne F. unfold heading_regex.
  destruct (headings_iterate hs p [] F) as [caps' Hit].
  eapply in_nonempty.
  change (run (Seq ?a ?b) ?st) with (flat_map (run b) (run a st)).
  apply in_flat_map. exists (MState (p + length (concat hs)) [] caps'). split.
  - cbn [run rest].
    eapply rep_iterates; [exact Hit| | |discriminate].
    + destruct hs; [congruence|]. simpl. lia.
    + assert (length hs <= length (concat hs)).
      { apply concat_length_bound. eapply Forall_impl; [|exact F].
        intros h. apply heading_nonempty. }
      lia.
  - cbn [run rest flat_map app]. left. reflexivity.
Qed.

(** The pattern of the leading number matches a number followed by
    whitespace at the start of the text. *)
Lemma ordinal_run_complete : forall ds ws rest0,
  ds <> [] -> forallb PyStr.isdigit ds = true -> ws <> [] -> blank ws = true ->
  run ordinal_regex (MState 0 (ds ++ ws ++ rest0) []) <> [].
Proof.
  intros ds ws rest0 Hd Fd Hw Fw. unfold ordinal_regex.
  eapply in_nonempty. cbn [run pos Nat.eqb flat_map]. rewrite app_nil_r.
  apply in_flat_map. exists (MState (0 + length ds) (ws ++ rest0) []). split.
  - change (run (InSet false [IDigit])) with (step_char (InSet false [IDigit])).
    cbn [rest]. apply rep_char_reach.
    + apply digits_test. exact Fd.
    + destruct ds; [congruence|]. simpl. lia.
    + rewrite !length_app. lia.
    + discriminate.
  - apply in_flat_map. exists (MState (0 + length ds + length ws) rest0 []). split.
    + change (run (InSet false [ISpace])) with (step_char (InSet false [ISpace])).
      cbn [rest]. apply rep_char_reach.
      * apply blank_tests. exact Fw.
      * destruct ws; [congruence|]. simpl. lia.
      * rewrite !length_app. lia.
      * discriminate.
    + left. reflexivity.
Qed.

(** Two ways to split a text into a run of code points of one kind and a
    rest that does not start with that kind are the same. *)
Lemma span_unique : forall (f : char -> bool) l1 l2 r1 r2,
  l1 ++ r1 = l2 ++ r2 ->
  forallb f l1 = true -> forallb f l2 = true ->
  (forall c tl, r1 = c :: tl -> f c = false) ->
  (forall c tl, r2 = c :: tl -> f c = false) ->
  l1 = l2 /\ r1 = r2.
Proof.
  intros f. induction l1 as [|a l1 IH]; intros l2 r1 r2 E F1 F2 H1 H2.
  - destruct l2 as [|b l2]; [split; [reflexivity|exact E]|].
    exfalso. cbn [app] in E. cbn [forallb] in F2. apply andb_true_iff in F2.
    destruct F2 as [Fb _]. rewrite (H1 b (l2 ++ r2) E) in Fb. discriminate Fb.
  - cbn [forallb] in F1. apply andb_true_iff in F1. destruct F1 as [Fa F1].
    destruct l2 as [|b l2].
    + exfalso. cbn [app] in E. symmetry in E. rewrite (H2 a (l1 ++ r1) E) in Fa.
      discriminate Fa.
    + cbn [app] in E. injection E as <- E.
      cbn [forallb] in F2. apply andb_true_iff in F2. destruct F2 as [_ F2].
      destruct (IH l2 r1 r2 E F1 F2 H1 H2) as [-> ->]. split; reflexivity.
Qed.

(** Whitespace taken from the start of whitespace followed by headings
    leaves whitespace followed by the headings. *)
Lemma blank_prefix : forall ws x heads t1,
  x ++ heads = ws ++ t1 -> blank x = true -> blank ws = true ->
  (forall c tl, heads = c :: tl -> PyStr.isspace c = false) ->
  exists b, t1 = b ++ heads /\ blank b = true.
Proof.
  induction ws as [|c ws IH]; intros x heads t1 E Fx Fw Hh.
  - exists x. split; [symmetry; exact E|exact Fx].
  - cbn [blank forallb] in Fw. apply andb_true_iff in Fw. destruct Fw as [Fc Fw].
    destruct x as [|d x].
    + exfalso. cbn [app] in E. rewrite (Hh c (ws ++ t1) E) in Fc. discriminate Fc.
    + cbn [app] in E. injection E as -> E.
      cbn [blank forallb] in Fx. apply andb_true_iff in Fx. destruct Fx as [_ Fx].
      exact (IH x heads t1 E Fx Fw Hh).
Qed.

Lemma headings_no_space : forall heads c tl,
  headings heads -> heads = c :: tl -> PyStr.isspace c = false.
Proof.
  intros heads c tl H E. destruct (headings_first heads H) as [->|(c' & tl' & -> & Hs & _)].
  - discriminate E.
  - injection E as <- _. exact Hs.
Qed.

Lemma headings_no_digit : forall heads c tl,
  headings heads -> heads = c :: tl -> PyStr.isdigit c = false.
Proof.
  intros heads c tl H E. destruct (headings_first heads H) as [->|(c' & tl' & -> & _ & Hd)].
  - discriminate E.
  - injection E as <- _. exact Hd.
Qed.

Lemma space_not_digit : forall c, PyStr.isspace c = true -> PyStr.isdigit c = false.
Proof.
  intros c H. destruct (PyStr.isdigit c) eqn:E; [|reflexivity].
  apply digit_not_space in E. congruence.
Qed.

(** The first substitution of the cleaner on a drained text leaves
    whitespace followed by headings. *)
Lemma sub_ordinal_drained : forall t,
  drained t ->
  exists b heads,
    sub NOFLAGS (u "^\d+\s+") (u "") t = Ok (b ++ heads) /\ blank b = true /\
    headings heads.
Proof.
  intros t (ord & mid & heads & -> & Hord & Hmid & Hheads).
  destruct (sub_compiles NOFLAGS (u "^\d+\s+") (u "") (ord ++ mid ++ heads) eq_refl)
    as [t1 E1].
  rewrite E1.
  destruct (sub_ordinal_cases _ _ E1) as [[Hrun ->]|(ord' & E & Hord')].
  - destruct Hord as [->|(ds & ws & -> & Hd & Fd & Hw & Fw)].
    + exists mid, heads. split; [reflexivity|]. split; assumption.
    + exfalso. rewrite <- !app_assoc in Hrun.
      exact (ordinal_run_complete ds ws (mid ++ heads) Hd Fd Hw Fw Hrun).
  - destruct Hord' as (ds' & ws' & -> & Hd' & Fd' & Hw' & Fw').
    assert (Hws' : forall c tl, ws' ++ t1 = c :: tl -> PyStr.isdigit c = false).
    { intros c tl Ec. destruct ws' as [|d ws']; [congruence|].
      cbn [app] in Ec. injection Ec as <- _.
      cbn [blank forallb] in Fw'. apply andb_true_iff in Fw'.
      apply space_not_digit. apply Fw'. }
    destruct Hord as [->|(ds & ws & -> & Hd & Fd & Hw & Fw)].
    + exfalso. cbn [app] in E. rewrite <- app_assoc in E.
      destruct ds' as [|d ds']; [congruence|].
      cbn [forallb] in Fd'. apply andb_true_iff in Fd'. destruct Fd' as [Fd0 _].
      destruct mid as [|c mid].
      * cbn [app] in E. rewrite (headings_no_digit _ _ _ Hheads E) in Fd0.
        discriminate Fd0.
      * cbn [app] in E. injection E as -> _.
        cbn [blank forallb] in Hmid. apply andb_true_iff in Hmid.
        destruct Hmid as [Hc _]. apply space_not_digit in Hc. congruence.
    + rewrite <- !app_assoc in E.
      assert (Hws : forall c tl, ws ++ mid ++ heads = c :: tl -> PyStr.isdigit c = false).
      { intros c tl Ec. destruct ws as [|d ws]; [congruence|].
        cbn [app] in Ec. injection Ec as <- _.
        cbn [blank forallb] in Fw. apply andb_true_iff in Fw.
        apply space_not_digit. apply Fw. }
      destruct (span_unique PyStr.isdigit _ _ _ _ E Fd Fd' Hws Hws') as [_ E'].
      rewrite app_assoc in E'.
      destruct (blank_prefix ws' (ws ++ mid) heads t1 E') as (b & -> & Hb).
      * rewrite blank_app, Fw, Hmid. reflexivity.
      * exact Fw'.
      * intros c tl. apply headings_no_space. exact Hheads.
      * exists b, heads. split; [reflexivity|]. split; assumption.
Qed.

Lemma blank_skipn : forall n s, blank s = true -> blank (skipn n s) = true.
Proof.
  intros n s H. unfold blank in *. rewrite forallb_forall in *.
  intros c Hc. apply H. rewrite <- (firstn_skipn n s). apply in_or_app. right. exact Hc.
Qed.

Lemma blank_firstn : forall n s, blank s = true -> blank (firstn n s) = true.
Proof.
  intros n s H. unfold blank in *. rewrite forallb_forall in *.
  intros c Hc. apply H. rewrite <- (firstn_skipn n s). apply in_or_app. left. exact Hc.
Qed.

(** The heading pattern has no match in whitespace. *)
Lemma no_heading_in_blank : forall text ma p,
  blank (skipn p text) = true ->
  search_from heading_regex text ma p (skipn p text) = None.
Proof.
  intros text ma p Hb.
  destruct (search_from heading_regex text ma p (skipn p text)) as [m|] eqn:E;
    [|reflexivity].
  exfalso.
  destruct (search_from_word _ _ _ _ _ E) as (st' & w & _ & _ & Hsk & _ & Hp & Hw & _).
  destruct (heading_lang w Hw) as [Hh Hne].
  destruct (headings_first w Hh) as [->|(c & tl & -> & Hs & _)]; [congruence|].
  assert (Hbm : blank (skipn (m_start m) text) = true).
  { replace (m_start m) with ((m_start m - p) + p) by lia.
    rewrite <- skipn_skipn. apply blank_skipn. exact Hb. }
  rewrite Hsk in Hbm. cbn [app blank forallb] in Hbm. rewrite Hs in Hbm.
  discriminate Hbm.
Qed.

(** Where the heading pattern matches, the text ends, or ends after one
    more line feed. *)
Lemma heading_run_end : forall st st',
  List.In st' (run heading_regex st) -> blank (rest st') = true.
Proof.
  intros st st' H. unfold heading_regex in H.
  change (run (Seq ?a ?b) ?s) with (flat_map (run b) (run a s)) in H.
  apply in_flat_map in H. destruct H as (mid & _ & H).
  cbn [run flat_map] in H.
  destruct (rest mid) as [|c [|d tl]] eqn:R; cbn [flat_map app] in H.
  - cbn [In] in H. destruct H as [<-|[]]. rewrite R. reflexivity.
  - destruct (c =? 10)%N eqn:Ec; cbn [flat_map app In] in H; [|destruct H].
    destruct H as [<-|[]]. rewrite R. apply N.eqb_eq in Ec. subst c. reflexivity.
  - destruct H.
Qed.

(** The second substitution of the cleaner on whitespace followed by
    headings leaves whitespace. *)
Lemma sub_heading_blank : forall b heads,
  blank b = true -> headings heads ->
  exists t2,
    sub IGNORECASE (u "(Bibliografia Complementar\s*)+$") (u "") (b ++ heads) = Ok t2 /\
    blank t2 = true.
Proof.
  intros b heads Hb (hs & -> & F).
  unfold sub. rewrite compile_heading, empty_code. eexists. split; [reflexivity|].
  unfold matches. set (text := b ++ concat hs).
  replace (2 * length text + 2) with (S (2 * length text + 1)) by lia.
  cbn [matches_from].
  destruct hs as [|x xs].
  - assert (Ht : blank text = true).
    { unfold text. cbn [concat]. rewrite app_nil_r. exact Hb. }
    pose proof (no_heading_in_blank text false 0 Ht) as Hn. cbn [skipn] in Hn.
    rewrite Hn. cbn [replace_all skipn]. exact Ht.
  - assert (Hrun : run heading_regex (MState (0 + length b) (skipn (length b) text) [])
                   <> []).
    { unfold text. rewrite skipn_app, skipn_all, Nat.sub_diag. cbn [skipn app].
      apply heading_run_complete; [discriminate|exact F]. }
    destruct (run heading_regex (MState (0 + length b) (skipn (length b) text) []))
      as [|st l] eqn:R; [congruence|].
    assert (Hnone : forall j, j < length b ->
              run heading_regex (MState (0 + j) (skipn j text) []) = []).
    { intros j Hj.
      destruct (run heading_regex (MState (0 + j) (skipn j text) [])) as [|st0 l0] eqn:R0;
        [reflexivity|]. exfalso.
      assert (Hin : List.In st0 (run heading_regex (MState (0 + j) (skipn j text) [])))
        by (rewrite R0; left; reflexivity).
      destruct (run_lang _ _ _ Hin) as [w [[R1 _] Hw]]. cbn [rest] in R1.
      destruct (heading_lang w Hw) as [Hh Hne].
      destruct (headings_first w Hh) as [->|(c & tl & -> & Hs & _)]; [congruence|].
      assert (Hc : List.In c b).
      { unfold text in R1. rewrite skipn_app in R1.
        replace (j - length b) with 0 in R1 by lia. cbn [skipn] in R1.
        destruct (skipn j b) as [|d tl'] eqn:Eb.
        - apply (f_equal (@length char)) in Eb. rewrite length_skipn in Eb.
          simpl in Eb. lia.
        - cbn [app] in R1. injection R1 as -> _.
          rewrite <- (firstn_skipn j b), Eb. apply in_or_app. right. left. reflexivity. }
      unfold blank in Hb. rewrite forallb_forall in Hb. rewrite (Hb c Hc) in Hs.
      discriminate Hs. }
    assert (Hlen : length b <= length text).
    { unfold text. rewrite length_app. lia. }
    rewrite (search_from_hit heading_regex text text 0 (length b) st l Hlen Hnone R).
    cbn [m_start m_end replace_all app Nat.add]. rewrite Nat.sub_0_r.
    assert (Hin : List.In st (run heading_regex
                                (MState (0 + length b) (skipn (length b) text) [])))
      by (rewrite R; left; reflexivity).
    pose proof (heading_run_end _ _ Hin) as Hend.
    destruct (run_lang _ _ _ Hin) as [w [[R1 R2] _]]. cbn [rest pos] in R1, R2.
    assert (Hrest : skipn (pos st) text = rest st).
    { rewrite R2. cbn [Nat.add]. rewrite (Nat.add_comm (length b)), <- skipn_skipn, R1.
      rewrite skipn_app, skipn_all, Nat.sub_diag. reflexivity. }
    rewrite matches_from_nothing.
    + cbn [replace_all]. rewrite blank_app. apply andb_true_iff. split.
      * unfold slice. cbn [skipn]. rewrite Nat.sub_0_r. unfold text.
        rewrite firstn_app, Nat.sub_diag, firstn_all. cbn [firstn].
        rewrite app_nil_r. exact Hb.
      * rewrite Hrest. exact Hend.
    + apply no_heading_in_blank. rewrite Hrest. exact Hend.
Qed.

Lemma blank_collapsed : forall s b, blank s = true -> blank (collapse b s) = true.
Proof.
  intros s b H. apply blank_filter. apply blank_filter in H.
  rewrite collapse_nonspace_filter. exact H.
Qed.

(** The default branch of the cleaner returns the empty string for a
    fragment whose kept lines are drained. *)
Lemma clean_drained_empty : forall s,
  drained (kept_lines s) -> clean_chunk_text s None = Ok [].
Proof.
  intros s H. unfold clean_chunk_text. cbv zeta. cbn match.
  fold (kept_lines s).
  destruct (sub_ordinal_drained _ H) as (b & heads & E1 & Hb & Hh).
  rewrite E1. cbn [bind].
  destruct (sub_heading_blank b heads Hb Hh) as (t2 & E2 & Ht2).
  rewrite E2. cbn [bind].
  rewrite sub_ws. cbn [bind]. f_equal.
  apply strip_nil. apply (blank_collapsed t2 false Ht2).
Qed.

(** The default branch of the cleaner returns the empty string exactly
    for the fragments whose kept lines are drained. *)
Lemma clean_empty_iff : forall s,
  clean_chunk_text s None = Ok [] <-> drained (kept_lines s).
Proof.
  intros s. split; [apply clean_empty_drained|apply clean_drained_empty].
Qed.

(** ** Insertions of identifiers the store does not hold *)

(** *** Insertions of identifiers the store does not hold *)



Section Counting.

Variable vec : Type.
Variable add_error : list (record vec) -> record vec -> option exn.




End Counting.

(** ** The properties of the specification *)

Lemma origin_not_identificacao : forall text c,
  chunk_origin text c -> chunk_tipo c <> u "identificacao".
Proof.
  intros text c H E.
  assert (Hd : forallb (fun t => negb (PyStr.eqb t (u "identificacao")))
                 [ u "objetivo"; u "ementa"; u "conteudo_programatico";
                   u "bibliografia_basica"; u "bibliografia_complementar" ] = true)
    by (vm_compute; reflexivity).
  rewrite forallb_forall in Hd.
  assert (Hin : List.In (chunk_tipo c)
                  [ u "objetivo"; u "ementa"; u "conteudo_programatico";
                    u "bibliografia_basica"; u "bibliografia_complementar" ]).
  { destruct H as [[H _]|[[H _]|[[H _]|[[H _]|[H _]]]]]; rewrite H; simpl; tauto. }
  specialize (Hd _ Hin). rewrite E, pystr_eqb_refl in Hd. discriminate Hd.
Qed.

Lemma origin_fragment : forall text c,
  chunk_origin text c ->
  exists s, fragment text (chunk_tipo c) s /\ s <> [] /\
            clean_chunk_text s None = Ok (chunk_text c).
Proof.
  intros text c H. unfold fragment.
  destruct H as [[Ht (s & E & Hne & Hc)]|[[Ht (s & E & Hne & Hc)]|[[Ht Hc]|
                 [[Ht (s & E & Hne & Hc)]|[Ht (s & E & Hne & Hc)]]]]].
  - exists s. split; [left; split; assumption|]. split; assumption.
  - exists s. split; [right; left; split; assumption|]. split; assumption.
  - destruct Hc as (conteudo & topicos & topico & E & Hne & Ef & Hin & Hs & Hc).
    exists (PyStr.strip topico).
    split; [right; right; left; split; [exact Ht|]|split; assumption].
    exists conteudo, topicos, topico. repeat split; assumption.
  - exists s. split; [right; right; right; left; split; assumption|]. split; assumption.
  - exists s. split; [right; right; right; right; split; assumption|]. split; assumption.
Qed.

(** C1, amended: every chunk of [process_pdf_content] other than the
    identification chunk is the cleaning (default branch) of a non-empty
    fragment of the document: the section between its two markers for
    the tipos objetivo, ementa, bibliografia_basica and
    bibliografia_complementar, a non-blank topic of the programme for
    conteudo_programatico. A section whose extraction is empty gives no
    chunk. The text of the chunk is empty exactly when the lines of the
    fragment that are neither blank nor boilerplate consist of nothing
    but an optional leading number with the whitespace after it,
    whitespace, and headings "Bibliografia Complementar" in any case; for
    every other fragment it is not empty. *)
Theorem C1_chunks_come_from_nonempty_sections :
  forall text filename metadata chunks c,
    process_pdf_content text filename = Ok (metadata, chunks) ->
    List.In c chunks -> chunk_tipo c <> u "identificacao" ->
    exists s,
      fragment text (chunk_tipo c) s /\ s <> [] /\
      clean_chunk_text s None = Ok (chunk_text c) /\
      (chunk_text c = [] <-> drained (kept_lines s)).
Proof.
  intros text filename metadata chunks c H Hin Ht.
  destruct (process_pdf_content_chunks _ _ _ _ H) as (ident & rest & _ & -> & Hf).
  destruct Hin as [<-|Hin].
  - exfalso. apply Ht. reflexivity.
  - rewrite Forall_forall in Hf.
    destruct (origin_fragment text c (Hf c Hin)) as (s & Hfr & Hne & Hc).
    exists s. split; [exact Hfr|]. split; [exact Hne|]. split; [exact Hc|].
    split.
    + intros He. rewrite He in Hc. exact (clean_empty_drained s Hc).
    + intros Hd. apply clean_drained_empty in Hd. rewrite Hd in Hc.
      injection Hc as <-. reflexivity.
Qed.


(** C3: the driver over a directory does not overwrite [codigo]. For a
    file OP63P.pdf whose text names the course CC56E, every record it
    stores is keyed and labelled with CC56E, the code the assembler took
    from the text; the driver for one file, on the same document, keys and
    labels the records with the stem OP63P. *)
Theorem C3_directory_driver_keeps_text_code :
  stored_ids (snd (process_all_pdfs_in_directory sample_fitz (fun _ => true)
                     sample_listdir accept_all (u "docs") sample_models [u "col"]
                     sample_world))
    = [ u "CC56E_identificacao_0_m"; u "CC56E_objetivo_1_m";
        u "PP10B_identificacao_0_m"; u "PP10B_objetivo_1_m" ] /\
  stored_codes (snd (process_all_pdfs_in_directory sample_fitz (fun _ => true)
                       sample_listdir accept_all (u "docs") sample_models [u "col"]
                       sample_world))
    = [Some (u "CC56E"); Some (u "CC56E"); Some (u "PP10B"); Some (u "PP10B")] /\
  stored_ids (snd (process_pdf_and_add_to_collections sample_fitz accept_all
                     (u "docs/OP63P.pdf") sample_models [u "col"] sample_world))
    = [u "OP63P_identificacao_0_m"; u "OP63P_objetivo_1_m"] /\
  stored_codes (snd (process_pdf_and_add_to_collections sample_fitz accept_all
                       (u "docs/OP63P.pdf") sample_models [u "col"] sample_world))
    = [Some (u "OP63P"); Some (u "OP63P")].
Proof. repeat split; vm_compute; reflexivity. Qed.


(** C5, amended: whenever [process_pdf_content] returns, the list it
    returns starts with the identification chunk, whose text is the
    identification cleaning of the first 500 code points of the document
    and whose metadata is the returned metadata, and no other chunk of
    the list has the tipo identificacao, whatever sections the document
    has. The assembler returns, for every text, when the name of the file
    without its extension holds no character that is special in a regular
    expression, and for every file name when the text holds a course
    code. (For other file names it can raise before any chunk is
    built.) *)
Theorem C5_identification_chunk_first_and_only :
  forall text filename,
    (forall metadata chunks,
       process_pdf_content text filename = Ok (metadata, chunks) ->
       exists ident,
         clean_chunk_text (firstn 500 text) (Some identificacao) = Ok ident /\
         nth_error chunks 0 = Some (Chunk ident (u "identificacao") metadata) /\
         forall i c, nth_error chunks i = Some c ->
                     chunk_tipo c = u "identificacao" -> i = 0) /\
    (plain (splitext_root filename) = true ->
     exists metadata chunks, process_pdf_content text filename = Ok (metadata, chunks)) /\
    (forall pre, occurs_at course_code text pre ->
     exists metadata chunks, process_pdf_content text filename = Ok (metadata, chunks)).
Proof.
  intros text filename. split; [|split; [apply process_pdf_content_returns|]].
  - intros metadata chunks H.
    destruct (process_pdf_content_chunks _ _ _ _ H) as (ident & rest & Hi & -> & Hf).
    exists ident. split; [exact Hi|]. split; [reflexivity|].
    intros [|i] c Hn Ht; [reflexivity|]. exfalso.
    cbn [nth_error] in Hn. apply nth_error_In in Hn.
    rewrite Forall_forall in Hf.
    exact (origin_not_identificacao text c (Hf c Hn) Ht).
  - intros pre Hocc. apply process_pdf_content_returns_plain_code.
    intros md0 E.
    destruct (header_codigo_present text pre md0 Hocc E) as (code & G & Hne & Hp).
    exists code. unfold with_codigo, dict_truthy. rewrite G.
    destruct code as [|c code]; [congruence|]. cbn [negb]. split; [exact G|exact Hp].
Qed.

(** C6: for the chunks of one document, the identifiers
    "{codigo}_{tipo}_{i}_{model}" of two different pairs (index, model
    name) are different, whatever [codigo] is. *)
Theorem C6_storage_identifiers_distinct :
  forall text filename metadata chunks codigo i j ci cj m n,
    process_pdf_content text filename = Ok (metadata, chunks) ->
    nth_error chunks i = Some ci -> nth_error chunks j = Some cj ->
    (i, m) <> (j, n) ->
    chunk_id codigo (chunk_tipo ci) i m <> chunk_id codigo (chunk_tipo cj) j n.
Proof.
  intros text filename metadata chunks codigo i j ci cj m n H Hi Hj Hne E.
  pose proof (process_pdf_content_tipos _ _ _ _ H) as Ht.
  rewrite Forall_forall in Ht.
  apply nth_error_In in Hi. apply nth_error_In in Hj.
  destruct (chunk_id_inj _ _ _ _ _ _ _ (Ht _ Hi) (Ht _ Hj) E) as (_ & -> & ->).
  apply Hne. reflexivity.
Qed.

(** C7, amended: when the markers hold no character that is special in
    a regular expression and the start marker does not occur in the text,
    [extract_section_from_pdf] returns the empty string. *)
Theorem C7_absent_start_marker : forall text section_start section_end,
  plain section_start = true ->
  match section_end with Some e => plain e = true | None => True end ->
  PyStr.contains section_start text = false ->
  extract_section_from_pdf text section_start section_end = Ok [].
Proof.
  intros text s e Hs He Habs. apply plain_Plain in Hs.
  unfold extract_section_from_pdf, search.
  destruct e as [[|c e]|].
  - fold fallback_tail. rewrite compile_fallback by assumption. cbn [bind].
    rewrite search_absent_prefix by assumption. reflexivity.
  - apply plain_Plain in He. rewrite compile_section by assumption. cbn [bind].
    rewrite search_absent_prefix by assumption. reflexivity.
  - fold fallback_tail. rewrite compile_fallback by assumption. cbn [bind].
    rewrite search_absent_prefix by assumption. reflexivity.
Qed.

(** C8, amended: when the text holds a course code, that is CC or PP
    followed by digits and one capital letter A-Z, the extractor returns a
    dictionary whose [codigo] is the leftmost such code of the text,
    unchanged, and whose [disciplina] is the text between the end of that
    code and the next line feed (or the end of the text), stripped. *)
Theorem C8_code_and_name_from_header : forall text pre0,
  occurs_at course_code text pre0 ->
  exists metadata pre code post,
    extract_metadata_from_header text = Ok metadata /\
    text = pre ++ code ++ post /\ course_code code /\
    length pre <= length pre0 /\
    (forall pre', length pre' < length pre -> ~ occurs_at course_code text pre') /\
    dict_get (u "codigo") metadata = Some code /\
    dict_get (u "disciplina") metadata
      = Some (PyStr.strip (hd [] (PyStr.split_on 10%N post))).
Proof.
  intros text pre0 (code0 & post0 & Htext & Hcode0).
  assert (Hat : forall pre' code' post', text = pre' ++ code' ++ post' -> course_code code' ->
            run header_code_regex (MState (0 + length pre') (skipn (length pre') text) []) <> []).
  { intros pre' code' post' -> (prefix & digits & c & -> & Hp & Hne & Hd & Hc).
    rewrite skipn_app, skipn_all, Nat.sub_diag. cbn [app skipn].
    rewrite <- !app_assoc. apply header_code_complete; assumption. }
  destruct (search_from header_code_regex text false 0 text) as [m|] eqn:Es.
  - pose proof (search_from_leftmost _ _ _ _ _ Es) as Hleft.
    pose proof Es as Es0.
    apply search_from_some in Es. destruct Es as [k [st' (Hk & Hin & ->)]].
    apply run_lang in Hin. destruct Hin as [w [[R1 R2] Hw]].
    cbn [rest pos] in R1, R2. apply header_code_lang in Hw.
    exists (dict_set (u "oferta")
              (if PyStr.contains (u "Semestral") text then u "Semestral" else u "Anual")
           (dict_set (u "modalidade")
              (if PyStr.contains (u "Presencial") text then u "Presencial"
               else u "Não Presencial")
           (dict_set (u "disciplina")
              (PyStr.strip (hd [] (PyStr.split_on 10%N (rest st'))))
           (dict_set (u "codigo") w [])))),
      (firstn k text), w, (rest st').
    assert (Hg0 : group0 (Match text (0 + k) (pos st') (caps st')) = w).
    { unfold group0, slice. cbn [m_text m_start m_end]. rewrite R2.
      replace (0 + k + length w - (0 + k)) with (length w + 0) by lia.
      change (0 + k) with k. rewrite R1, firstn_app_2. simpl. apply app_nil_r. }
    assert (Hend : skipn (pos st') text = rest st').
    { rewrite R2. change (0 + k) with k. rewrite Nat.add_comm, <- skipn_skipn, R1.
      rewrite skipn_app, skipn_all, Nat.sub_diag. reflexivity. }
    split; [|split; [|split; [|split; [|split; [|split]]]]].
    + unfold extract_metadata_from_header, search. rewrite compile_header_code.
      cbn [bind]. rewrite Es0. cbv zeta. rewrite Hg0. cbn [m_end]. rewrite Hend.
      reflexivity.
    + rewrite <- R1. symmetry. apply firstn_skipn.
    + exact Hw.
    + rewrite length_firstn.
      destruct (Nat.le_gt_cases k (length pre0)) as [Hle|Hgt]; [lia|].
      exfalso. apply (Hat pre0 code0 post0 Htext Hcode0).
      apply (Hleft (length pre0)). cbn [m_start]. lia.
    + intros pre' Hlen (code' & post' & Ht' & Hc').
      rewrite length_firstn in Hlen.
      apply (Hat pre' code' post' Ht' Hc').
      apply (Hleft (length pre')). cbn [m_start]. lia.
    + rewrite !dict_get_set_other by (vm_compute; reflexivity).
      apply dict_get_set_same.
    + rewrite !dict_get_set_other by (vm_compute; reflexivity).
      apply dict_get_set_same.
  - exfalso. apply (Hat pre0 code0 post0 Htext Hcode0).
    pose proof (proj1 (search_from_none header_code_regex text text 0) Es) as Hn.
    apply Hn. subst text. rewrite length_app. lia.
Qed.

(** C9: when the processing of one file of the directory raises, the
    driver goes on and returns normally. With [s] the state in which the
    loop reaches the file and [s1] the state the exception leaves, nothing
    stored or printed in [s] is lost in [s1] (the records inserted for the
    failing file stay in the store); one line is printed that names the
    file and the exception; the files after it are processed from that
    state, and the driver returns the dictionary and the world that loop
    ends with, in which again nothing is lost. *)
Theorem C9_failing_document_does_not_abort :
  forall (vec : Type) (fitz_text : str -> result str) (os_path_exists : str -> bool)
         (os_listdir : str -> result (list str))
         (add_error : list (record vec) -> record vec -> option exn)
         pdf_dir names models collections w before pdf_file after s e s1,
    os_path_exists pdf_dir = true ->
    os_listdir pdf_dir = Ok names ->
    pdf_files_in pdf_dir names = before ++ pdf_file :: after ->
    process_files fitz_text add_error before models collections
      (RunState (World (store w)
                   (console w ++ [PrintFound (length (before ++ pdf_file :: after)) pdf_dir]))
                [])
      = (Ok tt, s) ->
    process_one fitz_text add_error pdf_file models collections s = (Raise e, s1) ->
    exists s2,
      process_files fitz_text add_error after models collections (logged pdf_file e s1)
        = (Ok tt, s2) /\
      process_all_pdfs_in_directory fitz_text os_path_exists os_listdir add_error
        pdf_dir models collections w
        = (Ok (chunks_por_disciplina s2),
           World (store (rs_world s2)) (console (rs_world s2) ++ [PrintDone])) /\
      grows_rs s s1 /\
      grows_rs (logged pdf_file e s1) s2.
Proof.
  intros vec fitz_text os_path_exists os_listdir add_error pdf_dir names models collections
         w before pdf_file after s e s1 Hdir Hlist Hfiles Hbefore Hone.
  destruct (process_files_returns vec fitz_text add_error after models collections
              (logged pdf_file e s1)) as (s2 & Hs2).
  exists s2. split; [exact Hs2|]. split; [|split].
  - apply (process_all_pdfs_run vec fitz_text os_path_exists os_listdir add_error
             pdf_dir names models collections w s2 Hdir Hlist).
    + rewrite Hfiles. destruct before; discriminate.
    + rewrite Hfiles.
      rewrite (process_files_app vec fitz_text add_error before (pdf_file :: after)
                 models collections _ s Hbefore).
      rewrite process_files_cons, Hone. exact Hs2.
  - pose proof (stays_process_one vec fitz_text add_error pdf_file models collections s)
      as Hs.
    rewrite Hone in Hs. exact Hs.
  - pose proof (stays_process_files vec fitz_text add_error after models collections
                  (logged pdf_file e s1)) as Hg.
    rewrite Hs2 in Hg. exact Hg.
Qed.

(** The sample run as a whole: OP63P.pdf fails after its first record,
    PP10B.pdf is processed in full. *)
Lemma sample_run_stores :
  stored_ids (snd (process_all_pdfs_in_directory sample_fitz (fun _ => true)
                     sample_listdir accept_all (u "docs") failing_models [u "col"]
                     sample_world))
    = [ u "CC56E_identificacao_0_m"; u "PP10B_identificacao_0_m"; u "PP10B_objetivo_1_m" ].
Proof. vm_compute. reflexivity. Qed.

(** C10, amended: when the markers hold no character that is special in
    a regular expression and the end marker that is given does not occur
    after the first occurrence of the start marker,
    [extract_section_from_pdf] returns the empty string: the fallback
    terminators are not tried. *)
Theorem C10_absent_end_marker : forall text section_start section_end,
  plain section_start = true -> plain section_end = true ->
  (forall post, after_first section_start text = Some post ->
                PyStr.contains section_end post = false) ->
  extract_section_from_pdf text section_start (Some section_end) = Ok [].
Proof.
  intros text s e Hs He Hafter.
  apply plain_Plain in Hs. apply plain_Plain in He.
  unfold extract_section_from_pdf, search.
  destruct e as [|c e].
  { assert (Habs : PyStr.contains s text = false).
    { destruct (PyStr.contains s text) eqn:E; [|reflexivity]. exfalso.
      apply contains_after_first in E. destruct E as [post Hp].
      specialize (Hafter _ Hp). destruct post; simpl in Hafter; discriminate. }
    fold fallback_tail. rewrite compile_fallback by assumption. cbn [bind].
    rewrite search_absent_prefix by assumption. reflexivity. }
  rewrite compile_section by assumption. cbn [bind].
  replace (search_from _ text false 0 text) with (@None match_obj); [reflexivity|].
  symmetry. apply search_from_none. intros k _.
  rewrite run_lits. cbn [rest pos caps].
  destruct (PyStr.startswith s (skipn k text)) eqn:E; [|reflexivity].
  apply startswith_spec in E. destruct E as [tl E].
  destruct (after_first_suffix _ _ _ _ E) as [post [pre [Hp ->]]].
  specialize (Hafter _ Hp).
  rewrite E, skipn_app, skipn_all, Nat.sub_diag. cbn [skipn app run].
  apply flat_map_nil. intros mid Hmid.
  assert (Hc : consumes (fun _ => True) (MState (0 + k + length s) tl []) mid).
  { eapply run_consumes; [|exact Hmid]. apply atoms_sat_True. }
  destruct Hc as [w (Hw & _ & _)]. cbn [rest] in Hw.
  rewrite run_lits.
  destruct (PyStr.startswith (c :: e) (rest mid)) eqn:E2; [|reflexivity].
  exfalso. apply startswith_spec in E2. destruct E2 as [tl2 E2].
  assert (PyStr.contains (c :: e) (pre ++ tl) = true).
  { apply contains_app_r. apply contains_spec. exists w, tl2. rewrite Hw, E2. reflexivity. }
  congruence.
Qed.

(** ** Further properties of the code *)

(** X1: when the two markers hold no character that is special in a
    regular expression, the end marker is not empty, the start marker
    occurs in the text and the end marker occurs after its first
    occurrence, [extract_section_from_pdf] returns the text between the
    first start marker and the first end marker after it, stripped. *)
Theorem X1_section_between_markers : forall text section_start section_end rest0 body,
  plain section_start = true -> plain section_end = true -> section_end <> [] ->
  after_first section_start text = Some rest0 ->
  before_first section_end rest0 = Some body ->
  extract_section_from_pdf text section_start (Some section_end) = Ok (PyStr.strip body).
Proof.
  intros text s e rest0 body Hs He Hne Ha Hb.
  apply plain_Plain in Hs. apply plain_Plain in He.
  destruct (after_first_spec _ _ _ Ha) as [pre [Htext Hk]].
  destruct (before_first_spec _ _ _ Hb) as [[post Hrest] _].
  unfold extract_section_from_pdf, search.
  destruct e as [|c e]; [congruence|].
  rewrite compile_section by assumption. cbn [bind].
  assert (Hskip : skipn (length pre) text = s ++ rest0).
  { rewrite Htext, skipn_app, skipn_all, Nat.sub_diag. reflexivity. }
  destruct (run_section_found (c :: e) (0 + length pre + length s) rest0 body []
              Hne Hb) as [others Ho].
  match type of Ho with
  | _ = ?x :: _ => rewrite (search_from_hit _ text text 0 (length pre) x others)
  end.
  - unfold group1, group. cbn [m_caps Re.caps lookup_cap Nat.eqb m_text bind].
    unfold slice.
    replace (0 + length pre + length s + length body - (0 + length pre + length s))
      with (length body) by lia.
    replace (0 + length pre + length s) with (length s + length pre) by lia.
    rewrite <- skipn_skipn, Hskip, skipn_app, skipn_all, Nat.sub_diag. cbn [skipn app].
    rewrite Hrest, firstn_app, firstn_all, Nat.sub_diag. cbn [firstn].
    rewrite app_nil_r. reflexivity.
  - rewrite Htext, length_app. lia.
  - intros j Hj. rewrite run_lits. cbn [rest]. rewrite Hk by exact Hj. reflexivity.
  - rewrite run_lits. cbn [rest pos Re.caps]. rewrite Hskip.
    assert (Hst : PyStr.startswith s (s ++ rest0) = true)
      by (apply startswith_spec; eauto).
    rewrite Hst, skipn_app, skipn_all, Nat.sub_diag. cbn [skipn app]. exact Ho.
Qed.

(** X2: the chunks [process_pdf_content] returns come in a fixed order of
    tipos: identificacao, then objetivo, ementa, the topics of the
    programme (conteudo_programatico, one chunk for each topic),
    bibliografia_basica and bibliografia_complementar. Each of the four
    sections gives one chunk when the text the splitter returns for it is
    not empty and none otherwise, so no such tipo occurs twice. *)
Theorem X2_chunk_order : forall text filename metadata chunks,
  process_pdf_content text filename = Ok (metadata, chunks) ->
  map chunk_tipo chunks
    = u "identificacao"
      :: section_tipo (section_of text (u "Objetivo") (u "Ementa")) (u "objetivo")
      ++ section_tipo (section_of text (u "Ementa") (u "Conteúdo Programático")) (u "ementa")
      ++ repeat (u "conteudo_programatico")
           (length (topics_of
                      (section_of text (u "Conteúdo Programático") (u "Bibliografia"))))
      ++ section_tipo (section_of text (u "Bibliografia Básica")
                         (u "Bibliografia Complementar")) (u "bibliografia_basica")
      ++ section_tipo (section_of text (u "Bibliografia Complementar") (u "Resumo"))
           (u "bibliografia_complementar").
Proof.
  intros text filename metadata chunks H.
  destruct (process_pdf_content_eq _ _ _ _ H) as [ident [_ ->]].
  unfold chunks_of. cbn [map chunk_tipo].
  rewrite !map_app, !map_tipo_section_chunk, map_tipo_topics. reflexivity.
Qed.

(** X3: every chunk [process_pdf_content] returns carries the metadata of
    the document. A chunk of a tipo other than conteudo_programatico
    carries exactly the dictionary returned as the document metadata,
    which has no key [secao]. A topic chunk is the cleaning of a topic of
    the programme, and it carries that dictionary with the one key [secao]
    added, whose value is "Tópico " followed by the first word of that
    topic, a word that starts with a digit. *)
Theorem X3_chunk_metadata : forall text filename metadata chunks,
  process_pdf_content text filename = Ok (metadata, chunks) ->
  dict_get (u "secao") metadata = None /\
  forall c, List.In c chunks ->
    if PyStr.eqb (chunk_tipo c) (u "conteudo_programatico")
    then exists topico d w,
           List.In topico
             (topics_of (section_of text (u "Conteúdo Programático") (u "Bibliografia"))) /\
           chunk_text c = cleaned (PyStr.strip topico) /\
           hd [] (PyStr.split_ws topico) = d :: w /\
           PyStr.isdigit d = true /\
           chunk_metadata c = dict_set (u "secao") (u "Tópico " ++ d :: w) metadata
    else chunk_metadata c = metadata.
Proof.
  intros text filename metadata chunks H. split.
  - exact (metadata_no_secao text filename metadata chunks H).
  - intros c Hc.
    pose proof (process_pdf_content_chunk_metadata_from text filename metadata chunks H)
      as F.
    rewrite Forall_forall in F. exact (F c Hc).
Qed.

(** X4: the document metadata [process_pdf_content] returns always has a
    [codigo], a [disciplina], a [modalidade] and an [oferta], and no
    other key. The [codigo] is the course code the metadata extractor
    found in the text and, when it found none, the name of the file
    without its extension; [modalidade] is "Presencial" when that word
    occurs in the text and "Não Presencial" otherwise; [oferta] is
    "Semestral" when that word occurs in the text and "Anual"
    otherwise. *)
Theorem X4_document_metadata : forall text filename metadata chunks,
  process_pdf_content text filename = Ok (metadata, chunks) ->
  exists md0,
    extract_metadata_from_header text = Ok md0 /\
    dict_get (u "codigo") metadata
      = Some match dict_get (u "codigo") md0 with
             | Some code => code
             | None => splitext_root filename
             end /\
    (exists d, dict_get (u "disciplina") metadata = Some d) /\
    dict_get (u "modalidade") metadata
      = Some (if PyStr.contains (u "Presencial") text then u "Presencial"
              else u "Não Presencial") /\
    dict_get (u "oferta") metadata
      = Some (if PyStr.contains (u "Semestral") text then u "Semestral" else u "Anual") /\
    (forall k, dict_get k metadata <> None -> List.In k metadata_keys).
Proof.
  intros text filename metadata chunks H.
  exact (process_pdf_content_keys text filename metadata chunks H).
Qed.

(** X5: when the name of the file without its extension holds no
    character that is special in a regular expression and none of the
    five section headings occurs in the text, [process_pdf_content]
    returns the identification chunk and nothing else. *)
Theorem X5_no_heading_one_chunk : forall text filename,
  plain (splitext_root filename) = true ->
  (forall s, List.In s section_starts -> PyStr.contains s text = false) ->
  exists metadata ident,
    clean_chunk_text (firstn 500 text) (Some identificacao) = Ok ident /\
    process_pdf_content text filename
      = Ok (metadata, [Chunk ident (u "identificacao") metadata]).
Proof.
  intros text filename Hstem Habs.
  destruct (process_pdf_content_returns text filename Hstem) as (metadata & chunks & H).
  destruct (process_pdf_content_eq _ _ _ _ H) as (ident & Hi & Hc).
  exists metadata, ident. split; [exact Hi|].
  rewrite H, Hc, (chunks_of_no_sections text ident metadata Habs). reflexivity.
Qed.

(** X6: when the text holds no course code, the name of the file without
    its extension holds no character that is special in a regular
    expression and does not occur in the text, and the text holds neither
    "Disciplina" nor "Unidade Curricular", [process_pdf_content] returns
    metadata whose [codigo] is that name and whose [disciplina] is the
    placeholder "Disciplina " followed by it. *)
Theorem X6_placeholder_name : forall text filename,
  plain (splitext_root filename) = true ->
  (forall pre, ~ occurs_at course_code text pre) ->
  PyStr.contains (splitext_root filename) text = false ->
  PyStr.contains (u "Disciplina") text = false ->
  PyStr.contains (u "Unidade Curricular") text = false ->
  exists metadata chunks,
    process_pdf_content text filename = Ok (metadata, chunks) /\
    dict_get (u "codigo") metadata = Some (splitext_root filename) /\
    dict_get (u "disciplina") metadata
      = Some (u "Disciplina " ++ splitext_root filename).
Proof.
  intros text filename Hstem Hno Hc H1 H2.
  destruct (process_pdf_content_returns text filename Hstem) as [metadata [chunks H]].
  exists metadata, chunks. split; [exact H|].
  destruct (process_pdf_content_metadata _ _ _ _ H) as [md0 [E0 E1]].
  destruct (header_metadata_spec _ _ E0) as (Hcode & Hdisc & _).
  assert (G : dict_get (u "codigo") md0 = None).
  { destruct (dict_get (u "codigo") md0) as [code|] eqn:G; [|reflexivity].
    destruct (Hcode code eq_refl) as [_ [pre Hocc]]. destruct (Hno pre Hocc). }
  assert (Hw : with_codigo filename md0
               = dict_set (u "codigo") (splitext_root filename) md0).
  { unfold with_codigo, dict_truthy. rewrite G. reflexivity. }
  rewrite Hw in E1.
  assert (Hp : derive_disciplina text
                 (dict_set (u "codigo") (splitext_root filename) md0)
               = Ok (dict_set (u "disciplina") (u "Disciplina " ++ splitext_root filename)
                       (dict_set (u "codigo") (splitext_root filename) md0))).
  { apply derive_disciplina_placeholder; try assumption.
    - unfold dict_truthy. rewrite dict_get_set_other by (vm_compute; reflexivity).
      rewrite (Hdisc G). reflexivity.
    - apply dict_get_set_same.
    - apply plain_Plain. exact Hstem. }
  assert (Hm : metadata
               = dict_set (u "disciplina") (u "Disciplina " ++ splitext_root filename)
                   (dict_set (u "codigo") (splitext_root filename) md0))
    by congruence.
  rewrite Hm. split.
  - rewrite dict_get_set_other by (vm_compute; reflexivity). apply dict_get_set_same.
  - apply dict_get_set_same.
Qed.

(** X7: [extract_metadata_from_header] returns for every text, and it
    decides [modalidade] and [oferta] by the presence of one word. The
    [modalidade] is "Não Presencial" exactly when "Presencial" occurs
    nowhere in the text, so a text that says "Não Presencial" is given
    "Presencial"; the [oferta] is "Anual" exactly when "Semestral" occurs
    nowhere in the text. *)
Theorem X7_modalidade_by_one_word : forall text,
  exists metadata,
    extract_metadata_from_header text = Ok metadata /\
    (dict_get (u "modalidade") metadata = Some (u "Não Presencial")
     <-> PyStr.contains (u "Presencial") text = false) /\
    (PyStr.contains (u "Não Presencial") text = true ->
     dict_get (u "modalidade") metadata = Some (u "Presencial")) /\
    (dict_get (u "oferta") metadata = Some (u "Anual")
     <-> PyStr.contains (u "Semestral") text = false).
Proof.
  intros text. destruct (extract_metadata_returns text) as [metadata [E _]].
  exists metadata. split; [exact E|].
  destruct (header_metadata_spec text metadata E) as (_ & _ & Hm & Ho & _).
  rewrite Hm, Ho. split; [|split].
  - destruct (PyStr.contains (u "Presencial") text); split; intros H;
      try reflexivity; try discriminate H;
      try (exfalso; vm_compute in H; discriminate H).
  - intros H. apply contains_spec in H. destruct H as (pre & post & ->).
    assert (Hc : PyStr.contains (u "Presencial") (pre ++ u "Não Presencial" ++ post) = true).
    { apply contains_spec. exists (pre ++ u "Não "), post.
      rewrite <- !app_assoc. f_equal. }
    rewrite Hc. reflexivity.
  - destruct (PyStr.contains (u "Semestral") text); split; intros H;
      try reflexivity; try discriminate H;
      try (exfalso; vm_compute in H; discriminate H).
Qed.

(** X8: for a text that holds no course code (CC or PP, digits, one
    capital letter), [extract_metadata_from_header] returns a dictionary
    with the keys [modalidade] and [oferta] and no other: neither
    [codigo] nor [disciplina] is set. *)
Theorem X8_no_code_two_keys : forall text,
  (forall pre, ~ occurs_at course_code text pre) ->
  extract_metadata_from_header text
    = Ok [ (u "modalidade",
            if PyStr.contains (u "Presencial") text then u "Presencial"
            else u "Não Presencial");
           (u "oferta",
            if PyStr.contains (u "Semestral") text then u "Semestral" else u "Anual") ].
Proof.
  intros text Hno. unfold extract_metadata_from_header, search.
  rewrite compile_header_code. cbn [bind]. cbv zeta.
  destruct (search_from header_code_regex text false 0 text) as [m|] eqn:E.
  - destruct (header_search_occurs _ _ E) as [_ [pre Hocc]]. destruct (Hno pre Hocc).
  - cbn [dict_set].
    replace (PyStr.eqb (u "modalidade") (u "oferta")) with false
      by (vm_compute; reflexivity).
    reflexivity.
Qed.

(** X9: the default branch of [clean_chunk_text] returns the empty string
    for a fragment all of whose lines are blank or boilerplate phrases
    (whatever their case and the whitespace around them). *)
Theorem X9_boilerplate_cleans_to_empty : forall text chunk_type,
  chunk_type <> Some identificacao ->
  (forall line, List.In line (PyStr.split_on 10%N text) -> keep_line line = false) ->
  clean_chunk_text text chunk_type = Ok [].
Proof.
  intros text chunk_type Hty Hlines.
  rewrite (clean_default_tag text chunk_type Hty).
  unfold clean_chunk_text. cbv zeta.
  assert (Hf : filter keep_line (PyStr.split_on 10%N text) = []).
  { induction (PyStr.split_on 10%N text) as [|l ls IH]; [reflexivity|].
    cbn [filter]. rewrite (Hlines l (or_introl eq_refl)).
    apply IH. intros x Hx. apply Hlines. right. exact Hx. }
  rewrite Hf. vm_compute. reflexivity.
Qed.

(** X10: [process_pdf_and_add_to_collections] never raises, whatever the
    reader, the models and the store do. Every record it adds to a
    collection is a chunk of its file, embedded by the model paired with
    that collection: the identifier is built from the name of the file
    without its extension, the tipo and the position of the chunk and the
    name of the model; the document is the text of the chunk and the
    embedding is what the model returns for it; the metadata gives that
    same code as [codigo], the tipo and the name of the file as
    [source]. *)
Theorem X10_single_file_driver :
  forall (vec : Type) (fitz_text : str -> result str)
         (add_error : list (record vec) -> record vec -> option exn)
         pdf_path (models : list (model vec)) collections w,
    fst (process_pdf_and_add_to_collections fitz_text add_error pdf_path models
           collections w) = Ok tt /\
    adds (stored_by models collections (from_file fitz_text pdf_path))
         (store w)
         (store (snd (process_pdf_and_add_to_collections fitz_text add_error pdf_path
                        models collections w))).
Proof.
  intros vec fitz_text add_error pdf_path models collections w. split.
  - apply process_pdf_and_add_returns.
  - apply process_pdf_and_add_adds.
Qed.

(** X11: when the reader raises on the file or returns an empty text,
    [process_pdf_and_add_to_collections] returns normally, leaves the
    store as it was and prints the line that the file is skipped, after
    the line of the reader's error if there was one. *)
Theorem X11_unreadable_file_skipped :
  forall (vec : Type) (fitz_text : str -> result str)
         (add_error : list (record vec) -> record vec -> option exn)
         pdf_path (models : list (model vec)) collections w,
    (forall c text, fitz_text pdf_path <> Ok (c :: text)) ->
    process_pdf_and_add_to_collections fitz_text add_error pdf_path models collections w
      = (Ok tt,
         World (store w)
           (console w
              ++ match fitz_text pdf_path with
                 | Raise e => [PrintExtractError e; PrintSkipped pdf_path]
                 | Ok _ => [PrintSkipped pdf_path]
                 end)).
Proof.
  intros vec fitz_text add_error pdf_path models collections w Hno.
  rewrite process_pdf_and_add_eq.
  destruct (fitz_text pdf_path) as [[|c text]|e].
  - reflexivity.
  - destruct (Hno c text eq_refl).
  - rewrite <- app_assoc. reflexivity.
Qed.

(** X12: the dictionary [process_all_pdfs_in_directory] returns depends
    on the files alone, not on the models, the collections or the store.
    When the directory does not exist, or exists and can be listed, the
    driver returns: the empty dictionary in the first case, and in the
    second the dictionary that maps the code of every file that can be
    read and assembled to the chunks of that file, a later file replacing
    an earlier one of the same code; a file is entered even when its
    insertion fails. When the directory exists and cannot be listed (it
    is no directory, or may not be read), the exception of the listing
    leaves the driver, and nothing has been stored or printed. *)
Theorem X12_dictionary_from_files_alone :
  forall (vec : Type) (fitz_text : str -> result str) (os_path_exists : str -> bool)
         (os_listdir : str -> result (list str))
         (add_error : list (record vec) -> record vec -> option exn)
         pdf_dir (models : list (model vec)) collections w,
    (forall names,
       (os_path_exists pdf_dir = true -> os_listdir pdf_dir = Ok names) ->
       fst (process_all_pdfs_in_directory fitz_text os_path_exists os_listdir add_error
              pdf_dir models collections w)
         = Ok (if os_path_exists pdf_dir
               then dictionary_of fitz_text (pdf_files_in pdf_dir names)
               else [])) /\
    (forall e,
       os_path_exists pdf_dir = true -> os_listdir pdf_dir = Raise e ->
       process_all_pdfs_in_directory fitz_text os_path_exists os_listdir add_error
         pdf_dir models collections w = (Raise e, w)).
Proof.
  intros vec fitz_text os_path_exists os_listdir add_error pdf_dir models collections w.
  split.
  - intros names Hl. apply process_all_pdfs_dictionary. exact Hl.
  - intros e He Hl. apply process_all_pdfs_listing_raises; assumption.
Qed.

(** X13: when the directory is missing or can be listed,
    [process_all_pdfs_in_directory] returns and loses nothing that was
    stored or printed. Every record it adds to a collection is a chunk of
    a file of the directory that could be read and assembled, embedded by
    the model paired with that collection: the identifier is built from
    the code of the file, the tipo and the position of the chunk and the
    name of the model, the metadata gives that same code and tipo and the
    name of the file as [source]. *)
Theorem X13_directory_driver_provenance :
  forall (vec : Type) (fitz_text : str -> result str) (os_path_exists : str -> bool)
         (os_listdir : str -> result (list str))
         (add_error : list (record vec) -> record vec -> option exn)
         pdf_dir names (models : list (model vec)) collections w,
  (os_path_exists pdf_dir = true -> os_listdir pdf_dir = Ok names) ->
  exists d w',
    process_all_pdfs_in_directory fitz_text os_path_exists os_listdir add_error
      pdf_dir models collections w = (Ok d, w') /\
    grows w w' /\
    adds (stored_by models collections
            (from_directory fitz_text (pdf_files_in pdf_dir names)))
         (store w) (store w').
Proof.
  intros vec fitz_text os_path_exists os_listdir add_error pdf_dir names models
         collections w Hl.
  destruct (process_all_pdfs_returns vec fitz_text os_path_exists os_listdir add_error
              pdf_dir models collections w) as (d & w' & E & Hg).
  { intros He. exists names. exact (Hl He). }
  exists d, w'. split; [exact E|]. split; [exact Hg|].
  destruct (os_path_exists pdf_dir) eqn:He.
  - pose proof (process_all_pdfs_adds vec fitz_text os_path_exists os_listdir add_error
                  pdf_dir models collections w) as Ha.
    rewrite E in Ha. unfold listed_pdfs in Ha. rewrite (Hl eq_refl) in Ha. exact Ha.
  - unfold process_all_pdfs_in_directory in E. rewrite He in E. cbn [negb] in E.
    apply (f_equal (fun r => store (snd r))) in E. cbn in E. rewrite <- E.
    apply adds_refl.
Qed.


(** X15: when the directory is missing, or can be listed and none of its
    files can be read and assembled (the reader raises, the text is empty
    or the assembler raises), [process_all_pdfs_in_directory] returns the
    empty dictionary and leaves the store as it was. *)
Theorem X15_nothing_assembled_nothing_stored :
  forall (vec : Type) (fitz_text : str -> result str) (os_path_exists : str -> bool)
         (os_listdir : str -> result (list str))
         (add_error : list (record vec) -> record vec -> option exn)
         pdf_dir names (models : list (model vec)) collections w,
    (os_path_exists pdf_dir = true -> os_listdir pdf_dir = Ok names) ->
    (forall f, List.In f (pdf_files_in pdf_dir names) ->
               assembled fitz_text f = None) ->
    exists w',
      process_all_pdfs_in_directory fitz_text os_path_exists os_listdir add_error
        pdf_dir models collections w = (Ok [], w') /\
      store w' = store w.
Proof.
  intros vec fitz_text os_path_exists os_listdir add_error pdf_dir names models
         collections w Hl Hnone.
  destruct (os_path_exists pdf_dir) eqn:He.
  - specialize (Hl eq_refl).
    destruct (pdf_files_in pdf_dir names) as [|f fs] eqn:E.
    + unfold process_all_pdfs_in_directory. rewrite He, Hl. cbv zeta. rewrite E. eexists.
      split; reflexivity.
    + rewrite <- E in Hnone.
      destruct (process_files_returns vec fitz_text add_error
                  (pdf_files_in pdf_dir names) models collections
                  (RunState (World (store w)
                     (console w ++ [PrintFound (length (pdf_files_in pdf_dir names))
                                      pdf_dir])) [])) as [s Hs].
      rewrite (process_all_pdfs_run vec fitz_text os_path_exists os_listdir add_error
                 pdf_dir names models collections w s He Hl) by congruence.
      pose proof (process_files_dict vec fitz_text add_error _ _ _ _ _ Hs) as Hd.
      pose proof (process_files_unassembled vec fitz_text add_error _ _ _ _ _ Hnone Hs)
        as Hst.
      cbn [chunks_por_disciplina rs_world store] in Hd, Hst.
      assert (Hfold : forall fs0 (d : pdict (list chunk)),
                (forall f0, List.In f0 fs0 -> assembled fitz_text f0 = None) ->
                fold_left (fun d0 f0 => match assembled fitz_text f0 with
                                        | Some (codigo, chunks) => dict_set codigo chunks d0
                                        | None => d0
                                        end) fs0 d = d).
      { induction fs0 as [|g gs IH]; intros d0 Hg; [reflexivity|].
        cbn [fold_left]. rewrite (Hg g (or_introl eq_refl)).
        apply IH. intros f0 Hf0. apply Hg. right. exact Hf0. }
      rewrite (Hfold _ _ Hnone) in Hd. rewrite Hd.
      eexists. split; [reflexivity|]. cbn [store]. exact Hst.
  - unfold process_all_pdfs_in_directory. rewrite He. eexists. split; reflexivity.
Qed.

(** X16: when [setup_chromadb] returns, it returns one collection for
    every model, in the order of the models, named "ementas-disciplinas_"
    followed by the name of the model. The client holds each of them, and
    every collection of such a name that it holds is empty: what an
    earlier run stored under these names is gone. The collections of
    other names are the ones the client held before, unchanged. *)
Theorem X16_setup_collections :
  forall (vec : Type) (create_error : list (collection vec) -> str -> option exn)
         base_dir (models : list (model vec)) s collections s',
    setup_chromadb create_error base_dir models s = (Ok collections, s') ->
    collections = collection_names models /\
    (forall name, List.In name collections -> holds name (cl_collections s') = true) /\
    (forall c, List.In c (cl_collections s') -> List.In (coll_name c) collections ->
               coll_records c = []) /\
    filter (fun c => negb (named_in collections c)) (cl_collections s')
      = filter (fun c => negb (named_in collections c)) (cl_collections s).
Proof.
  intros vec create_error base_dir models s collections s' H.
  exact (setup_chromadb_spec vec create_error base_dir models s collections s' H).
Qed.

(** X17: [setup_chromadb] returns, whatever collections the client holds
    when it starts, provided the names of the models are pairwise
    distinct and the client creates every collection whose name it does
    not hold: a second run on the same database does not fail on the
    collections of the first. *)
Theorem X17_setup_returns :
  forall (vec : Type) (create_error : list (collection vec) -> str -> option exn)
         base_dir (models : list (model vec)) s,
    (forall cs name, holds name cs = false -> create_error cs name = None) ->
    NoDup (map fst models) ->
    exists collections s',
      setup_chromadb create_error base_dir models s = (Ok collections, s').
Proof.
  intros vec create_error base_dir models s Hclient Hnd.
  exact (setup_chromadb_returns vec create_error base_dir models s Hclient Hnd).
Qed.

(** X18: after [setup_chromadb] and an ingestion of a directory by
    [process_all_pdfs_in_directory] with the same models and the
    collections of the set-up, every record of such a collection was
    embedded by the model the collection is named after: the collection
    is called "ementas-disciplinas_" followed by the name of a model of
    the list, the identifier of the record ends with that name, and the
    embedding is what that model returns for the document of the record,
    which is a chunk of a file of the directory. *)
Theorem X18_collections_hold_their_model :
  forall (vec : Type) (create_error : list (collection vec) -> str -> option exn)
         (fitz_text : str -> result str) (os_path_exists : str -> bool)
         (os_listdir : str -> result (list str))
         (add_error : list (record vec) -> record vec -> option exn)
         base_dir pdf_dir (models : list (model vec)) s collections s' printed c r,
    setup_chromadb create_error base_dir models s = (Ok collections, s') ->
    List.In c (store (snd (process_all_pdfs_in_directory fitz_text os_path_exists
                             os_listdir add_error pdf_dir models collections
                             (World (cl_collections s') printed)))) ->
    List.In (coll_name c) collections ->
    List.In r (coll_records c) ->
    exists model_name encode,
      coll_name c = collection_name_of model_name /\
      List.In (model_name, encode) models /\
      stored_by models collections
        (from_directory fitz_text (listed_pdfs os_listdir pdf_dir)) (coll_name c) r /\
      exists codigo tipo i,
        r_id r = chunk_id codigo tipo i model_name /\
        encode (r_document r) = Ok (r_embedding r).
Proof.
  intros vec create_error fitz_text os_path_exists os_listdir add_error base_dir pdf_dir
         models s collections s' printed c r Hsetup Hc Hname Hr.
  destruct (setup_chromadb_spec vec create_error _ _ _ _ _ Hsetup)
    as (Hcols & _ & Hfresh & _).
  pose proof (process_all_pdfs_adds vec fitz_text os_path_exists os_listdir add_error
                pdf_dir models collections (World (cl_collections s') printed)) as Ha.
  cbn [store] in Ha.
  destruct (adds_In _ _ _ _ _ Ha Hc) as (c0 & added & Hc0 & Hn & Hrec & Hp).
  rewrite (Hfresh c0 Hc0) in Hrec by (rewrite Hn; exact Hname).
  cbn [app] in Hrec. rewrite Hrec in Hr. rewrite Forall_forall in Hp.
  pose proof (Hp r Hr) as Hs.
  destruct Hs as (model_name & encode & codigo & source & chunks & i & chunk
                  & Hin & Ho & Hnth & Hid & Hdoc & Henc & Hrest).
  rewrite Hcols in Hin. apply in_combine_map in Hin. destruct Hin as [Hcn Hm].
  exists model_name, encode. split; [exact Hcn|]. split; [exact Hm|].
  split; [exact (Hp r Hr)|].
  exists codigo, (chunk_tipo chunk), i. split; [exact Hid|exact Henc].
Qed.

(** X19: the models [setup_embedding_models] returns, when their loading
    succeeds, are the six models of its list in that order, and
    [setup_chromadb] returns on them whatever collections the client
    holds, provided the client creates every collection whose name it
    does not hold: the names of the six models are pairwise distinct. *)
Theorem X19_six_models_set_up :
  forall (vec : Type) (SentenceTransformer : str -> result (str -> result vec))
         (create_error : list (collection vec) -> str -> option exn)
         base_dir models s,
    setup_embedding_models SentenceTransformer = Ok models ->
    (forall cs name, holds name cs = false -> create_error cs name = None) ->
    map fst models
      = [ u "all-MiniLM-L6-v2"; u "all-mpnet-base-v2";
          u "paraphrase-multilingual-MiniLM-L12-v2";
          u "distiluse-base-multilingual-cased-v2"; u "stsb-xlm-r-multilingual";
          u "neuralmind-bert-base-portuguese-cased" ] /\
    exists collections s',
      setup_chromadb create_error base_dir models s = (Ok collections, s') /\
      collections = map collection_name_of (map fst models).
Proof.
  intros vec SentenceTransformer create_error base_dir models s Hm Hclient.
  unfold setup_embedding_models in Hm.
  apply bind_inv in Hm. destruct Hm as [m1 [_ Hm]].
  apply bind_inv in Hm. destruct Hm as [m2 [_ Hm]].
  apply bind_inv in Hm. destruct Hm as [m3 [_ Hm]].
  apply bind_inv in Hm. destruct Hm as [m4 [_ Hm]].
  apply bind_inv in Hm. destruct Hm as [m5 [_ Hm]].
  apply bind_inv in Hm. destruct Hm as [m6 [_ Hm]].
  assert (Hnames : map fst models
            = [ u "all-MiniLM-L6-v2"; u "all-mpnet-base-v2";
                u "paraphrase-multilingual-MiniLM-L12-v2";
                u "distiluse-base-multilingual-cased-v2"; u "stsb-xlm-r-multilingual";
                u "neuralmind-bert-base-portuguese-cased" ]).
  { apply (f_equal (fun r => match r with Ok l => map fst l | Raise _ => [] end)) in Hm.
    cbn [map fst] in Hm. symmetry. exact Hm. }
  split; [exact Hnames|].
  assert (Hnd : NoDup (map fst models)).
  { rewrite Hnames.
    repeat (constructor;
            [intros Hin; vm_compute in Hin;
             repeat (destruct Hin as [Hin|Hin]; [discriminate Hin|]); exact Hin|]).
    constructor. }
  destruct (setup_chromadb_returns vec create_error base_dir models s Hclient Hnd)
    as (collections & s' & E).
  exists collections, s'. split; [exact E|].
  destruct (setup_chromadb_spec vec create_error _ _ _ _ _ E) as (Hc & _).
  rewrite Hc. unfold collection_names. rewrite map_map. reflexivity.
Qed.

(** X20: the default branch of [clean_chunk_text] invents nothing. For
    every fragment and every tag other than identificacao it returns a
    text whose code points other than whitespace are code points of the
    fragment, in the order they have there: cleaning only deletes and
    changes whitespace. *)
Theorem X20_cleaner_invents_nothing : forall text chunk_type,
  chunk_type <> Some identificacao ->
  exists c,
    clean_chunk_text text chunk_type = Ok c /\
    subseq (filter nonspace c) (filter nonspace text).
Proof.
  intros text chunk_type Hty. rewrite (clean_default_tag text chunk_type Hty).
  destruct (clean_default_returns text) as [c Hc].
  exists c. split; [exact Hc|]. exact (clean_default_subseq text c Hc).
Qed.

(** X21: for a fragment that holds none of the prefixes CC, PP, CH, OP
    and MEIU, neither "Total" nor "Disciplina:", the identification
    branch of [clean_chunk_text] returns the template with the sentinel
    in each of its three fields: "Informações da disciplina N/A N/A.
    Carga Horária N/A". *)
Theorem X21_identification_sentinels : forall text,
  (forall p, List.In p ident_prefixes -> PyStr.contains p text = false) ->
  PyStr.contains (u "Total") text = false ->
  PyStr.contains (u "Disciplina:") text = false ->
  clean_chunk_text text (Some identificacao) = Ok (identification_text NA NA NA).
Proof.
  intros text Hp Ht Hd.
  destruct (clean_identificacao_shape text)
    as (codigo & disciplina & carga & E & (mo & Hs & Hc) & (mo_h & Hh & Hcarga) & Hdisc).
  pose proof (search_code_absent text Hp) as Hcode.
  assert (Hlabel : search DOTALL (u "Disciplina:\s*([^>]*?)(?=\.|$)") text = Ok None).
  { apply (search_literal_pattern DOTALL (u "Disciplina:")); [vm_compute; reflexivity|].
    exact Hd. }
  assert (Hhours : first_match NOFLAGS carga_patterns text = Ok None).
  { assert (Hall : forallb (literal_pattern NOFLAGS (u "Total")) carga_patterns = true)
      by (vm_compute; reflexivity).
    revert Hall. generalize carga_patterns. intros pats.
    induction pats as [|pat pats IH]; intros Hall; [reflexivity|].
    cbn [forallb] in Hall. apply andb_true_iff in Hall. destruct Hall as [H1 H2].
    cbn [first_match].
    rewrite (search_literal_pattern NOFLAGS (u "Total") pat text H1 Ht). cbn [bind].
    apply IH. exact H2. }
  rewrite Hcode in Hs. injection Hs as <-.
  rewrite Hhours in Hh. injection Hh as <-.
  rewrite E, Hc, Hcarga, (Hdisc Hcode Hlabel). reflexivity.
Qed.

(** X22: [display_chunks_overview] never changes the store. It returns
    normally whenever the directory can be listed, whatever happens with
    the files (an exception in one file is printed and the loop goes on),
    and it raises the exception of the listing when the directory cannot
    be listed, a missing directory included: unlike
    [process_all_pdfs_in_directory] it lists the directory without a
    check. *)
Theorem X22_overview_reads_only :
  forall (vec : Type) (fitz_text : str -> result str)
         (os_listdir : str -> result (list str)) pdf_dir (s : display_state vec),
    store (ds_world (snd (display_chunks_overview fitz_text os_listdir pdf_dir s)))
      = store (ds_world s) /\
    (forall names, os_listdir pdf_dir = Ok names ->
     fst (display_chunks_overview fitz_text os_listdir pdf_dir s) = Ok tt) /\
    (forall e, os_listdir pdf_dir = Raise e ->
     display_chunks_overview fitz_text os_listdir pdf_dir s = (Raise e, s)).
Proof.
  intros vec fitz_text os_listdir pdf_dir s.
  exact (display_chunks_overview_spec vec fitz_text os_listdir pdf_dir s).
Qed.

(** X23: for a file whose text is read and assembled, the overview
    prints the name of the file, the [disciplina] and the [codigo] of its
    metadata (both are always there) and a rule, and then the chunks it
    shows, three lines each: the identification chunk first, then the
    objetivo chunk and the ementa chunk when the document has them. The
    topics and the bibliographies are not shown. *)
Theorem X23_overview_of_a_file :
  forall (vec : Type) (fitz_text : str -> result str) pdf_file text metadata chunks
         (s : display_state vec),
    fitz_text pdf_file = Ok text -> text <> [] ->
    process_pdf_content text (basename pdf_file) = Ok (metadata, chunks) ->
    exists ident codigo disciplina,
      clean_chunk_text (firstn 500 text) (Some identificacao) = Ok ident /\
      dict_get (u "codigo") metadata = Some codigo /\
      dict_get (u "disciplina") metadata = Some disciplina /\
      display_one fitz_text pdf_file s
        = (Ok tt,
           DisplayState (ds_world s)
             (ds_shown s
                ++ [ ShowArquivo (basename pdf_file); ShowDisciplina disciplina;
                     ShowCodigo codigo; ShowRule ]
                ++ flat_map chunk_lines
                     (Chunk ident (u "identificacao") metadata
                      :: section_chunk (section_of text (u "Objetivo") (u "Ementa"))
                           (u "objetivo") metadata
                      ++ section_chunk
                           (section_of text (u "Ementa") (u "Conteúdo Programático"))
                           (u "ementa") metadata))).
Proof.
  intros vec fitz_text pdf_file text metadata chunks s Hf Hne Hp.
  destruct text as [|c text]; [congruence|].
  exact (display_one_assembled vec fitz_text pdf_file c text metadata chunks s Hf Hp).
Qed.

(** X24: when the text holds a course code (CC or PP, digits, one capital
    letter), [process_pdf_content] returns, whatever the name of the file
    is, and the [codigo] of the metadata is a course code: the pattern of
    the course name is then built from the code of the text, and the name
    of the file is not used. *)
Theorem X24_assembler_returns_with_code : forall text filename pre,
  occurs_at course_code text pre ->
  exists metadata chunks code,
    process_pdf_content text filename = Ok (metadata, chunks) /\
    dict_get (u "codigo") metadata = Some code /\ course_code code.
Proof.
  intros text filename pre Hocc.
  destruct (process_pdf_content_returns_plain_code text filename)
    as (metadata & chunks & H).
  { intros md0 E.
    destruct (header_codigo_present text pre md0 Hocc E) as (code & G & Hne & Hp).
    exists code. unfold with_codigo, dict_truthy. rewrite G.
    destruct code as [|c code]; [congruence|]. cbn [negb]. split; [exact G|exact Hp]. }
  destruct (process_pdf_content_keys _ _ _ _ H) as (md0 & E0 & Hcod & _).
  destruct (header_codigo_present text pre md0 Hocc E0) as (code & G & _).
  destruct (header_metadata_spec text md0 E0) as (Hcode & _).
  exists metadata, chunks, code. split; [exact H|]. rewrite G in Hcod.
  split; [exact Hcod|]. exact (proj1 (Hcode code G)).
Qed.

(** X25: the text of every chunk [process_pdf_content] returns, other
    than the identification chunk, comes from the document: its code
    points other than whitespace are code points of the document, in the
    order they have there, and its only whitespace is single spaces
    between words, none at its ends. *)
Theorem X25_chunk_text_from_document : forall text filename metadata chunks c,
  process_pdf_content text filename = Ok (metadata, chunks) ->
  List.In c chunks -> chunk_tipo c <> u "identificacao" ->
  tidy false (chunk_text c) = true /\ PyStr.strip (chunk_text c) = chunk_text c /\
  subseq (filter nonspace (chunk_text c)) (filter nonspace text).
Proof.
  intros text filename metadata chunks c H Hin Ht.
  destruct (process_pdf_content_eq _ _ _ _ H) as (ident & _ & Hc).
  pose proof (chunks_of_from text ident metadata) as F. rewrite <- Hc in F.
  rewrite Hc in Hin. unfold chunks_of in Hin. destruct Hin as [<-|Hin].
  - exfalso. apply Ht. reflexivity.
  - rewrite Hc in F. unfold chunks_of in F. cbn [tl] in F.
    rewrite Forall_forall in F. exact (F c Hin).
Qed.

End Properties.

(** * The properties on the sample documents *)

Section SampleRuns.

#[local] Existing Instance strict_engine.

(** C1, as the specification words it, fails: the objective of
    [boilerplate_text] is the line "Total", which is not empty, so the
    chunk is emitted, and the cleaner drops that line, so its text is
    empty. *)
Lemma C1_empty_text_counterexample :
  ~ (exists py : Re.engine,
       forall text filename metadata chunks c,
         process_pdf_content text filename = Ok (metadata, chunks) ->
         List.In c chunks -> chunk_tipo c <> u "identificacao" ->
         chunk_text c <> []).
Proof.
  intros [py H].
  remember (process_pdf_content boilerplate_text (u "a.pdf")) as r eqn:E.
  vm_compute in E. symmetry in E.
  destruct r as [[metadata chunks]|e]; [|discriminate E].
  injection E as Em Ec.
  refine (H boilerplate_text (u "a.pdf") metadata chunks (Chunk [] (u "objetivo") metadata)
            _ _ _ eq_refl).
  - rewrite <- Em, <- Ec. vm_compute. reflexivity.
  - rewrite <- Em, <- Ec. right. left. vm_compute. reflexivity.
  - cbn [chunk_tipo]. intros D. vm_compute in D. discriminate D.
Qed.

(** The two other ways to an empty text: an objective that is a lone
    heading "Bibliografia Complementar", and one that is a number on a
    line of its own. *)
Lemma sample_empty_objectives :
  map chunk_text
      match process_pdf_content heading_text (u "a.pdf") with
      | Ok (_, chunks) => chunks
      | Raise _ => []
      end
    = [u "Informações da disciplina N/A N/A. Carga Horária N/A"; []] /\
  map chunk_text
      match process_pdf_content ordinal_text (u "a.pdf") with
      | Ok (_, chunks) => chunks
      | Raise _ => []
      end
    = [u "Informações da disciplina N/A N/A. Carga Horária N/A"; []].
Proof. split; vm_compute; reflexivity. Qed.

Lemma C1_sample_objective :
  List.In (Chunk (u "Estudar linguagens formais.") (u "objetivo") sample_metadata)
          sample_chunks /\
  exists s,
    fragment sample_text
      (chunk_tipo (Chunk (u "Estudar linguagens formais.") (u "objetivo") sample_metadata))
      s /\
    s <> [] /\
    clean_chunk_text s None
      = Ok (chunk_text (Chunk (u "Estudar linguagens formais.") (u "objetivo")
                          sample_metadata)) /\
    (chunk_text (Chunk (u "Estudar linguagens formais.") (u "objetivo") sample_metadata)
       = [] <-> drained (kept_lines s)).
Proof.
  assert (Hin : List.In (Chunk (u "Estudar linguagens formais.") (u "objetivo")
                           sample_metadata) sample_chunks).
  { right. left. vm_compute. reflexivity. }
  split; [exact Hin|].
  apply (C1_chunks_come_from_nonempty_sections sample_text (u "OP63P.pdf")
           sample_metadata sample_chunks).
  - vm_compute. reflexivity.
  - exact Hin.
  - cbn [chunk_tipo]. intros D. vm_compute in D. discriminate D.
Defined.




(** The name of [nameless_fragment] as the heuristics derive it. *)
Lemma sample_empty_name :
  derived_name nameless_fragment (Some (u "CC56E")) = [] /\
  clean_chunk_text nameless_fragment (Some identificacao)
    = Ok (identification_text (u "CC56E") [] NA).
Proof. split; vm_compute; reflexivity. Qed.

(** C5, as the specification words it, fails: for a file a(b.pdf whose
    text holds no course code, the name pattern built from the name of the
    file is malformed, and the assembler raises before any chunk is
    built. *)
Lemma C5_special_name_counterexample :
  ~ (exists py : Re.engine,
       forall text filename, exists metadata chunks ident,
         process_pdf_content text filename = Ok (metadata, chunks) /\
         nth_error chunks 0 = Some (Chunk ident (u "identificacao") metadata)).
Proof.
  intros [py H]. destruct (H plain_notes (u "a(b.pdf")) as (metadata & chunks & ident & E & _).
  vm_compute in E. discriminate E.
Qed.

Lemma C5_sample_identification :
  process_pdf_content sample_text (u "OP63P.pdf") = Ok (sample_metadata, sample_chunks) /\
  exists ident,
    clean_chunk_text (firstn 500 sample_text) (Some identificacao) = Ok ident /\
    nth_error sample_chunks 0 = Some (Chunk ident (u "identificacao") sample_metadata) /\
    forall i c, nth_error sample_chunks i = Some c ->
                chunk_tipo c = u "identificacao" -> i = 0.
Proof.
  assert (E : process_pdf_content sample_text (u "OP63P.pdf")
              = Ok (sample_metadata, sample_chunks)) by (vm_compute; reflexivity).
  split; [exact E|].
  exact (proj1 (C5_identification_chunk_first_and_only sample_text (u "OP63P.pdf")) _ _ E).
Defined.

Lemma C6_sample_identifiers :
  process_pdf_content sample_text (u "OP63P.pdf") = Ok (sample_metadata, sample_chunks) /\
  chunk_id (u "OP63P") (u "identificacao") 0 (u "m")
    <> chunk_id (u "OP63P") (u "objetivo") 1 (u "m").
Proof.
  assert (E : process_pdf_content sample_text (u "OP63P.pdf")
              = Ok (sample_metadata, sample_chunks)) by (vm_compute; reflexivity).
  split; [exact E|].
  apply (C6_storage_identifiers_distinct _ _ _ _ (u "OP63P") 0 1
           (Chunk (u "Informações da disciplina CC56E N/A. Carga Horária N/A")
              (u "identificacao") sample_metadata)
           (Chunk (u "Estudar linguagens formais.") (u "objetivo") sample_metadata)
           (u "m") (u "m") E).
  - vm_compute. reflexivity.
  - vm_compute. reflexivity.
  - intros D. discriminate D.
Defined.

(** C7, as the specification words it, fails: the markers are read as
    regular expressions, so the start marker "." is absent from "ab" as a
    string and still matches there. *)
Lemma C7_pattern_marker_counterexample :
  ~ (exists py : Re.engine,
       forall text section_start section_end,
         PyStr.contains section_start text = false ->
         extract_section_from_pdf text section_start section_end = Ok []).
Proof.
  intros [py H].
  assert (E : PyStr.contains (u ".") (u "ab") = false) by (vm_compute; reflexivity).
  apply (H _ _ None) in E. vm_compute in E. discriminate E.
Qed.

Lemma C7_sample_absent :
  PyStr.contains (u "Objetivo") (u "Ementa Autômatos finitos.") = false /\
  extract_section_from_pdf (u "Ementa Autômatos finitos.") (u "Objetivo")
    (Some (u "Ementa")) = Ok [].
Proof.
  split; [vm_compute; reflexivity|].
  apply (C7_absent_start_marker _ _ (Some (u "Ementa"))); vm_compute; reflexivity.
Defined.

(** C8, as the specification words it, fails: "CC56" is a prefix of the
    set followed by digits and no letter, and the extractor sets no
    [codigo] for it. *)
Lemma C8_optional_letter_counterexample :
  ~ (exists py : Re.engine,
       forall text pre,
         occurs_at spec_course_code text pre ->
         exists metadata code,
           extract_metadata_from_header text = Ok metadata /\
           dict_get (u "codigo") metadata = Some code).
Proof.
  intros [py H].
  assert (Ho : occurs_at spec_course_code (u "CC56") []).
  { exists (u "CC56"), []. split; [rewrite app_nil_r; reflexivity|].
    exists (u "CC"), (u "56"), []. split; [|split; [|split; [|split]]].
    - vm_compute. reflexivity.
    - left. reflexivity.
    - intros D. vm_compute in D. discriminate D.
    - vm_compute. reflexivity.
    - left. reflexivity. }
  destruct (H _ _ Ho) as (metadata & code & E & G).
  vm_compute in E. injection E as <-. vm_compute in G. discriminate G.
Qed.

Lemma C8_sample_header :
  occurs_at course_code sample_text [] /\
  exists metadata pre code post,
    extract_metadata_from_header sample_text = Ok metadata /\
    sample_text = pre ++ code ++ post /\ course_code code /\
    length pre <= length (@nil char) /\
    (forall pre', length pre' < length pre -> ~ occurs_at course_code sample_text pre') /\
    dict_get (u "codigo") metadata = Some code /\
    dict_get (u "disciplina") metadata
      = Some (PyStr.strip (hd [] (PyStr.split_on 10%N post))).
Proof.
  assert (Ho : occurs_at course_code sample_text []).
  { exists (u "CC56E"), (skipn 5 sample_text). split; [vm_compute; reflexivity|].
    exists (u "CC"), (u "56"), 69%N. split; [|split; [|split; [|split]]].
    - vm_compute. reflexivity.
    - left. reflexivity.
    - intros D. vm_compute in D. discriminate D.
    - vm_compute. reflexivity.
    - vm_compute. reflexivity. }
  split; [exact Ho|].
  exact (C8_code_and_name_from_header sample_text [] Ho).
Defined.

Lemma C9_sample_failure :
  process_one sample_fitz accept_all (u "docs/OP63P.pdf") failing_models [u "col"]
    sample_start
    = (Raise (ExternalError (u "encode")), sample_failure) /\
  stored_ids (rs_world sample_failure) = [u "CC56E_identificacao_0_m"] /\
  exists s2,
    process_files sample_fitz accept_all [u "docs/PP10B.pdf"] failing_models [u "col"]
      (logged (u "docs/OP63P.pdf") (ExternalError (u "encode")) sample_failure)
      = (Ok tt, s2) /\
    process_all_pdfs_in_directory sample_fitz (fun _ => true) sample_listdir accept_all
      (u "docs") failing_models [u "col"] sample_world
      = (Ok (chunks_por_disciplina s2),
         World (store (rs_world s2)) (console (rs_world s2) ++ [PrintDone])) /\
    grows_rs sample_start sample_failure /\
    grows_rs (logged (u "docs/OP63P.pdf") (ExternalError (u "encode")) sample_failure) s2.
Proof.
  assert (E : process_one sample_fitz accept_all (u "docs/OP63P.pdf") failing_models
                [u "col"] sample_start
              = (Raise (ExternalError (u "encode")), sample_failure))
    by (vm_compute; reflexivity).
  split; [exact E|]. split; [vm_compute; reflexivity|].
  apply (C9_failing_document_does_not_abort unit sample_fitz (fun _ => true)
           sample_listdir accept_all (u "docs")
           [u "OP63P.pdf"; u "notes.txt"; u "PP10B.pdf"] failing_models [u "col"]
           sample_world [] (u "docs/OP63P.pdf") [u "docs/PP10B.pdf"] sample_start
           (ExternalError (u "encode")) sample_failure).
  - reflexivity.
  - reflexivity.
  - vm_compute. reflexivity.
  - vm_compute. reflexivity.
  - exact E.
Defined.

(** C10, as the specification words it, fails: the end marker "$" does
    not occur in "Xab" and, read as a regular expression, matches at the
    end of the text, so the splitter returns "ab". *)
Lemma C10_pattern_marker_counterexample :
  ~ (exists py : Re.engine,
       forall text section_start section_end,
         PyStr.contains section_start text = true ->
         (forall post, after_first section_start text = Some post ->
                       PyStr.contains section_end post = false) ->
         extract_section_from_pdf text section_start (Some section_end) = Ok []).
Proof.
  intros [py H].
  assert (E : extract_section_from_pdf (u "Xab") (u "X") (Some (u "$")) = Ok []).
  { apply H; [vm_compute; reflexivity|].
    intros post Hp. vm_compute in Hp. injection Hp as <-. vm_compute. reflexivity. }
  vm_compute in E. discriminate E.
Qed.

Lemma C10_sample_unterminated :
  after_first (u "Objetivo") (u "Objetivo Estudar. Bibliografia")
    = Some (u " Estudar. Bibliografia") /\
  PyStr.contains (u "Ementa") (u " Estudar. Bibliografia") = false /\
  extract_section_from_pdf (u "Objetivo Estudar. Bibliografia") (u "Objetivo")
    (Some (u "Ementa")) = Ok [].
Proof.
  assert (Ha : after_first (u "Objetivo") (u "Objetivo Estudar. Bibliografia")
               = Some (u " Estudar. Bibliografia")) by (vm_compute; reflexivity).
  assert (Hc : PyStr.contains (u "Ementa") (u " Estudar. Bibliografia") = false)
    by (vm_compute; reflexivity).
  split; [exact Ha|]. split; [exact Hc|].
  apply (C10_absent_end_marker (u "Objetivo Estudar. Bibliografia") (u "Objetivo")
           (u "Ementa")).
  - vm_compute. reflexivity.
  - vm_compute. reflexivity.
  - intros post Hp. rewrite Ha in Hp. injection Hp as <-. exact Hc.
Defined.

Lemma X1_sample_section :
  after_first (u "Objetivo") sample_text = Some sample_after_objetivo /\
  before_first (u "Ementa") sample_after_objetivo = Some sample_objetivo_body /\
  extract_section_from_pdf sample_text (u "Objetivo") (Some (u "Ementa"))
    = Ok (PyStr.strip sample_objetivo_body).
Proof.
  assert (Ha : after_first (u "Objetivo") sample_text = Some sample_after_objetivo)
    by (vm_compute; reflexivity).
  assert (Hb : before_first (u "Ementa") sample_after_objetivo = Some sample_objetivo_body)
    by (vm_compute; reflexivity).
  split; [exact Ha|]. split; [exact Hb|].
  apply (X1_section_between_markers sample_text (u "Objetivo") (u "Ementa")
           sample_after_objetivo sample_objetivo_body).
  - vm_compute. reflexivity.
  - vm_compute. reflexivity.
  - intros D. vm_compute in D. discriminate D.
  - exact Ha.
  - exact Hb.
Defined.

Lemma X2_sample_order :
  map chunk_tipo full_chunks
    = [ u "identificacao"; u "objetivo"; u "ementa"; u "conteudo_programatico";
        u "conteudo_programatico"; u "bibliografia_basica"; u "bibliografia_complementar" ].
Proof.
  assert (H : process_pdf_content full_text (u "CC56E.pdf")
              = Ok (full_metadata, full_chunks)) by (vm_compute; reflexivity).
  rewrite (X2_chunk_order full_text (u "CC56E.pdf") full_metadata full_chunks H).
  vm_compute. reflexivity.
Defined.

Lemma X3_sample_topics :
  map (fun c => dict_get (u "secao") (chunk_metadata c)) full_chunks
    = [None; None; None; Some (u "Tópico 1"); Some (u "Tópico 2"); None; None] /\
  dict_get (u "secao") full_metadata = None /\
  forall c, List.In c full_chunks ->
    if PyStr.eqb (chunk_tipo c) (u "conteudo_programatico")
    then exists topico d w,
           List.In topico
             (topics_of (section_of full_text (u "Conteúdo Programático")
                           (u "Bibliografia"))) /\
           chunk_text c = cleaned (PyStr.strip topico) /\
           hd [] (PyStr.split_ws topico) = d :: w /\
           PyStr.isdigit d = true /\
           chunk_metadata c = dict_set (u "secao") (u "Tópico " ++ d :: w) full_metadata
    else chunk_metadata c = full_metadata.
Proof.
  split; [vm_compute; reflexivity|].
  apply (X3_chunk_metadata full_text (u "CC56E.pdf") full_metadata full_chunks).
  vm_compute. reflexivity.
Defined.

Lemma X4_sample_metadata :
  dict_get (u "codigo") sample_metadata = Some (u "CC56E") /\
  exists md0,
    extract_metadata_from_header sample_text = Ok md0 /\
    dict_get (u "codigo") sample_metadata
      = Some match dict_get (u "codigo") md0 with
             | Some code => code
             | None => splitext_root (u "OP63P.pdf")
             end /\
    (exists d, dict_get (u "disciplina") sample_metadata = Some d) /\
    dict_get (u "modalidade") sample_metadata
      = Some (if PyStr.contains (u "Presencial") sample_text then u "Presencial"
              else u "Não Presencial") /\
    dict_get (u "oferta") sample_metadata
      = Some (if PyStr.contains (u "Semestral") sample_text then u "Semestral"
              else u "Anual") /\
    (forall k, dict_get k sample_metadata <> None -> List.In k metadata_keys).
Proof.
  split; [vm_compute; reflexivity|].
  apply (X4_document_metadata sample_text (u "OP63P.pdf") sample_metadata sample_chunks).
  vm_compute. reflexivity.
Defined.

Lemma X5_sample_no_heading :
  exists metadata ident,
    clean_chunk_text (firstn 500 plain_notes) (Some identificacao) = Ok ident /\
    process_pdf_content plain_notes (u "OP63P.pdf")
      = Ok (metadata, [Chunk ident (u "identificacao") metadata]).
Proof.
  apply (X5_no_heading_one_chunk plain_notes (u "OP63P.pdf")).
  - vm_compute. reflexivity.
  - intros s Hs.
    assert (Hall : forallb (fun s => negb (PyStr.contains s plain_notes)) section_starts
                   = true) by (vm_compute; reflexivity).
    rewrite forallb_forall in Hall. apply negb_true_iff. apply Hall. exact Hs.
Defined.

Lemma X6_sample_placeholder :
  exists metadata chunks,
    process_pdf_content plain_notes (u "OP63P.pdf") = Ok (metadata, chunks) /\
    dict_get (u "codigo") metadata = Some (splitext_root (u "OP63P.pdf")) /\
    dict_get (u "disciplina") metadata
      = Some (u "Disciplina " ++ splitext_root (u "OP63P.pdf")).
Proof.
  apply (X6_placeholder_name plain_notes (u "OP63P.pdf")).
  - vm_compute. reflexivity.
  - apply no_code_by_search. vm_compute. reflexivity.
  - vm_compute. reflexivity.
  - vm_compute. reflexivity.
  - vm_compute. reflexivity.
Defined.

Lemma X8_sample_no_code :
  extract_metadata_from_header plain_notes
    = Ok [ (u "modalidade",
            if PyStr.contains (u "Presencial") plain_notes then u "Presencial"
            else u "Não Presencial");
           (u "oferta",
            if PyStr.contains (u "Semestral") plain_notes then u "Semestral"
            else u "Anual") ].
Proof.
  apply (X8_no_code_two_keys plain_notes).
  apply no_code_by_search. vm_compute. reflexivity.
Defined.

Lemma X9_sample_boilerplate :
  clean_chunk_text boilerplate_lines (Some (u "ementa")) = Ok [].
Proof.
  apply (X9_boilerplate_cleans_to_empty boilerplate_lines (Some (u "ementa"))).
  - intros D. vm_compute in D. discriminate D.
  - intros line Hl.
    assert (Hall : forallb (fun l => negb (keep_line l))
                     (PyStr.split_on 10%N boilerplate_lines) = true)
      by (vm_compute; reflexivity).
    rewrite forallb_forall in Hall. apply negb_true_iff. apply Hall. exact Hl.
Defined.

Lemma X11_sample_damaged :
  process_pdf_and_add_to_collections damaged_fitz accept_all (u "docs/OP63P.pdf")
    sample_models [u "col"] sample_world
    = (Ok tt,
       World (store sample_world)
         (console sample_world
            ++ match damaged_fitz (u "docs/OP63P.pdf") with
               | Raise e => [PrintExtractError e; PrintSkipped (u "docs/OP63P.pdf")]
               | Ok _ => [PrintSkipped (u "docs/OP63P.pdf")]
               end)).
Proof.
  apply (X11_unreadable_file_skipped unit damaged_fitz accept_all (u "docs/OP63P.pdf")
           sample_models [u "col"] sample_world).
  intros c text D. unfold damaged_fitz in D. discriminate D.
Defined.

Lemma X12_sample_listing :
  fst (process_all_pdfs_in_directory sample_fitz (fun _ => true) sample_listdir accept_all
         (u "docs") failing_models [u "col"] sample_world)
    = Ok [(u "CC56E", sample_chunks);
          (u "PP10B",
           match process_pdf_content sample_text_b (u "PP10B.pdf") with
           | Ok (_, chunks) => chunks
           | Raise _ => []
           end)] /\
  process_all_pdfs_in_directory sample_fitz (fun _ => true) file_listdir accept_all
    (u "docs") sample_models [u "col"] sample_world
    = (Raise (ExternalError (u "NotADirectoryError")), sample_world).
Proof.
  destruct (X12_dictionary_from_files_alone unit sample_fitz (fun _ => true) sample_listdir
              accept_all (u "docs") failing_models [u "col"] sample_world) as [H _].
  destruct (X12_dictionary_from_files_alone unit sample_fitz (fun _ => true) file_listdir
              accept_all (u "docs") sample_models [u "col"] sample_world) as [_ H'].
  split.
  - rewrite (H [u "OP63P.pdf"; u "notes.txt"; u "PP10B.pdf"]) by reflexivity.
    vm_compute. reflexivity.
  - apply H'; reflexivity.
Defined.

Lemma X13_sample_provenance :
  exists d w',
    process_all_pdfs_in_directory sample_fitz (fun _ => true) sample_listdir accept_all
      (u "docs") sample_models [u "col"] sample_world = (Ok d, w') /\
    grows sample_world w' /\
    adds (stored_by sample_models [u "col"]
            (from_directory sample_fitz
               (pdf_files_in (u "docs") [u "OP63P.pdf"; u "notes.txt"; u "PP10B.pdf"])))
         (store sample_world) (store w').
Proof.
  apply (X13_directory_driver_provenance unit sample_fitz (fun _ => true) sample_listdir
           accept_all (u "docs") [u "OP63P.pdf"; u "notes.txt"; u "PP10B.pdf"]
           sample_models [u "col"] sample_world).
  reflexivity.
Defined.


(** A second insertion of the same chunks adds nothing: the store ignores
    the identifiers it holds. *)
Lemma sample_second_insertion :
  total_records
    (store (snd (insert_chunks accept_all (u "CC56E.pdf") (u "CC56E") full_chunks
                   sample_models [u "col"]
                   (snd (insert_chunks accept_all (u "CC56E.pdf") (u "CC56E") full_chunks
                           sample_models [u "col"] sample_world))))) = 7.
Proof. vm_compute. reflexivity. Qed.

Lemma X15_sample_all_damaged :
  exists w',
    process_all_pdfs_in_directory damaged_fitz (fun _ => true) sample_listdir accept_all
      (u "docs") sample_models [u "col"] sample_world = (Ok [], w') /\
    store w' = store sample_world.
Proof.
  apply (X15_nothing_assembled_nothing_stored unit damaged_fitz (fun _ => true)
           sample_listdir accept_all (u "docs")
           [u "OP63P.pdf"; u "notes.txt"; u "PP10B.pdf"] sample_models [u "col"]
           sample_world).
  - reflexivity.
  - intros f _. reflexivity.
Defined.

Lemma X16_sample_setup :
  cl_collections fresh_client
    = [ Collection (u "other") [stale_record];
        Collection (u "ementas-disciplinas_m") [] ] /\
  [u "ementas-disciplinas_m"] = collection_names sample_models /\
  (forall name, List.In name [u "ementas-disciplinas_m"] ->
                holds name (cl_collections fresh_client) = true) /\
  (forall c, List.In c (cl_collections fresh_client) ->
             List.In (coll_name c) [u "ementas-disciplinas_m"] -> coll_records c = []) /\
  filter (fun c => negb (named_in [u "ementas-disciplinas_m"] c))
         (cl_collections fresh_client)
    = filter (fun c => negb (named_in [u "ementas-disciplinas_m"] c))
             (cl_collections stale_client).
Proof.
  split; [vm_compute; reflexivity|].
  apply (X16_setup_collections unit reject_held (u "base") sample_models stale_client
           [u "ementas-disciplinas_m"] fresh_client).
  vm_compute. reflexivity.
Defined.

Lemma X17_sample_rerun :
  exists collections s',
    setup_chromadb reject_held (u "base") sample_models fresh_client
      = (Ok collections, s').
Proof.
  apply (X17_setup_returns unit reject_held (u "base") sample_models fresh_client).
  - intros cs name H. unfold reject_held. rewrite H. reflexivity.
  - simpl. constructor; [intros []|constructor].
Defined.

Lemma X18_sample_pipeline :
  map r_id (coll_records (nth 1 pipeline_store (Collection [] [])))
    = [ u "CC56E_identificacao_0_m"; u "CC56E_objetivo_1_m";
        u "PP10B_identificacao_0_m"; u "PP10B_objetivo_1_m" ] /\
  exists model_name encode,
    coll_name (nth 1 pipeline_store (Collection [] []))
      = collection_name_of model_name /\
    List.In (model_name, encode) sample_models /\
    stored_by sample_models [u "ementas-disciplinas_m"]
      (from_directory sample_fitz (listed_pdfs sample_listdir (u "docs")))
      (coll_name (nth 1 pipeline_store (Collection [] [])))
      (nth 0 (coll_records (nth 1 pipeline_store (Collection [] []))) stale_record) /\
    exists codigo tipo i,
      r_id (nth 0 (coll_records (nth 1 pipeline_store (Collection [] []))) stale_record)
        = chunk_id codigo tipo i model_name /\
      encode (r_document
                (nth 0 (coll_records (nth 1 pipeline_store (Collection [] [])))
                     stale_record))
        = Ok (r_embedding
                (nth 0 (coll_records (nth 1 pipeline_store (Collection [] [])))
                     stale_record)).
Proof.
  split; [vm_compute; reflexivity|].
  apply (X18_collections_hold_their_model unit reject_held sample_fitz (fun _ => true)
           sample_listdir accept_all (u "base") (u "docs") sample_models stale_client
           [u "ementas-disciplinas_m"] fresh_client []).
  - vm_compute. reflexivity.
  - vm_compute. right. left. reflexivity.
  - vm_compute. left. reflexivity.
  - vm_compute. left. reflexivity.
Defined.

Lemma X19_sample_six_models :
  exists models,
    setup_embedding_models (fun _ => Ok (fun _ : str => Ok tt)) = Ok models /\
    map fst models
      = [ u "all-MiniLM-L6-v2"; u "all-mpnet-base-v2";
          u "paraphrase-multilingual-MiniLM-L12-v2";
          u "distiluse-base-multilingual-cased-v2"; u "stsb-xlm-r-multilingual";
          u "neuralmind-bert-base-portuguese-cased" ] /\
    exists collections s',
      setup_chromadb reject_held (u "base") models stale_client = (Ok collections, s') /\
      collections = map collection_name_of (map fst models).
Proof.
  eexists. split; [reflexivity|].
  apply (X19_six_models_set_up unit (fun _ => Ok (fun _ : str => Ok tt)) reject_held
           (u "base") _ stale_client).
  - reflexivity.
  - intros cs name H. unfold reject_held. rewrite H. reflexivity.
Defined.

Lemma X20_sample_cleaned :
  clean_chunk_text untidy_fragment (Some (u "ementa")) = Ok (u "Autômatos finitos") /\
  exists c,
    clean_chunk_text untidy_fragment (Some (u "ementa")) = Ok c /\
    subseq (filter nonspace c) (filter nonspace untidy_fragment).
Proof.
  split; [vm_compute; reflexivity|].
  apply (X20_cleaner_invents_nothing untidy_fragment (Some (u "ementa"))).
  intros D. vm_compute in D. discriminate D.
Defined.

Lemma X21_sample_sentinels :
  identification_text NA NA NA
    = u "Informações da disciplina N/A N/A. Carga Horária N/A" /\
  clean_chunk_text plain_notes (Some identificacao) = Ok (identification_text NA NA NA).
Proof.
  split; [vm_compute; reflexivity|].
  apply (X21_identification_sentinels plain_notes).
  - intros p Hp.
    assert (Hall : forallb (fun p => negb (PyStr.contains p plain_notes)) ident_prefixes
                   = true) by (vm_compute; reflexivity).
    rewrite forallb_forall in Hall. apply negb_true_iff. apply Hall. exact Hp.
  - vm_compute. reflexivity.
  - vm_compute. reflexivity.
Defined.

Lemma X23_sample_overview :
  exists ident codigo disciplina,
    clean_chunk_text (firstn 500 full_text) (Some identificacao) = Ok ident /\
    dict_get (u "codigo") full_metadata = Some codigo /\
    dict_get (u "disciplina") full_metadata = Some disciplina /\
    display_one (fun _ => Ok full_text) (u "docs/CC56E.pdf") (DisplayState sample_world [])
      = (Ok tt,
         DisplayState (ds_world (DisplayState sample_world []))
           (ds_shown (DisplayState sample_world [])
              ++ [ ShowArquivo (basename (u "docs/CC56E.pdf")); ShowDisciplina disciplina;
                   ShowCodigo codigo; ShowRule ]
              ++ flat_map chunk_lines
                   (Chunk ident (u "identificacao") full_metadata
                    :: section_chunk (section_of full_text (u "Objetivo") (u "Ementa"))
                         (u "objetivo") full_metadata
                    ++ section_chunk
                         (section_of full_text (u "Ementa") (u "Conteúdo Programático"))
                         (u "ementa") full_metadata))).
Proof.
  apply (X23_overview_of_a_file unit (fun _ => Ok full_text) (u "docs/CC56E.pdf") full_text
           full_metadata full_chunks (DisplayState sample_world [])).
  - reflexivity.
  - intros D. vm_compute in D. discriminate D.
  - vm_compute. reflexivity.
Defined.

Lemma X24_sample_special_name :
  process_pdf_content plain_notes (u "a(b.pdf") = Raise ReError /\
  exists metadata chunks code,
    process_pdf_content sample_text (u "a(b.pdf") = Ok (metadata, chunks) /\
    dict_get (u "codigo") metadata = Some code /\ course_code code.
Proof.
  split; [vm_compute; reflexivity|].
  apply (X24_assembler_returns_with_code sample_text (u "a(b.pdf") []).
  exists (u "CC56E"), (skipn 5 sample_text). split; [vm_compute; reflexivity|].
  exists (u "CC"), (u "56"), 69%N. split; [vm_compute; reflexivity|].
  split; [left; reflexivity|]. split; [intros D; vm_compute in D; discriminate D|].
  split; vm_compute; reflexivity.
Defined.

Lemma X25_sample_topic_text :
  map chunk_text (skipn 1 full_chunks)
    = [ u "Estudar."; u "Autômatos."; u "Automatos"; u "Gramaticas"; u "HOPCROFT.";
        u "SIPSER." ] /\
  tidy false (chunk_text (nth 3 full_chunks (Chunk [] [] []))) = true /\
  PyStr.strip (chunk_text (nth 3 full_chunks (Chunk [] [] [])))
    = chunk_text (nth 3 full_chunks (Chunk [] [] [])) /\
  subseq (filter nonspace (chunk_text (nth 3 full_chunks (Chunk [] [] []))))
         (filter nonspace full_text).
Proof.
  split; [vm_compute; reflexivity|].
  apply (X25_chunk_text_from_document full_text (u "CC56E.pdf") full_metadata full_chunks
           (nth 3 full_chunks (Chunk [] [] []))).
  - vm_compute. reflexivity.
  - vm_compute. right. right. right. left. reflexivity.
  - intros D. vm_compute in D. discriminate D.
Defined.

End SampleRuns.
